(** * The transaction core of [@solana/client], embedded

    The development follows the TypeScript sources:

    - [numeric/math.ts], [numeric/amounts.ts]        (module [Amounts])
    - [signers/walletTransactionSigner.ts]           (module [Signers])
    - [transactions/prepareTransaction.ts]           (module [Tuner])
    - [features/transactions.ts]                     (module [Transactions])
    - [features/spl.ts]                              (module [Spl])
    - [state/asyncState.ts]                          (module [AsyncState])
    - [transactions/transactionPoolController.ts]    (module [Pool])

    JavaScript values are modelled as the code uses them: a [bigint] is a
    [Z]; a [number] is a binary64 float, [NaN], the infinities and the
    fractions included, and where the code compares it with an integer (an
    index with the length of a list) the comparison is the exact one; a
    string is a list of 8-bit characters; an exception is a value of
    [Js.exn] carried by [Js.result].  An [async] function is a
    function of the world it runs in: the trace of calls made to the RPC
    transport and to the kit, whose answers may depend on that trace.  The
    pool controller, whose methods interleave at their [await]s, is a
    transition system over its closure.

    Definitions come first (one module per source file, followed by the
    vocabulary and the examples that the statements use), then the facts. *)

From Stdlib Require Import ZArith Lia Ascii String Bool.
From Stdlib Require Import Floats.
From stdpp Require Import base option list.

Local Open Scope Z_scope.

(** ** JavaScript exceptions and completion records *)

Module Js.

(** The error codes of [@solana/errors] that matter here, by name. *)
Inductive SolanaErrorCode : Type :=
| TRANSACTION_ERROR__ALREADY_PROCESSED
| TRANSACTION_ERROR__BLOCKHASH_NOT_FOUND
| OtherCode (n : Z).

(** The values this core throws or lets through.  [SolanaError code] is the
    error class of [@solana/kit], told apart by [isSolanaError(e, code)];
    [Foreign] stands for any other value a collaborator may reject with. *)
Inductive exn : Type :=
| TypeError (message : string)
| RangeError (message : string)
| SyntaxError (message : string)
| Error (message : string)
| SolanaError (code : SolanaErrorCode)
| AbortError
| Foreign (tag : Z).

Inductive result (A : Type) : Type :=
| Ok (value : A)
| Throw (e : exn).
Arguments Ok {A} value.
Arguments Throw {A} e.

Definition bind {A B} (r : result A) (k : A -> result B) : result B :=
  match r with
  | Ok a => k a
  | Throw e => Throw e
  end.

Definition is_ok {A} (r : result A) : bool :=
  match r with Ok _ => true | Throw _ => false end.

(** Template literals [`${label} ...`]. *)
Definition template (label rest : string) : string := String.append label rest.

End Js.

Import Js.

Declare Scope js_scope.
Delimit Scope js_scope with js.
Notation "'let*' x ':=' r 'in' k" := (Js.bind r (fun x => k))
  (at level 10, x name, r at level 100, k at level 200) : js_scope.
Notation "'check' r 'in' k" := (Js.bind r (fun _ => k))
  (at level 10, r at level 100, k at level 200) : js_scope.

(** ** numeric/math.ts and numeric/amounts.ts *)

Module Amounts.

Local Open Scope js_scope.

(** A JavaScript string, one character per code unit. *)
Definition jsstring : Type := list ascii.

Definition str (s : string) : jsstring := list_ascii_of_string s.

Definition code (c : ascii) : Z := Z.of_nat (nat_of_ascii c).

(** [\d] of a non-unicode regular expression: the ten ASCII digits. *)
Definition is_digit (c : ascii) : bool := (48 <=? code c) && (code c <=? 57).

(** The character class [[1-9]]. *)
Definition is_nonzero_digit (c : ascii) : bool := (49 <=? code c) && (code c <=? 57).

(** White space and line terminators that [String.prototype.trim] strips,
    as far as they fit one 8-bit code unit: TAB, LF, VT, FF, CR, SP, NBSP. *)
Definition is_space (c : ascii) : bool :=
  ((9 <=? code c) && (code c <=? 13)) || (code c =? 32) || (code c =? 160).

Fixpoint take_while (p : ascii -> bool) (s : jsstring) : jsstring :=
  match s with
  | c :: rest => if p c then c :: take_while p rest else []
  | [] => []
  end.

Fixpoint drop_while (p : ascii -> bool) (s : jsstring) : jsstring :=
  match s with
  | c :: rest => if p c then drop_while p rest else s
  | [] => []
  end.

Definition trimStart (s : jsstring) : jsstring := drop_while is_space s.
Definition trimEnd (s : jsstring) : jsstring := rev (drop_while is_space (rev s)).
Definition trim (s : jsstring) : jsstring := trimEnd (trimStart s).

(** [value.replace(/_/g, '')] *)
Definition remove_underscores (s : jsstring) : jsstring :=
  List.filter (fun c => negb (code c =? 95)) s.

(** [s.split('.')]: the pieces between the dots, at least one piece. *)
Fixpoint split_dot (s : jsstring) : list jsstring :=
  match s with
  | [] => [[]]
  | c :: rest =>
      if code c =? 46 then [] :: split_dot rest
      else match split_dot rest with
           | piece :: pieces => (c :: piece) :: pieces
           | [] => [[c]]
           end
  end.

(** [DECIMAL_PATTERN = /^\d+(?:\.\d+)?$/], run as [test]. *)
Definition all_digits1 (s : jsstring) : bool :=
  negb (length s =? 0)%nat && forallb is_digit s.

Definition DECIMAL_PATTERN_test (s : jsstring) : bool :=
  let digits := take_while is_digit s in
  let rest := drop_while is_digit s in
  negb (length digits =? 0)%nat &&
  match rest with
  | [] => true
  | c :: frac => (code c =? 46) && all_digits1 frac
  end.

(** [BigInt(s)] on the strings that reach it here, which the pattern has
    reduced to runs of decimal digits: the number they denote, leading
    zeros allowed. *)
Definition digit_of (c : ascii) : Z := code c - 48.

Definition BigInt (s : jsstring) : Z :=
  fold_left (fun acc c => 10 * acc + digit_of c) s 0.

(** [bigint.prototype.toString()] in base ten. *)
Definition digit_char (d : Z) : ascii := ascii_of_nat (Z.to_nat (48 + d)).

Fixpoint to_digits (fuel : nat) (n : Z) (acc : jsstring) : jsstring :=
  match fuel with
  | O => acc
  | S fuel' =>
      let acc' := digit_char (n mod 10) :: acc in
      if n / 10 =? 0 then acc' else to_digits fuel' (n / 10) acc'
  end.

Definition toString (n : Z) : jsstring :=
  if n <? 0 then "-"%char :: to_digits (S (Z.to_nat (Z.log2 (- n)))) (- n) []
  else to_digits (S (Z.to_nat (Z.log2 n))) n [].

(** [padEnd] and [padStart] with a one-character filler. *)
Definition padEnd (s : jsstring) (n : nat) (c : ascii) : jsstring :=
  s ++ replicate (n - length s) c.

Definition padStart (s : jsstring) (n : nat) (c : ascii) : jsstring :=
  replicate (n - length s) c ++ s.

(** [fraction.replace(/0+$/, '')] *)
Definition trim_trailing_zeros (s : jsstring) : jsstring :=
  rev (drop_while (fun c => code c =? 48) (rev s)).

Inductive RoundingMode : Type := floor | ceil | round.

Definition RoundingMode_eqb (a b : RoundingMode) : bool :=
  match a, b with
  | floor, floor | ceil, ceil | round, round => true
  | _, _ => false
  end.

Record ParseAmountOptions : Type := {
  label : option string;
  rounding : option RoundingMode;
}.

Record FormatAmountOptions : Type := {
  minimumFractionDigits : option Z;
  trimTrailingZeros : option bool;
}.

Definition no_parse_options : ParseAmountOptions :=
  {| label := None; rounding := None |}.

Definition no_format_options : FormatAmountOptions :=
  {| minimumFractionDigits := None; trimTrailingZeros := None |}.

(** *** math.ts *)

Definition assertNonNegative (value : Z) (label : string) : result unit :=
  if value <? 0 then Throw (RangeError (template label " must be non-negative"))
  else Ok tt.

(** [decimals] is a JavaScript number; the non-integers are rejected here,
    so the model starts from an integer. *)
Definition assertDecimals (decimals : Z) (label : string) : result unit :=
  if (decimals <? 0) || (38 <? decimals)
  then Throw (RangeError (template label " must be an integer between 0 and 38"))
  else Ok tt.

(** [BigintLike = bigint | number | string], without the numbers: a
    JavaScript number would first have to be printed by the engine. *)
Inductive BigintLike : Type :=
| big (z : Z)
| text (s : jsstring).

(** [/^[-+]?\d+$/.exec(trimmed)] and [BigInt(match[0])] *)
Definition toBigint (value : BigintLike) (label : string) : result Z :=
  match value with
  | big z => Ok z
  | text s =>
      let trimmed := trim s in
      let unsigned :=
        match trimmed with
        | c :: rest => if (code c =? 45) || (code c =? 43) then rest else trimmed
        | [] => trimmed
        end in
      if all_digits1 unsigned then
        match trimmed with
        | c :: _ => if code c =? 45 then Ok (- BigInt unsigned) else Ok (BigInt unsigned)
        | [] => Ok (BigInt unsigned)
        end
      else Throw (SyntaxError (template label " must be an integer string"))
  end.

Definition pow10 (exponent : Z) : result Z :=
  check assertDecimals exponent "exponent" in
  Ok (10 ^ exponent).

(** *** amounts.ts *)

(** [fractionalDigits[0] !== undefined && fractionalDigits[0] >= '5'] *)
Definition first_at_least_5 (s : jsstring) : bool :=
  match s with
  | [] => false
  | c :: _ => 53 <=? code c
  end.

Definition decimalToBaseUnits (value : jsstring) (decimals : Z) (scale : Z)
    (options : ParseAmountOptions) : result Z :=
  let label := default "value"%string (label options) in
  let rounding := default floor (rounding options) in
  let sanitized := trim (remove_underscores value) in
  if (length sanitized =? 0)%nat
  then Throw (SyntaxError (template label " must not be empty"))
  else if negb (DECIMAL_PATTERN_test sanitized)
  then Throw (SyntaxError (template label " must be a non-negative decimal string"))
  else
    let pieces := split_dot sanitized in
    let integerPartRaw := default [] (pieces !! 0%nat) in
    let fractionalRaw := pieces !! 1%nat in
    let integerPart := if (length integerPartRaw =? 0)%nat then str "0" else integerPartRaw in
    check assertNonNegative (BigInt integerPart) label in
    let result := BigInt integerPart * scale in
    let fractionalDigits := default [] fractionalRaw in
    if decimals =? 0 then
      if (length fractionalDigits =? 0)%nat then Ok result
      else
        let hasFractional := existsb is_nonzero_digit fractionalDigits in
        if RoundingMode_eqb rounding ceil && hasFractional then Ok (result + 1)
        else if RoundingMode_eqb rounding round && first_at_least_5 fractionalDigits
        then Ok (result + 1)
        else Ok result
    else
      let truncatedFractional :=
        padEnd (take (Z.to_nat decimals) fractionalDigits) (Z.to_nat decimals) "0"%char in
      let fractionalComponent :=
        if (length truncatedFractional =? 0)%nat then 0 else BigInt truncatedFractional in
      let result := result + fractionalComponent in
      if (Z.to_nat decimals <? length fractionalDigits)%nat then
        let remainderDigits := drop (Z.to_nat decimals) fractionalDigits in
        let hasRemainder := existsb is_nonzero_digit remainderDigits in
        if RoundingMode_eqb rounding ceil && hasRemainder then Ok (result + 1)
        else if RoundingMode_eqb rounding round then
          if first_at_least_5 remainderDigits then Ok (result + 1) else Ok result
        else Ok result
      else Ok result.

Definition formatBaseUnits (amount : Z) (decimals : Z) (scale : Z)
    (options : FormatAmountOptions) : result jsstring :=
  check assertNonNegative amount "amount" in
  let minimumFractionDigits := default 0 (minimumFractionDigits options) in
  if (minimumFractionDigits <? 0) || (decimals <? minimumFractionDigits)
  then Throw (RangeError "minimumFractionDigits must be between 0 and the token decimals")
  else
    let trimTrailingZeros := default true (trimTrailingZeros options) in
    if decimals =? 0 then Ok (toString amount)
    else
      let whole := Z.quot amount scale in
      let fraction := padStart (toString (Z.rem amount scale)) (Z.to_nat decimals) "0"%char in
      let fraction := if trimTrailingZeros then trim_trailing_zeros fraction else fraction in
      let fraction :=
        if (Z.of_nat (length fraction) <? minimumFractionDigits)
        then padEnd fraction (Z.to_nat minimumFractionDigits) "0"%char
        else fraction in
      if (length fraction =? 0)%nat then Ok (toString whole)
      else Ok (toString whole ++ "."%char :: fraction).

(** The object [createTokenAmount] returns closes over [decimals] and
    [scale]; its methods are functions of that pair. *)
Record TokenAmountMath : Type := {
  decimals : Z;
  scale : Z;
}.

Definition createTokenAmount (decimals : Z) : result TokenAmountMath :=
  check assertDecimals decimals "decimals" in
  let* scale := pow10 decimals in
  Ok {| decimals := decimals; scale := scale |}.

Definition fromBaseUnits (value : BigintLike) (label : option string) : result Z :=
  let* amount := toBigint value (default "amount"%string label) in
  check assertNonNegative amount (default "amount"%string label) in
  Ok amount.

(** [fromDecimal] on a string argument ([typeof value !== 'number']). *)
Definition fromDecimal (math : TokenAmountMath) (value : jsstring)
    (options : ParseAmountOptions) : result Z :=
  decimalToBaseUnits value (decimals math) (scale math) options.

Definition toDecimalString (math : TokenAmountMath) (amount : Z)
    (options : FormatAmountOptions) : result jsstring :=
  let* amount := fromBaseUnits (big amount) None in
  formatBaseUnits amount (decimals math) (scale math) options.

End Amounts.

(** Vocabulary for stating what the parser and the formatter compute. *)

Module AmountsSpec.
Import Amounts.

Definition digits (s : jsstring) : Prop := forallb is_digit s = true.

(** The text of a decimal literal: integer digits, then a dot and the
    fractional digits when there are any. *)
Definition literal (ip fp : jsstring) : jsstring :=
  match fp with
  | [] => ip
  | _ :: _ => ip ++ "."%char :: fp
  end.

(** The digits of the literal cut after [d] fractional places (and filled
    with zeros up to [d] places): the base-unit amount they spell. *)
Definition truncated_value (d : Z) (ip fp : jsstring) : Z :=
  BigInt (ip ++ padEnd (take (Z.to_nat d) fp) (Z.to_nat d) "0"%char).

(** The digits that the cut drops. *)
Definition dropped_digits (d : Z) (fp : jsstring) : jsstring := drop (Z.to_nat d) fp.

Definition has_nonzero_digit (s : jsstring) : bool :=
  existsb (fun c => negb (digit_of c =? 0)) s.

Definition first_digit_at_least_5 (s : jsstring) : bool :=
  match s with
  | [] => false
  | c :: _ => 5 <=? digit_of c
  end.

(** What each rounding mode adds to the truncated value. *)
Definition round_up (r : RoundingMode) (dropped : jsstring) : Z :=
  match r with
  | floor => 0
  | ceil => if has_nonzero_digit dropped then 1 else 0
  | round => if first_digit_at_least_5 dropped then 1 else 0
  end.

(** [value.replace(/_/g, '').trim()], the string the parser looks at. *)
Definition sanitized (value : jsstring) : jsstring := trim (remove_underscores value).

(** The digits before the dot and those after it. *)
Definition integer_digits (s : jsstring) : jsstring := take_while is_digit s.
Definition fraction_digits (s : jsstring) : jsstring := drop 1 (drop_while is_digit s).

(** A canonical literal has no redundant zeros: the integer part is ["0"]
    or starts with a nonzero digit, and the fractional part does not end
    in a zero. *)
Definition no_leading_zero (ip : jsstring) : bool :=
  match ip with
  | [] => false
  | [_] => true
  | c :: _ => negb (code c =? 48)
  end.

Definition no_trailing_zero (fp : jsstring) : bool :=
  match last fp with
  | None => true
  | Some c => negb (code c =? 48)
  end.

Definition canonical (ip fp : jsstring) : bool :=
  forallb is_digit ip && no_leading_zero ip && forallb is_digit fp && no_trailing_zero fp.

End AmountsSpec.

Module AmountsExamples.
Import Amounts.
Definition six : TokenAmountMath := {| decimals := 6; scale := 1000000 |}.
Definition with_rounding (r : RoundingMode) : ParseAmountOptions :=
  {| label := None; rounding := Some r |}.
End AmountsExamples.

(** ** JavaScript numbers *)

Module JsNumber.

(** [Number(z)] for a bigint [z]: the nearest binary64, ties to even. *)
Definition of_bigint (z : Z) : float :=
  SF2Prim (SpecFloat.binary_normalize prec emax z 0 false).

(** A number is falsy when it is [+0], [-0] or [NaN]. *)
Definition truthy (x : float) : bool :=
  negb (PrimFloat.eqb x 0 || PrimFloat.is_nan x).

(** [x || y] on numbers. *)
Definition or_else (x y : float) : float := if truthy x then x else y.

(** The integer [m * 2^e] lies at or below ([round_down]) or at or above
    ([round_up]) the rational it approximates when [e] is negative. *)
Definition round_down (m : positive) (e : Z) : Z := Z.shiftr (Z.pos m) (- e).

Definition round_up (m : positive) (e : Z) : Z :=
  let q := Z.shiftr (Z.pos m) (- e) in
  if Z.shiftl q (- e) =? Z.pos m then q else q + 1.

Definition integral (z : Z) (negative : bool) : float :=
  SF2Prim (SpecFloat.binary_normalize prec emax z 0 negative).

(** [Math.ceil] *)
Definition ceil (x : float) : float :=
  match Prim2SF x with
  | S754_finite s m e =>
      if 0 <=? e then x
      else if s then integral (- round_down m e) true
      else integral (round_up m e) false
  | _ => x
  end.

(** [Math.floor] *)
Definition floor (x : float) : float :=
  match Prim2SF x with
  | S754_finite s m e =>
      if 0 <=? e then x
      else if s then integral (- round_up m e) true
      else integral (round_down m e) false
  | _ => x
  end.

(** [Math.max(a, b)] *)
Definition max (a b : float) : float :=
  if PrimFloat.is_nan a || PrimFloat.is_nan b then nan
  else if PrimFloat.ltb a b then b
  else if PrimFloat.ltb b a then a
  else if PrimFloat.ltb (PrimFloat.div 1 a) 0 then b else a.

(** [BigInt(x)] for a number [x]: defined on the integers only. *)
Definition to_bigint (x : float) : option Z :=
  match Prim2SF x with
  | S754_zero _ => Some 0
  | S754_finite s m e =>
      let magnitude :=
        if 0 <=? e then Some (Z.shiftl (Z.pos m) e)
        else if Z.shiftl (round_down m e) (- e) =? Z.pos m then Some (round_down m e)
        else None in
      option_map (fun v => if s then - v else v) magnitude
  | _ => None
  end.

(** Where a number lies among the integers: on one of them ([-0] on [0]),
    strictly between [below] and [below + 1], at an infinity, or nowhere. *)
Inductive Located : Type :=
| integer (z : Z)
| between (below : Z)
| infinite (negative : bool)
| not_a_number.

Definition locate (x : float) : Located :=
  match Prim2SF x with
  | S754_zero _ => integer 0
  | S754_infinity negative => infinite negative
  | S754_nan => not_a_number
  | S754_finite s m e =>
      if 0 <=? e then integer (if s then - Z.shiftl (Z.pos m) e else Z.shiftl (Z.pos m) e)
      else if Z.shiftl (round_down m e) (- e) =? Z.pos m
      then integer (if s then - round_down m e else round_down m e)
      else between (if s then - round_down m e - 1 else round_down m e)
  end.

(** [x < n], [x >= n] and [n !== x] for a number [x] and an integer [n]
    that a number holds exactly, such as the length of an array or an index
    into it. *)
Definition lt_integer (x : float) (n : Z) : bool :=
  match locate x with
  | integer z => z <? n
  | between below => below <? n
  | infinite negative => negative
  | not_a_number => false
  end.

Definition ge_integer (x : float) (n : Z) : bool :=
  match locate x with
  | integer z => n <=? z
  | between below => n <=? below
  | infinite negative => negb negative
  | not_a_number => false
  end.

Definition strict_ne_integer (n : Z) (x : float) : bool :=
  match locate x with
  | integer z => negb (n =? z)
  | _ => true
  end.

End JsNumber.

(** ** The data of [@solana/kit] that this core reads and builds *)

Module Kit.

Definition Address : Type := string.

Inductive Commitment : Type := processed | confirmed | finalized.

Record BlockhashLifetime : Type := {
  blockhash : string;
  lastValidBlockHeight : Z;
}.

(** [TransactionVersion = 'legacy' | 0] *)
Inductive TransactionVersion : Type := legacy | v0.

Record AddressTableLookup : Type := {
  lookupTableAddress : Address;
}.

(** Instruction data is looked at through its first byte only.  The
    payloads that the program clients encode are kept symbolic: the
    compute-budget ones carry the number they were built from, and their
    first byte is the discriminator ([SetComputeUnitLimit = 2],
    [SetComputeUnitPrice = 3]). *)
Inductive InstructionData : Type :=
| Bytes (bytes : list Z)
| SetComputeUnitLimitData (units : float)
| SetComputeUnitPriceData (microLamports : float)
| TransferCheckedData (amount : Z) (decimals : Z)
| CreateAssociatedTokenData.

Definition first_byte (d : InstructionData) : option Z :=
  match d with
  | Bytes bytes => head bytes
  | SetComputeUnitLimitData _ => Some 2
  | SetComputeUnitPriceData _ => Some 3
  | TransferCheckedData _ _ => Some 12
  | CreateAssociatedTokenData => Some 0
  end.

Record Instruction : Type := {
  programAddress : Address;
  accounts : list Address;
  data : option InstructionData;
  addressTableLookup : option AddressTableLookup;
  addressTableLookups : option (list AddressTableLookup);
}.

Definition COMPUTE_BUDGET_PROGRAM_ADDRESS : Address :=
  "ComputeBudget111111111111111111111111111111"%string.

Definition SYSTEM_PROGRAM_ADDRESS : Address := "11111111111111111111111111111111"%string.

(** [SOLANA_ERROR__CODECS__NUMBER_OUT_OF_RANGE], which the number encoders
    of the kit throw for a value outside the range of their field. *)
Definition SOLANA_ERROR__CODECS__NUMBER_OUT_OF_RANGE : SolanaErrorCode := OtherCode 8078011.

(** The program clients encode the payload as they build the instruction.
    The limit is a [u32]: the encoder throws when [units < 0] or
    [units > 4294967295], comparisons that [NaN] passes. *)
Definition getSetComputeUnitLimitInstruction (units : float) : result Instruction :=
  if PrimFloat.ltb units 0 || PrimFloat.ltb 4294967295 units
  then Throw (SolanaError SOLANA_ERROR__CODECS__NUMBER_OUT_OF_RANGE)
  else Ok {| programAddress := COMPUTE_BUDGET_PROGRAM_ADDRESS;
             accounts := [];
             data := Some (SetComputeUnitLimitData units);
             addressTableLookup := None;
             addressTableLookups := None |}.

(** The price is a [u64]: the encoder throws when [microLamports < 0] or
    [microLamports > 2^64 - 1] (for a number: when it is [2^64] or more),
    then turns the number into a [bigint], which throws for a number that is
    not an integer. *)
Definition getSetComputeUnitPriceInstruction (microLamports : float) : result Instruction :=
  if PrimFloat.ltb microLamports 0 || PrimFloat.leb 0x1p+64 microLamports
  then Throw (SolanaError SOLANA_ERROR__CODECS__NUMBER_OUT_OF_RANGE)
  else
    match JsNumber.to_bigint microLamports with
    | None => Throw (RangeError "The number cannot be converted to a BigInt because it is not an integer")
    | Some _ =>
        Ok {| programAddress := COMPUTE_BUDGET_PROGRAM_ADDRESS;
              accounts := [];
              data := Some (SetComputeUnitPriceData microLamports);
              addressTableLookup := None;
              addressTableLookups := None |}
    end.

(** A signer is an address with the methods it happens to have. *)
Record TransactionSigner : Type := {
  address : Address;
  signTransactions : bool;
  modifyAndSignTransactions : bool;
  signAndSendTransactions : bool;
}.

Definition isTransactionPartialSigner (s : TransactionSigner) : bool := signTransactions s.
Definition isTransactionSendingSigner (s : TransactionSigner) : bool := signAndSendTransactions s.

Record FeePayer : Type := {
  feePayerAddress : Address;
  feePayerSigner : option TransactionSigner;
}.

Record TransactionMessage : Type := {
  version : TransactionVersion;
  feePayer : option FeePayer;
  instructions : list Instruction;
  lifetimeConstraint : option BlockhashLifetime;
}.

Definition createTransactionMessage (version : TransactionVersion) : TransactionMessage :=
  {| version := version; feePayer := None; instructions := []; lifetimeConstraint := None |}.

Definition setTransactionMessageFeePayer (a : Address) (m : TransactionMessage) : TransactionMessage :=
  {| version := version m;
     feePayer := Some {| feePayerAddress := a; feePayerSigner := None |};
     instructions := instructions m;
     lifetimeConstraint := lifetimeConstraint m |}.

Definition setTransactionMessageFeePayerSigner (s : TransactionSigner) (m : TransactionMessage)
    : TransactionMessage :=
  {| version := version m;
     feePayer := Some {| feePayerAddress := address s; feePayerSigner := Some s |};
     instructions := instructions m;
     lifetimeConstraint := lifetimeConstraint m |}.

Definition with_instructions (l : list Instruction) (m : TransactionMessage) : TransactionMessage :=
  {| version := version m;
     feePayer := feePayer m;
     instructions := l;
     lifetimeConstraint := lifetimeConstraint m |}.

Definition appendTransactionMessageInstructions (l : list Instruction) (m : TransactionMessage)
    : TransactionMessage :=
  with_instructions (instructions m ++ l) m.

Definition appendTransactionMessageInstruction (i : Instruction) (m : TransactionMessage)
    : TransactionMessage :=
  with_instructions (instructions m ++ [i]) m.

Definition setTransactionMessageLifetimeUsingBlockhash (l : BlockhashLifetime)
    (m : TransactionMessage) : TransactionMessage :=
  {| version := version m;
     feePayer := feePayer m;
     instructions := instructions m;
     lifetimeConstraint := Some l |}.

Definition SolanaErrorCode_eqb (a b : SolanaErrorCode) : bool :=
  match a, b with
  | TRANSACTION_ERROR__ALREADY_PROCESSED, TRANSACTION_ERROR__ALREADY_PROCESSED => true
  | TRANSACTION_ERROR__BLOCKHASH_NOT_FOUND, TRANSACTION_ERROR__BLOCKHASH_NOT_FOUND => true
  | OtherCode n, OtherCode m => n =? m
  | _, _ => false
  end.

Definition SOLANA_ERROR__TRANSACTION_ERROR__ALREADY_PROCESSED : SolanaErrorCode :=
  TRANSACTION_ERROR__ALREADY_PROCESSED.

Definition isSolanaError (e : exn) (code : SolanaErrorCode) : bool :=
  match e with
  | SolanaError c => SolanaErrorCode_eqb c code
  | _ => false
  end.

End Kit.

(** ** The collaborators and the order in which they are called *)

Module Runtime.
Import Kit.

Record SendTransactionConfig : Type := {
  maxRetries : option Z;
  preflightCommitment : option Commitment;
  skipPreflight : option bool;
}.

Record TokenBalanceValue : Type := {
  amount : Amounts.jsstring;
  uiAmountString : option Amounts.jsstring;
}.

(** Every call that leaves this core. *)
Inductive Event : Type :=
| GetLatestBlockhash (commitment : option Commitment)
| SimulateTransaction (wire : TransactionMessage)
| SendTransaction (wire : TransactionMessage) (config : SendTransactionConfig)
| SignTransactionMessageWithSigners (message : TransactionMessage)
| SignAndSendTransactionMessageWithSigners (message : TransactionMessage)
| GetAccountInfo (account : Address) (commitment : option Commitment)
| GetTokenAccountBalance (account : Address) (commitment : option Commitment)
| FetchMint (mint : Address) (commitment : option Commitment)
| FindAssociatedTokenPda (mint owner tokenProgram : Address)
| LogRequest (wire : TransactionMessage).

Definition Trace : Type := list Event.

(** What the collaborators answer, given everything that was asked before:
    the methods of [runtime.rpc], and the asynchronous functions of the kit
    that reach signers or the network.  With them comes the kit's
    [assertIsSignature], which throws for a string that is not the base58
    text of 64 bytes: a check that calls nobody. *)
Record SolanaClientRuntime : Type := {
  getLatestBlockhash : Trace -> option Commitment -> result BlockhashLifetime;
  simulateTransaction : Trace -> TransactionMessage -> result (option Z);
  sendTransaction : Trace -> TransactionMessage -> SendTransactionConfig -> result string;
  getAccountInfo : Trace -> Address -> option Commitment -> result bool;
  getTokenAccountBalance : Trace -> Address -> option Commitment -> result TokenBalanceValue;
  signTransactionMessageWithSigners : Trace -> TransactionMessage -> result TransactionMessage;
  signAndSendTransactionMessageWithSigners : Trace -> TransactionMessage -> result string;
  fetchMint : Trace -> Address -> option Commitment -> result Z;
  findAssociatedTokenPda : Trace -> Address -> Address -> Address -> result Address;
  assertIsSignature : string -> result unit;
}.

(** The mutable state an [async] function of this core can touch: the
    calls made so far, the rejections that collaborators answered them with,
    and the two variables that the SPL token helper closes over. *)
Record World : Type := {
  trace : Trace;
  rejections : list exn;
  cachedDecimals : option Z;
  cachedMath : option Amounts.TokenAmountMath;
}.

Definition record_call {A} (ev : Event) (answer : result A) (w : World) : World :=
  {| trace := trace w ++ [ev];
     rejections := match answer with
                   | Ok _ => rejections w
                   | Throw e => rejections w ++ [e]
                   end;
     cachedDecimals := cachedDecimals w;
     cachedMath := cachedMath w |}.

(** An [async] function: it reads and changes the world and settles with a
    value or a rejection. *)
Definition M (A : Type) : Type := World -> result A * World.

Definition ret {A} (a : A) : M A := fun w => (Ok a, w).

Definition throw {A} (e : exn) : M A := fun w => (Throw e, w).

Definition bind {A B} (m : M A) (k : A -> M B) : M B :=
  fun w =>
    match m w with
    | (Ok a, w') => k a w'
    | (Throw e, w') => (Throw e, w')
    end.

Definition lift {A} (r : result A) : M A := fun w => (r, w).

(** [await collaborator(...)]: the answer depends on the calls made so
    far, and the call is recorded. *)
Definition call {A} (ev : Event) (answer : Trace -> result A) : M A :=
  fun w => (answer (trace w), record_call ev (answer (trace w)) w).

(** [try { body } catch (error) { handler }] *)
Definition try_catch {A} (body : M A) (handler : exn -> M A) : M A :=
  fun w =>
    match body w with
    | (Ok a, w') => (Ok a, w')
    | (Throw e, w') => handler e w'
    end.

(** An [AbortSignal], observed at the moments the code looks at it. *)
Record AbortSignal : Type := {
  aborted : Trace -> bool;
}.

Definition throwIfAborted (signal : option AbortSignal) : M unit :=
  fun w =>
    match signal with
    | Some s => if aborted s (trace w) then (Throw AbortError, w) else (Ok tt, w)
    | None => (Ok tt, w)
    end.

(** [signature(putativeSignature)] *)
Definition signature (runtime : SolanaClientRuntime) (putativeSignature : string)
    : result string :=
  (check assertIsSignature runtime putativeSignature in Ok putativeSignature)%js.

Definition fresh_world : World :=
  {| trace := []; rejections := []; cachedDecimals := None; cachedMath := None |}.

End Runtime.

(** Vocabulary for what an [async] function does with rejections. *)

Module RuntimeSpec.
Import Runtime.

(** The function lets a rejection through: if it fulfils, no collaborator
    rejected on the way; if it rejects with [e], either [e] is its own
    (nothing was rejected on the way) or [e] is the one rejection that a
    collaborator answered. *)
Definition surfaced {A} (w : World) (r : result A) (w' : World) : Prop :=
  match r with
  | Ok _ => rejections w' = rejections w
  | Throw e => rejections w' = rejections w \/ rejections w' = rejections w ++ [e]
  end.

Definition surfaces {A} (m : M A) : Prop :=
  forall w, surfaced w (fst (m w)) (snd (m w)).

End RuntimeSpec.

Declare Scope async_scope.
Delimit Scope async_scope with async.
Notation "'let!' x ':=' m 'in' k" := (Runtime.bind m (fun x => k))
  (at level 10, x name, m at level 100, k at level 200) : async_scope.
Notation "'do!' m 'in' k" := (Runtime.bind m (fun _ => k))
  (at level 10, m at level 100, k at level 200) : async_scope.

(** ** signers/walletTransactionSigner.ts *)

Module Signers.
Import Kit.

Inductive WalletTransactionSignerMode : Type := partial | send.

Definition mode_eqb (a b : WalletTransactionSignerMode) : bool :=
  match a, b with
  | partial, partial | send, send => true
  | _, _ => false
  end.

(** A wallet session: its account, and which optional methods exist. *)
Record WalletSession : Type := {
  account_address : Address;
  signTransaction : bool;
  sendTransaction : bool;
}.

Record WalletTransactionSigner : Type := {
  mode : WalletTransactionSignerMode;
  signer : TransactionSigner;
}.

Definition createWalletTransactionSigner (session : WalletSession)
    (commitment : option Commitment) : result WalletTransactionSigner :=
  let address := account_address session in
  if signTransaction session then
    Ok {| mode := partial;
          signer := {| address := address;
                       signTransactions := true;
                       modifyAndSignTransactions := true;
                       signAndSendTransactions := false |} |}
  else if sendTransaction session then
    Ok {| mode := send;
          signer := {| address := address;
                       signTransactions := false;
                       modifyAndSignTransactions := false;
                       signAndSendTransactions := true |} |}
  else Throw (Error "Wallet session does not support signing or sending transactions.").

Definition resolveSignerMode (signer : TransactionSigner) : WalletTransactionSignerMode :=
  if isTransactionPartialSigner signer then partial
  else if isTransactionSendingSigner signer then send
  else partial.

End Signers.

Module SignersExamples.
Import Kit Signers.
Local Open Scope string_scope.

(** A wallet that can only sign and send. *)
Definition sending_session : WalletSession :=
  {| account_address := "wallet-address"; signTransaction := false; sendTransaction := true |}.

End SignersExamples.

(** ** transactions/prepareTransaction.ts *)

Module Tuner.
Import Kit Runtime.
Local Open Scope async_scope.

Record PrepareTransactionConfig : Type := {
  transaction : TransactionMessage;
  computeUnitLimitMultiplier : option float;
  computeUnitLimitReset : option bool;
  blockhashReset : option bool;
  logRequest : bool;
}.

(** The number literal [1.1], that is the binary64 nearest to 11/10. *)
Definition DEFAULT_COMPUTE_UNIT_LIMIT_MULTIPLIER : float := 0x1.199999999999ap+0%float.

Definition isComputeUnitLimitInstruction (instruction : Instruction) : bool :=
  String.eqb (programAddress instruction) COMPUTE_BUDGET_PROGRAM_ADDRESS &&
  match data instruction with
  | Some d => match first_byte d with Some b => b =? 2 | None => false end
  | None => false
  end.

(** [Array.prototype.findIndex], with [None] for [-1]. *)
Fixpoint findIndex {A} (p : A -> bool) (l : list A) : option nat :=
  match l with
  | [] => None
  | x :: rest => if p x then Some O else option_map S (findIndex p rest)
  end.

Definition hasLifetime (transaction : TransactionMessage) : bool :=
  match lifetimeConstraint transaction with
  | Some _ => true
  | None => false
  end.

(** [Math.max(1, unitsFromSimulation ? Math.ceil(unitsFromSimulation * multiplier) : 200_000)] *)
Definition units_for (unitsFromSimulation multiplier : float) : float :=
  JsNumber.max 1
    (if JsNumber.truthy unitsFromSimulation
     then JsNumber.ceil (PrimFloat.mul unitsFromSimulation multiplier)
     else 200000%float).

(** [nextInstructions.splice(index, 1, instruction)] on a copy. *)
Definition splice1 (index : nat) (instruction : Instruction) (l : list Instruction)
    : list Instruction :=
  <[index := instruction]> l.

Section WithRpc.
Variable rpc : SolanaClientRuntime.

Definition estimateComputeUnits (transaction : TransactionMessage) : M float :=
  let! target :=
    if hasLifetime transaction then ret transaction
    else
      let! latest := call (GetLatestBlockhash None)
                       (fun tr => getLatestBlockhash rpc tr None) in
      ret (setTransactionMessageLifetimeUsingBlockhash latest transaction) in
  let! unitsConsumed := call (SimulateTransaction target)
                          (fun tr => simulateTransaction rpc tr target) in
  ret (JsNumber.or_else (JsNumber.of_bigint (default 0 unitsConsumed)) 0%float).

Definition prepareTransaction (config : PrepareTransactionConfig) : M TransactionMessage :=
  let multiplier :=
    default DEFAULT_COMPUTE_UNIT_LIMIT_MULTIPLIER (computeUnitLimitMultiplier config) in
  let shouldResetBlockhash :=
    match blockhashReset config with Some false => false | _ => true end in
  let shouldResetComputeUnits := default false (computeUnitLimitReset config) in
  let transaction := transaction config in
  let computeLimitIndex := findIndex isComputeUnitLimitInstruction (instructions transaction) in
  let! transaction :=
    if match computeLimitIndex with None => true | Some _ => false end
       || shouldResetComputeUnits
    then
      let! unitsFromSimulation := estimateComputeUnits transaction in
      let units := units_for unitsFromSimulation multiplier in
      let! instruction := lift (getSetComputeUnitLimitInstruction units) in
      match computeLimitIndex with
      | None => ret (appendTransactionMessageInstruction instruction transaction)
      | Some index =>
          ret (with_instructions (splice1 index instruction (instructions transaction))
                 transaction)
      end
    else ret transaction in
  let transactionHasLifetime := hasLifetime transaction in
  let! transaction :=
    if shouldResetBlockhash || negb transactionHasLifetime then
      let! latest := call (GetLatestBlockhash None)
                       (fun tr => getLatestBlockhash rpc tr None) in
      if negb transactionHasLifetime
      then ret (setTransactionMessageLifetimeUsingBlockhash latest transaction)
      else if shouldResetBlockhash
      then ret (setTransactionMessageLifetimeUsingBlockhash latest transaction)
      else ret transaction
    else ret transaction in
  do! (if logRequest config
       then call (LogRequest transaction) (fun _ => Ok tt)
       else ret tt) in
  ret transaction.

End WithRpc.

End Tuner.

(** Vocabulary for the tuner's result. *)

Module TunerSpec.
Import Kit Runtime Tuner.

(** The number of units the tuner asks for, from what the simulation
    reported and the multiplier the caller gave. *)
Definition requested_units (unitsConsumed : option Z) (multiplier : option float) : float :=
  let consumed := JsNumber.or_else (JsNumber.of_bigint (default 0 unitsConsumed)) 0%float in
  let scaled :=
    if PrimFloat.eqb consumed 0 then 200000%float
    else JsNumber.ceil (PrimFloat.mul consumed (default 0x1.199999999999ap+0%float multiplier)) in
  JsNumber.max 1 scaled.

(** The tuner simulates when no compute-unit-limit instruction is there,
    or when a reset is asked for. *)
Definition must_estimate (config : PrepareTransactionConfig) : bool :=
  match findIndex isComputeUnitLimitInstruction (instructions (transaction config)) with
  | None => true
  | Some _ => default false (computeUnitLimitReset config)
  end.

(** The calls that come before the simulation, and the message that is
    simulated. *)
Definition calls_before_simulation (config : PrepareTransactionConfig) : Trace :=
  if hasLifetime (transaction config) then [] else [GetLatestBlockhash None].

Definition simulated_message (latest : BlockhashLifetime) (config : PrepareTransactionConfig)
    : TransactionMessage :=
  if hasLifetime (transaction config) then transaction config
  else setTransactionMessageLifetimeUsingBlockhash latest (transaction config).

Definition installed (limit : Instruction) (l : list Instruction) : list Instruction :=
  match findIndex isComputeUnitLimitInstruction l with
  | None => l ++ [limit]
  | Some index => <[index := limit]> l
  end.

Definition instructions_of (r : result TransactionMessage * World) : option (list Instruction) :=
  match fst r with
  | Ok m => Some (instructions m)
  | Throw _ => None
  end.

(** A transport that answers every blockhash query. *)
Definition answers_blockhash (rpc : SolanaClientRuntime) : Prop :=
  forall tr c, Js.is_ok (getLatestBlockhash rpc tr c) = true.

End TunerSpec.

Module TunerExamples.
Import Kit Runtime Tuner.
Local Open Scope string_scope.

(** The mock transport of [prepareTransaction.test.ts]. *)
Definition mock_rpc (unitsConsumed : Z) : SolanaClientRuntime :=
  {| getLatestBlockhash := fun _ _ => Ok {| blockhash := "abc"; lastValidBlockHeight := 123 |};
     simulateTransaction := fun _ _ => Ok (Some unitsConsumed);
     sendTransaction := fun _ _ _ => Ok "signature";
     getAccountInfo := fun _ _ _ => Ok true;
     getTokenAccountBalance := fun _ _ _ =>
       Ok {| amount := Amounts.str "0"; uiAmountString := None |};
     signTransactionMessageWithSigners := fun _ m => Ok m;
     signAndSendTransactionMessageWithSigners := fun _ _ => Ok "signature";
     fetchMint := fun _ _ _ => Ok 6;
     findAssociatedTokenPda := fun _ _ owner _ => Ok owner;
     assertIsSignature := fun _ => Ok tt |}.

Definition baseInstruction : Instruction :=
  {| programAddress := "So11111111111111111111111111111111111111112";
     accounts := [];
     data := Some (Bytes [1]);
     addressTableLookup := None;
     addressTableLookups := None |}.

Definition message : TransactionMessage :=
  appendTransactionMessageInstruction baseInstruction
    (setTransactionMessageFeePayer "11111111111111111111111111111111"
       (createTransactionMessage v0)).

Definition config : PrepareTransactionConfig :=
  {| transaction := message;
     computeUnitLimitMultiplier := Some 0x1.199999999999ap+0%float;
     computeUnitLimitReset := None;
     blockhashReset := None;
     logRequest := false |}.

End TunerExamples.

(** ** features/transactions.ts *)

Module Transactions.
Import Kit Runtime Signers.
Local Open Scope async_scope.

Inductive TransactionAuthority : Type :=
| AuthoritySigner (signer : TransactionSigner)
| AuthoritySession (session : WalletSession).

(** [isWalletSession] tells a session from a signer by its fields. *)
Definition isWalletSession (a : TransactionAuthority) : bool :=
  match a with
  | AuthoritySession _ => true
  | AuthoritySigner _ => false
  end.

(** [Address | string | TransactionSigner] *)
Inductive FeePayerInput : Type :=
| FeePayerString (value : string)
| FeePayerObject (signer : TransactionSigner).

(** [TransactionVersion | 'auto'] *)
Inductive RequestedVersion : Type :=
| auto
| explicit (version : TransactionVersion).

(** [bigint | number] *)
Inductive BigintOrNumber : Type :=
| bigint (z : Z)
| number (x : float).

Record TransactionPrepareRequest : Type := {
  abortSignal : option AbortSignal;
  authority : option TransactionAuthority;
  commitment : option Commitment;
  computeUnitLimit : option BigintOrNumber;
  computeUnitPrice : option BigintOrNumber;
  feePayer : option FeePayerInput;
  instructions : list Instruction;
  lifetime : option BlockhashLifetime;
  version : option RequestedVersion;
}.

Record TransactionPrepared : Type := {
  prepared_commitment : Commitment;
  prepared_computeUnitLimit : option Z;
  prepared_computeUnitPrice : option Z;
  prepared_feePayer : Address;
  prepared_instructions : list Instruction;
  prepared_lifetime : BlockhashLifetime;
  prepared_message : TransactionMessage;
  prepared_mode : WalletTransactionSignerMode;
  prepared_version : TransactionVersion;
}.

Record TransactionSignOptions : Type := {
  sign_abortSignal : option AbortSignal;
}.

Record TransactionSendOptions : Type := {
  send_abortSignal : option AbortSignal;
  send_commitment : option Commitment;
  send_maxRetries : option BigintOrNumber;
  send_skipPreflight : option bool;
}.

(** [address(value)] validates the text; which strings are addresses is
    for the kit to say. *)
Definition toAddress (isAddress : string -> bool) (value : string) : result Address :=
  if isAddress value then Ok value
  else Throw (SolanaError (OtherCode 2800000)).

Definition is_compute_budget (first : Z) (instruction : Instruction) : bool :=
  String.eqb (programAddress instruction) COMPUTE_BUDGET_PROGRAM_ADDRESS &&
  match data instruction with
  | Some d => match first_byte d with Some b => b =? first | None => false end
  | None => false
  end.

Definition hasSetComputeUnitLimitInstruction (instructions : list Instruction) : bool :=
  existsb (is_compute_budget 2) instructions.

Definition hasSetComputeUnitPriceInstruction (instructions : list Instruction) : bool :=
  existsb (is_compute_budget 3) instructions.

Definition instructionUsesAddressLookup (instruction : Instruction) : bool :=
  match addressTableLookup instruction with
  | Some _ => true
  | None =>
      match addressTableLookups instruction with
      | Some lookups => (0 <? length lookups)%nat
      | None => false
      end
  end.

(** Truthiness of a requested version: ['legacy'] and ['auto'] are
    non-empty strings, [0] is the number zero. *)
Definition requested_truthy (requested : RequestedVersion) : bool :=
  match requested with
  | auto => true
  | explicit legacy => true
  | explicit v0 => false
  end.

Definition resolveVersion (requested : option RequestedVersion)
    (instructions : list Instruction) : TransactionVersion :=
  let automatic := if existsb instructionUsesAddressLookup instructions then v0 else legacy in
  match requested with
  | Some (explicit v) => if requested_truthy (explicit v) then v else automatic
  | Some auto => automatic
  | None => automatic
  end.

Definition normaliseCommitment (request : TransactionPrepareRequest)
    (getFallbackCommitment : unit -> Commitment) : Commitment :=
  match commitment request with
  | Some c => c
  | None => getFallbackCommitment tt
  end.

(** [!feePayer]: a missing fee payer, or the empty string. *)
Definition feePayer_falsy (feePayer : option FeePayerInput) : bool :=
  match feePayer with
  | None => true
  | Some (FeePayerString value) => String.eqb value ""
  | Some (FeePayerObject _) => false
  end.

Definition missing {A} (o : option A) : bool :=
  match o with
  | None => true
  | Some _ => false
  end.

Definition resolveFeePayerAddress (isAddress : string -> bool)
    (feePayer : option FeePayerInput) (authoritySigner : option TransactionSigner)
    : result FeePayer :=
  let from_authority :=
    match authoritySigner with
    | None => Throw (Error "Unable to resolve authority signer for the fee payer.")
    | Some signer => Ok {| feePayerAddress := address signer; feePayerSigner := Some signer |}
    end in
  if feePayer_falsy feePayer && missing authoritySigner
  then Throw (Error "A fee payer must be provided via `feePayer` or `authority`.")
  else
    match feePayer with
    | Some (FeePayerObject signer) =>
        Ok {| feePayerAddress := address signer; feePayerSigner := Some signer |}
    | Some (FeePayerString value) =>
        if feePayer_falsy feePayer then from_authority
        else
          (let* resolved := toAddress isAddress value in
           match authoritySigner with
           | Some signer =>
               if String.eqb (address signer) resolved
               then Ok {| feePayerAddress := resolved; feePayerSigner := Some signer |}
               else Ok {| feePayerAddress := resolved; feePayerSigner := None |}
           | None => Ok {| feePayerAddress := resolved; feePayerSigner := None |}
           end)%js
    | None => from_authority
    end.

(** [typeof value === 'bigint' ? value : BigInt(Math.floor(value))] *)
Definition to_bigint (value : BigintOrNumber) : result Z :=
  match value with
  | bigint z => Ok z
  | number x =>
      match JsNumber.to_bigint (JsNumber.floor x) with
      | Some z => Ok z
      | None => Throw (RangeError "The number cannot be converted to a BigInt because it is not an integer")
      end
  end.

Definition resolveComputeUnitLimit (request : TransactionPrepareRequest)
    (instructions : list Instruction) : result (option Z) :=
  match computeUnitLimit request with
  | None => Ok None
  | Some value =>
      if hasSetComputeUnitLimitInstruction instructions then Ok None
      else (let* z := to_bigint value in Ok (Some z))%js
  end.

Definition resolveComputeUnitPrice (request : TransactionPrepareRequest)
    (instructions : list Instruction) : result (option Z) :=
  match computeUnitPrice request with
  | None => Ok None
  | Some value =>
      if hasSetComputeUnitPriceInstruction instructions then Ok None
      else (let* z := to_bigint value in Ok (Some z))%js
  end.

(** The first block of [prepare]: who signs, and in which mode. *)
Definition resolveAuthority (authority : option TransactionAuthority) (commitment : Commitment)
    : result (option TransactionSigner * WalletTransactionSignerMode) :=
  match authority with
  | None => Ok (None, partial)
  | Some (AuthoritySession session) =>
      (let* wallet := createWalletTransactionSigner session (Some commitment) in
       Ok (Some (signer wallet), mode wallet))%js
  | Some (AuthoritySigner authoritySigner) =>
      Ok (Some authoritySigner, resolveSignerMode authoritySigner)
  end.

(** [if (mode === 'send') { if (!feePayerSigner || !isTransactionSendingSigner(feePayerSigner)) mode = 'partial' }] *)
Definition settle_mode (mode : WalletTransactionSignerMode) (feePayerSigner : option TransactionSigner)
    : WalletTransactionSignerMode :=
  if mode_eqb mode send then
    match feePayerSigner with
    | None => partial
    | Some s => if isTransactionSendingSigner s then mode else partial
    end
  else mode.

(** A key of an options object: absent, or present with a value, which
    may be [undefined]. *)
Inductive Key (A : Type) : Type :=
| absent
| present (value : option A).
Arguments absent {A}.
Arguments present {A} value.

Section Helper.
(** [createTransactionHelper(runtime, getFallbackCommitment)] *)
Variable runtime : SolanaClientRuntime.
Variable getFallbackCommitment : unit -> Commitment.
Variable isAddress : string -> bool.

Definition prepare (request : TransactionPrepareRequest) : M TransactionPrepared :=
  if (length (instructions request) =? 0)%nat
  then throw (Error "Add at least one instruction before preparing a transaction.")
  else
    do! throwIfAborted (abortSignal request) in
    let commitment := normaliseCommitment request getFallbackCommitment in
    let! resolved := lift (resolveAuthority (authority request) commitment) in
    let authoritySigner := fst resolved in
    let mode := snd resolved in
    let! payer := lift (resolveFeePayerAddress isAddress (feePayer request) authoritySigner) in
    let mode := settle_mode mode (feePayerSigner payer) in
    let baseInstructions := instructions request in
    let version := resolveVersion (version request) baseInstructions in
    let! lifetime :=
      match lifetime request with
      | Some l => ret l
      | None => call (GetLatestBlockhash (Some commitment))
                  (fun tr => getLatestBlockhash runtime tr (Some commitment))
      end in
    do! throwIfAborted (abortSignal request) in
    let! resolvedComputeUnitLimit := lift (resolveComputeUnitLimit request baseInstructions) in
    let! computeUnitPrice := lift (resolveComputeUnitPrice request baseInstructions) in
    let! limitPrefix :=
      match resolvedComputeUnitLimit with
      | Some units =>
          let! instruction :=
            lift (getSetComputeUnitLimitInstruction (JsNumber.of_bigint units)) in
          ret [instruction]
      | None => ret []
      end in
    let! pricePrefix :=
      match computeUnitPrice with
      | Some price =>
          let! instruction :=
            lift (getSetComputeUnitPriceInstruction (JsNumber.of_bigint price)) in
          ret [instruction]
      | None => ret []
      end in
    let prefixInstructions := limitPrefix ++ pricePrefix in
    let instructionSequence := prefixInstructions ++ baseInstructions in
    do! throwIfAborted (abortSignal request) in
    let finalMessage :=
      setTransactionMessageLifetimeUsingBlockhash lifetime
        (appendTransactionMessageInstructions instructionSequence
           (match feePayerSigner payer with
            | Some s => setTransactionMessageFeePayerSigner s
            | None => setTransactionMessageFeePayer (feePayerAddress payer)
            end (createTransactionMessage version))) in
    ret {| prepared_commitment := commitment;
           prepared_computeUnitLimit := resolvedComputeUnitLimit;
           prepared_computeUnitPrice := computeUnitPrice;
           prepared_feePayer := feePayerAddress payer;
           prepared_instructions := baseInstructions;
           prepared_lifetime := lifetime;
           prepared_message := finalMessage;
           prepared_mode := mode;
           prepared_version := version |}.

Definition sign (prepared : TransactionPrepared) : M TransactionMessage :=
  call (SignTransactionMessageWithSigners (prepared_message prepared))
    (fun tr => signTransactionMessageWithSigners runtime tr (prepared_message prepared)).

(** [getBase64EncodedWireTransaction] is injective; the wire form is
    identified with the signed transaction it encodes. *)
Definition toWire (prepared : TransactionPrepared) : M TransactionMessage :=
  sign prepared.

(** In [send] mode the signers answer with the signature bytes: they are
    identified with the base58 text that [getBase58Decoder().decode] makes
    of them.  Either way the answer goes through [signature]. *)
Definition send (prepared : TransactionPrepared) (options : TransactionSendOptions)
    : M string :=
  let commitment := default (prepared_commitment prepared) (send_commitment options) in
  if mode_eqb (prepared_mode prepared) Signers.send then
    let! signatureBytes :=
      call (SignAndSendTransactionMessageWithSigners (prepared_message prepared))
        (fun tr => signAndSendTransactionMessageWithSigners runtime tr
                     (prepared_message prepared)) in
    lift (signature runtime signatureBytes)
  else
    let! signed := sign prepared in
    let! maxRetries :=
      match send_maxRetries options with
      | None => ret None
      | Some (bigint z) => ret (Some z)
      | Some (number x) =>
          match JsNumber.to_bigint x with
          | Some z => ret (Some z)
          | None => throw (RangeError "The number cannot be converted to a BigInt because it is not an integer")
          end
      end in
    let config := {| maxRetries := maxRetries;
                     preflightCommitment := Some commitment;
                     skipPreflight := send_skipPreflight options |} in
    let! response :=
      call (SendTransaction signed config)
        (fun tr => Runtime.sendTransaction runtime tr signed config) in
    lift (signature runtime response).

(** [prepareTransaction?: false | PrepareTransactionOverrides].  For
    [blockhashReset] an absent key and an [undefined] value differ: the
    spread copies the key it finds. *)
Inductive PrepareTransactionSetting : Type :=
| disabled
| overrides (computeUnitLimitMultiplier : option float)
    (computeUnitLimitReset : option bool) (blockhashReset : Key bool)
    (logRequest : bool).

(** [{ blockhashReset: prepareConfig.blockhashReset ?? false, ...prepareConfig }] *)
Definition spread_blockhashReset (blockhashReset : Key bool) : option bool :=
  match blockhashReset with
  | absent => Some false
  | present value => value
  end.

Definition prepareAndSend (request : TransactionPrepareRequest)
    (prepareTransaction : option PrepareTransactionSetting)
    (options : TransactionSendOptions) : M string :=
  let! prepared := prepare request in
  match prepareTransaction with
  | Some disabled => send prepared options
  | _ =>
      let prepareConfig :=
        match prepareTransaction with
        | Some (overrides multiplier reset blockhashReset logRequest) =>
            {| Tuner.transaction := prepared_message prepared;
               Tuner.computeUnitLimitMultiplier := multiplier;
               Tuner.computeUnitLimitReset := reset;
               Tuner.blockhashReset := spread_blockhashReset blockhashReset;
               Tuner.logRequest := logRequest |}
        | _ =>
            {| Tuner.transaction := prepared_message prepared;
               Tuner.computeUnitLimitMultiplier := None;
               Tuner.computeUnitLimitReset := None;
               Tuner.blockhashReset := Some false;
               Tuner.logRequest := false |}
        end in
      let! tunedMessage := Tuner.prepareTransaction runtime prepareConfig in
      let tunedPrepared :=
        {| prepared_commitment := prepared_commitment prepared;
           prepared_computeUnitLimit := prepared_computeUnitLimit prepared;
           prepared_computeUnitPrice := prepared_computeUnitPrice prepared;
           prepared_feePayer := prepared_feePayer prepared;
           prepared_instructions := prepared_instructions prepared;
           prepared_lifetime := prepared_lifetime prepared;
           prepared_message := tunedMessage;
           prepared_mode := prepared_mode prepared;
           prepared_version := prepared_version prepared |} in
      send tunedPrepared options
  end.

End Helper.

End Transactions.

Module TransactionsExamples.
Import Kit Runtime Signers Transactions.
Local Open Scope string_scope.

Definition plain_instruction : Instruction :=
  {| programAddress := "Demo1111111111111111111111111111111111";
     accounts := [];
     data := Some (Bytes [1]);
     addressTableLookup := None;
     addressTableLookups := None |}.

Definition any_address (value : string) : bool := negb (String.eqb value "").

Definition fallback (_ : unit) : Commitment := confirmed.

(** A request that names version [0] and has no lookup table in sight. *)
Definition version_zero_request : TransactionPrepareRequest :=
  {| abortSignal := None;
     authority := Some (AuthoritySigner
                          {| address := "payer"; signTransactions := true;
                             modifyAndSignTransactions := false;
                             signAndSendTransactions := false |});
     commitment := None;
     computeUnitLimit := None;
     computeUnitPrice := None;
     feePayer := None;
     instructions := [plain_instruction];
     lifetime := Some {| blockhash := "abc"; lastValidBlockHeight := 123 |};
     version := Some (explicit v0) |}.

(** A send-only wallet as authority, and somebody else as fee payer. *)
Definition foreign_fee_payer_request : TransactionPrepareRequest :=
  {| abortSignal := None;
     authority := Some (AuthoritySession SignersExamples.sending_session);
     commitment := None;
     computeUnitLimit := None;
     computeUnitPrice := None;
     feePayer := Some (FeePayerString "sponsor");
     instructions := [plain_instruction];
     lifetime := Some {| blockhash := "abc"; lastValidBlockHeight := 123 |};
     version := None |}.

Definition prepared_of (r : result TransactionPrepared * World) : option TransactionPrepared :=
  match fst r with
  | Ok p => Some p
  | Throw _ => None
  end.

End TransactionsExamples.

(** ** features/spl.ts *)

Module Spl.
Import Kit Runtime Signers.
Local Open Scope async_scope.

Definition TOKEN_PROGRAM_ADDRESS : Address :=
  "TokenkegQfeZyiNwAJbNbGKPFXCWuBvf9Ss623VQ5DA"%string.

Definition ASSOCIATED_TOKEN_PROGRAM_ADDRESS : Address :=
  "ATokenGPvbdGVxr1b2hvZbsiqW5xWH25efTNsLJA8knL"%string.

Inductive SplTokenAuthority : Type :=
| AuthoritySigner (signer : TransactionSigner)
| AuthoritySession (session : WalletSession).

(** The amount is a [bigint] or a string here: a JavaScript number would
    first have to be printed by the engine. *)
Record SplTransferPrepareConfig : Type := {
  amount : Amounts.BigintLike;
  amountInBaseUnits : option bool;
  authority : SplTokenAuthority;
  commitment : option Commitment;
  destinationOwner : string;
  destinationToken : option string;
  ensureDestinationAta : option bool;
  lifetime : option BlockhashLifetime;
  sourceOwner : option string;
  sourceToken : option string;
  transactionVersion : option TransactionVersion;
}.

(** [{ ...config, lifetime: undefined }] *)
Definition with_lifetime_cleared (config : SplTransferPrepareConfig) : SplTransferPrepareConfig :=
  {| amount := amount config;
     amountInBaseUnits := amountInBaseUnits config;
     authority := authority config;
     commitment := commitment config;
     destinationOwner := destinationOwner config;
     destinationToken := destinationToken config;
     ensureDestinationAta := ensureDestinationAta config;
     lifetime := None;
     sourceOwner := sourceOwner config;
     sourceToken := sourceToken config;
     transactionVersion := transactionVersion config |}.

Record PreparedSplTransfer : Type := {
  prepared_amount : Z;
  prepared_commitment : option Commitment;
  prepared_decimals : Z;
  prepared_destinationAta : Address;
  prepared_lifetime : BlockhashLifetime;
  prepared_message : TransactionMessage;
  prepared_mode : WalletTransactionSignerMode;
  prepared_signer : TransactionSigner;
  prepared_sourceAta : Address;
}.

Record SplTokenBalance : Type := {
  balance_amount : Z;
  balance_ataAddress : Address;
  balance_decimals : Z;
  balance_exists : bool;
  balance_uiAmount : Amounts.jsstring;
}.

(** [SolTransferSendOptions] *)
Record SolTransferSendOptions : Type := {
  send_commitment : option Commitment;
  send_maxRetries : option Transactions.BigintOrNumber;
  send_skipPreflight : option bool;
}.

Definition resolveSigner (authority : SplTokenAuthority) (commitment : option Commitment)
    : result WalletTransactionSigner :=
  match authority with
  | AuthoritySession session => createWalletTransactionSigner session commitment
  | AuthoritySigner s => Ok {| mode := resolveSignerMode s; signer := s |}
  end.

(** The accounts are payer, token account, owner, mint, system program and
    token program; the system program is the client's default. *)
Definition getCreateAssociatedTokenInstruction (ata mint owner : Address)
    (payer : TransactionSigner) (tokenProgram : Address) : Instruction :=
  {| programAddress := ASSOCIATED_TOKEN_PROGRAM_ADDRESS;
     accounts := [address payer; ata; owner; mint; SYSTEM_PROGRAM_ADDRESS; tokenProgram];
     data := Some CreateAssociatedTokenData;
     addressTableLookup := None;
     addressTableLookups := None |}.

(** The amount is a [u64] and the decimals are a [u8]: the encoder throws
    for a value outside the range of its field. *)
Definition getTransferCheckedInstruction (amount : Z) (authority : TransactionSigner)
    (decimals : Z) (destination mint source : Address) : result Instruction :=
  if (amount <? 0) || (18446744073709551615 <? amount) || (decimals <? 0) || (255 <? decimals)
  then Throw (SolanaError SOLANA_ERROR__CODECS__NUMBER_OUT_OF_RANGE)
  else Ok {| programAddress := TOKEN_PROGRAM_ADDRESS;
             accounts := [source; mint; destination; address authority];
             data := Some (TransferCheckedData amount decimals);
             addressTableLookup := None;
             addressTableLookups := None |}.

Section Helper.
(** [createSplTokenHelper(runtime, config)], after [config.mint] and
    [config.tokenProgram] have been turned into addresses. *)
Variable runtime : SolanaClientRuntime.
Variable isAddress : string -> bool.
Variable mintAddress : Address.
Variable tokenProgram : Address.

Definition ensureAddress (value : option string) (fallback : option Address) : result Address :=
  let from_fallback :=
    match fallback with
    | Some f => if String.eqb f "" then Throw (Error "An address value was expected but not provided.")
                else Ok f
    | None => Throw (Error "An address value was expected but not provided.")
    end in
  match value with
  | Some v => if String.eqb v "" then from_fallback else Transactions.toAddress isAddress v
  | None => from_fallback
  end.

Definition resolveLifetime (commitment : option Commitment) (fallback : option BlockhashLifetime)
    : M BlockhashLifetime :=
  match fallback with
  | Some l => ret l
  | None => call (GetLatestBlockhash commitment) (fun tr => getLatestBlockhash runtime tr commitment)
  end.

Definition set_cachedDecimals (d : Z) : M unit :=
  fun w => (Ok tt, {| trace := trace w; rejections := rejections w;
                      cachedDecimals := Some d; cachedMath := cachedMath w |}).

Definition set_cachedMath (m : Amounts.TokenAmountMath) : M unit :=
  fun w => (Ok tt, {| trace := trace w; rejections := rejections w;
                      cachedDecimals := cachedDecimals w; cachedMath := Some m |}).

Definition resolveDecimals (commitment : option Commitment) : M Z :=
  fun w =>
    match cachedDecimals w with
    | Some d => (Ok d, w)
    | None =>
        (let! decimals := call (FetchMint mintAddress commitment)
                            (fun tr => fetchMint runtime tr mintAddress commitment) in
         do! set_cachedDecimals decimals in
         ret decimals) w
    end.

Definition getTokenMath (commitment : option Commitment) : M Amounts.TokenAmountMath :=
  fun w =>
    match cachedMath w with
    | Some math => (Ok math, w)
    | None =>
        (let! decimals := resolveDecimals commitment in
         let! math := lift (Amounts.createTokenAmount decimals) in
         do! set_cachedMath math in
         ret math) w
    end.

Definition deriveAssociatedTokenAddress (owner : string) : M Address :=
  let! ownerAddress := lift (ensureAddress (Some owner) None) in
  call (FindAssociatedTokenPda mintAddress ownerAddress tokenProgram)
    (fun tr => findAssociatedTokenPda runtime tr mintAddress ownerAddress tokenProgram).

Definition fetchBalance (owner : string) (commitment : option Commitment) : M SplTokenBalance :=
  let! ataAddress := deriveAssociatedTokenAddress owner in
  let! decimals := resolveDecimals commitment in
  try_catch
    (let! value := call (GetTokenAccountBalance ataAddress commitment)
                     (fun tr => getTokenAccountBalance runtime tr ataAddress commitment) in
     let! math := getTokenMath commitment in
     let! amount := lift (Amounts.fromBaseUnits (Amounts.text (Runtime.amount value))
                            (Some "balance"%string)) in
     let uiAmount := default (Runtime.amount value) (uiAmountString value) in
     ret {| balance_amount := amount;
            balance_ataAddress := ataAddress;
            balance_decimals := decimals;
            balance_exists := true;
            balance_uiAmount := uiAmount |})
    (fun _ =>
     ret {| balance_amount := 0;
            balance_ataAddress := ataAddress;
            balance_decimals := decimals;
            balance_exists := false;
            balance_uiAmount := Amounts.str "0" |}).

(** [math.fromDecimal(config.amount, { label: 'amount' })]: a [bigint] that
    gets here has no [replace] method. *)
Definition fromDecimal_amount (math : Amounts.TokenAmountMath) (value : Amounts.BigintLike)
    : result Z :=
  match value with
  | Amounts.text s =>
      Amounts.fromDecimal math s
        {| Amounts.label := Some "amount"%string; Amounts.rounding := None |}
  | Amounts.big _ => Throw (TypeError "value.replace is not a function")
  end.

Definition prepareTransfer (config : SplTransferPrepareConfig) : M PreparedSplTransfer :=
  let commitment := commitment config in
  let! lifetime := resolveLifetime commitment (lifetime config) in
  let! wallet := lift (resolveSigner (authority config) commitment) in
  let signer := signer wallet in
  let mode := mode wallet in
  let! sourceOwner := lift (ensureAddress (sourceOwner config) (Some (address signer))) in
  let! destinationOwner := lift (ensureAddress (Some (destinationOwner config)) None) in
  let! derivedSource := deriveAssociatedTokenAddress sourceOwner in
  let! sourceAta := lift (ensureAddress (sourceToken config) (Some derivedSource)) in
  let! derivedDestination := deriveAssociatedTokenAddress destinationOwner in
  let! destinationAta := lift (ensureAddress (destinationToken config) (Some derivedDestination)) in
  let! math := getTokenMath commitment in
  let! decimals := resolveDecimals commitment in
  let! amount :=
    lift (if default false (amountInBaseUnits config)
          then Amounts.fromBaseUnits (amount config) (Some "amount"%string)
          else fromDecimal_amount math (amount config)) in
  let! createAta :=
    if default true (ensureDestinationAta config) then
      let! found := call (GetAccountInfo destinationAta commitment)
                      (fun tr => getAccountInfo runtime tr destinationAta commitment) in
      if found then ret []
      else ret [getCreateAssociatedTokenInstruction destinationAta mintAddress destinationOwner
                  signer tokenProgram]
    else ret [] in
  let! transfer :=
    lift (getTransferCheckedInstruction amount signer decimals destinationAta mintAddress
            sourceAta) in
  let instructionList := createAta ++ [transfer] in
  let message :=
    appendTransactionMessageInstructions instructionList
      (setTransactionMessageLifetimeUsingBlockhash lifetime
         (setTransactionMessageFeePayer (address signer)
            (createTransactionMessage (default v0 (transactionVersion config))))) in
  ret {| prepared_amount := amount;
         prepared_commitment := commitment;
         prepared_decimals := decimals;
         prepared_destinationAta := destinationAta;
         prepared_lifetime := lifetime;
         prepared_message := message;
         prepared_mode := mode;
         prepared_signer := signer;
         prepared_sourceAta := sourceAta |}.

Definition sendPreparedTransfer (prepared : PreparedSplTransfer) (options : SolTransferSendOptions)
    : M string :=
  if mode_eqb (prepared_mode prepared) send && isTransactionSendingSigner (prepared_signer prepared)
  then
    let! signatureBytes :=
      call (SignAndSendTransactionMessageWithSigners (prepared_message prepared))
        (fun tr => signAndSendTransactionMessageWithSigners runtime tr
                     (prepared_message prepared)) in
    lift (signature runtime signatureBytes)
  else
    let! signed := call (SignTransactionMessageWithSigners (prepared_message prepared))
                     (fun tr => signTransactionMessageWithSigners runtime tr
                                  (prepared_message prepared)) in
    let! maxRetries :=
      match send_maxRetries options with
      | None => ret None
      | Some (Transactions.bigint z) => ret (Some z)
      | Some (Transactions.number x) =>
          match JsNumber.to_bigint x with
          | Some z => ret (Some z)
          | None => throw (RangeError "The number cannot be converted to a BigInt because it is not an integer")
          end
      end in
    let config :=
      {| maxRetries := maxRetries;
         preflightCommitment :=
           match send_commitment options with
           | Some c => Some c
           | None => prepared_commitment prepared
           end;
         skipPreflight := send_skipPreflight options |} in
    let! response :=
      call (SendTransaction signed config)
        (fun tr => Runtime.sendTransaction runtime tr signed config) in
    lift (signature runtime response).

Definition sendTransfer (config : SplTransferPrepareConfig) (options : SolTransferSendOptions)
    : M string :=
  let! prepared := prepareTransfer config in
  try_catch (sendPreparedTransfer prepared options)
    (fun error =>
       if isSolanaError error SOLANA_ERROR__TRANSACTION_ERROR__ALREADY_PROCESSED then
         let! retriedPrepared := prepareTransfer (with_lifetime_cleared config) in
         sendPreparedTransfer retriedPrepared options
       else throw error).

End Helper.

End Spl.

(** Vocabulary for the SPL retry policy. *)

Module SplSpec.
Import Kit Runtime.

(** A send attempt starts by handing the message to the signers: to sign
    and send it, or to sign it for the transport. *)
Definition is_attempt (ev : Event) : bool :=
  match ev with
  | SignAndSendTransactionMessageWithSigners _ => true
  | SignTransactionMessageWithSigners _ => true
  | _ => false
  end.

Definition attempts (w : World) : nat := length (List.filter is_attempt (trace w)).

Definition already_processed (e : exn) : bool :=
  isSolanaError e SOLANA_ERROR__TRANSACTION_ERROR__ALREADY_PROCESSED.

(** The balance that [fetchBalance] reports when it could not read one. *)
Definition missing_balance (ataAddress : Address) (decimals : Z) : Spl.SplTokenBalance :=
  {| Spl.balance_amount := 0;
     Spl.balance_ataAddress := ataAddress;
     Spl.balance_decimals := decimals;
     Spl.balance_exists := false;
     Spl.balance_uiAmount := Amounts.str "0" |}.

End SplSpec.

(** ** state/asyncState.ts *)

Module AsyncState.

Inductive AsyncStatus : Type := error_status | idle | loading | success.

Record AsyncState (T : Type) : Type := {
  data : option T;
  error : option exn;
  status : AsyncStatus;
}.
Arguments data {T} _.
Arguments error {T} _.
Arguments status {T} _.

Definition createInitialAsyncState {T} : AsyncState T :=
  {| data := None; error := None; status := idle |}.

Definition createAsyncState {T} (status : AsyncStatus) (data : option T) (error : option exn)
    : AsyncState T :=
  {| data := data; error := error; status := status |}.

End AsyncState.

(** ** transactions/transactionPoolController.ts *)

Module Pool.
Import Kit AsyncState.

(** A listener is known by its identity; what it does when called is its
    own business, and the controller only calls it. *)
Definition Listener : Type := nat.

Inductive Slice : Type :=
| InstructionsSlice
| PreparedSlice
| PrepareStateSlice
| SendStateSlice.

Record Store (T : Type) : Type := {
  snapshot : T;
  listeners : list Listener;
}.
Arguments snapshot {T} _.
Arguments listeners {T} _.

Definition createStore {T} (initial : T) : Store T :=
  {| snapshot := initial; listeners := [] |}.

(** [updatedAt] and [blockhashMaxAgeMs] are numbers that the caller
    supplies. *)
Record LatestBlockhashCache : Type := {
  updatedAt : float;
  value : BlockhashLifetime;
}.

Record TransactionPoolConfig : Type := {
  config_blockhashMaxAgeMs : option float;
  config_initialInstructions : option (list Instruction);
}.

(** The closure of [createTransactionPoolController]: its constants, its
    variable, its four stores, and the listener calls made so far. *)
Record Controller : Type := {
  initialInstructions : list Instruction;
  blockhashMaxAgeMs : float;
  latestBlockhashCache : option LatestBlockhashCache;
  instructionsStore : Store (list Instruction);
  preparedStore : Store (option Transactions.TransactionPrepared);
  prepareStateStore : Store (AsyncState Transactions.TransactionPrepared);
  sendStateStore : Store (AsyncState string);
  notified : list (Slice * Listener);
}.

Definition createTransactionPoolController (config : TransactionPoolConfig) : Controller :=
  let initialInstructions := default [] (config_initialInstructions config) in
  {| initialInstructions := initialInstructions;
     blockhashMaxAgeMs := default 30000%float (config_blockhashMaxAgeMs config);
     latestBlockhashCache := None;
     instructionsStore := createStore initialInstructions;
     preparedStore := createStore None;
     prepareStateStore := createStore createInitialAsyncState;
     sendStateStore := createStore createInitialAsyncState;
     notified := [] |}.

(** [setSnapshot]: store the value, then call every listener of the store. *)
Definition setSnapshot {T} (next : T) (s : Store T) : Store T :=
  {| snapshot := next; listeners := listeners s |}.

Definition calls (slice : Slice) (ls : list Listener) : list (Slice * Listener) :=
  map (fun l => (slice, l)) ls.

Definition set_instructions (next : list Instruction) (c : Controller) : Controller :=
  {| initialInstructions := initialInstructions c;
     blockhashMaxAgeMs := blockhashMaxAgeMs c;
     latestBlockhashCache := latestBlockhashCache c;
     instructionsStore := setSnapshot next (instructionsStore c);
     preparedStore := preparedStore c;
     prepareStateStore := prepareStateStore c;
     sendStateStore := sendStateStore c;
     notified := notified c ++ calls InstructionsSlice (listeners (instructionsStore c)) |}.

Definition set_prepared (next : option Transactions.TransactionPrepared) (c : Controller)
    : Controller :=
  {| initialInstructions := initialInstructions c;
     blockhashMaxAgeMs := blockhashMaxAgeMs c;
     latestBlockhashCache := latestBlockhashCache c;
     instructionsStore := instructionsStore c;
     preparedStore := setSnapshot next (preparedStore c);
     prepareStateStore := prepareStateStore c;
     sendStateStore := sendStateStore c;
     notified := notified c ++ calls PreparedSlice (listeners (preparedStore c)) |}.

Definition set_prepareState (next : AsyncState Transactions.TransactionPrepared) (c : Controller)
    : Controller :=
  {| initialInstructions := initialInstructions c;
     blockhashMaxAgeMs := blockhashMaxAgeMs c;
     latestBlockhashCache := latestBlockhashCache c;
     instructionsStore := instructionsStore c;
     preparedStore := preparedStore c;
     prepareStateStore := setSnapshot next (prepareStateStore c);
     sendStateStore := sendStateStore c;
     notified := notified c ++ calls PrepareStateSlice (listeners (prepareStateStore c)) |}.

Definition set_sendState (next : AsyncState string) (c : Controller) : Controller :=
  {| initialInstructions := initialInstructions c;
     blockhashMaxAgeMs := blockhashMaxAgeMs c;
     latestBlockhashCache := latestBlockhashCache c;
     instructionsStore := instructionsStore c;
     preparedStore := preparedStore c;
     prepareStateStore := prepareStateStore c;
     sendStateStore := setSnapshot next (sendStateStore c);
     notified := notified c ++ calls SendStateSlice (listeners (sendStateStore c)) |}.

Definition getInstructions (c : Controller) : list Instruction := snapshot (instructionsStore c).
Definition getPrepared (c : Controller) : option Transactions.TransactionPrepared :=
  snapshot (preparedStore c).
Definition getPrepareState (c : Controller) : AsyncState Transactions.TransactionPrepared :=
  snapshot (prepareStateStore c).
Definition getSendState (c : Controller) : AsyncState string := snapshot (sendStateStore c).
Definition getLatestBlockhashCache (c : Controller) : option LatestBlockhashCache :=
  latestBlockhashCache c.

Definition resetDerivedState (c : Controller) : Controller :=
  set_sendState createInitialAsyncState
    (set_prepareState createInitialAsyncState
       (set_prepared None c)).

Definition commitInstructions (next : list Instruction) (c : Controller) : Controller :=
  resetDerivedState (set_instructions next c).

Definition addInstruction (instruction : Instruction) (c : Controller) : Controller :=
  commitInstructions (getInstructions c ++ [instruction]) c.

Definition addInstructions (instructionSet : list Instruction) (c : Controller) : Controller :=
  if (length instructionSet =? 0)%nat then c
  else commitInstructions (getInstructions c ++ instructionSet) c.

Definition replaceInstructions (instructionSet : list Instruction) (c : Controller) : Controller :=
  commitInstructions instructionSet c.

Definition clearInstructions (c : Controller) : Controller :=
  commitInstructions [] c.

(** [current.filter((_, ii) => ii !== index)], from position [ii] on. *)
Fixpoint filter_other_index {A} (ii : Z) (index : float) (l : list A) : list A :=
  match l with
  | [] => []
  | x :: rest =>
      if JsNumber.strict_ne_integer ii index
      then x :: filter_other_index (ii + 1) index rest
      else filter_other_index (ii + 1) index rest
  end.

(** [index] is a number: it need not be an integer. *)
Definition removeInstruction (index : float) (c : Controller) : Controller :=
  let current := getInstructions c in
  if JsNumber.lt_integer index 0 || JsNumber.ge_integer index (Z.of_nat (length current))
  then c
  else commitInstructions (filter_other_index 0 index current) c.

Definition reset (c : Controller) : Controller :=
  commitInstructions (initialInstructions c) c.

Definition ensureInstructions (instructionList : list Instruction) : result unit :=
  if (length instructionList =? 0)%nat
  then Throw (Error "Add at least one instruction before preparing a transaction.")
  else Ok tt.

(** [now] is what [Date.now()] returns at the moment of the call; the
    subtraction and the comparison are those of binary64, and [NaN] is not
    greater than anything. *)
Definition resolveCachedLifetime (now : float) (c : Controller) : option BlockhashLifetime :=
  match latestBlockhashCache c with
  | None => None
  | Some cache =>
      if PrimFloat.ltb (blockhashMaxAgeMs c) (PrimFloat.sub now (updatedAt cache)) then None
      else Some (value cache)
  end.

(** [TransactionPoolPrepareOptions]: a prepare request whose fields are all
    optional, the instructions included. *)
Record TransactionPoolPrepareOptions : Type := {
  abortSignal : option Runtime.AbortSignal;
  authority : option Transactions.TransactionAuthority;
  commitment : option Commitment;
  computeUnitLimit : option Transactions.BigintOrNumber;
  computeUnitPrice : option Transactions.BigintOrNumber;
  feePayer : option Transactions.FeePayerInput;
  instructions : option (list Instruction);
  lifetime : option BlockhashLifetime;
  version : option Transactions.RequestedVersion;
}.

(** [{ ...rest, instructions: nextInstructions }] with the given lifetime. *)
Definition request_of (options : TransactionPoolPrepareOptions)
    (lifetime : option BlockhashLifetime) (nextInstructions : list Instruction)
    : Transactions.TransactionPrepareRequest :=
  {| Transactions.abortSignal := abortSignal options;
     Transactions.authority := authority options;
     Transactions.commitment := commitment options;
     Transactions.computeUnitLimit := computeUnitLimit options;
     Transactions.computeUnitPrice := computeUnitPrice options;
     Transactions.feePayer := feePayer options;
     Transactions.instructions := nextInstructions;
     Transactions.lifetime := lifetime;
     Transactions.version := version options |}.

(** [prepare], up to the moment it awaits [helper.prepare(request)]: the
    new state and the request handed to the helper. *)
Definition prepare_call (options : TransactionPoolPrepareOptions) (now : float) (c : Controller)
    : result (Controller * Transactions.TransactionPrepareRequest) :=
  let nextInstructions := default (getInstructions c) (instructions options) in
  (check ensureInstructions nextInstructions in
   let c := set_prepareState (createAsyncState loading None None) c in
   let cachedLifetime :=
     match lifetime options with
     | Some l => Some l
     | None => resolveCachedLifetime now c
     end in
   let restWithLifetime :=
     match cachedLifetime, lifetime options with
     | Some l, None => Some l
     | _, _ => lifetime options
     end in
   Ok (c, request_of options restWithLifetime nextInstructions))%js.

(** [prepare], from the moment the helper's promise settles. *)
Definition prepare_settle (outcome : result Transactions.TransactionPrepared) (c : Controller)
    : Controller * result Transactions.TransactionPrepared :=
  match outcome with
  | Ok prepared =>
      (set_prepareState (createAsyncState success (Some prepared) None)
         (set_prepared (Some prepared) c),
       Ok prepared)
  | Throw error =>
      (set_prepareState (createAsyncState error_status None (Some error)) c, Throw error)
  end.

Definition resolvePrepared (override : option Transactions.TransactionPrepared) (c : Controller)
    : result Transactions.TransactionPrepared :=
  match override with
  | Some target => Ok target
  | None =>
      match getPrepared c with
      | Some target => Ok target
      | None => Throw (Error "Prepare a transaction before sending.")
      end
  end.

(** [resolveLifetimeOptions] returns the lifetime of the options it
    returns. *)
Definition resolveLifetimeOptions (lifetime : option BlockhashLifetime) (now : float)
    (c : Controller)
    : option BlockhashLifetime :=
  match lifetime with
  | Some l => Some l
  | None =>
      match resolveCachedLifetime now c with
      | None => None
      | Some cachedLifetime => Some cachedLifetime
      end
  end.

(** [send], up to the moment it awaits [helper.send(target, rest)]. *)
Definition send_call (override : option Transactions.TransactionPrepared) (c : Controller)
    : result (Controller * Transactions.TransactionPrepared) :=
  (let* target := resolvePrepared override c in
   Ok (set_sendState (createAsyncState loading None None) c, target))%js.

(** [send] and [prepareAndSend], from the moment the helper's promise
    settles. *)
Definition send_settle (outcome : result string) (c : Controller) : Controller * result string :=
  match outcome with
  | Ok signature =>
      (set_sendState (createAsyncState success (Some signature) None) c, Ok signature)
  | Throw error =>
      (set_sendState (createAsyncState error_status None (Some error)) c, Throw error)
  end.

(** [prepareAndSend], up to the moment it awaits [helper.prepareAndSend]. *)
Definition prepareAndSend_call (request : TransactionPoolPrepareOptions) (now : float)
    (c : Controller)
    : result (Controller * Transactions.TransactionPrepareRequest) :=
  let nextInstructions := default (getInstructions c) (instructions request) in
  (check ensureInstructions nextInstructions in
   let c := set_sendState (createAsyncState loading None None) c in
   let restWithLifetime := resolveLifetimeOptions (lifetime request) now c in
   Ok (c, request_of request restWithLifetime nextInstructions))%js.

(** [sign] and [toWire] resolve the target, hand it to the helper and
    return the helper's promise. *)
Definition sign {A} (helper_sign : Transactions.TransactionPrepared -> Runtime.M A)
    (override : option Transactions.TransactionPrepared) (c : Controller) : Runtime.M A :=
  Runtime.bind (Runtime.lift (resolvePrepared override c)) helper_sign.

Definition toWire {A} (helper_toWire : Transactions.TransactionPrepared -> Runtime.M A)
    (override : option Transactions.TransactionPrepared) (c : Controller) : Runtime.M A :=
  Runtime.bind (Runtime.lift (resolvePrepared override c)) helper_toWire.

Definition setLatestBlockhashCache (cache : option LatestBlockhashCache) (c : Controller)
    : Controller :=
  {| initialInstructions := initialInstructions c;
     blockhashMaxAgeMs := blockhashMaxAgeMs c;
     latestBlockhashCache := cache;
     instructionsStore := instructionsStore c;
     preparedStore := preparedStore c;
     prepareStateStore := prepareStateStore c;
     sendStateStore := sendStateStore c;
     notified := notified c |}.

(** [listeners.add(listener)] on a [Set]. *)
Definition add_listener (l : Listener) (ls : list Listener) : list Listener :=
  if existsb (Nat.eqb l) ls then ls else ls ++ [l].

Definition subscribe_store {T} (l : Listener) (s : Store T) : Store T :=
  {| snapshot := snapshot s; listeners := add_listener l (listeners s) |}.

Definition subscribe (slice : Slice) (l : Listener) (c : Controller) : Controller :=
  {| initialInstructions := initialInstructions c;
     blockhashMaxAgeMs := blockhashMaxAgeMs c;
     latestBlockhashCache := latestBlockhashCache c;
     instructionsStore :=
       match slice with
       | InstructionsSlice => subscribe_store l (instructionsStore c)
       | _ => instructionsStore c
       end;
     preparedStore :=
       match slice with
       | PreparedSlice => subscribe_store l (preparedStore c)
       | _ => preparedStore c
       end;
     prepareStateStore :=
       match slice with
       | PrepareStateSlice => subscribe_store l (prepareStateStore c)
       | _ => prepareStateStore c
       end;
     sendStateStore :=
       match slice with
       | SendStateSlice => subscribe_store l (sendStateStore c)
       | _ => sendStateStore c
       end;
     notified := notified c |}.

(** What can happen to a controller, one synchronous stretch at a time. *)
Inductive Action : Type :=
| AddInstruction (instruction : Instruction)
| AddInstructions (instructionSet : list Instruction)
| RemoveInstruction (index : float)
| ReplaceInstructions (instructionSet : list Instruction)
| ClearInstructions
| Reset
| PrepareCall (options : TransactionPoolPrepareOptions) (now : float)
| PrepareSettle (outcome : result Transactions.TransactionPrepared)
| SendCall (override : option Transactions.TransactionPrepared)
| SendSettle (outcome : result string)
| PrepareAndSendCall (request : TransactionPoolPrepareOptions) (now : float)
| SetLatestBlockhashCache (cache : option LatestBlockhashCache)
| Subscribe (slice : Slice) (listener : Listener).

Definition step (c : Controller) (a : Action) : Controller :=
  match a with
  | AddInstruction instruction => addInstruction instruction c
  | AddInstructions instructionSet => addInstructions instructionSet c
  | RemoveInstruction index => removeInstruction index c
  | ReplaceInstructions instructionSet => replaceInstructions instructionSet c
  | ClearInstructions => clearInstructions c
  | Reset => reset c
  | PrepareCall options now =>
      match prepare_call options now c with
      | Ok (c', _) => c'
      | Throw _ => c
      end
  | PrepareSettle outcome => fst (prepare_settle outcome c)
  | SendCall override =>
      match send_call override c with
      | Ok (c', _) => c'
      | Throw _ => c
      end
  | SendSettle outcome => fst (send_settle outcome c)
  | PrepareAndSendCall request now =>
      match prepareAndSend_call request now c with
      | Ok (c', _) => c'
      | Throw _ => c
      end
  | SetLatestBlockhashCache cache => setLatestBlockhashCache cache c
  | Subscribe slice listener => subscribe slice listener c
  end.

Definition run (c : Controller) (history : list Action) : Controller :=
  fold_left step history c.

End Pool.

(** Vocabulary for the controller's invariants. *)

Module SplExamples.
Import Kit Runtime Spl.
Local Open Scope string_scope.

(** A transport whose token-account balance query is rejected. *)
Definition no_balance_rpc : SolanaClientRuntime :=
  {| getLatestBlockhash := fun _ _ => Ok {| blockhash := "abc"; lastValidBlockHeight := 123 |};
     simulateTransaction := fun _ _ => Ok None;
     sendTransaction := fun _ _ _ => Ok "signature";
     getAccountInfo := fun _ _ _ => Ok true;
     getTokenAccountBalance := fun _ _ _ => Throw (Foreign 503);
     signTransactionMessageWithSigners := fun _ m => Ok m;
     signAndSendTransactionMessageWithSigners := fun _ _ => Ok "signature";
     fetchMint := fun _ _ _ => Ok 6;
     findAssociatedTokenPda := fun _ _ owner _ => Ok ("ata-of-" ++ owner);
     assertIsSignature := fun _ => Ok tt |}.

(** A transport whose blockhash query is rejected. *)
Definition no_blockhash_rpc : SolanaClientRuntime :=
  {| getLatestBlockhash := fun _ _ => Throw (Foreign 429);
     simulateTransaction := fun _ _ => Ok None;
     sendTransaction := fun _ _ _ => Ok "signature";
     getAccountInfo := fun _ _ _ => Ok true;
     getTokenAccountBalance := fun _ _ _ =>
       Ok {| Runtime.amount := Amounts.str "0"; Runtime.uiAmountString := None |};
     signTransactionMessageWithSigners := fun _ m => Ok m;
     signAndSendTransactionMessageWithSigners := fun _ _ => Ok "signature";
     fetchMint := fun _ _ _ => Ok 6;
     findAssociatedTokenPda := fun _ _ owner _ => Ok owner;
     assertIsSignature := fun _ => Ok tt |}.

(** A request that leaves the lifetime to be fetched. *)
Definition blockhash_request : Transactions.TransactionPrepareRequest :=
  {| Transactions.abortSignal := None;
     Transactions.authority :=
       Some (Transactions.AuthoritySigner
               {| address := "payer"; signTransactions := true;
                  modifyAndSignTransactions := false;
                  signAndSendTransactions := false |});
     Transactions.commitment := None;
     Transactions.computeUnitLimit := None;
     Transactions.computeUnitPrice := None;
     Transactions.feePayer := None;
     Transactions.instructions := [TransactionsExamples.plain_instruction];
     Transactions.lifetime := None;
     Transactions.version := None |}.

(** A transport that answers the first submission with 'already
    processed' and accepts every later one. *)
Definition submitted_before (tr : Trace) : bool :=
  existsb (fun ev => match ev with SendTransaction _ _ => true | _ => false end) tr.

Definition flaky_rpc : SolanaClientRuntime :=
  {| getLatestBlockhash := fun _ _ => Ok {| blockhash := "fresh"; lastValidBlockHeight := 456 |};
     simulateTransaction := fun _ _ => Ok None;
     sendTransaction := fun tr _ _ =>
       if submitted_before tr then Ok "signature"
       else Throw (SolanaError TRANSACTION_ERROR__ALREADY_PROCESSED);
     getAccountInfo := fun _ _ _ => Ok true;
     getTokenAccountBalance := fun _ _ _ =>
       Ok {| Runtime.amount := Amounts.str "0"; Runtime.uiAmountString := None |};
     signTransactionMessageWithSigners := fun _ m => Ok m;
     signAndSendTransactionMessageWithSigners := fun _ _ => Ok "signature";
     fetchMint := fun _ _ _ => Ok 6;
     findAssociatedTokenPda := fun _ _ owner _ => Ok ("ata-of-" ++ owner);
     assertIsSignature := fun _ => Ok tt |}.

(** A transport that answers every submission with 'already processed'. *)
Definition stuck_rpc : SolanaClientRuntime :=
  {| getLatestBlockhash := fun _ _ => Ok {| blockhash := "fresh"; lastValidBlockHeight := 456 |};
     simulateTransaction := fun _ _ => Ok None;
     sendTransaction := fun _ _ _ => Throw (SolanaError TRANSACTION_ERROR__ALREADY_PROCESSED);
     getAccountInfo := fun _ _ _ => Ok true;
     getTokenAccountBalance := fun _ _ _ =>
       Ok {| Runtime.amount := Amounts.str "0"; Runtime.uiAmountString := None |};
     signTransactionMessageWithSigners := fun _ m => Ok m;
     signAndSendTransactionMessageWithSigners := fun _ _ => Ok "signature";
     fetchMint := fun _ _ _ => Ok 6;
     findAssociatedTokenPda := fun _ _ owner _ => Ok ("ata-of-" ++ owner);
     assertIsSignature := fun _ => Ok tt |}.

(** A transfer of 1.5 tokens signed by a partial signer, with a lifetime
    that the caller brought along. *)
Definition transfer_config : SplTransferPrepareConfig :=
  {| amount := Amounts.text (Amounts.str "1.5");
     amountInBaseUnits := None;
     authority := AuthoritySigner
                    {| address := "payer"; signTransactions := true;
                       modifyAndSignTransactions := false;
                       signAndSendTransactions := false |};
     commitment := None;
     destinationOwner := "destination";
     destinationToken := None;
     ensureDestinationAta := None;
     lifetime := Some {| blockhash := "stale"; lastValidBlockHeight := 123 |};
     sourceOwner := None;
     sourceToken := None;
     transactionVersion := None |}.

Definition no_send_options : SolTransferSendOptions :=
  {| send_commitment := None; send_maxRetries := None; send_skipPreflight := None |}.

Definition sendTransfer_run (rpc : SolanaClientRuntime) : result string * World :=
  sendTransfer rpc TransactionsExamples.any_address "mint" TOKEN_PROGRAM_ADDRESS
    transfer_config no_send_options fresh_world.

(** The calls of a run, by kind. *)
Inductive CallKind : Type :=
| Blockhash | Simulate | Submit | Sign | SignAndSend | AccountInfo | Balance | Mint | Pda | Log.

Definition kind_of (ev : Event) : CallKind :=
  match ev with
  | GetLatestBlockhash _ => Blockhash
  | SimulateTransaction _ => Simulate
  | SendTransaction _ _ => Submit
  | SignTransactionMessageWithSigners _ => Sign
  | SignAndSendTransactionMessageWithSigners _ => SignAndSend
  | GetAccountInfo _ _ => AccountInfo
  | GetTokenAccountBalance _ _ => Balance
  | FetchMint _ _ => Mint
  | FindAssociatedTokenPda _ _ _ => Pda
  | LogRequest _ => Log
  end.

Definition fetchBalance_run : result SplTokenBalance * World :=
  fetchBalance no_balance_rpc TransactionsExamples.any_address "mint" TOKEN_PROGRAM_ADDRESS
    "owner" None fresh_world.

End SplExamples.

Module PoolSpec.
Import Kit AsyncState Pool.

Definition is_mutation (a : Action) : bool :=
  match a with
  | AddInstruction _ | AddInstructions _ | RemoveInstruction _
  | ReplaceInstructions _ | ClearInstructions | Reset => true
  | _ => false
  end.

(** The mutations that return before touching anything. *)
Definition returns_early (c : Controller) (a : Action) : bool :=
  match a with
  | AddInstructions instructionSet => (length instructionSet =? 0)%nat
  | RemoveInstruction index =>
      JsNumber.lt_integer index 0 ||
      JsNumber.ge_integer index (Z.of_nat (length (getInstructions c)))
  | _ => false
  end.

(** Prepared snapshot null, and both async states idle. *)
Definition derived_state_idle (c : Controller) : Prop :=
  getPrepared c = None /\
  status (getPrepareState c) = idle /\
  status (getSendState c) = idle.

(** The cached lifetime was put into the request as its default. *)
Definition injected (options : TransactionPoolPrepareOptions)
    (request : Transactions.TransactionPrepareRequest) (cache : LatestBlockhashCache) : Prop :=
  lifetime options = None /\ Transactions.lifetime request = Some (value cache).

End PoolSpec.

Module PoolExamples.
Import Kit AsyncState Pool.

Definition empty_config : TransactionPoolConfig :=
  {| config_blockhashMaxAgeMs := None; config_initialInstructions := None |}.

Definition no_options : TransactionPoolPrepareOptions :=
  {| abortSignal := None; authority := None; commitment := None;
     computeUnitLimit := None; computeUnitPrice := None; feePayer := None;
     instructions := None; lifetime := None; version := None |}.

Definition some_lifetime : BlockhashLifetime :=
  {| blockhash := "abc"; lastValidBlockHeight := 123 |}.

Definition some_prepared : Transactions.TransactionPrepared :=
  {| Transactions.prepared_commitment := confirmed;
     Transactions.prepared_computeUnitLimit := None;
     Transactions.prepared_computeUnitPrice := None;
     Transactions.prepared_feePayer := "payer"%string;
     Transactions.prepared_instructions := [TransactionsExamples.plain_instruction];
     Transactions.prepared_lifetime := some_lifetime;
     Transactions.prepared_message :=
       setTransactionMessageLifetimeUsingBlockhash some_lifetime
         (appendTransactionMessageInstructions [TransactionsExamples.plain_instruction]
            (setTransactionMessageFeePayer "payer"%string (createTransactionMessage legacy)));
     Transactions.prepared_mode := Signers.partial;
     Transactions.prepared_version := legacy |}.

Definition fresh_cache : LatestBlockhashCache :=
  {| updatedAt := 1000%float; value := some_lifetime |}.

(** One instruction in the pool, and a lifetime cached at time 1000. *)
Definition cached_controller : Controller :=
  setLatestBlockhashCache (Some fresh_cache)
    (addInstruction TransactionsExamples.plain_instruction
       (createTransactionPoolController empty_config)).

(** One instruction added, then a prepare that succeeds. *)
Definition prepared_history : list Action :=
  [AddInstruction TransactionsExamples.plain_instruction;
   PrepareCall no_options 1000%float;
   PrepareSettle (Ok some_prepared)].

Definition prepared_controller : Controller :=
  run (createTransactionPoolController empty_config) prepared_history.

(** The same, with one listener on each of the four stores. *)
Definition watched_prepared_controller : Controller :=
  run (createTransactionPoolController empty_config)
    ([Subscribe InstructionsSlice 1%nat; Subscribe PreparedSlice 2%nat;
      Subscribe PrepareStateSlice 3%nat; Subscribe SendStateSlice 4%nat]
     ++ prepared_history).

End PoolExamples.
(** * Further sources

    - [numeric/math.ts], the checked operations       (module [Checked])
    - [numeric/rational.ts]                           (module [Rational])
    - [numeric/amounts.ts], the arithmetic methods    (module [AmountsArith])
    - [serialization/json.ts], [numeric/lamports.ts]  (module [Json])
    - [features/sol.ts]                               (module [Sol])
    - [client/createClientHelpers.ts]                 (module [ClientHelpers])
    - [controllers/solTransferController.ts]          (module [SolController])
    - [transactions/referenceKeys.ts]                 (module [ReferenceKeys])
    - [signers/walletTransactionSigner.ts], the methods of the two
      signers                                         (module [WalletSigner])

    Signature maps are finite maps from addresses, so that the object
    spread is the union that prefers its right operand. *)

From stdpp Require Import gmap strings.

Local Open Scope Z_scope.

(** ** numeric/math.ts: the checked operations *)

Module Checked.
Import Amounts.
Local Open Scope js_scope.

Definition checkedAdd (lhs rhs : Z) (label : option string) : result Z :=
  let result := lhs + rhs in
  check assertNonNegative result (default "result"%string label) in
  Ok result.

Definition checkedSubtract (lhs rhs : Z) (label : option string) : result Z :=
  let result := lhs - rhs in
  check assertNonNegative result (default "result"%string label) in
  Ok result.

Definition checkedMultiply (lhs rhs : Z) (label : option string) : result Z :=
  let result := lhs * rhs in
  check assertNonNegative result (default "result"%string label) in
  Ok result.

(** [bigint] division truncates towards zero. *)
Definition checkedDivide (dividend divisor : Z) (label : option string) : result Z :=
  if divisor =? 0 then Throw (RangeError "divisor must be non-zero")
  else
    let result := Z.quot dividend divisor in
    check assertNonNegative result (default "result"%string label) in
    Ok result.

End Checked.

(** ** numeric/rational.ts *)

Module Rational.
Import Amounts.
Local Open Scope js_scope.

Record Ratio : Type := {
  denominator : Z;
  numerator : Z;
}.

Definition divideWithRounding (dividend divisor : Z) (rounding : RoundingMode) : result Z :=
  if divisor <=? 0 then Throw (RangeError "divisor must be positive")
  else
    let base := Z.quot dividend divisor in
    let remainder := Z.rem dividend divisor in
    if remainder =? 0 then Ok base
    else
      match rounding with
      | ceil => Ok (base + 1)
      | round =>
          let twice := remainder * 2 in
          if divisor <=? twice then Ok (base + 1) else Ok base
      | floor => Ok base
      end.

Definition createRatio (numeratorInput denominatorInput : BigintLike) : result Ratio :=
  let* numerator := toBigint numeratorInput "numerator" in
  let* denominator := toBigint denominatorInput "denominator" in
  if denominator <=? 0 then Throw (RangeError "denominator must be positive")
  else
    check assertNonNegative numerator "numerator" in
    Ok {| denominator := denominator; numerator := numerator |}.

(** [ApplyRatioOptions] has the one field [rounding]. *)
Definition applyRatio (amount : Z) (ratio : Ratio) (rounding : option RoundingMode) : result Z :=
  check assertNonNegative amount "amount" in
  let dividend := amount * numerator ratio in
  let rounding := default floor rounding in
  divideWithRounding dividend (denominator ratio) rounding.

End Rational.

(** ** numeric/amounts.ts: arithmetic on amounts *)

Module AmountsArith.
Import Amounts.
Local Open Scope js_scope.

Definition add (math : TokenAmountMath) (lhs rhs : Z) : result Z :=
  let* l := fromBaseUnits (big lhs) None in
  let* r := fromBaseUnits (big rhs) None in
  Checked.checkedAdd l r None.

Definition subtract (math : TokenAmountMath) (lhs rhs : Z) : result Z :=
  let* l := fromBaseUnits (big lhs) None in
  let* r := fromBaseUnits (big rhs) None in
  Checked.checkedSubtract l r None.

Definition multiplyByRatio (math : TokenAmountMath) (amount : Z) (ratio : Rational.Ratio)
    (rounding : option RoundingMode) : result Z :=
  let* a := fromBaseUnits (big amount) None in
  Rational.applyRatio a ratio rounding.

Definition isZero (math : TokenAmountMath) (amount : Z) : result bool :=
  let* a := fromBaseUnits (big amount) None in
  Ok (a =? 0).

Definition compare (math : TokenAmountMath) (lhs rhs : Z) : result Z :=
  let* left := fromBaseUnits (big lhs) None in
  let* right := fromBaseUnits (big rhs) None in
  if right <? left then Ok 1
  else if left <? right then Ok (-1)
  else Ok 0.

End AmountsArith.

(** ** serialization/json.ts and numeric/lamports.ts *)

Module Json.
Import Amounts.
Local Open Scope js_scope.

Definition bigintToJson (value : Z) : jsstring := toString value.

Definition bigintFromJson (value : BigintLike) : result Z := toBigint value "bigint".

(** [lamports(value, label)] is [createTokenAmount(9).fromBaseUnits]. *)
Definition lamports (value : BigintLike) (label : option string) : result Z :=
  fromBaseUnits value label.

Definition lamportsToJson (value : Z) : jsstring := toString value.

Definition lamportsFromJson (value : BigintLike) : result Z :=
  lamports value (Some "lamports"%string).

End Json.

(** Vocabulary for the amount facts. *)

Module AmountsArithSpec.
Import Amounts.

(** [r] is the quotient [p / q] rounded as the mode says. *)
Definition rounded (mode : RoundingMode) (p q r : Z) : Prop :=
  match mode with
  | floor => q * r <= p < q * (r + 1)
  | ceil => q * (r - 1) < p <= q * r
  | round => 2 * q * r - q <= 2 * p < 2 * q * r + q
  end.

Definition valid_format (d : Z) (options : FormatAmountOptions) : Prop :=
  0 <= default 0 (minimumFractionDigits options) <= d.

End AmountsArithSpec.

Module TunerMoreExamples.
Import Kit Runtime Tuner.

(** What the tuner makes of the test's message, and the world after. *)
Definition tuned_run : result TransactionMessage * World :=
  prepareTransaction (TunerExamples.mock_rpc 500000) TunerExamples.config fresh_world.

Definition tuned : TransactionMessage :=
  match fst tuned_run with
  | Ok m => m
  | Throw _ => TunerExamples.message
  end.

(** A second pass over a tuned message, with the blockhash left alone. *)
Definition again (transaction : TransactionMessage) (multiplier : option float)
    : PrepareTransactionConfig :=
  {| transaction := transaction;
     computeUnitLimitMultiplier := multiplier;
     computeUnitLimitReset := None;
     blockhashReset := Some false;
     logRequest := false |}.

End TunerMoreExamples.

Module TransactionsMoreExamples.
Import Kit Runtime Signers Transactions.
Local Open Scope string_scope.

(** A request that fixes its compute budget and brings no lifetime. *)
Definition budget_request : TransactionPrepareRequest :=
  {| abortSignal := None;
     authority := Some (AuthoritySigner
                          {| address := "payer"; signTransactions := true;
                             modifyAndSignTransactions := false;
                             signAndSendTransactions := false |});
     commitment := Some finalized;
     computeUnitLimit := Some (bigint 400000);
     computeUnitPrice := Some (bigint 5);
     feePayer := None;
     instructions := [TransactionsExamples.plain_instruction];
     lifetime := None;
     version := None |}.

Definition budget_run : result TransactionPrepared * World :=
  prepare (TunerExamples.mock_rpc 0) TransactionsExamples.fallback
    TransactionsExamples.any_address budget_request fresh_world.

Definition budget_prepared : TransactionPrepared :=
  match fst budget_run with
  | Ok p => p
  | Throw _ => PoolExamples.some_prepared
  end.

Definition no_send_options : TransactionSendOptions :=
  {| send_abortSignal := None; send_commitment := None;
     send_maxRetries := None; send_skipPreflight := None |}.

End TransactionsMoreExamples.

(** Vocabulary for the tuning step of [prepareAndSend]. *)
Module TransactionsSpec.
Import Kit Transactions.

(** The settings under which the tuner neither re-estimates an existing
    limit, nor refreshes the blockhash, nor logs: [blockhashReset] is absent
    or [false]. *)
Definition gentle (setting : option PrepareTransactionSetting) : bool :=
  match setting with
  | None => true
  | Some disabled => true
  | Some (overrides _ reset blockhashReset logRequest) =>
      negb (default false reset) &&
      match blockhashReset with
      | absent | present (Some false) => true
      | present _ => false
      end &&
      negb logRequest
  end.

(** The request fixes the compute unit limit itself. *)
Definition brings_limit (request : TransactionPrepareRequest) : bool :=
  match computeUnitLimit request with
  | Some _ => true
  | None => hasSetComputeUnitLimitInstruction (instructions request)
  end.

(** The compute-budget instructions that [prepare] puts in front. *)
Definition prefix_of (limit price : option Z) : result (list Instruction) :=
  (let* limitPrefix :=
     match limit with
     | Some units =>
         let* instruction := getSetComputeUnitLimitInstruction (JsNumber.of_bigint units) in
         Ok [instruction]
     | None => Ok []
     end in
   let* pricePrefix :=
     match price with
     | Some p =>
         let* instruction := getSetComputeUnitPriceInstruction (JsNumber.of_bigint p) in
         Ok [instruction]
     | None => Ok []
     end in
   Ok (limitPrefix ++ pricePrefix))%js.

End TransactionsSpec.

(** Vocabulary for the controller's stores. *)
Module PoolMoreSpec.
Import Kit AsyncState Pool.

(** An async state carries data exactly when it reports success, and an
    error only when it reports an error. *)
Definition well_formed {T} (s : AsyncState T) : Prop :=
  match status s with
  | success => data s <> None /\ error s = None
  | error_status => data s = None
  | idle | loading => data s = None /\ error s = None
  end.

(** The four listener calls of a committing mutation, in order. *)
Definition commit_calls (c : Controller) : list (Slice * Listener) :=
  calls InstructionsSlice (listeners (instructionsStore c)) ++
  calls PreparedSlice (listeners (preparedStore c)) ++
  calls PrepareStateSlice (listeners (prepareStateStore c)) ++
  calls SendStateSlice (listeners (sendStateStore c)).

Definition listeners_of (slice : Slice) (c : Controller) : list Listener :=
  match slice with
  | InstructionsSlice => listeners (instructionsStore c)
  | PreparedSlice => listeners (preparedStore c)
  | PrepareStateSlice => listeners (prepareStateStore c)
  | SendStateSlice => listeners (sendStateStore c)
  end.

End PoolMoreSpec.

Module PoolMoreExamples.
Import Kit AsyncState Pool.

(** Two listeners on the instruction list, one of them subscribed twice,
    and one listener on the send state. *)
Definition watched_history : list Action :=
  [Subscribe InstructionsSlice 1%nat;
   Subscribe InstructionsSlice 2%nat;
   Subscribe InstructionsSlice 1%nat;
   Subscribe SendStateSlice 3%nat;
   AddInstruction TransactionsExamples.plain_instruction].

End PoolMoreExamples.

(** ** features/sol.ts *)

Module Sol.
Import Kit Runtime Signers.
Local Open Scope async_scope.

Inductive SolTransferAuthority : Type :=
| AuthoritySigner (signer : TransactionSigner)
| AuthoritySession (session : WalletSession).

(** The amount is a [bigint] or a string here, as in [Amounts.BigintLike]. *)
Record SolTransferPrepareConfig : Type := {
  amount : Amounts.BigintLike;
  authority : SolTransferAuthority;
  commitment : option Commitment;
  destination : string;
  lifetime : option BlockhashLifetime;
  transactionVersion : option TransactionVersion;
}.

Record PreparedSolTransfer : Type := {
  prepared_commitment : option Commitment;
  prepared_lifetime : BlockhashLifetime;
  prepared_message : TransactionMessage;
  prepared_mode : WalletTransactionSignerMode;
  prepared_signer : TransactionSigner;
}.

Definition resolveSigner (authority : SolTransferAuthority) (commitment : option Commitment)
    : result WalletTransactionSigner :=
  match authority with
  | AuthoritySession session => createWalletTransactionSigner session commitment
  | AuthoritySigner s => Ok {| mode := resolveSignerMode s; signer := s |}
  end.

(** [lamportsMath.fromLamports(input)] *)
Definition toLamportAmount (input : Amounts.BigintLike) : result Z :=
  Amounts.fromBaseUnits input None.

Section Helper.
(** [createSolTransferHelper(runtime)].  The System Program client builds
    the transfer instruction from the amount, the destination and the
    source signer; what it encodes, and which amounts its encoder refuses,
    is for that client to say. *)
Variable runtime : SolanaClientRuntime.
Variable isAddress : string -> bool.
Variable getTransferSolInstruction : Z -> Address -> TransactionSigner -> result Instruction.

(** An [Address] is a string at run time, so [address(value)] always runs. *)
Definition ensureAddress (value : string) : result Address :=
  Transactions.toAddress isAddress value.

Definition resolveLifetime (commitment : option Commitment) (fallback : option BlockhashLifetime)
    : M BlockhashLifetime :=
  match fallback with
  | Some l => ret l
  | None => call (GetLatestBlockhash commitment) (fun tr => getLatestBlockhash runtime tr commitment)
  end.

Definition prepareTransfer (config : SolTransferPrepareConfig) : M PreparedSolTransfer :=
  let commitment := commitment config in
  let! lifetime := resolveLifetime commitment (lifetime config) in
  let! wallet := lift (resolveSigner (authority config) commitment) in
  let signer := signer wallet in
  let mode := mode wallet in
  let! destination := lift (ensureAddress (destination config)) in
  let! amount := lift (toLamportAmount (amount config)) in
  let! instruction := lift (getTransferSolInstruction amount destination signer) in
  let message :=
    appendTransactionMessageInstruction instruction
      (setTransactionMessageLifetimeUsingBlockhash lifetime
         (setTransactionMessageFeePayer (address signer)
            (createTransactionMessage (default v0 (transactionVersion config))))) in
  ret {| prepared_commitment := commitment;
         prepared_lifetime := lifetime;
         prepared_message := message;
         prepared_mode := mode;
         prepared_signer := signer |}.

Definition sendPreparedTransfer (prepared : PreparedSolTransfer)
    (options : Spl.SolTransferSendOptions) : M string :=
  if mode_eqb (prepared_mode prepared) send && isTransactionSendingSigner (prepared_signer prepared)
  then
    let! signatureBytes :=
      call (SignAndSendTransactionMessageWithSigners (prepared_message prepared))
        (fun tr => signAndSendTransactionMessageWithSigners runtime tr
                     (prepared_message prepared)) in
    lift (signature runtime signatureBytes)
  else
    let! signed := call (SignTransactionMessageWithSigners (prepared_message prepared))
                     (fun tr => signTransactionMessageWithSigners runtime tr
                                  (prepared_message prepared)) in
    let! maxRetries :=
      match Spl.send_maxRetries options with
      | None => ret None
      | Some (Transactions.bigint z) => ret (Some z)
      | Some (Transactions.number x) =>
          match JsNumber.to_bigint x with
          | Some z => ret (Some z)
          | None => throw (RangeError "The number cannot be converted to a BigInt because it is not an integer")
          end
      end in
    let config :=
      {| maxRetries := maxRetries;
         preflightCommitment :=
           match Spl.send_commitment options with
           | Some c => Some c
           | None => prepared_commitment prepared
           end;
         skipPreflight := Spl.send_skipPreflight options |} in
    let! response :=
      call (SendTransaction signed config)
        (fun tr => Runtime.sendTransaction runtime tr signed config) in
    lift (signature runtime response).

Definition sendTransfer (config : SolTransferPrepareConfig) (options : Spl.SolTransferSendOptions)
    : M string :=
  let! prepared := prepareTransfer config in
  sendPreparedTransfer prepared options.

End Helper.

End Sol.

(** ** client/createClientHelpers.ts: the commitment defaults *)

Module ClientHelpers.
Import Kit Runtime.

(** [withDefaultCommitment] on the two configurations it is applied to. *)
Definition withDefaultCommitment_sol (config : Sol.SolTransferPrepareConfig)
    (getFallback : unit -> Commitment) (baseCommitment : option Commitment)
    : Sol.SolTransferPrepareConfig :=
  match Sol.commitment config with
  | Some _ => config
  | None =>
      let commitment := match baseCommitment with Some c => c | None => getFallback tt end in
      {| Sol.amount := Sol.amount config;
         Sol.authority := Sol.authority config;
         Sol.commitment := Some commitment;
         Sol.destination := Sol.destination config;
         Sol.lifetime := Sol.lifetime config;
         Sol.transactionVersion := Sol.transactionVersion config |}
  end.

Definition withDefaultCommitment_spl (config : Spl.SplTransferPrepareConfig)
    (getFallback : unit -> Commitment) (baseCommitment : option Commitment)
    : Spl.SplTransferPrepareConfig :=
  match Spl.commitment config with
  | Some _ => config
  | None =>
      let commitment := match baseCommitment with Some c => c | None => getFallback tt end in
      {| Spl.amount := Spl.amount config;
         Spl.amountInBaseUnits := Spl.amountInBaseUnits config;
         Spl.authority := Spl.authority config;
         Spl.commitment := Some commitment;
         Spl.destinationOwner := Spl.destinationOwner config;
         Spl.destinationToken := Spl.destinationToken config;
         Spl.ensureDestinationAta := Spl.ensureDestinationAta config;
         Spl.lifetime := Spl.lifetime config;
         Spl.sourceOwner := Spl.sourceOwner config;
         Spl.sourceToken := Spl.sourceToken config;
         Spl.transactionVersion := Spl.transactionVersion config |}
  end.

Section Wrappers.
Variable runtime : SolanaClientRuntime.
Variable isAddress : string -> bool.
Variable getFallback : unit -> Commitment.

(** [wrapSolTransferHelper(createSolTransferHelper(runtime), getFallback)] *)
Section SolTransfer.
Variable getTransferSolInstruction : Z -> Address -> TransactionSigner -> result Instruction.

Definition sol_prepareTransfer (config : Sol.SolTransferPrepareConfig)
    : M Sol.PreparedSolTransfer :=
  Sol.prepareTransfer runtime isAddress getTransferSolInstruction
    (withDefaultCommitment_sol config getFallback None).

Definition sol_sendTransfer (config : Sol.SolTransferPrepareConfig)
    (options : Spl.SolTransferSendOptions) : M string :=
  Sol.sendTransfer runtime isAddress getTransferSolInstruction
    (withDefaultCommitment_sol config getFallback None) options.

End SolTransfer.

(** [wrapSplTokenHelper(createSplTokenHelper(runtime, config), getFallback, config.commitment)] *)
Section SplToken.
Variable mintAddress : Address.
Variable tokenProgram : Address.
Variable baseCommitment : option Commitment.

Definition resolveCommitment (commitment : option Commitment) : Commitment :=
  match commitment with
  | Some c => c
  | None => match baseCommitment with Some c => c | None => getFallback tt end
  end.

Definition spl_fetchBalance (owner : string) (commitment : option Commitment)
    : M Spl.SplTokenBalance :=
  Spl.fetchBalance runtime isAddress mintAddress tokenProgram owner
    (Some (resolveCommitment commitment)).

Definition spl_prepareTransfer (config : Spl.SplTransferPrepareConfig)
    : M Spl.PreparedSplTransfer :=
  Spl.prepareTransfer runtime isAddress mintAddress tokenProgram
    (withDefaultCommitment_spl config getFallback baseCommitment).

Definition spl_sendTransfer (config : Spl.SplTransferPrepareConfig)
    (options : Spl.SolTransferSendOptions) : M string :=
  Spl.sendTransfer runtime isAddress mintAddress tokenProgram
    (withDefaultCommitment_spl config getFallback baseCommitment) options.

End SplToken.

End Wrappers.

End ClientHelpers.

(** Vocabulary for the SPL helper's two cached variables. *)
Module SplMoreSpec.
Import Kit Runtime.

(** The cached math, when there is one, is the math of the cached
    decimals. *)
Definition consistent (w : World) : Prop :=
  match cachedMath w with
  | Some math =>
      cachedDecimals w = Some (Amounts.decimals math) /\
      Amounts.createTokenAmount (Amounts.decimals math) = Ok math
  | None => True
  end.

(** The instruction list of a prepared transfer: the transfer itself,
    behind the instructions [createAta] that create the destination
    account. *)
Definition transfer_instructions (mintAddress tokenProgram : Address)
    (config : Spl.SplTransferPrepareConfig) (prepared : Spl.PreparedSplTransfer)
    (createAta : list Instruction) : Prop :=
  (exists transfer,
     Spl.getTransferCheckedInstruction (Spl.prepared_amount prepared)
       (Spl.prepared_signer prepared) (Spl.prepared_decimals prepared)
       (Spl.prepared_destinationAta prepared) mintAddress (Spl.prepared_sourceAta prepared)
     = Ok transfer /\
     instructions (Spl.prepared_message prepared) = createAta ++ [transfer]) /\
  (createAta = [] \/
   default true (Spl.ensureDestinationAta config) = true /\
   exists owner,
     createAta = [Spl.getCreateAssociatedTokenInstruction (Spl.prepared_destinationAta prepared)
                    mintAddress owner (Spl.prepared_signer prepared) tokenProgram]).

End SplMoreSpec.

Module SolExamples.
Import Kit Runtime Sol.
Local Open Scope string_scope.

(** A stand-in for the System Program client: the transfer instruction
    with its accounts, the payload kept as the amount's decimal digits. *)
Definition transfer_instruction (amount : Z) (destination : Address) (source : TransactionSigner)
    : result Instruction :=
  Ok {| programAddress := SYSTEM_PROGRAM_ADDRESS;
        accounts := [address source; destination];
        data := Some (Bytes (2 :: map Amounts.code (Amounts.toString amount)));
        addressTableLookup := None;
        addressTableLookups := None |}.

(** A transfer of one SOL by a partial signer, lifetime to be fetched. *)
Definition transfer_config : SolTransferPrepareConfig :=
  {| amount := Amounts.big 1000000000;
     authority := AuthoritySigner
                    {| address := "payer"; signTransactions := true;
                       modifyAndSignTransactions := false;
                       signAndSendTransactions := false |};
     commitment := None;
     destination := "destination";
     lifetime := None;
     transactionVersion := None |}.

Definition sendTransfer_run (rpc : SolanaClientRuntime) : result string * World :=
  sendTransfer rpc TransactionsExamples.any_address transfer_instruction
    transfer_config SplExamples.no_send_options fresh_world.

End SolExamples.

(** Vocabulary for the commitment that the client's helpers ask with. *)
Module ClientHelpersSpec.
Import Kit Runtime.

(** Every call in the stretch satisfies [P]. *)
Definition calls_only {A} (P : Event -> Prop) (m : M A) : Prop :=
  forall w, exists rest, trace (snd (m w)) = trace w ++ rest /\ Forall P rest.

(** The call names commitment [c] where it takes one; a submission names
    the caller's own preflight commitment when there is one, else [c]. *)
Definition asks_at (c : Commitment) (own : option Commitment) (ev : Event) : Prop :=
  match ev with
  | GetLatestBlockhash c' => c' = Some c
  | GetAccountInfo _ c' => c' = Some c
  | GetTokenAccountBalance _ c' => c' = Some c
  | FetchMint _ c' => c' = Some c
  | SendTransaction _ config => preflightCommitment config = Some (default c own)
  | _ => True
  end.

(** [config.commitment ?? baseCommitment ?? getFallback()] *)
Definition resolved (commitment baseCommitment : option Commitment)
    (getFallback : unit -> Commitment) : Commitment :=
  match commitment with
  | Some c => c
  | None => match baseCommitment with Some c => c | None => getFallback tt end
  end.

End ClientHelpersSpec.

(** ** controllers/solTransferController.ts *)

Module SolController.
Import Kit AsyncState.
Local Open Scope js_scope.

Definition Listener : Type := nat.

(** [SolTransferInput]: a transfer configuration whose authority is
    optional. *)
Record SolTransferInput : Type := {
  amount : Amounts.BigintLike;
  authority : option Sol.SolTransferAuthority;
  commitment : option Commitment;
  destination : string;
  lifetime : option BlockhashLifetime;
  transactionVersion : option TransactionVersion;
}.

Definition ensureAuthority (input : SolTransferInput)
    (resolveDefault : option (unit -> option Sol.SolTransferAuthority))
    : result Sol.SolTransferPrepareConfig :=
  let authority :=
    match authority input with
    | Some a => Some a
    | None => match resolveDefault with
              | Some provider => provider tt
              | None => None
              end
    end in
  match authority with
  | None => Throw (Error "Connect a wallet or supply an `authority` before sending SOL transfers.")
  | Some a =>
      Ok {| Sol.amount := amount input;
            Sol.authority := a;
            Sol.commitment := commitment input;
            Sol.destination := destination input;
            Sol.lifetime := lifetime input;
            Sol.transactionVersion := transactionVersion input |}
  end.

(** The closure of [createSolTransferController]: the provider, the state,
    the listener set in insertion order, and the listener calls made so
    far. *)
Record Controller : Type := {
  authorityProvider : option (unit -> option Sol.SolTransferAuthority);
  state : AsyncState string;
  listeners : list Listener;
  notified : list Listener;
}.

Definition createSolTransferController
    (authorityProvider : option (unit -> option Sol.SolTransferAuthority)) : Controller :=
  {| authorityProvider := authorityProvider;
     state := createInitialAsyncState;
     listeners := [];
     notified := [] |}.

(** [setState]: store the state, then [notify()]. *)
Definition setState (next : AsyncState string) (c : Controller) : Controller :=
  {| authorityProvider := authorityProvider c;
     state := next;
     listeners := listeners c;
     notified := notified c ++ listeners c |}.

Definition getState (c : Controller) : AsyncState string := state c.

(** [send], up to the moment it awaits [helper.sendTransfer(request, options)]. *)
Definition send_call (input : SolTransferInput) (c : Controller)
    : result (Controller * Sol.SolTransferPrepareConfig) :=
  let* request := ensureAuthority input (authorityProvider c) in
  Ok (setState (createAsyncState loading None None) c, request).

(** [send], from the moment the helper's promise settles. *)
Definition send_settle (outcome : result string) (c : Controller) : Controller * result string :=
  match outcome with
  | Ok signature => (setState (createAsyncState success (Some signature) None) c, Ok signature)
  | Throw error => (setState (createAsyncState error_status None (Some error)) c, Throw error)
  end.

Definition subscribe (listener : Listener) (c : Controller) : Controller :=
  {| authorityProvider := authorityProvider c;
     state := state c;
     listeners := Pool.add_listener listener (listeners c);
     notified := notified c |}.

(** The function that [subscribe] returns: [listeners.delete(listener)]. *)
Definition unsubscribe (listener : Listener) (c : Controller) : Controller :=
  {| authorityProvider := authorityProvider c;
     state := state c;
     listeners := List.filter (fun l => negb (Nat.eqb l listener)) (listeners c);
     notified := notified c |}.

Definition reset (c : Controller) : Controller := setState createInitialAsyncState c.

Inductive Action : Type :=
| SendCall (input : SolTransferInput)
| SendSettle (outcome : result string)
| Subscribe (listener : Listener)
| Unsubscribe (listener : Listener)
| Reset.

Definition step (c : Controller) (a : Action) : Controller :=
  match a with
  | SendCall input =>
      match send_call input c with
      | Ok (c', _) => c'
      | Throw _ => c
      end
  | SendSettle outcome => fst (send_settle outcome c)
  | Subscribe listener => subscribe listener c
  | Unsubscribe listener => unsubscribe listener c
  | Reset => reset c
  end.

Definition run (c : Controller) (history : list Action) : Controller :=
  fold_left step history c.

(** The history never subscribes [listener]. *)
Definition never_subscribes (listener : Listener) (history : list Action) : Prop :=
  Forall (fun a => match a with
                   | Subscribe l => l <> listener
                   | _ => True
                   end) history.

End SolController.

Module SolControllerExamples.
Import Kit SolController.
Local Open Scope string_scope.

(** A listener that leaves before two state changes. *)
Definition history : list Action :=
  [SendSettle (Ok "signature"); Reset].

Definition watched : Controller :=
  subscribe 2%nat (subscribe 1%nat (createSolTransferController None)).

End SolControllerExamples.

(** ** transactions/referenceKeys.ts *)

Module ReferenceKeys.
Import Kit.
Local Open Scope js_scope.

Inductive AccountRole : Type := READONLY | WRITABLE | READONLY_SIGNER | WRITABLE_SIGNER.

Record AccountMeta : Type := {
  meta_address : Address;
  role : AccountRole;
}.

(** An instruction as this module sees it; [accounts] may be absent. *)
Record IInstruction : Type := {
  programAddress : Address;
  accounts : option (list AccountMeta);
  data : option (list Z);
}.

(** A transaction message: its instructions, and whatever else the object
    carries, which the spread copies. *)
Record BaseTransactionMessage (Rest : Type) : Type := {
  instructions : list IInstruction;
  rest : Rest;
}.
Arguments instructions {Rest} _.
Arguments rest {Rest} _.

Definition MEMO_PROGRAM_ADDRESS : Address := "MemoSq4gqABAXKb96qnH8TysNcWxMyWCqXgDLGmfcHr"%string.

(** [SOLANA_ERROR__INSTRUCTION_ERROR__GENERIC_ERROR] *)
Definition INSTRUCTION_ERROR__GENERIC_ERROR : SolanaErrorCode := OtherCode 4615001.

Definition is_not_memo (instruction : IInstruction) : bool :=
  negb (String.eqb (programAddress instruction) MEMO_PROGRAM_ADDRESS).

Definition ensureNonMemoInstructionIndex (instructions : list IInstruction) : result nat :=
  let index := Tuner.findIndex is_not_memo instructions in
  match index with
  | Some i => if (length instructions =? 0)%nat
              then Throw (SolanaError INSTRUCTION_ERROR__GENERIC_ERROR)
              else Ok i
  | None => Throw (SolanaError INSTRUCTION_ERROR__GENERIC_ERROR)
  end.

Definition readonly (address : Address) : AccountMeta :=
  {| meta_address := address; role := READONLY |}.

Definition insertReferenceKeys {Rest} (references : list Address)
    (transaction : BaseTransactionMessage Rest) : result (BaseTransactionMessage Rest) :=
  let* index := ensureNonMemoInstructionIndex (instructions transaction) in
  match instructions transaction !! index with
  | None => Throw (TypeError "Cannot read properties of undefined (reading 'accounts')")
  | Some targetInstruction =>
      let accounts := default [] (accounts targetInstruction) ++ map readonly references in
      let updated :=
        {| programAddress := programAddress targetInstruction;
           accounts := Some accounts;
           data := data targetInstruction |} in
      Ok {| instructions := <[index := updated]> (instructions transaction);
            rest := rest transaction |}
  end.

Definition insertReferenceKey {Rest} (reference : Address)
    (transaction : BaseTransactionMessage Rest) : result (BaseTransactionMessage Rest) :=
  insertReferenceKeys [reference] transaction.

End ReferenceKeys.

Module ReferenceKeysExamples.
Import Kit ReferenceKeys.
Local Open Scope string_scope.

Definition memo : IInstruction :=
  {| programAddress := MEMO_PROGRAM_ADDRESS; accounts := Some []; data := Some [] |}.

Definition target : IInstruction :=
  {| programAddress := "ProgramAddress1111111111111111111111111111111";
     accounts := None; data := Some [] |}.

(** A memo in front of the instruction that takes the references. *)
Definition transaction : BaseTransactionMessage unit :=
  {| instructions := [memo; target]; rest := tt |}.

End ReferenceKeysExamples.

(** ** signers/walletTransactionSigner.ts: the signers' methods *)

Module WalletSigner.
Import Kit.

Definition SignatureBytes : Type := list Z.

(** [SignaturesMap]: an address maps to signature bytes or to [null]. *)
Definition SignaturesMap : Type := gmap string (option SignatureBytes).

(** [SignatureDictionary] *)
Definition SignatureDictionary : Type := gmap string SignatureBytes.

(** A compiled transaction; the lifetime stands for the fields that the
    spread copies untouched. *)
Record Transaction : Type := {
  messageBytes : list Z;
  signatures : SignaturesMap;
  lifetimeConstraint : option BlockhashLifetime;
}.

(** The transactions handed to the wallet so far. *)
Definition Calls : Type := list Transaction.

(** [!signature]: [undefined] and [null] are falsy, bytes are an object. *)
Definition signature_of (map : SignaturesMap) (address : Address) : option SignatureBytes :=
  match map !! address with
  | Some (Some bytes) => Some bytes
  | _ => None
  end.

Section Signer.
(** [createWalletTransactionSigner(session)] for a session that has
    [signTransaction]; the wallet answers as it sees fit, given what it was
    asked before. *)
Variable address : Address.
Variable signTransaction : Calls -> Transaction -> result Transaction.

(** [{ ...castTransaction, messageBytes: signed.messageBytes,
       signatures: { ...castTransaction.signatures, ...signed.signatures } }] *)
Definition mergedTransaction (castTransaction signed : Transaction) : Transaction :=
  {| messageBytes := messageBytes signed;
     signatures := signatures signed ∪ signatures castTransaction;
     lifetimeConstraint := lifetimeConstraint castTransaction |}.

(** The [for] loop of [modifyAndSignTransactions]. *)
Fixpoint modify_each (transactions signedTransactions : list Transaction) (calls : Calls)
    : result (list Transaction) * Calls :=
  match transactions with
  | [] => (Ok signedTransactions, calls)
  | transaction :: rest =>
      match signTransaction calls transaction with
      | Throw e => (Throw e, calls ++ [transaction])
      | Ok signed =>
          match signature_of (signatures signed) address with
          | None =>
              (Throw (Error "Wallet did not populate the expected fee payer signature."),
               calls ++ [transaction])
          | Some _ =>
              modify_each rest (signedTransactions ++ [mergedTransaction transaction signed])
                (calls ++ [transaction])
          end
      end
  end.

Definition modifyAndSignTransactions (transactions : list Transaction) (calls : Calls)
    : result (list Transaction) * Calls :=
  modify_each transactions [] calls.

(** The callback of [signedTransactions.map]. *)
Definition dictionary_of (signedTransaction : Transaction) : result SignatureDictionary :=
  match signature_of (signatures signedTransaction) address with
  | None => Throw (Error "Expected signer to produce a signature for the provided address.")
  | Some signature => Ok {[ address := signature ]}
  end.

(** [Array.prototype.map] with a callback that may throw. *)
Fixpoint map_throwing {A B} (f : A -> result B) (l : list A) : result (list B) :=
  match l with
  | [] => Ok []
  | x :: rest =>
      match f x with
      | Throw e => Throw e
      | Ok y => match map_throwing f rest with
                | Throw e => Throw e
                | Ok ys => Ok (y :: ys)
                end
      end
  end.

Definition signTransactions (transactions : list Transaction) (calls : Calls)
    : result (list SignatureDictionary) * Calls :=
  match modifyAndSignTransactions transactions calls with
  | (Ok signedTransactions, calls') => (map_throwing dictionary_of signedTransactions, calls')
  | (Throw e, calls') => (Throw e, calls')
  end.

End Signer.

Section SendingSigner.
(** [createWalletTransactionSigner(session, { commitment })] for a session
    that has [sendTransaction] only.  The wallet answers with the signature
    as text; [getBase58Encoder().encode] and [signatureBytes] belong to the
    kit, which says what they refuse. *)
Variable commitment : option Commitment.
Variable sendTransaction : Calls -> Transaction -> option Commitment -> result string.
Variable base58_encode : string -> result (list Z).
Variable signatureBytes : list Z -> result SignatureBytes.

(** The [for] loop of [signAndSendTransactions]. *)
Fixpoint send_each (transactions : list Transaction) (signatures : list SignatureBytes)
    (calls : Calls) : result (list SignatureBytes) * Calls :=
  match transactions with
  | [] => (Ok signatures, calls)
  | transaction :: rest =>
      match sendTransaction calls transaction commitment with
      | Throw e => (Throw e, calls ++ [transaction])
      | Ok signatureString =>
          match base58_encode signatureString with
          | Throw e => (Throw e, calls ++ [transaction])
          | Ok bytes =>
              match signatureBytes bytes with
              | Throw e => (Throw e, calls ++ [transaction])
              | Ok signature =>
                  send_each rest (signatures ++ [signature]) (calls ++ [transaction])
              end
          end
      end
  end.

Definition signAndSendTransactions (transactions : list Transaction) (calls : Calls)
    : result (list SignatureBytes) * Calls :=
  send_each transactions [] calls.

End SendingSigner.

End WalletSigner.

Module WalletSignerExamples.
Import Kit WalletSigner.
Local Open Scope string_scope.

(** A wallet that signs for ["payer"] with 64 bytes of ones. *)
Definition wallet_signature : SignatureBytes := replicate 64 1.

Definition signing_wallet (_ : Calls) (transaction : Transaction) : result Transaction :=
  Ok {| messageBytes := messageBytes transaction;
        signatures := {[ "payer" := Some wallet_signature ]};
        lifetimeConstraint := None |}.

(** A transaction that a co-signer has signed already. *)
Definition cosigned : Transaction :=
  {| messageBytes := [1; 2; 3];
     signatures := {[ "cosigner" := Some (replicate 64 2) ]} ∪ {[ "payer" := None ]};
     lifetimeConstraint := Some PoolExamples.some_lifetime |}.

End WalletSignerExamples.

(** Vocabulary for what an operation does with a failure underneath it. *)
Module PropagationSpec.
Import Kit Runtime.

(** The function lets every rejection through but one that [absorbed]
    accepts: it fulfils only when no collaborator rejected, or when the one
    rejection was an absorbed one; and when it rejects with [e], the
    rejections on record are none (the error is its own), or [e], or an
    absorbed one followed by nothing or by [e]. *)
Definition surfaces_except {A} (absorbed : exn -> bool) (m : M A) : Prop :=
  forall w,
    match fst (m w) with
    | Ok _ =>
        rejections (snd (m w)) = rejections w \/
        exists absorbed_error,
          absorbed absorbed_error = true /\
          rejections (snd (m w)) = rejections w ++ [absorbed_error]
    | Throw e =>
        rejections (snd (m w)) = rejections w \/
        rejections (snd (m w)) = rejections w ++ [e] \/
        exists absorbed_error,
          absorbed absorbed_error = true /\
          (rejections (snd (m w)) = rejections w ++ [absorbed_error] \/
           rejections (snd (m w)) = rejections w ++ [absorbed_error; e])
    end.

(** A method that hands transactions to the wallet one by one relays the
    wallet's rejections: it fulfils only when the wallet answered every
    transaction, and when it rejects with [e], either [e] is an error of its
    [own] or the wallet rejected one of the transactions with [e]. *)
Definition relays {A B} (wallet : WalletSigner.Calls -> WalletSigner.Transaction -> result A)
    (own : exn -> Prop)
    (method : list WalletSigner.Transaction -> WalletSigner.Calls
              -> result B * WalletSigner.Calls) : Prop :=
  forall transactions calls,
    match fst (method transactions calls) with
    | Ok _ =>
        forall i transaction,
          transactions !! i = Some transaction ->
          Js.is_ok (wallet (calls ++ take i transactions) transaction) = true
    | Throw e =>
        own e \/
        exists i transaction,
          transactions !! i = Some transaction /\
          wallet (calls ++ take i transactions) transaction = Throw e
    end.

(** A controller that is told of a rejection records it in its state and
    rejects with it. *)
Definition records_and_rethrows {C T} (settle : result T -> C -> C * result T)
    (state : C -> AsyncState.AsyncState T) : Prop :=
  forall e c,
    snd (settle (Throw e) c) = Throw e /\
    AsyncState.status (state (fst (settle (Throw e) c))) = AsyncState.error_status /\
    AsyncState.error (state (fst (settle (Throw e) c))) = Some e.

End PropagationSpec.

(** ** Facts about the string helpers *)

Module AmountsFacts.
Import Amounts AmountsSpec.



Lemma digits_cons c s : digits (c :: s) <-> is_digit c = true /\ digits s.
Proof. unfold digits. simpl. rewrite andb_true_iff. tauto. Qed.

Lemma digits_app a b : digits (a ++ b) <-> digits a /\ digits b.
Proof. unfold digits. rewrite forallb_app, andb_true_iff. tauto. Qed.

Lemma digits_take n s : digits s -> digits (take n s).
Proof.
  intros H. rewrite <- (take_drop n s) in H. apply digits_app in H. tauto.
Qed.

Lemma digits_drop n s : digits s -> digits (drop n s).
Proof.
  intros H. rewrite <- (take_drop n s) in H. apply digits_app in H. tauto.
Qed.

Lemma digits_replicate_0 n : digits (replicate n "0"%char).
Proof. induction n; [reflexivity | apply digits_cons; split; [reflexivity | assumption]]. Qed.

Lemma is_digit_range c : is_digit c = true -> 0 <= digit_of c <= 9.
Proof. unfold is_digit, digit_of. intros H. apply andb_true_iff in H. lia. Qed.

Lemma is_digit_not_dot c : is_digit c = true -> (code c =? 46) = false.
Proof. unfold is_digit. intros H. apply andb_true_iff in H. lia. Qed.

Lemma dot_not_digit : is_digit "."%char = false.
Proof. reflexivity. Qed.

(** *** Reading digits *)

Definition shift (acc : Z) (c : ascii) : Z := 10 * acc + digit_of c.

Lemma fold_shift s : forall acc,
  fold_left shift s acc = acc * 10 ^ Z.of_nat (length s) + fold_left shift s 0.
Proof.
  induction s as [|c s IH]; intros acc; simpl length; simpl fold_left.
  - change (Z.of_nat 0) with 0. lia.
  - rewrite IH, (IH (shift 0 c)). unfold shift.
    rewrite Nat2Z.inj_succ, Z.pow_succ_r by lia. lia.
Qed.

Lemma BigInt_app a b : BigInt (a ++ b) = BigInt a * 10 ^ Z.of_nat (length b) + BigInt b.
Proof.
  unfold BigInt. change (fun acc c => 10 * acc + digit_of c) with shift.
  rewrite fold_left_app. apply fold_shift.
Qed.

Lemma BigInt_nil : BigInt [] = 0.
Proof. reflexivity. Qed.

Lemma BigInt_snoc s c : BigInt (s ++ [c]) = 10 * BigInt s + digit_of c.
Proof.
  rewrite BigInt_app. simpl length. change (BigInt [c]) with (10 * 0 + digit_of c).
  change (10 ^ Z.of_nat 1) with 10. lia.
Qed.

Lemma BigInt_bounds s : digits s -> 0 <= BigInt s < 10 ^ Z.of_nat (length s).
Proof.
  induction s as [|c s IH] using rev_ind; intros H.
  - simpl. change (BigInt []) with 0. lia.
  - apply digits_app in H as [Hs Hc]. apply digits_cons in Hc as [Hc _].
    apply is_digit_range in Hc. specialize (IH Hs).
    rewrite BigInt_snoc, length_app. simpl length.
    rewrite Nat2Z.inj_add, Z.pow_add_r by lia. change (10 ^ Z.of_nat 1) with 10. lia.
Qed.

(** *** The pattern and the split *)

Lemma take_while_digits ip rest :
  digits ip -> (match rest with [] => True | c :: _ => is_digit c = false end) ->
  take_while is_digit (ip ++ rest) = ip /\ drop_while is_digit (ip ++ rest) = rest.
Proof.
  intros Hip Hrest. induction ip as [|c ip IH]; simpl.
  - destruct rest as [|c rest]; [auto|]. simpl. rewrite Hrest. auto.
  - apply digits_cons in Hip as [Hc Hip]. rewrite Hc.
    destruct (IH Hip) as [-> ->]. auto.
Qed.

Lemma split_dot_digits s : digits s -> split_dot s = [s].
Proof.
  induction s as [|c s IH]; intros H; simpl; [reflexivity|].
  apply digits_cons in H as [Hc Hs]. rewrite (is_digit_not_dot _ Hc), (IH Hs). reflexivity.
Qed.

Lemma split_dot_literal ip fp :
  digits ip -> digits fp -> fp <> [] -> split_dot (ip ++ "."%char :: fp) = [ip; fp].
Proof.
  intros Hip Hfp _. induction ip as [|c ip IH]; simpl.
  - rewrite (split_dot_digits _ Hfp). reflexivity.
  - apply digits_cons in Hip as [Hc Hip]. rewrite (is_digit_not_dot _ Hc), (IH Hip). reflexivity.
Qed.

Lemma pattern_literal ip fp :
  digits ip -> ip <> [] -> digits fp -> DECIMAL_PATTERN_test (literal ip fp) = true.
Proof.
  intros Hip Hne Hfp. unfold DECIMAL_PATTERN_test, literal.
  destruct fp as [|c fp].
  - rewrite <- (app_nil_r ip).
    destruct (take_while_digits ip [] Hip I) as [-> ->].
    destruct ip; [congruence | reflexivity].
  - destruct (take_while_digits ip ("."%char :: c :: fp) Hip dot_not_digit) as [-> ->].
    unfold all_digits1. simpl length. rewrite Hfp.
    destruct ip; [congruence | reflexivity].
Qed.

Lemma take_while_spec p s :
  forallb p (take_while p s) = true /\ s = take_while p s ++ drop_while p s /\
  match drop_while p s with [] => True | c :: _ => p c = false end.
Proof.
  induction s as [|c s IH]; simpl; [auto|].
  destruct (p c) eqn:Hc; simpl; [|auto].
  rewrite Hc. destruct IH as (H1 & H2 & H3). rewrite <- H2. auto.
Qed.

(** Every accepted string is the text of a literal. *)
Lemma pattern_inv s :
  DECIMAL_PATTERN_test s = true ->
  exists ip fp, s = literal ip fp /\ digits ip /\ ip <> [] /\ digits fp.
Proof.
  unfold DECIMAL_PATTERN_test. intros H. apply andb_true_iff in H as [Hne H].
  destruct (take_while_spec is_digit s) as (Hd & Hs & _).
  exists (take_while is_digit s).
  destruct (drop_while is_digit s) as [|c frac] eqn:Hrest.
  - exists []. rewrite app_nil_r in Hs. repeat split; try assumption.
    intros E. rewrite E in Hne. discriminate.
  - apply andb_true_iff in H as [Hc Hfrac]. unfold all_digits1 in Hfrac.
    apply andb_true_iff in Hfrac as [Hfne Hfd].
    exists frac. assert (c = "."%char) as ->.
    { unfold code in Hc. apply Z.eqb_eq in Hc.
      rewrite <- (ascii_nat_embedding c).
      replace (nat_of_ascii c) with 46%nat by lia. reflexivity. }
    repeat split; try assumption.
    + destruct frac; [discriminate | exact Hs].
    + intros E. rewrite E in Hne. discriminate.
Qed.

End AmountsFacts.

(** ** Rounding of decimal literals *)

Module AmountsRounding.
Import Amounts AmountsSpec AmountsFacts.


Lemma has_nonzero_digit_eq s : digits s -> existsb is_nonzero_digit s = has_nonzero_digit s.
Proof.
  induction s as [|c s IH]; intros H; [reflexivity|].
  apply digits_cons in H as [Hc Hs]. simpl. rewrite (IH Hs). f_equal.
  unfold is_nonzero_digit, digit_of. unfold is_digit in Hc.
  apply andb_true_iff in Hc. destruct (code c - 48 =? 0) eqn:E; simpl; lia.
Qed.

Lemma first_digit_at_least_5_eq s : first_at_least_5 s = first_digit_at_least_5 s.
Proof.
  destruct s as [|c s]; [reflexivity|]. simpl. unfold digit_of.
  destruct (53 <=? code c) eqn:E; lia.
Qed.

Lemma length_padEnd_take (n : nat) (s : jsstring) c : length (padEnd (take n s) n c) = n.
Proof. unfold padEnd. rewrite length_app, length_replicate, length_take. lia. Qed.

Lemma truncated_value_split d ip fp :
  0 <= d ->
  truncated_value d ip fp =
  BigInt ip * 10 ^ d + BigInt (padEnd (take (Z.to_nat d) fp) (Z.to_nat d) "0"%char).
Proof.
  intros Hd. unfold truncated_value. rewrite BigInt_app, length_padEnd_take, Z2Nat.id by lia.
  reflexivity.
Qed.

Lemma literal_nonempty ip fp : ip <> [] -> (length (literal ip fp) =? 0)%nat = false.
Proof.
  intros H. apply Nat.eqb_neq. unfold literal.
  destruct ip; [congruence|]. destruct fp; simpl; lia.
Qed.

Lemma pieces_literal ip fp :
  digits ip -> digits fp ->
  split_dot (literal ip fp) = ip :: match fp with [] => [] | _ :: _ => [fp] end.
Proof.
  intros Hip Hfp. unfold literal. destruct fp as [|c fp].
  - apply split_dot_digits, Hip.
  - apply split_dot_literal; [assumption | assumption | discriminate].
Qed.

(** [decimalToBaseUnits] on a literal, for every precision and mode. *)
Lemma decimalToBaseUnits_literal value d opts ip fp :
  0 <= d ->
  digits ip -> ip <> [] -> digits fp ->
  trim (remove_underscores value) = literal ip fp ->
  decimalToBaseUnits value d (10 ^ d) opts =
  Ok (truncated_value d ip fp
      + round_up (default floor (rounding opts)) (dropped_digits d fp)).
Proof.
  intros Hd Hip Hne Hfp Hs.
  assert (Hdrop : digits (dropped_digits d fp)) by (apply digits_drop; assumption).
  unfold decimalToBaseUnits. cbv zeta. rewrite Hs, (literal_nonempty ip fp Hne).
  rewrite (pattern_literal ip fp Hip Hne Hfp). cbn [negb].
  rewrite (pieces_literal ip fp Hip Hfp).
  replace (default [] ((ip :: match fp with [] => [] | _ :: _ => [fp] end) !! 1%nat))
    with fp by (destruct fp; reflexivity).
  cbn [lookup list_lookup from_option id].
  assert (Hlen : (length ip =? 0)%nat = false)
    by (apply Nat.eqb_neq; destruct ip; [congruence | simpl; lia]).
  rewrite Hlen. unfold assertNonNegative.
  destruct (BigInt_bounds ip Hip) as [Hnn _].
  replace (BigInt ip <? 0) with false by lia. cbn [Js.bind].
  rewrite truncated_value_split by assumption.
  unfold round_up. rewrite <- (has_nonzero_digit_eq _ Hdrop), <- first_digit_at_least_5_eq.
  unfold dropped_digits in *.
  destruct (d =? 0) eqn:Hd0.
  - apply Z.eqb_eq in Hd0. subst d. change (Z.to_nat 0) with 0%nat.
    rewrite drop_0. change (padEnd (take 0 fp) 0 "0"%char) with (@nil ascii).
    change (BigInt []) with 0. rewrite Z.add_0_r.
    destruct fp as [|c fp]; cbn [length Nat.eqb].
    + destruct (default floor (rounding opts)); cbn [existsb first_at_least_5];
        f_equal; lia.
    + destruct (default floor (rounding opts)); cbn [RoundingMode_eqb andb];
        repeat match goal with |- context [if ?b then _ else _] => destruct b end;
        f_equal; lia.
  - apply Z.eqb_neq in Hd0.
    assert (Hpad : (length (padEnd (take (Z.to_nat d) fp) (Z.to_nat d) "0"%char) =? 0)%nat = false)
      by (rewrite length_padEnd_take; apply Nat.eqb_neq; lia).
    rewrite Hpad.
    destruct (Z.to_nat d <? length fp)%nat eqn:Hlong.
    + destruct (default floor (rounding opts)); cbn [RoundingMode_eqb andb];
        repeat match goal with |- context [if ?b then _ else _] => destruct b end;
        f_equal; lia.
    + apply Nat.ltb_ge in Hlong. rewrite drop_ge by lia.
      destruct (default floor (rounding opts)); cbn; f_equal; lia.
Qed.

Lemma createTokenAmount_inv d math :
  createTokenAmount d = Ok math -> 0 <= d <= 38 /\ decimals math = d /\ scale math = 10 ^ d.
Proof.
  unfold createTokenAmount, pow10, assertDecimals.
  destruct ((d <? 0) || (38 <? d)) eqn:E; cbn [Js.bind]; [discriminate|].
  intros [= <-]. cbn [decimals scale]. apply orb_false_iff in E. lia.
Qed.

Lemma literal_parts ip fp :
  digits ip -> digits fp ->
  integer_digits (literal ip fp) = ip /\ fraction_digits (literal ip fp) = fp.
Proof.
  intros Hip Hfp. unfold integer_digits, fraction_digits, literal.
  destruct fp as [|c fp].
  - destruct (take_while_digits ip [] Hip I) as [H1 H2].
    rewrite app_nil_r in H1, H2. rewrite H1, H2. auto.
  - destruct (take_while_digits ip ("."%char :: c :: fp) Hip dot_not_digit) as [-> ->]. auto.
Qed.

End AmountsRounding.

(** C6: for every string that [fromDecimal] accepts as a decimal literal, the
    result is the base-unit amount spelled by the literal's digits cut after
    [decimals] fractional places, plus one unit under [ceil] exactly when a
    dropped digit is nonzero, plus one unit under [round] exactly when the
    first dropped digit is 5 or more, and plus nothing under [floor] (the
    default mode). *)
Theorem fromDecimal_rounding :
  forall (d : Z) (math : Amounts.TokenAmountMath) (value : Amounts.jsstring)
         (options : Amounts.ParseAmountOptions),
    Amounts.createTokenAmount d = Ok math ->
    Amounts.DECIMAL_PATTERN_test (AmountsSpec.sanitized value) = true ->
    let s := AmountsSpec.sanitized value in
    let ip := AmountsSpec.integer_digits s in
    let fp := AmountsSpec.fraction_digits s in
    Amounts.fromDecimal math value options =
    Ok (AmountsSpec.truncated_value d ip fp
        + AmountsSpec.round_up (default Amounts.floor (Amounts.rounding options))
            (AmountsSpec.dropped_digits d fp)).
Proof.
  intros d math value options Hmath Hpat. cbv zeta.
  destruct (AmountsRounding.createTokenAmount_inv d math Hmath) as (Hd & Hdec & Hscale).
  destruct (AmountsFacts.pattern_inv _ Hpat) as (ip & fp & Hs & Hip & Hne & Hfp).
  rewrite Hs. destruct (AmountsRounding.literal_parts ip fp Hip Hfp) as [-> ->].
  unfold Amounts.fromDecimal. rewrite Hdec, Hscale.
  apply AmountsRounding.decimalToBaseUnits_literal; try assumption; lia.
Qed.

(** With six decimals, ['1.23456789'] parses to 1234567 under [floor] and to
    exactly one base unit more under [ceil]. *)
Lemma fromDecimal_rounding_witness :
  Amounts.fromDecimal AmountsExamples.six (Amounts.str "1.23456789")
    (AmountsExamples.with_rounding Amounts.floor) = Ok 1234567 /\
  Amounts.fromDecimal AmountsExamples.six (Amounts.str "1.23456789")
    (AmountsExamples.with_rounding Amounts.ceil) = Ok (1234567 + 1).
Proof.
  split.
  - exact (fromDecimal_rounding 6 AmountsExamples.six (Amounts.str "1.23456789")
             (AmountsExamples.with_rounding Amounts.floor) eq_refl eq_refl).
  - exact (fromDecimal_rounding 6 AmountsExamples.six (Amounts.str "1.23456789")
             (AmountsExamples.with_rounding Amounts.ceil) eq_refl eq_refl).
Defined.

(** ** Printing digits back *)

Module AmountsFormat.
Import Amounts AmountsSpec AmountsFacts AmountsRounding.

Lemma digit_char_of c : is_digit c = true -> digit_char (digit_of c) = c.
Proof.
  intros _. unfold digit_char, digit_of, code.
  replace (Z.to_nat (48 + (Z.of_nat (nat_of_ascii c) - 48))) with (nat_of_ascii c) by lia.
  apply ascii_nat_embedding.
Qed.

Lemma BigInt_cons_zero c s : digit_of c = 0 -> BigInt (c :: s) = BigInt s.
Proof.
  intros H. change (c :: s) with ([c] ++ s). rewrite BigInt_app.
  change (BigInt [c]) with (10 * 0 + digit_of c). rewrite H. lia.
Qed.

Lemma BigInt_lead_pos c s : digits (c :: s) -> digit_of c <> 0 -> 0 < BigInt (c :: s).
Proof.
  intros H Hc. apply digits_cons in H as [Hd Hs].
  change (c :: s) with ([c] ++ s). rewrite BigInt_app.
  change (BigInt [c]) with (10 * 0 + digit_of c).
  pose proof (is_digit_range c Hd). pose proof (BigInt_bounds s Hs).
  assert (0 < 10 ^ Z.of_nat (length s)) by (apply Z.pow_pos_nonneg; lia). nia.
Qed.

(** With enough fuel, [to_digits] writes the digits it was read from. *)
Lemma to_digits_BigInt c rest :
  digits (c :: rest) -> digit_of c <> 0 ->
  forall fuel acc,
    BigInt (c :: rest) < 2 ^ Z.of_nat fuel ->
    to_digits fuel (BigInt (c :: rest)) acc = (c :: rest) ++ acc.
Proof.
  induction rest as [|x rest IH] using rev_ind; intros Hd Hc fuel acc Hfuel.
  - apply digits_cons in Hd as [Hd _]. pose proof (is_digit_range c Hd) as Hr.
    change (BigInt [c]) with (10 * 0 + digit_of c) in *.
    destruct fuel as [|fuel]; [change (2 ^ Z.of_nat 0) with 1 in Hfuel; lia|].
    cbn [to_digits]. replace ((10 * 0 + digit_of c) / 10) with 0
      by (symmetry; apply Z.div_small; lia).
    replace ((10 * 0 + digit_of c) mod 10) with (digit_of c)
      by (symmetry; apply Z.mod_small; lia).
    cbn [Z.eqb]. rewrite (digit_char_of c Hd). reflexivity.
  - change (c :: rest ++ [x]) with ((c :: rest) ++ [x]) in *.
    apply digits_app in Hd as [Hd Hx]. apply digits_cons in Hx as [Hx _].
    pose proof (is_digit_range x Hx) as Hr.
    pose proof (BigInt_lead_pos c rest Hd Hc) as Hpos.
    rewrite BigInt_snoc in *.
    destruct fuel as [|fuel]; [change (2 ^ Z.of_nat 0) with 1 in Hfuel; lia|].
    rewrite Nat2Z.inj_succ, Z.pow_succ_r in Hfuel by lia.
    cbn [to_digits].
    replace ((10 * BigInt (c :: rest) + digit_of x) / 10) with (BigInt (c :: rest))
      by (apply Z.div_unique with (r := digit_of x); lia).
    replace ((10 * BigInt (c :: rest) + digit_of x) mod 10) with (digit_of x)
      by (apply Z.mod_unique with (q := BigInt (c :: rest)); lia).
    replace (BigInt (c :: rest) =? 0) with false by lia.
    rewrite (digit_char_of x Hx), IH by (try assumption; lia).
    rewrite <- app_assoc. reflexivity.
Qed.

Lemma toString_lead c rest :
  digits (c :: rest) -> digit_of c <> 0 -> toString (BigInt (c :: rest)) = c :: rest.
Proof.
  intros Hd Hc. pose proof (BigInt_lead_pos c rest Hd Hc) as Hpos.
  unfold toString. replace (BigInt (c :: rest) <? 0) with false by lia.
  rewrite to_digits_BigInt; [apply app_nil_r | assumption | assumption |].
  rewrite Nat2Z.inj_succ, Z2Nat.id by apply Z.log2_nonneg.
  apply Z.log2_spec. assumption.
Qed.

Lemma zero_char c : is_digit c = true -> digit_of c = 0 -> c = "0"%char.
Proof. intros Hd H. rewrite <- (digit_char_of c Hd), H. reflexivity. Qed.

Lemma code_zero c : (code c =? 48) = true <-> c = "0"%char.
Proof.
  split; [|intros ->; reflexivity]. intros H. apply Z.eqb_eq in H.
  unfold code in H. rewrite <- (ascii_nat_embedding c).
  replace (nat_of_ascii c) with 48%nat by lia. reflexivity.
Qed.

(** [toString] inverts [BigInt] on digit strings without a redundant
    leading zero. *)
Lemma toString_BigInt s :
  digits s -> no_leading_zero s = true -> toString (BigInt s) = s.
Proof.
  intros Hd Hz. destruct s as [|c rest]; [discriminate|].
  destruct (Z.eq_dec (digit_of c) 0) as [E|E].
  - apply digits_cons in Hd as [Hc _]. rewrite (zero_char c Hc E) in *.
    destruct rest; [reflexivity | discriminate].
  - apply toString_lead; assumption.
Qed.

(** Padding restores the leading zeros that [BigInt] forgot. *)
Lemma padStart_toString s :
  digits s -> s <> [] -> padStart (toString (BigInt s)) (length s) "0"%char = s.
Proof.
  induction s as [|c s IH]; intros Hd Hne; [congruence|].
  destruct (Z.eq_dec (digit_of c) 0) as [E|E].
  - pose proof Hd as Hd'. apply digits_cons in Hd' as [Hc Hs].
    rewrite (BigInt_cons_zero c s E). rewrite (zero_char c Hc E).
    destruct s as [|x s]; [reflexivity|].
    specialize (IH Hs ltac:(discriminate)). unfold padStart in *.
    set (t := toString (BigInt (x :: s))) in *.
    assert (Hlen : (length t <= length (x :: s))%nat).
    { pose proof (f_equal length IH) as Hl. rewrite length_app in Hl. lia. }
    replace (length ("0"%char :: x :: s) - length t)%nat
      with (S (length (x :: s) - length t)) by (simpl length in *; lia).
    cbn [replicate app]. rewrite IH. reflexivity.
  - rewrite (toString_lead c s Hd E). unfold padStart.
    rewrite Nat.sub_diag. reflexivity.
Qed.

Lemma drop_while_replicate (p : ascii -> bool) c n s :
  p c = true -> drop_while p (replicate n c ++ s) = drop_while p s.
Proof. intros H. induction n; simpl; [reflexivity | rewrite H; assumption]. Qed.

Lemma rev_replicate (c : ascii) n : rev (replicate n c) = replicate n c.
Proof.
  induction n; [reflexivity|]. simpl. rewrite IHn.
  clear IHn. induction n; [reflexivity|]. simpl. rewrite IHn. reflexivity.
Qed.

Lemma trim_trailing_zeros_pad fp n :
  no_trailing_zero fp = true ->
  trim_trailing_zeros (fp ++ replicate n "0"%char) = fp.
Proof.
  intros H. unfold trim_trailing_zeros.
  rewrite rev_app_distr, rev_replicate, drop_while_replicate by reflexivity.
  destruct fp as [|c fp _] using rev_ind; [reflexivity|].
  unfold no_trailing_zero in H. rewrite last_snoc in H.
  rewrite rev_app_distr. simpl. rewrite (negb_true_iff _) in H. rewrite H.
  cbn [rev]. rewrite rev_involutive. reflexivity.
Qed.

(** The parser's clean-up leaves a literal as it is. *)
Lemma remove_underscores_id s :
  forallb (fun c => is_digit c || (code c =? 46)) s = true -> remove_underscores s = s.
Proof.
  induction s as [|c s IH]; intros H; [reflexivity|].
  simpl in H. apply andb_true_iff in H as [Hc Hs]. unfold remove_underscores in *.
  simpl. rewrite (IH Hs).
  replace (code c =? 95) with false; [reflexivity|].
  unfold is_digit in Hc. apply orb_true_iff in Hc as [Hc|Hc]; [apply andb_true_iff in Hc|]; lia.
Qed.

Lemma is_digit_not_space c : is_digit c = true -> is_space c = false.
Proof.
  unfold is_digit, is_space. intros H. apply andb_true_iff in H.
  repeat (apply orb_false_iff; split); try apply andb_false_iff; lia.
Qed.

Lemma trimEnd_snoc s c : is_space c = false -> trimEnd (s ++ [c]) = s ++ [c].
Proof.
  intros H. unfold trimEnd. rewrite rev_app_distr. simpl. rewrite H.
  change (c :: rev s) with (rev [c] ++ rev s). rewrite <- rev_app_distr.
  apply rev_involutive.
Qed.

Lemma literal_chars ip fp :
  digits ip -> digits fp ->
  forallb (fun c => is_digit c || (code c =? 46)) (literal ip fp) = true.
Proof.
  intros Hip Hfp.
  assert (H : forall s, digits s -> forallb (fun c => is_digit c || (code c =? 46)) s = true).
  { induction s as [|c s IH]; intros Hs; [reflexivity|].
    apply digits_cons in Hs as [Hc Hs]. simpl. rewrite Hc, (IH Hs). reflexivity. }
  unfold literal. destruct fp as [|a fp]; [auto|].
  rewrite forallb_app. apply andb_true_iff. split; [auto|].
  change ("."%char :: a :: fp) with (["."%char] ++ a :: fp).
  rewrite forallb_app. apply andb_true_iff. split; [reflexivity | auto].
Qed.

Lemma literal_cons ip fp : fp <> [] -> literal ip fp = ip ++ "."%char :: fp.
Proof. destruct fp; [congruence | reflexivity]. Qed.

Lemma sanitized_literal ip fp :
  digits ip -> ip <> [] -> digits fp -> sanitized (literal ip fp) = literal ip fp.
Proof.
  intros Hip Hne Hfp. unfold sanitized.
  rewrite (remove_underscores_id _ (literal_chars ip fp Hip Hfp)).
  assert (Hend : exists s c, literal ip fp = s ++ [c] /\ is_space c = false).
  { destruct fp as [|x fp _] using rev_ind.
    - unfold literal. destruct ip as [|y ip _] using rev_ind; [congruence|].
      exists ip, y. split; [reflexivity|]. apply is_digit_not_space.
      apply digits_app in Hip as [_ Hy]. apply digits_cons in Hy. tauto.
    - rewrite literal_cons by (destruct fp; discriminate).
      exists (ip ++ "."%char :: fp), x. split; [rewrite <- app_assoc; reflexivity|].
      apply is_digit_not_space. apply digits_app in Hfp as [_ Hx].
      apply digits_cons in Hx. tauto. }
  destruct Hend as (s & c & Hs & Hc).
  assert (Hstart : trimStart (literal ip fp) = literal ip fp).
  { unfold trimStart, literal. destruct ip as [|y ip]; [congruence|].
    apply digits_cons in Hip as [Hy _]. apply is_digit_not_space in Hy.
    destruct fp; simpl; rewrite Hy; reflexivity. }
  unfold trim. rewrite Hstart, Hs. apply trimEnd_snoc, Hc.
Qed.

Lemma canonical_inv ip fp :
  canonical ip fp = true ->
  digits ip /\ no_leading_zero ip = true /\ digits fp /\ no_trailing_zero fp = true.
Proof.
  unfold canonical, digits. rewrite !andb_true_iff. tauto.
Qed.

Lemma quot_rem_parts a b m :
  0 <= a -> 0 <= b < m -> Z.quot (a * m + b) m = a /\ Z.rem (a * m + b) m = b.
Proof.
  intros Ha Hb.
  rewrite Z.quot_div_nonneg, Z.rem_mod_nonneg by nia.
  split; [symmetry; apply Z.div_unique with (r := b) | symmetry; apply Z.mod_unique with (q := a)]; lia.
Qed.

End AmountsFormat.

(** C7 (amended): for every canonical decimal literal (digits only, no
    redundant leading zero, no trailing zero in the fraction) with at most
    [decimals] fractional digits, formatting what [fromDecimal] returns, with
    the default formatting options, gives the literal back. *)
Theorem toDecimalString_fromDecimal_canonical :
  forall (d : Z) (math : Amounts.TokenAmountMath) (ip fp : Amounts.jsstring)
         (options : Amounts.ParseAmountOptions),
    Amounts.createTokenAmount d = Ok math ->
    AmountsSpec.canonical ip fp = true ->
    Z.of_nat (length fp) <= d ->
    Js.bind (Amounts.fromDecimal math (AmountsSpec.literal ip fp) options)
      (fun amount => Amounts.toDecimalString math amount Amounts.no_format_options)
    = Ok (AmountsSpec.literal ip fp).
Proof.
  intros d math ip fp options Hmath Hcan Hlen.
  destruct (AmountsRounding.createTokenAmount_inv d math Hmath) as (Hd & Hdec & Hscale).
  destruct (AmountsFormat.canonical_inv ip fp Hcan) as (Hip & Hlead & Hfp & Htrail).
  assert (Hne : ip <> []) by (intros ->; discriminate).
  unfold Amounts.fromDecimal, Amounts.toDecimalString. rewrite Hdec, Hscale.
  rewrite (AmountsRounding.decimalToBaseUnits_literal _ d options ip fp)
    by (try assumption; try lia; apply AmountsFormat.sanitized_literal; assumption).
  unfold AmountsSpec.dropped_digits. rewrite drop_ge by lia.
  replace (AmountsSpec.round_up _ []) with 0
    by (destruct (default Amounts.floor (Amounts.rounding options)); reflexivity).
  rewrite Z.add_0_r, AmountsRounding.truncated_value_split by lia.
  rewrite take_ge by lia.
  set (padded := Amounts.padEnd fp (Z.to_nat d) "0"%char).
  assert (Hpadlen : length padded = Z.to_nat d).
  { unfold padded, Amounts.padEnd. rewrite length_app, length_replicate. lia. }
  assert (Hpad : AmountsSpec.digits padded).
  { unfold padded, Amounts.padEnd. apply AmountsFacts.digits_app.
    split; [assumption | apply AmountsFacts.digits_replicate_0]. }
  pose proof (AmountsFacts.BigInt_bounds ip Hip) as [Hipnn _].
  pose proof (AmountsFacts.BigInt_bounds padded Hpad) as Hb.
  rewrite Hpadlen, Z2Nat.id in Hb by lia.
  assert (Hpow : 0 < 10 ^ d) by (apply Z.pow_pos_nonneg; lia).
  cbn [Js.bind]. unfold Amounts.fromBaseUnits, Amounts.formatBaseUnits, Amounts.assertNonNegative.
  cbn [Amounts.toBigint Js.bind].
  replace (Amounts.BigInt ip * 10 ^ d + Amounts.BigInt padded <? 0) with false by nia.
  cbn [Js.bind].
  replace (Amounts.BigInt ip * 10 ^ d + Amounts.BigInt padded <? 0) with false by nia.
  cbn [Js.bind Amounts.no_format_options Amounts.minimumFractionDigits
       Amounts.trimTrailingZeros default from_option id].
  replace ((0 <? 0) || (d <? 0)) with false by (symmetry; apply orb_false_iff; lia).
  destruct (d =? 0) eqn:Hd0.
  - apply Z.eqb_eq in Hd0. clear Hdec Hscale Hmath. subst d.
    destruct fp; [|simpl in Hlen; lia].
    change (Amounts.BigInt padded) with 0. change (10 ^ 0) with 1.
    rewrite Z.mul_1_r, Z.add_0_r, AmountsFormat.toString_BigInt by assumption.
    reflexivity.
  - apply Z.eqb_neq in Hd0.
    destruct (AmountsFormat.quot_rem_parts (Amounts.BigInt ip) (Amounts.BigInt padded) (10 ^ d)
                Hipnn Hb) as [-> ->].
    rewrite <- Hpadlen, AmountsFormat.padStart_toString
      by (try assumption; intros E; rewrite E in Hpadlen; simpl in Hpadlen; lia).
    assert (Htrim : Amounts.trim_trailing_zeros padded = fp)
      by (apply AmountsFormat.trim_trailing_zeros_pad, Htrail).
    rewrite Htrim.
    replace (Z.of_nat (length fp) <? 0) with false by lia.
    rewrite AmountsFormat.toString_BigInt by assumption.
    destruct fp; reflexivity.
Qed.

(** The canonical literal ['12.5'] survives the round trip at six decimals. *)
Lemma toDecimalString_fromDecimal_canonical_witness :
  Js.bind (Amounts.fromDecimal AmountsExamples.six (Amounts.str "12.5") Amounts.no_parse_options)
    (fun amount => Amounts.toDecimalString AmountsExamples.six amount Amounts.no_format_options)
  = Ok (Amounts.str "12.5").
Proof.
  exact (toDecimalString_fromDecimal_canonical 6 AmountsExamples.six
           (Amounts.str "12") (Amounts.str "5") Amounts.no_parse_options
           eq_refl eq_refl ltac:(vm_compute; discriminate)).
Defined.

(** C7 as stated fails: ['1.50'] is exactly representable at six decimals
    (no digit is dropped), yet the round trip prints ['1.5']. *)
Lemma toDecimalString_fromDecimal_not_inverse :
  Amounts.DECIMAL_PATTERN_test (AmountsSpec.sanitized (Amounts.str "1.50")) = true /\
  AmountsSpec.dropped_digits 6
    (AmountsSpec.fraction_digits (AmountsSpec.sanitized (Amounts.str "1.50"))) = [] /\
  Js.bind (Amounts.fromDecimal AmountsExamples.six (Amounts.str "1.50") Amounts.no_parse_options)
    (fun amount => Amounts.toDecimalString AmountsExamples.six amount Amounts.no_format_options)
  = Ok (Amounts.str "1.5") /\
  Amounts.str "1.5" <> Amounts.str "1.50".
Proof. repeat split; try reflexivity. discriminate. Qed.

(** ** Running an [async] function step by step *)

Module MonadFacts.
Import Runtime.

Lemma bind_ok {A B} (m : M A) (k : A -> M B) w a w1 :
  m w = (Ok a, w1) -> Runtime.bind m k w = k a w1.
Proof. intros H. unfold Runtime.bind. rewrite H. reflexivity. Qed.

Lemma bind_throw {A B} (m : M A) (k : A -> M B) w e w1 :
  m w = (Throw e, w1) -> Runtime.bind m k w = (Throw e, w1).
Proof. intros H. unfold Runtime.bind. rewrite H. reflexivity. Qed.

Lemma bind_assoc {A B C} (m : M A) (f : A -> M B) (g : B -> M C) w :
  Runtime.bind (Runtime.bind m f) g w = Runtime.bind m (fun a => Runtime.bind (f a) g) w.
Proof. unfold Runtime.bind. destruct (m w) as [[a|e] w1]; reflexivity. Qed.

Lemma snd_bind_lift {A B} (m : M A) (f : A -> result B) w :
  snd (Runtime.bind m (fun a => lift (f a)) w) = snd (m w).
Proof. unfold Runtime.bind, lift. destruct (m w) as [[a|e] w1]; reflexivity. Qed.

Lemma bind_ext {A B} (m : M A) (f g : A -> M B) w :
  (forall a w1, f a w1 = g a w1) -> Runtime.bind m f w = Runtime.bind m g w.
Proof. intros H. unfold Runtime.bind. destruct (m w) as [[a|e] w1]; [apply H | reflexivity]. Qed.

End MonadFacts.

(** ** The compute-unit tuner *)

Module TunerFacts.
Import Kit Runtime Tuner TunerSpec.

Lemma units_for_requested unitsConsumed multiplier :
  units_for (JsNumber.or_else (JsNumber.of_bigint (default 0 unitsConsumed)) 0%float)
    (default DEFAULT_COMPUTE_UNIT_LIMIT_MULTIPLIER multiplier)
  = requested_units unitsConsumed multiplier.
Proof.
  unfold units_for, requested_units, JsNumber.truthy, JsNumber.or_else, JsNumber.truthy.
  set (n := JsNumber.of_bigint (default 0 unitsConsumed)).
  destruct (PrimFloat.eqb n 0) eqn:E0; cbn [orb negb].
  - reflexivity.
  - destruct (PrimFloat.is_nan n) eqn:En; cbn [negb].
    + reflexivity.
    + rewrite E0, En. reflexivity.
Qed.

(** The estimate, when the blockhash query and the simulation answer. *)
Lemma estimated rpc config w latest unitsConsumed :
  getLatestBlockhash rpc (trace w) None = Ok latest ->
  simulateTransaction rpc (trace w ++ calls_before_simulation config)
    (simulated_message latest config) = Ok unitsConsumed ->
  exists w1,
    estimateComputeUnits rpc (transaction config) w
    = (Ok (JsNumber.or_else (JsNumber.of_bigint (default 0 unitsConsumed)) 0%float), w1) /\
    In (SimulateTransaction (simulated_message latest config)) (trace w1) /\
    rejections w1 = rejections w.
Proof.
  unfold calls_before_simulation, simulated_message, estimateComputeUnits.
  intros Hlatest Hsim. unfold Runtime.bind, call, ret.
  destruct (hasLifetime (transaction config)).
  - rewrite app_nil_r in Hsim. rewrite Hsim. eexists. split; [reflexivity|].
    cbn. split; [apply in_or_app; right; left; reflexivity | reflexivity].
  - rewrite Hlatest. cbn [trace record_call]. rewrite Hsim. eexists. split; [reflexivity|].
    cbn. split; [apply in_or_app; right; left; reflexivity | reflexivity].
Qed.

(** The tuner's second half: the lifetime and the log. *)
Definition finish rpc (config : PrepareTransactionConfig) (transaction : TransactionMessage)
    : M TransactionMessage :=
  Runtime.bind
    (if match blockhashReset config with Some false => false | _ => true end
        || negb (hasLifetime transaction)
     then
       Runtime.bind (call (GetLatestBlockhash None) (fun tr => getLatestBlockhash rpc tr None))
         (fun latest =>
            if negb (hasLifetime transaction)
            then ret (setTransactionMessageLifetimeUsingBlockhash latest transaction)
            else if match blockhashReset config with Some false => false | _ => true end
            then ret (setTransactionMessageLifetimeUsingBlockhash latest transaction)
            else ret transaction)
     else ret transaction)
    (fun transaction =>
       Runtime.bind (if logRequest config
                     then call (LogRequest transaction) (fun _ => Ok tt)
                     else ret tt)
         (fun _ => ret transaction)).

Lemma finishing rpc config :
  answers_blockhash rpc ->
  forall transaction w,
  exists t w',
    finish rpc config transaction w = (Ok t, w') /\
    instructions t = instructions transaction /\
    exists rest, trace w' = trace w ++ rest.
Proof.
  intros Hrpc transaction w. unfold finish, Runtime.bind, call, ret.
  destruct (_ || _).
  - pose proof (Hrpc (trace w) None) as E.
    destruct (getLatestBlockhash rpc (trace w) None) as [latest|e]; [|discriminate E].
    destruct (negb (hasLifetime transaction));
      [|destruct (match blockhashReset config with Some false => false | _ => true end)];
      destruct (logRequest config); eexists _, _;
      (split; [reflexivity|]); (split; [reflexivity|]); cbn [trace record_call];
      rewrite <- ?app_assoc; eexists; reflexivity.
  - destruct (logRequest config); eexists _, _;
      (split; [reflexivity|]); (split; [reflexivity|]); cbn [trace record_call].
    + eexists; reflexivity.
    + exists []. symmetry. apply app_nil_r.
Qed.

(** The tuner, when it must estimate. *)
Lemma prepareTransaction_estimating rpc config w :
  must_estimate config = true ->
  prepareTransaction rpc config w
  = Runtime.bind (estimateComputeUnits rpc (transaction config))
      (fun unitsFromSimulation =>
         Runtime.bind
           (lift (getSetComputeUnitLimitInstruction
                    (units_for unitsFromSimulation
                       (default DEFAULT_COMPUTE_UNIT_LIMIT_MULTIPLIER
                          (computeUnitLimitMultiplier config)))))
           (fun instruction =>
              finish rpc config
                (with_instructions
                   (match findIndex isComputeUnitLimitInstruction
                            (instructions (transaction config)) with
                    | None => instructions (transaction config) ++ [instruction]
                    | Some index => splice1 index instruction (instructions (transaction config))
                    end) (transaction config)))) w.
Proof.
  unfold must_estimate, prepareTransaction. cbv zeta. intros Hmust.
  assert (Hcond : match findIndex isComputeUnitLimitInstruction
                          (instructions (transaction config)) with
                  | None => true
                  | Some _ => false
                  end || default false (computeUnitLimitReset config) = true).
  { destruct (findIndex _ _); [exact Hmust | reflexivity]. }
  rewrite Hcond. rewrite MonadFacts.bind_assoc. apply MonadFacts.bind_ext. intros u w1.
  rewrite MonadFacts.bind_assoc. apply MonadFacts.bind_ext. intros instruction w2.
  destruct (findIndex _ _); reflexivity.
Qed.

End TunerFacts.

(** C2 (amended): when the message has no compute-unit-limit instruction,
    or a reset is requested, the tuner simulates the message and asks the
    compute budget client for a limit instruction of
    [max(1, ceil(unitsConsumed * multiplier))] units (binary64 arithmetic;
    multiplier 1.1 and unitsConsumed 0 by default; 200000 units when the
    simulation reports zero).  When that number fits the [u32] field of the
    instruction, the instruction takes the place of the first existing limit
    instruction or else goes to the end; when it is above 4294967295 (or
    below 0), the client throws, and the tuner rejects with that error and
    returns no message. *)
Theorem prepareTransaction_installs_compute_limit :
  forall (rpc : Runtime.SolanaClientRuntime) (config : Tuner.PrepareTransactionConfig)
         (w : Runtime.World) (latest : Kit.BlockhashLifetime) (unitsConsumed : option Z),
    TunerSpec.must_estimate config = true ->
    TunerSpec.answers_blockhash rpc ->
    Runtime.getLatestBlockhash rpc (Runtime.trace w) None = Ok latest ->
    Runtime.simulateTransaction rpc
      (Runtime.trace w ++ TunerSpec.calls_before_simulation config)
      (TunerSpec.simulated_message latest config) = Ok unitsConsumed ->
    let units :=
      TunerSpec.requested_units unitsConsumed (Tuner.computeUnitLimitMultiplier config) in
    In (Runtime.SimulateTransaction (TunerSpec.simulated_message latest config))
       (Runtime.trace (snd (Tuner.prepareTransaction rpc config w))) /\
    (PrimFloat.ltb units 0 = false -> PrimFloat.ltb 4294967295 units = false ->
     exists limit,
       Kit.getSetComputeUnitLimitInstruction units = Ok limit /\
       Kit.programAddress limit = Kit.COMPUTE_BUDGET_PROGRAM_ADDRESS /\
       Kit.data limit = Some (Kit.SetComputeUnitLimitData units) /\
       TunerSpec.instructions_of (Tuner.prepareTransaction rpc config w) =
         Some (TunerSpec.installed limit (Kit.instructions (Tuner.transaction config)))) /\
    (PrimFloat.ltb units 0 = true \/ PrimFloat.ltb 4294967295 units = true ->
     fst (Tuner.prepareTransaction rpc config w)
     = Throw (SolanaError Kit.SOLANA_ERROR__CODECS__NUMBER_OUT_OF_RANGE)).
Proof.
  intros rpc config w latest unitsConsumed Hmust Hrpc Hlatest Hsim units.
  pose proof (TunerFacts.estimated rpc config w latest unitsConsumed Hlatest Hsim)
    as (w1 & Hest & Hin & Hgrow).
  pose proof (TunerFacts.prepareTransaction_estimating rpc config w Hmust) as Hrun.
  rewrite (MonadFacts.bind_ok _ _ _ _ _ Hest) in Hrun.
  rewrite TunerFacts.units_for_requested in Hrun. fold units in Hrun.
  unfold Kit.getSetComputeUnitLimitInstruction in *.
  destruct (PrimFloat.ltb units 0 || PrimFloat.ltb 4294967295 units) eqn:Hrange.
  - rewrite Hrun. cbn [Runtime.lift Runtime.bind fst snd].
    split; [exact Hin|]. split; [|reflexivity].
    intros H0 H1. rewrite H0, H1 in Hrange. discriminate.
  - apply orb_false_iff in Hrange as [H0 H1].
    set (limit := {| Kit.programAddress := Kit.COMPUTE_BUDGET_PROGRAM_ADDRESS;
                     Kit.accounts := [];
                     Kit.data := Some (Kit.SetComputeUnitLimitData units);
                     Kit.addressTableLookup := None;
                     Kit.addressTableLookups := None |}) in *.
    destruct (TunerFacts.finishing rpc config Hrpc
                (Kit.with_instructions
                   (TunerSpec.installed limit (Kit.instructions (Tuner.transaction config)))
                   (Tuner.transaction config)) w1) as (t & w2 & Hfin & Hinstr & Hgrow2).
    assert (Hall : Tuner.prepareTransaction rpc config w = (Ok t, w2)).
    { rewrite Hrun. cbn [Runtime.lift Runtime.bind]. rewrite <- Hfin.
      unfold TunerSpec.installed, Tuner.splice1.
      destruct (Tuner.findIndex _ _); reflexivity. }
    rewrite Hall. cbn [fst snd]. split; [|split].
    + destruct Hgrow2 as [rest ->]. apply in_or_app. left. exact Hin.
    + intros _ _. exists limit. repeat split.
      unfold TunerSpec.instructions_of. cbn [fst]. rewrite Hinstr. reflexivity.
    + intros [H|H]; congruence.
Qed.

(** The product is the binary64 one: [50 * 1.1] lies just above 55, and its
    ceiling is 56. *)
Example requested_units_binary64 :
  TunerSpec.requested_units (Some 50) None = 56%float /\
  TunerSpec.requested_units (Some 0) None = 200000%float /\
  TunerSpec.requested_units None None = 200000%float /\
  TunerSpec.requested_units (Some 3) (Some 0%float) = 1%float.
Proof. repeat split; vm_compute; reflexivity. Qed.

(** The scenario of the specification: a simulation reporting 500000 units,
    scaled by 1.1, appends a limit instruction for exactly 550000 units. *)
Lemma prepareTransaction_installs_compute_limit_witness :
  TunerSpec.instructions_of
    (Tuner.prepareTransaction (TunerExamples.mock_rpc 500000) TunerExamples.config
       Runtime.fresh_world)
  = Some [TunerExamples.baseInstruction;
          {| Kit.programAddress := Kit.COMPUTE_BUDGET_PROGRAM_ADDRESS;
             Kit.accounts := [];
             Kit.data := Some (Kit.SetComputeUnitLimitData 550000%float);
             Kit.addressTableLookup := None;
             Kit.addressTableLookups := None |}].
Proof.
  destruct (proj1 (proj2 (prepareTransaction_installs_compute_limit
                            (TunerExamples.mock_rpc 500000) TunerExamples.config
                            Runtime.fresh_world
                            {| Kit.blockhash := "abc"; Kit.lastValidBlockHeight := 123 |}
                            (Some 500000) eq_refl (fun _ _ => eq_refl) eq_refl eq_refl))
              eq_refl eq_refl) as (limit & Hbuilt & _ & _ & Hinstalled).
  vm_compute in Hbuilt. injection Hbuilt as <-. exact Hinstalled.
Defined.

(** C2 as stated fails: a simulation that reports 4000000000 units asks for
    4400000000, which no [u32] holds; the compute budget client throws, and
    the tuner rejects instead of installing an instruction. *)
Lemma prepareTransaction_rejects_beyond_u32 :
  TunerSpec.must_estimate TunerExamples.config = true /\
  TunerSpec.requested_units (Some 4000000000)
    (Tuner.computeUnitLimitMultiplier TunerExamples.config) = 4400000000%float /\
  Tuner.prepareTransaction (TunerExamples.mock_rpc 4000000000) TunerExamples.config
    Runtime.fresh_world
  = (Throw (SolanaError Kit.SOLANA_ERROR__CODECS__NUMBER_OUT_OF_RANGE),
     {| Runtime.trace :=
          [Runtime.GetLatestBlockhash None;
           Runtime.SimulateTransaction
             (Kit.setTransactionMessageLifetimeUsingBlockhash
                {| Kit.blockhash := "abc"; Kit.lastValidBlockHeight := 123 |}
                TunerExamples.message)];
        Runtime.rejections := [];
        Runtime.cachedDecimals := None;
        Runtime.cachedMath := None |}) /\
  TunerSpec.instructions_of
    (Tuner.prepareTransaction (TunerExamples.mock_rpc 4000000000) TunerExamples.config
       Runtime.fresh_world) = None.
Proof. repeat split; vm_compute; reflexivity. Qed.

(** ** Signer mode and version of a prepared transaction *)

Module TransactionsFacts.
Import Kit Runtime Signers Transactions.

Ltac step_in H :=
  match type of H with
  | context [match ?x with _ => _ end] =>
      let E := fresh "E" in destruct x eqn:E; try discriminate H
  | context [if ?x then _ else _] =>
      let E := fresh "E" in destruct x eqn:E; try discriminate H
  end.

(** A transaction that [prepare] returns carries the mode and the version
    that the request's authority, fee payer and instructions resolve to. *)
Lemma prepare_inv runtime getFallback isAddress request w prepared w' :
  prepare runtime getFallback isAddress request w = (Ok prepared, w') ->
  exists authoritySigner mode payer,
    resolveAuthority (authority request) (normaliseCommitment request getFallback)
      = Ok (authoritySigner, mode) /\
    resolveFeePayerAddress isAddress (feePayer request) authoritySigner = Ok payer /\
    prepared_mode prepared = settle_mode mode (feePayerSigner payer) /\
    prepared_version prepared = resolveVersion (version request) (instructions request).
Proof.
  unfold prepare, Runtime.bind, Runtime.lift, Runtime.throw, Runtime.ret, Runtime.call,
    throwIfAborted.
  intros H.
  destruct (length (instructions request) =? 0)%nat; [discriminate|].
  destruct (resolveAuthority (authority request) (normaliseCommitment request getFallback))
    as [[authoritySigner mode]|] eqn:Hauth;
    [|repeat step_in H].
  destruct (resolveFeePayerAddress isAddress (feePayer request) authoritySigner)
    as [payer|] eqn:Hpayer;
    [|cbn [fst snd] in H; rewrite Hpayer in H; repeat step_in H].
  exists authoritySigner, mode, payer.
  cbn [fst snd] in H. rewrite Hpayer in H. repeat step_in H.
  all: injection H as <- _; cbn [prepared_mode prepared_version]; auto.
Qed.

Lemma settle_mode_send m s :
  settle_mode m s = Signers.send <->
  m = Signers.send /\ exists signer, s = Some signer /\
                                 isTransactionSendingSigner signer = true.
Proof.
  unfold settle_mode. destruct m; cbn [mode_eqb].
  - split; [discriminate | intros [? _]; discriminate].
  - destruct s as [signer|].
    + destruct (isTransactionSendingSigner signer) eqn:E.
      * split; [eauto | reflexivity].
      * split; [discriminate | intros (_ & x & [= <-] & Hx); congruence].
    + split; [discriminate | intros (_ & x & Hx & _); discriminate].
Qed.

End TransactionsFacts.

(** C3: a wallet session that exposes only [sendTransaction] resolves to
    mode [send]; and whenever the authority of a prepare request resolved
    to mode [send] while the resolved fee payer is not a transaction-sending
    signer, the prepared transaction has mode [partial].  In particular a
    send-only wallet as authority with a different, address-only fee payer
    prepares in mode [partial]. *)
Theorem send_only_wallet_mode :
  (forall (session : Signers.WalletSession) (commitment : option Kit.Commitment),
      Signers.signTransaction session = false ->
      Signers.sendTransaction session = true ->
      exists signer,
        Signers.createWalletTransactionSigner session commitment
        = Ok {| Signers.mode := Signers.send; Signers.signer := signer |})
  /\
  (forall runtime getFallback isAddress request w prepared w' authoritySigner payer,
      Transactions.prepare runtime getFallback isAddress request w = (Ok prepared, w') ->
      Transactions.resolveAuthority (Transactions.authority request)
        (Transactions.normaliseCommitment request getFallback)
        = Ok (authoritySigner, Signers.send) ->
      Transactions.resolveFeePayerAddress isAddress (Transactions.feePayer request)
        authoritySigner = Ok payer ->
      (forall s, Kit.feePayerSigner payer = Some s ->
                 Kit.isTransactionSendingSigner s = false) ->
      Transactions.prepared_mode prepared = Signers.partial)
  /\
  (forall runtime getFallback isAddress request w session payerAddress,
      Transactions.authority request = Some (Transactions.AuthoritySession session) ->
      Signers.signTransaction session = false ->
      Signers.sendTransaction session = true ->
      Transactions.feePayer request = Some (Transactions.FeePayerString payerAddress) ->
      payerAddress <> ""%string ->
      isAddress payerAddress = true ->
      payerAddress <> Signers.account_address session ->
      Transactions.instructions request <> [] ->
      Transactions.abortSignal request = None ->
      Transactions.computeUnitLimit request = None ->
      Transactions.computeUnitPrice request = None ->
      TunerSpec.answers_blockhash runtime ->
      exists prepared w',
        Transactions.prepare runtime getFallback isAddress request w = (Ok prepared, w') /\
        Transactions.prepared_mode prepared = Signers.partial).
Proof.
  split; [|split].
  - intros session commitment Hsign Hsend.
    unfold Signers.createWalletTransactionSigner. rewrite Hsign, Hsend. eauto.
  - intros runtime getFallback isAddress request w prepared w' authoritySigner payer
      Hprep Hauth Hpayer Hsigner.
    destruct (TransactionsFacts.prepare_inv _ _ _ _ _ _ _ Hprep)
      as (a & m & p & Ha & Hp & Hmode & _).
    rewrite Hauth in Ha. injection Ha as <- <-. rewrite Hpayer in Hp. injection Hp as <-.
    rewrite Hmode. unfold Transactions.settle_mode. cbn [Signers.mode_eqb].
    destruct (Kit.feePayerSigner payer) as [s|] eqn:E; [|reflexivity].
    rewrite (Hsigner s eq_refl). reflexivity.
  - intros runtime getFallback isAddress request w session payerAddress
      Hauth Hsign Hsend Hpayer Hne Haddr Hdiff Hins Habort Hlimit Hprice Hrpc.
    unfold Transactions.prepare, Transactions.resolveComputeUnitLimit,
      Transactions.resolveComputeUnitPrice.
    rewrite Hauth, Hpayer, Habort, Hlimit, Hprice.
    destruct (length (Transactions.instructions request) =? 0)%nat eqn:Hlen.
    { apply Nat.eqb_eq in Hlen. destruct (Transactions.instructions request); [congruence|discriminate]. }
    unfold Transactions.resolveAuthority, Signers.createWalletTransactionSigner.
    rewrite Hsign, Hsend.
    unfold Transactions.resolveFeePayerAddress, Transactions.toAddress.
    cbn [Transactions.feePayer_falsy Transactions.missing andb Js.bind Signers.signer
         Signers.mode fst snd Kit.address].
    assert (Hempty : String.eqb payerAddress "" = false) by (apply String.eqb_neq; assumption).
    assert (Hother : String.eqb (Signers.account_address session) payerAddress = false)
      by (apply String.eqb_neq; congruence).
    rewrite Hempty, Haddr. cbn [andb Js.bind].
    unfold Runtime.bind, Runtime.lift, Runtime.throwIfAborted, Runtime.ret, Runtime.call.
    cbn [fst snd Kit.address]. rewrite Hother.
    cbn [fst snd Kit.feePayerSigner Kit.feePayerAddress].
    destruct (Transactions.lifetime request) as [l|].
    + eexists _, _. split; [reflexivity|]. reflexivity.
    + pose proof (Hrpc (Runtime.trace w)
                    (Some (Transactions.normaliseCommitment request getFallback))) as Hb.
      destruct (Runtime.getLatestBlockhash runtime (Runtime.trace w)
                  (Some (Transactions.normaliseCommitment request getFallback)));
        [|discriminate Hb].
      eexists _, _. split; [reflexivity|]. reflexivity.
Qed.

(** The transaction prepared for a send-only wallet whose fee payer is
    somebody else is in mode [partial]. *)
Lemma send_only_wallet_mode_witness :
  exists prepared w',
    Transactions.prepare (TunerExamples.mock_rpc 0) TransactionsExamples.fallback
      TransactionsExamples.any_address TransactionsExamples.foreign_fee_payer_request
      Runtime.fresh_world = (Ok prepared, w') /\
    Transactions.prepared_mode prepared = Signers.partial.
Proof.
  refine (proj2 (proj2 send_only_wallet_mode) (TunerExamples.mock_rpc 0)
            TransactionsExamples.fallback TransactionsExamples.any_address
            TransactionsExamples.foreign_fee_payer_request Runtime.fresh_world
            SignersExamples.sending_session "sponsor"%string
            eq_refl eq_refl eq_refl eq_refl _ eq_refl _ _ eq_refl eq_refl eq_refl
            (fun _ _ => eq_refl)); discriminate.
Defined.

Module VersionFacts.
Import Kit Transactions.

(** What holds of [resolveVersion] on every request: an explicit
    ['legacy'] is returned as it is; ['auto'], a missing version and an
    explicit [0] all resolve by the instructions alone. *)
Lemma resolveVersion_cases requested instructions :
  resolveVersion requested instructions =
  match requested with
  | Some (explicit legacy) => legacy
  | _ => if existsb instructionUsesAddressLookup instructions then v0 else legacy
  end.
Proof. destruct requested as [[|[|]]|]; reflexivity. Qed.

Lemma resolveVersion_auto_v0 requested instructions :
  requested = None \/ requested = Some auto ->
  (resolveVersion requested instructions = v0 <->
   exists i, In i instructions /\ instructionUsesAddressLookup i = true).
Proof.
  intros [-> | ->]; cbn [resolveVersion];
    (destruct (existsb instructionUsesAddressLookup instructions) eqn:E;
     [ apply existsb_exists in E; split; [intros _; exact E | reflexivity]
     | split; [discriminate | intros Hex; apply existsb_exists in Hex; congruence] ]).
Qed.

End VersionFacts.

(** C5 at the failing input: a request that names version [0] explicitly,
    with no instruction that references a lookup table, is resolved to
    ['legacy'], both by [resolveVersion] and in the transaction that
    [prepare] returns. *)
Theorem resolveVersion_explicit_zero_not_verbatim :
  Transactions.resolveVersion (Some (Transactions.explicit Kit.v0))
    [TransactionsExamples.plain_instruction] = Kit.legacy
  /\
  option_map Transactions.prepared_version
    (TransactionsExamples.prepared_of
       (Transactions.prepare (TunerExamples.mock_rpc 0) TransactionsExamples.fallback
          TransactionsExamples.any_address TransactionsExamples.version_zero_request
          Runtime.fresh_world))
  = Some Kit.legacy.
Proof. split; reflexivity. Qed.

(** ** Async functions that only ask and never submit *)

Module RuntimeFacts.
Import Kit Runtime SplSpec.

(** The world after [m] has the old trace extended by calls that are not
    send attempts. *)
Definition quiet_step (w w' : World) : Prop :=
  exists rest, trace w' = trace w ++ rest /\ List.filter is_attempt rest = [].

Definition quiet {A} (m : M A) : Prop := forall w, quiet_step w (snd (m w)).

Lemma quiet_step_refl w : quiet_step w w.
Proof. exists []. split; [symmetry; apply app_nil_r | reflexivity]. Qed.

Lemma quiet_step_trans w1 w2 w3 : quiet_step w1 w2 -> quiet_step w2 w3 -> quiet_step w1 w3.
Proof.
  intros (r1 & H1 & F1) (r2 & H2 & F2). exists (r1 ++ r2). split.
  - rewrite H2, H1, app_assoc. reflexivity.
  - rewrite List.filter_app, F1, F2. reflexivity.
Qed.

Lemma quiet_step_attempts w w' : quiet_step w w' -> attempts w' = attempts w.
Proof.
  intros (rest & H & F). unfold attempts. rewrite H, List.filter_app, F, app_nil_r. reflexivity.
Qed.

Lemma quiet_ret {A} (a : A) : quiet (ret a).
Proof. intros w. apply quiet_step_refl. Qed.


Lemma quiet_lift {A} (r : result A) : quiet (lift r).
Proof. intros w. apply quiet_step_refl. Qed.

Lemma quiet_bind {A B} (m : M A) (k : A -> M B) :
  quiet m -> (forall a, quiet (k a)) -> quiet (Runtime.bind m k).
Proof.
  intros Hm Hk w. unfold Runtime.bind. specialize (Hm w).
  destruct (m w) as [[a|e] w1]; cbn [snd] in *; [|assumption].
  eapply quiet_step_trans; [exact Hm | apply Hk].
Qed.

Lemma quiet_call {A} ev (answer : Trace -> result A) :
  is_attempt ev = false -> quiet (call ev answer).
Proof.
  intros Hev w. exists [ev]. split; [reflexivity|]. cbn. rewrite Hev. reflexivity.
Qed.

End RuntimeFacts.

Module SplFacts.
Import Kit Runtime Signers Spl SplSpec RuntimeFacts.

Section Helper.
Variable runtime : SolanaClientRuntime.
Variable isAddress : string -> bool.
Variable mintAddress tokenProgram : Address.











End Helper.

End SplFacts.

(** The scenarios of the specification.  A first submission answered with
    'already processed' is followed by one fresh blockhash query and one more
    submission, which succeeds. *)
Example sendTransfer_retried_once :
  fst (SplExamples.sendTransfer_run SplExamples.flaky_rpc) = Ok "signature"%string /\
  map SplExamples.kind_of (Runtime.trace (snd (SplExamples.sendTransfer_run SplExamples.flaky_rpc)))
  = [SplExamples.Pda; SplExamples.Pda; SplExamples.Mint; SplExamples.AccountInfo;
     SplExamples.Sign; SplExamples.Submit;
     SplExamples.Blockhash; SplExamples.Pda; SplExamples.Pda; SplExamples.AccountInfo;
     SplExamples.Sign; SplExamples.Submit].
Proof. split; reflexivity. Qed.

(** A second 'already processed' ends the run: two submissions, no third. *)
Example sendTransfer_second_rejection_propagates :
  fst (SplExamples.sendTransfer_run SplExamples.stuck_rpc)
  = Throw (SolanaError TRANSACTION_ERROR__ALREADY_PROCESSED) /\
  SplSpec.attempts (snd (SplExamples.sendTransfer_run SplExamples.stuck_rpc)) = 2%nat.
Proof. split; reflexivity. Qed.


(** ** Comparing binary64 numbers *)

Module FloatFacts.

Lemma SFcompare_antisym x y : SFcompare y x = option_map CompOpp (SFcompare x y).
Proof.
  destruct x as [sx|sx| |sx mx ex], y as [sy|sy| |sy my ey]; cbn; try reflexivity;
    try (destruct sx; reflexivity); try (destruct sy; reflexivity);
    try (destruct sx, sy; reflexivity).
  fold (Pos.compare mx my). fold (Pos.compare my mx).
  destruct sx, sy; try reflexivity;
    rewrite (Z.compare_antisym ex ey), (Pos.compare_antisym mx my);
    destruct (ex ?= ey)%Z; cbn; try reflexivity;
    destruct (mx ?= my)%positive; reflexivity.
Qed.

Lemma SFcompare_None x y : SFcompare x y = None -> x = S754_nan \/ y = S754_nan.
Proof.
  destruct x as [sx|sx| |sx mx ex], y as [sy|sy| |sy my ey]; cbn; auto; discriminate.
Qed.

Lemma is_nan_Prim2SF x : PrimFloat.is_nan x = false -> Prim2SF x <> S754_nan.
Proof.
  unfold PrimFloat.is_nan. rewrite FloatAxioms.eqb_spec. unfold SFeqb.
  intros H E. rewrite E in H. discriminate.
Qed.

Lemma SFcompare_refl x : x <> S754_nan -> SFcompare x x = Some Eq.
Proof.
  destruct x as [sx|sx| |sx mx ex]; cbn; try congruence.
  - destruct sx; reflexivity.
  - fold (Pos.compare mx mx). rewrite Z.compare_refl, Pos.compare_refl.
    destruct sx; reflexivity.
Qed.

Lemma not_nan_is_nan x : Prim2SF x <> S754_nan -> PrimFloat.is_nan x = false.
Proof.
  intros H. unfold PrimFloat.is_nan. rewrite FloatAxioms.eqb_spec. unfold SFeqb.
  rewrite (SFcompare_refl _ H). reflexivity.
Qed.

(** [NaN] is on neither side of a comparison that holds. *)
Lemma ltb_not_nan_l x y : PrimFloat.ltb x y = true -> PrimFloat.is_nan x = true -> False.
Proof.
  rewrite FloatAxioms.ltb_spec. unfold SFltb. intros H Hnan.
  rewrite not_nan_is_nan in Hnan; [discriminate|].
  intros E. rewrite E in H. discriminate H.
Qed.

Lemma ltb_not_nan_r x y : PrimFloat.ltb x y = true -> PrimFloat.is_nan y = true -> False.
Proof.
  rewrite FloatAxioms.ltb_spec. unfold SFltb. intros H Hnan.
  rewrite not_nan_is_nan in Hnan; [discriminate|].
  intros E. rewrite E in H. destruct (Prim2SF x); discriminate H.
Qed.

(** [x <= y] excludes [y < x]. *)
Lemma leb_not_gt x y : PrimFloat.leb x y = true -> PrimFloat.ltb y x = false.
Proof.
  rewrite FloatAxioms.leb_spec, FloatAxioms.ltb_spec. unfold SFleb, SFltb.
  rewrite (SFcompare_antisym (Prim2SF x) (Prim2SF y)).
  destruct (SFcompare (Prim2SF x) (Prim2SF y)) as [[| |]|]; cbn; congruence.
Qed.

(** Away from [NaN], [x <= y] is the same as not [y < x]. *)
Lemma not_gt_leb x y :
  PrimFloat.is_nan x = false -> PrimFloat.is_nan y = false ->
  PrimFloat.ltb y x = false -> PrimFloat.leb x y = true.
Proof.
  intros Hx%is_nan_Prim2SF Hy%is_nan_Prim2SF.
  rewrite FloatAxioms.leb_spec, FloatAxioms.ltb_spec. unfold SFleb, SFltb.
  rewrite (SFcompare_antisym (Prim2SF x) (Prim2SF y)).
  destruct (SFcompare _ _) as [[| |]|] eqn:E; cbn; try congruence.
  destruct (SFcompare_None _ _ E); contradiction.
Qed.

End FloatFacts.

(** The exact comparisons with an integer agree with the binary64 ones:
    on the integers from -8 to 39, their neighbours among the numbers, the
    halves between them, and the numbers at the far ends, against those
    integers and two large lengths. *)
Example integer_comparisons_agree :
  let integers := map (fun i => Z.of_nat i - 8) (seq 0 48) in
  let numbers :=
    flat_map (fun k =>
                let x := JsNumber.of_bigint k in
                [x; PrimFloat.add x 0.5; PrimFloat.next_up x; PrimFloat.next_down x])
      integers
    ++ [(-0)%float; 4294967295.5%float; 0x1p+996%float; (-0x1p+996)%float;
        0x1p-1074%float; (-0x1p-1074)%float; infinity; neg_infinity; nan] in
  forallb (fun x =>
    forallb (fun n =>
      Bool.eqb (JsNumber.lt_integer x n) (PrimFloat.ltb x (JsNumber.of_bigint n)) &&
      Bool.eqb (JsNumber.ge_integer x n) (PrimFloat.leb (JsNumber.of_bigint n) x) &&
      Bool.eqb (JsNumber.strict_ne_integer n x)
        (negb (PrimFloat.eqb (JsNumber.of_bigint n) x)))
      (integers ++ [4294967296; 9007199254740992]))
    numbers = true.
Proof. vm_compute. reflexivity. Qed.

(** ** The instruction pool controller *)

Module PoolFacts.
Import Kit AsyncState Pool PoolSpec.

Lemma commitInstructions_idle next c : derived_state_idle (commitInstructions next c).
Proof. repeat split. Qed.

Lemma committed_mutation c a :
  is_mutation a = true -> returns_early c a = false ->
  exists next, step c a = commitInstructions next c.
Proof.
  destruct a; try discriminate; intros _ Hearly; cbn [step returns_early] in *.
  - eexists; reflexivity.
  - unfold addInstructions. rewrite Hearly. eexists; reflexivity.
  - unfold removeInstruction. rewrite Hearly. eexists; reflexivity.
  - eexists; reflexivity.
  - eexists; reflexivity.
  - eexists; reflexivity.
Qed.

Lemma prepare_call_lifetime options now c c' request :
  prepare_call options now c = Ok (c', request) ->
  Transactions.lifetime request =
  match lifetime options with
  | Some l => Some l
  | None => resolveCachedLifetime now c
  end.
Proof.
  unfold prepare_call, ensureInstructions.
  destruct (length (default (getInstructions c) (instructions options)) =? 0)%nat;
    cbn [Js.bind]; [discriminate|].
  intros [= _ <-]. cbn [request_of Transactions.lifetime].
  destruct (lifetime options); [reflexivity|].
  change (resolveCachedLifetime now (set_prepareState _ c)) with (resolveCachedLifetime now c).
  destruct (resolveCachedLifetime now c); reflexivity.
Qed.

Lemma prepareAndSend_call_lifetime options now c c' request :
  prepareAndSend_call options now c = Ok (c', request) ->
  Transactions.lifetime request =
  match lifetime options with
  | Some l => Some l
  | None => resolveCachedLifetime now c
  end.
Proof.
  unfold prepareAndSend_call, ensureInstructions.
  destruct (length (default (getInstructions c) (instructions options)) =? 0)%nat;
    cbn [Js.bind]; [discriminate|].
  intros [= _ <-]. cbn [request_of Transactions.lifetime]. unfold resolveLifetimeOptions.
  destruct (lifetime options); [reflexivity|].
  change (resolveCachedLifetime now (set_sendState _ c)) with (resolveCachedLifetime now c).
  destruct (resolveCachedLifetime now c); reflexivity.
Qed.

Lemma prepare_call_runs options now c :
  default (getInstructions c) (instructions options) <> [] ->
  prepare_call options now c
  = Ok (set_prepareState (createAsyncState loading None None) c,
        request_of options
          match lifetime options with
          | Some l => Some l
          | None => resolveCachedLifetime now c
          end
          (default (getInstructions c) (instructions options))).
Proof.
  intros Hne. unfold prepare_call, ensureInstructions.
  destruct (default (getInstructions c) (instructions options)) as [|i rest] eqn:E;
    [contradiction|].
  cbn [length Nat.eqb Js.bind].
  change (resolveCachedLifetime now (set_prepareState _ c)) with (resolveCachedLifetime now c).
  destruct (lifetime options); [reflexivity|].
  destruct (resolveCachedLifetime now c); reflexivity.
Qed.

Lemma prepareAndSend_call_runs options now c :
  default (getInstructions c) (instructions options) <> [] ->
  prepareAndSend_call options now c
  = Ok (set_sendState (createAsyncState loading None None) c,
        request_of options
          match lifetime options with
          | Some l => Some l
          | None => resolveCachedLifetime now c
          end
          (default (getInstructions c) (instructions options))).
Proof.
  intros Hne. unfold prepareAndSend_call, ensureInstructions, resolveLifetimeOptions.
  destruct (default (getInstructions c) (instructions options)) as [|i rest] eqn:E;
    [contradiction|].
  cbn [length Nat.eqb Js.bind].
  change (resolveCachedLifetime now (set_sendState _ c)) with (resolveCachedLifetime now c).
  destruct (lifetime options); [reflexivity|].
  destruct (resolveCachedLifetime now c); reflexivity.
Qed.

Lemma resolveCachedLifetime_fresh now c cache :
  latestBlockhashCache c = Some cache ->
  PrimFloat.ltb (blockhashMaxAgeMs c) (PrimFloat.sub now (updatedAt cache)) = false ->
  resolveCachedLifetime now c = Some (value cache).
Proof.
  intros Hc Hage. unfold resolveCachedLifetime. rewrite Hc, Hage. reflexivity.
Qed.

Lemma resolveCachedLifetime_stale now c :
  latestBlockhashCache c = None \/
  (exists cache, latestBlockhashCache c = Some cache /\
                 PrimFloat.ltb (blockhashMaxAgeMs c) (PrimFloat.sub now (updatedAt cache))
                 = true) ->
  resolveCachedLifetime now c = None.
Proof.
  unfold resolveCachedLifetime. intros [-> | (cache & -> & ->)]; reflexivity.
Qed.

End PoolFacts.

(** C4 (amended): after any mutation call that does not return early (every
    [addInstruction], [replaceInstructions], [clearInstructions] and [reset],
    [addInstructions] with a non-empty list, [removeInstruction] with an index
    inside the list), whatever happened to the controller before, the
    prepared snapshot is null and [prepareState] and [sendState] are idle. *)
Theorem mutation_resets_derived_state :
  forall (config : Pool.TransactionPoolConfig) (history : list Pool.Action) (a : Pool.Action),
    PoolSpec.is_mutation a = true ->
    PoolSpec.returns_early (Pool.run (Pool.createTransactionPoolController config) history) a
      = false ->
    PoolSpec.derived_state_idle
      (Pool.step (Pool.run (Pool.createTransactionPoolController config) history) a).
Proof.
  intros config history a Hmut Hearly.
  destruct (PoolFacts.committed_mutation _ a Hmut Hearly) as [next ->].
  apply PoolFacts.commitInstructions_idle.
Qed.

(** Adding an instruction after a successful prepare drops the prepared
    transaction. *)
Lemma mutation_resets_derived_state_witness :
  PoolSpec.derived_state_idle
    (Pool.step
       (Pool.run (Pool.createTransactionPoolController PoolExamples.empty_config)
          PoolExamples.prepared_history)
       (Pool.AddInstruction TransactionsExamples.plain_instruction)).
Proof.
  exact (mutation_resets_derived_state PoolExamples.empty_config PoolExamples.prepared_history
           (Pool.AddInstruction TransactionsExamples.plain_instruction) eq_refl eq_refl).
Defined.

(** C4 as stated fails: [addInstructions([])] is a mutation call, and after
    a successful prepare it leaves the prepared transaction and the
    [success] state in place. *)
Lemma empty_addInstructions_keeps_prepared :
  PoolSpec.is_mutation (Pool.AddInstructions []) = true /\
  Pool.getPrepared (Pool.step PoolExamples.prepared_controller (Pool.AddInstructions []))
  = Some PoolExamples.some_prepared /\
  AsyncState.status
    (Pool.getPrepareState (Pool.step PoolExamples.prepared_controller (Pool.AddInstructions [])))
  = AsyncState.success /\
  ~ PoolSpec.derived_state_idle
      (Pool.step PoolExamples.prepared_controller (Pool.AddInstructions [])).
Proof.
  repeat split. intros (H & _). discriminate H.
Qed.

(** C8 (amended): with at least one instruction to prepare, [prepare] and
    [prepareAndSend] both go on to the Transaction Helper, with the same
    request.  That request carries the cached lifetime as its default if and
    only if the caller gave no lifetime and [now - updatedAt > maxAgeMs] is
    false; away from [NaN] that is [now - updatedAt <= maxAgeMs], and a
    difference or a [maxAgeMs] that is [NaN] counts as fresh.  With no cache,
    or one for which [now - updatedAt > maxAgeMs], the request keeps the
    caller's lifetime (none, when none was given); an explicit lifetime is
    passed on as it is; and [maxAgeMs] is 30000 unless configured. *)
Theorem cached_lifetime_default :
  forall (c : Pool.Controller) (options : Pool.TransactionPoolPrepareOptions) (now : float),
    default (Pool.getInstructions c) (Pool.instructions options) <> [] ->
    exists (c1 c2 : Pool.Controller) (request : Transactions.TransactionPrepareRequest),
      Pool.prepare_call options now c = Ok (c1, request) /\
      Pool.prepareAndSend_call options now c = Ok (c2, request) /\
      (forall cache,
          Pool.latestBlockhashCache c = Some cache ->
          let age := PrimFloat.sub now (Pool.updatedAt cache) in
          (PoolSpec.injected options request cache <->
           Pool.lifetime options = None /\
           PrimFloat.ltb (Pool.blockhashMaxAgeMs c) age = false) /\
          (PrimFloat.is_nan age = false ->
           PrimFloat.is_nan (Pool.blockhashMaxAgeMs c) = false ->
           (PoolSpec.injected options request cache <->
            Pool.lifetime options = None /\
            PrimFloat.leb age (Pool.blockhashMaxAgeMs c) = true)) /\
          (PrimFloat.is_nan age = true \/ PrimFloat.is_nan (Pool.blockhashMaxAgeMs c) = true ->
           Pool.lifetime options = None ->
           PoolSpec.injected options request cache)) /\
      (Pool.latestBlockhashCache c = None \/
       (exists cache, Pool.latestBlockhashCache c = Some cache /\
                      PrimFloat.ltb (Pool.blockhashMaxAgeMs c)
                        (PrimFloat.sub now (Pool.updatedAt cache)) = true) ->
       Transactions.lifetime request = Pool.lifetime options) /\
      (forall l, Pool.lifetime options = Some l -> Transactions.lifetime request = Some l) /\
      (forall initial,
          Pool.blockhashMaxAgeMs
            (Pool.createTransactionPoolController
               {| Pool.config_blockhashMaxAgeMs := None;
                  Pool.config_initialInstructions := initial |}) = 30000%float).
Proof.
  intros c options now Hne.
  eexists _, _, _.
  split; [apply PoolFacts.prepare_call_runs, Hne|].
  split; [apply PoolFacts.prepareAndSend_call_runs, Hne|].
  cbn [Pool.request_of Transactions.lifetime]. unfold PoolSpec.injected.
  cbn [Pool.request_of Transactions.lifetime].
  assert (Hiff : forall cache,
             Pool.latestBlockhashCache c = Some cache ->
             (Pool.lifetime options = None /\
              match Pool.lifetime options with
              | Some l => Some l
              | None => Pool.resolveCachedLifetime now c
              end = Some (Pool.value cache)) <->
             (Pool.lifetime options = None /\
              PrimFloat.ltb (Pool.blockhashMaxAgeMs c)
                (PrimFloat.sub now (Pool.updatedAt cache)) = false)).
  { intros cache Hcache. split.
    - intros [Hnone Hreq]. split; [exact Hnone|]. rewrite Hnone in Hreq.
      unfold Pool.resolveCachedLifetime in Hreq. rewrite Hcache in Hreq.
      destruct (PrimFloat.ltb _ _); [discriminate | reflexivity].
    - intros [Hnone Hage]. split; [exact Hnone|]. rewrite Hnone.
      apply PoolFacts.resolveCachedLifetime_fresh; assumption. }
  split; [|split; [|split]].
  - intros cache Hcache. cbv zeta.
    set (age := PrimFloat.sub now (Pool.updatedAt cache)). split; [|split].
    + apply Hiff, Hcache.
    + intros Hage Hmax. rewrite (Hiff cache Hcache). fold age. split.
      * intros [Hnone Hlt]. split; [exact Hnone|].
        apply FloatFacts.not_gt_leb; assumption.
      * intros [Hnone Hle]. split; [exact Hnone|]. apply FloatFacts.leb_not_gt, Hle.
    + intros Hnan Hnone. apply (Hiff cache Hcache). split; [exact Hnone|]. fold age.
      destruct (PrimFloat.ltb (Pool.blockhashMaxAgeMs c) age) eqn:Hlt; [|reflexivity].
      exfalso. destruct Hnan as [Hnan|Hnan].
      * apply (FloatFacts.ltb_not_nan_r _ _ Hlt). exact Hnan.
      * apply (FloatFacts.ltb_not_nan_l _ _ Hlt). exact Hnan.
  - intros Hstale. rewrite (PoolFacts.resolveCachedLifetime_stale now c Hstale).
    destruct (Pool.lifetime options); reflexivity.
  - intros l Hl. rewrite Hl. reflexivity.
  - intros initial. reflexivity.
Qed.

(** With the default age limit, a cache that is exactly 30000 ms old is
    still injected, by [prepare] and by [prepareAndSend]. *)
Lemma cached_lifetime_default_witness :
  exists c1 c2 request,
    Pool.prepare_call PoolExamples.no_options 31000%float PoolExamples.cached_controller
    = Ok (c1, request) /\
    Pool.prepareAndSend_call PoolExamples.no_options 31000%float PoolExamples.cached_controller
    = Ok (c2, request) /\
    PoolSpec.injected PoolExamples.no_options request PoolExamples.fresh_cache.
Proof.
  destruct (cached_lifetime_default PoolExamples.cached_controller PoolExamples.no_options
              31000%float ltac:(discriminate))
    as (c1 & c2 & request & Hprepare & Hsend & Hcache & _).
  exists c1, c2, request. split; [exact Hprepare|]. split; [exact Hsend|].
  apply (proj2 (proj1 (Hcache PoolExamples.fresh_cache eq_refl))).
  split; reflexivity.
Defined.

(** C8 as stated fails: for a cache whose [updatedAt] is [NaN],
    [now - updatedAt <= maxAgeMs] does not hold, and the cached lifetime is
    injected all the same, by [prepare] and by [prepareAndSend]. *)
Lemma cached_lifetime_nan_is_injected :
  let cache := {| Pool.updatedAt := nan; Pool.value := PoolExamples.some_lifetime |} in
  let c := Pool.setLatestBlockhashCache (Some cache) PoolExamples.cached_controller in
  PrimFloat.leb (PrimFloat.sub 31000 (Pool.updatedAt cache)) (Pool.blockhashMaxAgeMs c) = false /\
  Pool.lifetime PoolExamples.no_options = None /\
  (exists c1 request,
      Pool.prepare_call PoolExamples.no_options 31000%float c = Ok (c1, request) /\
      PoolSpec.injected PoolExamples.no_options request cache) /\
  (exists c2 request,
      Pool.prepareAndSend_call PoolExamples.no_options 31000%float c = Ok (c2, request) /\
      PoolSpec.injected PoolExamples.no_options request cache).
Proof.
  cbv zeta. split; [vm_compute; reflexivity|]. split; [reflexivity|].
  split; eexists _, _; (split; [vm_compute; reflexivity|]); split; reflexivity.
Qed.

(** C10 (amended): [addInstructions] with an empty list, and
    [removeInstruction] with an index for which [index < 0] or
    [index >= length] holds, return the controller as it was: the instruction
    list, the prepared snapshot, [prepareState] and [sendState] are unchanged
    (not reset), and no listener call is added to the log. *)
Theorem early_return_changes_nothing :
  forall (c : Pool.Controller) (index : float),
    JsNumber.lt_integer index 0 = true \/
    JsNumber.ge_integer index (Z.of_nat (length (Pool.getInstructions c))) = true ->
    Pool.addInstructions [] c = c /\
    Pool.removeInstruction index c = c /\
    Pool.notified (Pool.removeInstruction index c) = Pool.notified c /\
    Pool.notified (Pool.addInstructions [] c) = Pool.notified c.
Proof.
  intros c index Hindex.
  assert (Hremove : Pool.removeInstruction index c = c).
  { unfold Pool.removeInstruction.
    replace (JsNumber.lt_integer index 0 ||
             JsNumber.ge_integer index (Z.of_nat (length (Pool.getInstructions c))))
      with true; [reflexivity|].
    symmetry. apply orb_true_iff. exact Hindex. }
  rewrite Hremove. repeat split.
Qed.

(** After a successful prepare, removing at index 5 of a one-element list
    keeps the prepared transaction; so does removing at [Infinity] and at
    [-0.5]. *)
Lemma early_return_changes_nothing_witness :
  Pool.removeInstruction 5 PoolExamples.prepared_controller = PoolExamples.prepared_controller /\
  Pool.removeInstruction infinity PoolExamples.prepared_controller
  = PoolExamples.prepared_controller /\
  Pool.removeInstruction (-0.5) PoolExamples.prepared_controller
  = PoolExamples.prepared_controller /\
  Pool.getPrepared (Pool.removeInstruction 5 PoolExamples.prepared_controller)
  = Some PoolExamples.some_prepared.
Proof.
  split; [|split; [|split]].
  - refine (proj1 (proj2 (early_return_changes_nothing PoolExamples.prepared_controller 5 _))).
    right. vm_compute. reflexivity.
  - refine (proj1 (proj2 (early_return_changes_nothing PoolExamples.prepared_controller
                            infinity _))).
    right. vm_compute. reflexivity.
  - refine (proj1 (proj2 (early_return_changes_nothing PoolExamples.prepared_controller
                            (-0.5)%float _))).
    left. vm_compute. reflexivity.
  - vm_compute. reflexivity.
Defined.

(** C10 as stated fails: [NaN] is not less than the length of the list (nor
    is it negative), and [removeInstruction(NaN)] does not return early.  It
    commits the list it found, with nothing removed: after a successful
    prepare this drops the prepared transaction, sets both states back to
    idle, and calls the listeners of all four stores. *)
Lemma removeInstruction_nan_commits :
  let c := PoolExamples.watched_prepared_controller in
  JsNumber.lt_integer nan (Z.of_nat (length (Pool.getInstructions c))) = false /\
  JsNumber.lt_integer nan 0 = false /\
  Pool.getPrepared c = Some PoolExamples.some_prepared /\
  AsyncState.status (Pool.getPrepareState c) = AsyncState.success /\
  Pool.getInstructions (Pool.removeInstruction nan c) = Pool.getInstructions c /\
  Pool.getPrepared (Pool.removeInstruction nan c) = None /\
  AsyncState.status (Pool.getPrepareState (Pool.removeInstruction nan c)) = AsyncState.idle /\
  AsyncState.status (Pool.getSendState (Pool.removeInstruction nan c)) = AsyncState.idle /\
  Pool.notified (Pool.removeInstruction nan c)
  = Pool.notified c ++
    [(Pool.InstructionsSlice, 1%nat); (Pool.PreparedSlice, 2%nat);
     (Pool.PrepareStateSlice, 3%nat); (Pool.SendStateSlice, 4%nat)] /\
  Pool.removeInstruction nan c <> c.
Proof.
  cbv zeta. repeat split; try (vm_compute; reflexivity).
  intros H. apply (f_equal Pool.getPrepared) in H. vm_compute in H. discriminate H.
Qed.

(** ** Which rejections reach the caller *)

Module SurfaceFacts.
Import Kit Runtime RuntimeSpec.

Lemma surfaces_ret {A} (a : A) : surfaces (ret a).
Proof. intros w. reflexivity. Qed.

Lemma surfaces_throw {A} e : surfaces (@throw A e).
Proof. intros w. left. reflexivity. Qed.

Lemma surfaces_lift {A} (r : result A) : surfaces (lift r).
Proof. intros w. destruct r; [reflexivity | left; reflexivity]. Qed.

Lemma surfaces_call {A} ev (answer : Trace -> result A) : surfaces (call ev answer).
Proof.
  intros w. unfold call. cbn [fst snd]. destruct (answer (trace w)); cbn; auto.
Qed.

Lemma surfaces_throwIfAborted signal : surfaces (throwIfAborted signal).
Proof.
  intros w. unfold throwIfAborted. destruct signal as [s|]; [|reflexivity].
  destruct (aborted s (trace w)); [left|]; reflexivity.
Qed.

Lemma surfaces_bind {A B} (m : M A) (k : A -> M B) :
  surfaces m -> (forall a, surfaces (k a)) -> surfaces (Runtime.bind m k).
Proof.
  intros Hm Hk w. unfold Runtime.bind. specialize (Hm w).
  destruct (m w) as [[a|e] w1]; cbn [fst snd surfaced] in *; [|assumption].
  specialize (Hk a w1). destruct (k a w1) as [[b|e] w2]; cbn [fst snd surfaced] in *.
  - congruence.
  - rewrite <- Hm. assumption.
Qed.

Ltac surfaces_steps :=
  cbv zeta;
  repeat first
    [ apply surfaces_ret | apply surfaces_lift | apply surfaces_throw
    | apply surfaces_call | apply surfaces_throwIfAborted
    | apply surfaces_bind; [|intros ?]
    | match goal with
      | |- surfaces (if ?b then _ else _) => destruct b
      | |- surfaces (match ?x with _ => _ end) => destruct x
      end ].

Section Operations.
Variable runtime : SolanaClientRuntime.
Variable getFallbackCommitment : unit -> Commitment.
Variable isAddress : string -> bool.
Variable mintAddress tokenProgram : Address.

Lemma surfaces_estimateComputeUnits t : surfaces (Tuner.estimateComputeUnits runtime t).
Proof. unfold Tuner.estimateComputeUnits. surfaces_steps. Qed.

Lemma surfaces_prepareTransaction config : surfaces (Tuner.prepareTransaction runtime config).
Proof.
  unfold Tuner.prepareTransaction. cbv zeta.
  apply surfaces_bind.
  - destruct (_ || _); [|apply surfaces_ret].
    apply surfaces_bind; [apply surfaces_estimateComputeUnits|]. intros u. surfaces_steps.
  - intros t. surfaces_steps.
Qed.

Lemma surfaces_prepare request :
  surfaces (Transactions.prepare runtime getFallbackCommitment isAddress request).
Proof. unfold Transactions.prepare. surfaces_steps. Qed.

Lemma surfaces_sign prepared : surfaces (Transactions.sign runtime prepared).
Proof. unfold Transactions.sign. surfaces_steps. Qed.

Lemma surfaces_send prepared options : surfaces (Transactions.send runtime prepared options).
Proof. unfold Transactions.send, Transactions.sign. surfaces_steps. Qed.

Lemma surfaces_prepareAndSend request setting options :
  surfaces (Transactions.prepareAndSend runtime getFallbackCommitment isAddress
              request setting options).
Proof.
  unfold Transactions.prepareAndSend.
  apply surfaces_bind; [apply surfaces_prepare|]. intros prepared.
  destruct setting as [[|m r b l]|];
    [ apply surfaces_send
    | apply surfaces_bind; [apply surfaces_prepareTransaction | intros; apply surfaces_send]
    | apply surfaces_bind; [apply surfaces_prepareTransaction | intros; apply surfaces_send] ].
Qed.

Lemma surfaces_resolveDecimals c : surfaces (Spl.resolveDecimals runtime mintAddress c).
Proof.
  intros w. unfold Spl.resolveDecimals. destruct (cachedDecimals w); [reflexivity|].
  revert w. change (surfaces (Runtime.bind
    (call (FetchMint mintAddress c) (fun tr => fetchMint runtime tr mintAddress c))
    (fun decimals => Runtime.bind (Spl.set_cachedDecimals decimals) (fun _ => ret decimals)))).
  apply surfaces_bind; [apply surfaces_call|]. intros d.
  apply surfaces_bind; [intros w; reflexivity | intros; apply surfaces_ret].
Qed.

Lemma surfaces_getTokenMath c : surfaces (Spl.getTokenMath runtime mintAddress c).
Proof.
  intros w. unfold Spl.getTokenMath. destruct (cachedMath w); [reflexivity|].
  revert w. change (surfaces (Runtime.bind (Spl.resolveDecimals runtime mintAddress c)
    (fun decimals => Runtime.bind (lift (Amounts.createTokenAmount decimals))
       (fun math => Runtime.bind (Spl.set_cachedMath math) (fun _ => ret math))))).
  apply surfaces_bind; [apply surfaces_resolveDecimals|]. intros d.
  apply surfaces_bind; [apply surfaces_lift|]. intros math.
  apply surfaces_bind; [intros w; reflexivity | intros; apply surfaces_ret].
Qed.

Lemma surfaces_derive owner :
  surfaces (Spl.deriveAssociatedTokenAddress runtime isAddress mintAddress tokenProgram owner).
Proof. unfold Spl.deriveAssociatedTokenAddress. surfaces_steps. Qed.

Lemma surfaces_prepareTransfer config :
  surfaces (Spl.prepareTransfer runtime isAddress mintAddress tokenProgram config).
Proof.
  unfold Spl.prepareTransfer, Spl.resolveLifetime. cbv zeta.
  repeat first
    [ apply surfaces_ret | apply surfaces_lift | apply surfaces_throw
    | apply surfaces_call | apply surfaces_derive
    | apply surfaces_getTokenMath | apply surfaces_resolveDecimals
    | apply surfaces_bind; [|intros ?]
    | match goal with
      | |- surfaces (if ?b then _ else _) => destruct b
      | |- surfaces (match ?x with _ => _ end) => destruct x
      end ].
Qed.

Lemma surfaces_sendPreparedTransfer prepared options :
  surfaces (Spl.sendPreparedTransfer runtime prepared options).
Proof. unfold Spl.sendPreparedTransfer. surfaces_steps. Qed.

Lemma surfaces_toWire prepared : surfaces (Transactions.toWire runtime prepared).
Proof. unfold Transactions.toWire. apply surfaces_sign. Qed.

Variable getTransferSolInstruction : Z -> Address -> TransactionSigner -> result Instruction.

Lemma surfaces_sol_prepareTransfer config :
  surfaces (Sol.prepareTransfer runtime isAddress getTransferSolInstruction config).
Proof. unfold Sol.prepareTransfer, Sol.resolveLifetime. surfaces_steps. Qed.

Lemma surfaces_sol_sendPreparedTransfer prepared options :
  surfaces (Sol.sendPreparedTransfer runtime prepared options).
Proof. unfold Sol.sendPreparedTransfer. surfaces_steps. Qed.

Lemma surfaces_sol_sendTransfer config options :
  surfaces (Sol.sendTransfer runtime isAddress getTransferSolInstruction config options).
Proof.
  unfold Sol.sendTransfer.
  apply surfaces_bind; [apply surfaces_sol_prepareTransfer|].
  intros prepared. apply surfaces_sol_sendPreparedTransfer.
Qed.

Lemma surfaces_pool_sign {A} (helper : Transactions.TransactionPrepared -> M A) override c :
  (forall prepared, surfaces (helper prepared)) -> surfaces (Pool.sign helper override c).
Proof.
  intros H. unfold Pool.sign. apply surfaces_bind; [apply surfaces_lift | exact H].
Qed.

Lemma surfaces_pool_toWire {A} (helper : Transactions.TransactionPrepared -> M A) override c :
  (forall prepared, surfaces (helper prepared)) -> surfaces (Pool.toWire helper override c).
Proof.
  intros H. unfold Pool.toWire. apply surfaces_bind; [apply surfaces_lift | exact H].
Qed.

End Operations.

End SurfaceFacts.

Module ExceptionFacts.
Import Kit Runtime RuntimeSpec Spl SplSpec SurfaceFacts MonadFacts.

Section Helper.
Variable runtime : SolanaClientRuntime.
Variable isAddress : string -> bool.
Variable mintAddress tokenProgram : Address.

(** Once the token account address and the decimals are known,
    [fetchBalance] always fulfils: whatever is thrown inside its [try] block
    (by the balance query, by the token math, by the parsing of the amount)
    becomes the missing balance. *)
Lemma fetchBalance_cases owner c w :
  let outcome := fetchBalance runtime isAddress mintAddress tokenProgram owner c w in
  match deriveAssociatedTokenAddress runtime isAddress mintAddress tokenProgram owner w with
  | (Throw e, w1) => outcome = (Throw e, w1)
  | (Ok ataAddress, w1) =>
      match resolveDecimals runtime mintAddress c w1 with
      | (Throw e, w2) => outcome = (Throw e, w2)
      | (Ok decimals, w2) =>
          let answer := getTokenAccountBalance runtime (trace w2) ataAddress c in
          let w3 := record_call (GetTokenAccountBalance ataAddress c) answer w2 in
          match answer with
          | Throw e =>
              outcome = (Ok (missing_balance ataAddress decimals), w3) /\
              rejections w3 = rejections w2 ++ [e]
          | Ok value =>
              match getTokenMath runtime mintAddress c w3 with
              | (Throw e, w4) => outcome = (Ok (missing_balance ataAddress decimals), w4)
              | (Ok math, w4) =>
                  match Amounts.fromBaseUnits (Amounts.text (Runtime.amount value))
                          (Some "balance"%string) with
                  | Throw e => outcome = (Ok (missing_balance ataAddress decimals), w4)
                  | Ok amount =>
                      outcome
                      = (Ok {| balance_amount := amount;
                               balance_ataAddress := ataAddress;
                               balance_decimals := decimals;
                               balance_exists := true;
                               balance_uiAmount :=
                                 default (Runtime.amount value) (uiAmountString value) |},
                         w4)
                  end
              end
          end
      end
  end.
Proof.
  cbv zeta. unfold fetchBalance.
  destruct (deriveAssociatedTokenAddress runtime isAddress mintAddress tokenProgram owner w)
    as [[ataAddress|e] w1] eqn:Hd;
    [rewrite (bind_ok _ _ _ _ _ Hd) | apply (bind_throw _ _ _ _ _ Hd)].
  destruct (resolveDecimals runtime mintAddress c w1) as [[decimals|e] w2] eqn:Hr;
    [rewrite (bind_ok _ _ _ _ _ Hr) | apply (bind_throw _ _ _ _ _ Hr)].
  unfold try_catch, Runtime.bind, call, ret, lift, missing_balance.
  destruct (getTokenAccountBalance runtime (trace w2) ataAddress c) as [value|e];
    [|split; reflexivity].
  destruct (getTokenMath runtime mintAddress c _) as [[math|e] w4]; [|reflexivity].
  destruct (Amounts.fromBaseUnits _ _); reflexivity.
Qed.

(** [sendTransfer] absorbs nothing but the 'already processed' rejection
    of its first send. *)
Lemma sendTransfer_cases config options :
  PropagationSpec.surfaces_except already_processed
    (sendTransfer runtime isAddress mintAddress tokenProgram config options).
Proof.
  intros w. unfold sendTransfer, Runtime.bind, try_catch, throw.
  pose proof (surfaces_prepareTransfer runtime isAddress mintAddress tokenProgram config w) as H1.
  destruct (prepareTransfer runtime isAddress mintAddress tokenProgram config w)
    as [[prepared|e] w1]; cbn [fst snd surfaced] in *; [|tauto].
  pose proof (surfaces_sendPreparedTransfer runtime prepared options w1) as H2.
  destruct (sendPreparedTransfer runtime prepared options w1) as [[s|e] w2];
    cbn [fst snd surfaced] in *.
  - left. congruence.
  - unfold already_processed.
    destruct (isSolanaError e SOLANA_ERROR__TRANSACTION_ERROR__ALREADY_PROCESSED) eqn:Hap.
    + pose proof (surfaces_prepareTransfer runtime isAddress mintAddress tokenProgram
                    (with_lifetime_cleared config) w2) as H3.
      destruct (prepareTransfer runtime isAddress mintAddress tokenProgram
                  (with_lifetime_cleared config) w2) as [[retried|e'] w3];
        cbn [fst snd surfaced] in *.
      * pose proof (surfaces_sendPreparedTransfer runtime retried options w3) as H4.
        destruct (sendPreparedTransfer runtime retried options w3) as [[s|e'] w4];
          cbn [fst snd surfaced] in *.
        -- destruct H2 as [H2|H2]; [left; congruence|].
           right. exists e. split; [exact Hap | congruence].
        -- destruct H2 as [H2|H2], H4 as [H4|H4].
           ++ left. congruence.
           ++ right. left. congruence.
           ++ right. right. exists e. split; [exact Hap|]. left. congruence.
           ++ right. right. exists e. split; [exact Hap|]. right.
              rewrite H4, H3, H2, H1, <- app_assoc. reflexivity.
      * destruct H2 as [H2|H2], H3 as [H3|H3].
        -- left. congruence.
        -- right. left. congruence.
        -- right. right. exists e. split; [exact Hap|]. left. congruence.
        -- right. right. exists e. split; [exact Hap|]. right.
           rewrite H3, H2, H1, <- app_assoc. reflexivity.
    + cbn [fst snd]. destruct H2 as [H2|H2]; [left | right; left]; congruence.
Qed.

End Helper.

End ExceptionFacts.

(** The wallet signer's loops *)

Module WalletFacts.
Import Kit WalletSigner PropagationSpec.

Lemma take_cons_app {A} (calls : list A) t rest j :
  calls ++ take (S j) (t :: rest) = (calls ++ [t]) ++ take j rest.
Proof. cbn [take]. rewrite <- app_assoc. reflexivity. Qed.

Section Signer.
Variable address : Address.
Variable signTransaction : Calls -> Transaction -> result Transaction.

Lemma modify_each_relays transactions : forall signedTransactions calls,
  match fst (modify_each address signTransaction transactions signedTransactions calls) with
  | Ok _ =>
      forall i transaction,
        transactions !! i = Some transaction ->
        Js.is_ok (signTransaction (calls ++ take i transactions) transaction) = true
  | Throw e =>
      e = Error "Wallet did not populate the expected fee payer signature." \/
      exists i transaction,
        transactions !! i = Some transaction /\
        signTransaction (calls ++ take i transactions) transaction = Throw e
  end.
Proof.
  induction transactions as [|t rest IH]; intros signedTransactions calls.
  - cbn. intros i transaction H. discriminate H.
  - cbn [modify_each].
    destruct (signTransaction calls t) as [signed|e] eqn:Hsign.
    + destruct (signature_of (signatures signed) address) as [signature|].
      * specialize (IH (signedTransactions ++ [mergedTransaction t signed]) (calls ++ [t])).
        destruct (fst (modify_each address signTransaction rest _ _)) as [done|e].
        -- intros [|j] transaction H.
           ++ cbn in H. injection H as <-. cbn [take]. rewrite app_nil_r, Hsign. reflexivity.
           ++ rewrite take_cons_app. apply IH. exact H.
        -- destruct IH as [IH | (j & transaction & Hj & Hthrow)]; [left; exact IH|].
           right. exists (S j), transaction. split; [exact Hj|].
           rewrite take_cons_app. exact Hthrow.
      * cbn [fst]. left. reflexivity.
    + cbn [fst]. right. exists 0%nat, t. split; [reflexivity|].
      cbn [take]. rewrite app_nil_r. exact Hsign.
Qed.

Lemma map_throwing_dictionary_of_throws l e :
  map_throwing (dictionary_of address) l = Throw e ->
  e = Error "Expected signer to produce a signature for the provided address.".
Proof.
  induction l as [|x l IH]; [discriminate|]. cbn [map_throwing].
  unfold dictionary_of at 1.
  destruct (signature_of (signatures x) address).
  - destruct (map_throwing (dictionary_of address) l); [discriminate|].
    intros [= ->]. apply IH. reflexivity.
  - intros [= <-]. reflexivity.
Qed.

Lemma modifyAndSignTransactions_relays :
  relays signTransaction
    (fun e => e = Error "Wallet did not populate the expected fee payer signature.")
    (modifyAndSignTransactions address signTransaction).
Proof. intros transactions calls. apply modify_each_relays. Qed.

Lemma signTransactions_relays :
  relays signTransaction
    (fun e => e = Error "Wallet did not populate the expected fee payer signature." \/
              e = Error "Expected signer to produce a signature for the provided address.")
    (signTransactions address signTransaction).
Proof.
  intros transactions calls. unfold signTransactions.
  pose proof (modifyAndSignTransactions_relays transactions calls) as H.
  destruct (modifyAndSignTransactions address signTransaction transactions calls)
    as [[signedTransactions|e] calls']; cbn [fst] in *.
  - destruct (map_throwing (dictionary_of address) signedTransactions) as [ds|e] eqn:Hmap.
    + exact H.
    + left. right. apply (map_throwing_dictionary_of_throws _ _ Hmap).
  - destruct H as [H|H]; [left; left; exact H | right; exact H].
Qed.

End Signer.

Section SendingSigner.
Variable commitment : option Commitment.
Variable sendTransaction : Calls -> Transaction -> option Commitment -> result string.
Variable base58_encode : string -> result (list Z).
Variable signatureBytes : list Z -> result SignatureBytes.

Lemma send_each_relays transactions : forall signatures calls,
  match fst (send_each commitment sendTransaction base58_encode signatureBytes
               transactions signatures calls) with
  | Ok _ =>
      forall i transaction,
        transactions !! i = Some transaction ->
        Js.is_ok (sendTransaction (calls ++ take i transactions) transaction commitment) = true
  | Throw e =>
      ((exists text, base58_encode text = Throw e) \/
       (exists bytes, signatureBytes bytes = Throw e)) \/
      exists i transaction,
        transactions !! i = Some transaction /\
        sendTransaction (calls ++ take i transactions) transaction commitment = Throw e
  end.
Proof.
  induction transactions as [|t rest IH]; intros signatures calls.
  - cbn. intros i transaction H. discriminate H.
  - cbn [send_each].
    destruct (sendTransaction calls t commitment) as [text|e] eqn:Hsend.
    + destruct (base58_encode text) as [bytes|e] eqn:Hencode;
        [|cbn [fst]; left; left; exists text; exact Hencode].
      destruct (signatureBytes bytes) as [signature|e] eqn:Hbytes;
        [|cbn [fst]; left; right; exists bytes; exact Hbytes].
      specialize (IH (signatures ++ [signature]) (calls ++ [t])).
      destruct (fst (send_each commitment sendTransaction base58_encode signatureBytes
                       rest _ _)) as [done|e].
      * intros [|j] transaction H.
        -- cbn in H. injection H as <-. cbn [take]. rewrite app_nil_r, Hsend. reflexivity.
        -- rewrite take_cons_app. apply IH. exact H.
      * destruct IH as [IH | (j & transaction & Hj & Hthrow)]; [left; exact IH|].
        right. exists (S j), transaction. split; [exact Hj|].
        rewrite take_cons_app. exact Hthrow.
    + cbn [fst]. right. exists 0%nat, t. split; [reflexivity|].
      cbn [take]. rewrite app_nil_r. exact Hsend.
Qed.

End SendingSigner.

End WalletFacts.

(** C9 (amended): every operation of the core lets the failures underneath
    it through, with two exceptions made on purpose.

    [prepare], [sign], [toWire], [send] and [prepareAndSend] of the
    Transaction Helper, the tuner and its estimate, the SPL helper's
    [deriveAssociatedTokenAddress], [prepareTransfer] and
    [sendPreparedTransfer], the SOL helper's [prepareTransfer],
    [sendPreparedTransfer] and [sendTransfer], and the client's wrappers of
    these fulfil only when no collaborator rejected, and otherwise reject
    with their own error or with the collaborator's.  The pool controller
    and the SOL transfer controller reject with the error that stops them
    before the helper is called, and with the helper's rejection after
    recording it in their state; the pool's [sign] and [toWire] add nothing
    to the helper's.  The wallet signer's three methods fulfil only when the
    wallet answered every transaction and reject with the wallet's error.
    The amount arithmetic throws what the validation of its operands
    throws.

    The exceptions: [sendTransfer] of the SPL helper (and its wrapper)
    absorbs an 'already processed' rejection of its first send, and nothing
    else; and [fetchBalance] rejects when deriving the token account or
    resolving the decimals fails, but answers every failure inside its [try]
    block (the balance query, the token math, the parsing of the amount)
    with the missing balance (amount 0, [exists: false], uiAmount '0'). *)
Theorem rejections_surface_except_by_design :
  forall (runtime : Runtime.SolanaClientRuntime) (getFallbackCommitment : unit -> Kit.Commitment)
         (isAddress : string -> bool) (mintAddress tokenProgram : Kit.Address)
         (getTransferSolInstruction :
            Z -> Kit.Address -> Kit.TransactionSigner -> result Kit.Instruction)
         (baseCommitment : option Kit.Commitment),
    (* the Transaction Helper and the tuner *)
    (forall request,
        RuntimeSpec.surfaces
          (Transactions.prepare runtime getFallbackCommitment isAddress request)) /\
    (forall prepared, RuntimeSpec.surfaces (Transactions.sign runtime prepared)) /\
    (forall prepared, RuntimeSpec.surfaces (Transactions.toWire runtime prepared)) /\
    (forall prepared options,
        RuntimeSpec.surfaces (Transactions.send runtime prepared options)) /\
    (forall request setting options,
        RuntimeSpec.surfaces
          (Transactions.prepareAndSend runtime getFallbackCommitment isAddress
             request setting options)) /\
    (forall transaction,
        RuntimeSpec.surfaces (Tuner.estimateComputeUnits runtime transaction)) /\
    (forall config, RuntimeSpec.surfaces (Tuner.prepareTransaction runtime config)) /\
    (* the SPL helper *)
    (forall owner,
        RuntimeSpec.surfaces
          (Spl.deriveAssociatedTokenAddress runtime isAddress mintAddress tokenProgram owner)) /\
    (forall config,
        RuntimeSpec.surfaces
          (Spl.prepareTransfer runtime isAddress mintAddress tokenProgram config)) /\
    (forall prepared options,
        RuntimeSpec.surfaces (Spl.sendPreparedTransfer runtime prepared options)) /\
    (forall config options,
        PropagationSpec.surfaces_except SplSpec.already_processed
          (Spl.sendTransfer runtime isAddress mintAddress tokenProgram config options)) /\
    (forall owner c w,
        let outcome :=
          Spl.fetchBalance runtime isAddress mintAddress tokenProgram owner c w in
        match Spl.deriveAssociatedTokenAddress runtime isAddress mintAddress tokenProgram
                owner w with
        | (Throw e, w1) => outcome = (Throw e, w1)
        | (Ok ataAddress, w1) =>
            match Spl.resolveDecimals runtime mintAddress c w1 with
            | (Throw e, w2) => outcome = (Throw e, w2)
            | (Ok decimals, w2) =>
                let answer :=
                  Runtime.getTokenAccountBalance runtime (Runtime.trace w2) ataAddress c in
                let w3 :=
                  Runtime.record_call (Runtime.GetTokenAccountBalance ataAddress c) answer w2 in
                match answer with
                | Throw e =>
                    outcome = (Ok (SplSpec.missing_balance ataAddress decimals), w3) /\
                    Runtime.rejections w3 = Runtime.rejections w2 ++ [e]
                | Ok value =>
                    match Spl.getTokenMath runtime mintAddress c w3 with
                    | (Throw e, w4) =>
                        outcome = (Ok (SplSpec.missing_balance ataAddress decimals), w4)
                    | (Ok math, w4) =>
                        match Amounts.fromBaseUnits (Amounts.text (Runtime.amount value))
                                (Some "balance"%string) with
                        | Throw e =>
                            outcome = (Ok (SplSpec.missing_balance ataAddress decimals), w4)
                        | Ok amount =>
                            outcome
                            = (Ok {| Spl.balance_amount := amount;
                                     Spl.balance_ataAddress := ataAddress;
                                     Spl.balance_decimals := decimals;
                                     Spl.balance_exists := true;
                                     Spl.balance_uiAmount :=
                                       default (Runtime.amount value)
                                         (Runtime.uiAmountString value) |},
                               w4)
                        end
                    end
                end
            end
        end) /\
    (* the SOL helper *)
    (forall config,
        RuntimeSpec.surfaces
          (Sol.prepareTransfer runtime isAddress getTransferSolInstruction config)) /\
    (forall prepared options,
        RuntimeSpec.surfaces (Sol.sendPreparedTransfer runtime prepared options)) /\
    (forall config options,
        RuntimeSpec.surfaces
          (Sol.sendTransfer runtime isAddress getTransferSolInstruction config options)) /\
    (* the client's wrappers *)
    (forall config,
        RuntimeSpec.surfaces
          (ClientHelpers.sol_prepareTransfer runtime isAddress getFallbackCommitment
             getTransferSolInstruction config)) /\
    (forall config options,
        RuntimeSpec.surfaces
          (ClientHelpers.sol_sendTransfer runtime isAddress getFallbackCommitment
             getTransferSolInstruction config options)) /\
    (forall config,
        RuntimeSpec.surfaces
          (ClientHelpers.spl_prepareTransfer runtime isAddress getFallbackCommitment
             mintAddress tokenProgram baseCommitment config)) /\
    (forall config options,
        PropagationSpec.surfaces_except SplSpec.already_processed
          (ClientHelpers.spl_sendTransfer runtime isAddress getFallbackCommitment
             mintAddress tokenProgram baseCommitment config options)) /\
    (forall owner c,
        ClientHelpers.spl_fetchBalance runtime isAddress getFallbackCommitment
          mintAddress tokenProgram baseCommitment owner c
        = Spl.fetchBalance runtime isAddress mintAddress tokenProgram owner
            (Some (ClientHelpers.resolveCommitment getFallbackCommitment baseCommitment c))) /\
    (* the pool controller *)
    (forall options now c e,
        Pool.ensureInstructions (default (Pool.getInstructions c) (Pool.instructions options))
        = Throw e ->
        Pool.prepare_call options now c = Throw e /\
        Pool.prepareAndSend_call options now c = Throw e) /\
    (forall override c e,
        Pool.resolvePrepared override c = Throw e -> Pool.send_call override c = Throw e) /\
    PropagationSpec.records_and_rethrows Pool.prepare_settle Pool.getPrepareState /\
    PropagationSpec.records_and_rethrows Pool.send_settle Pool.getSendState /\
    (forall override c,
        RuntimeSpec.surfaces (Pool.sign (Transactions.sign runtime) override c) /\
        RuntimeSpec.surfaces (Pool.toWire (Transactions.toWire runtime) override c)) /\
    (* the SOL transfer controller *)
    (forall input c e,
        SolController.ensureAuthority input (SolController.authorityProvider c) = Throw e ->
        SolController.send_call input c = Throw e) /\
    PropagationSpec.records_and_rethrows SolController.send_settle SolController.getState /\
    (* the wallet signer *)
    (forall address signTransaction,
        PropagationSpec.relays signTransaction
          (fun e => e = Error "Wallet did not populate the expected fee payer signature.")
          (WalletSigner.modifyAndSignTransactions address signTransaction)) /\
    (forall address signTransaction,
        PropagationSpec.relays signTransaction
          (fun e =>
             e = Error "Wallet did not populate the expected fee payer signature." \/
             e = Error "Expected signer to produce a signature for the provided address.")
          (WalletSigner.signTransactions address signTransaction)) /\
    (forall commitment sendTransaction base58_encode signatureBytes,
        PropagationSpec.relays
          (fun calls transaction => sendTransaction calls transaction commitment)
          (fun e => (exists text, base58_encode text = Throw e) \/
                    (exists bytes, signatureBytes bytes = Throw e))
          (WalletSigner.signAndSendTransactions commitment sendTransaction base58_encode
             signatureBytes)) /\
    (* the amount arithmetic *)
    (forall math lhs rhs e,
        Amounts.fromBaseUnits (Amounts.big lhs) None = Throw e \/
        Js.is_ok (Amounts.fromBaseUnits (Amounts.big lhs) None) = true /\
        Amounts.fromBaseUnits (Amounts.big rhs) None = Throw e ->
        AmountsArith.add math lhs rhs = Throw e /\
        AmountsArith.subtract math lhs rhs = Throw e /\
        AmountsArith.compare math lhs rhs = Throw e) /\
    (forall math amount ratio rounding e,
        Amounts.fromBaseUnits (Amounts.big amount) None = Throw e ->
        AmountsArith.multiplyByRatio math amount ratio rounding = Throw e /\
        AmountsArith.isZero math amount = Throw e).
Proof.
  intros runtime getFallbackCommitment isAddress mintAddress tokenProgram
    getTransferSolInstruction baseCommitment.
  repeat match goal with |- _ /\ _ => split end.
  - apply SurfaceFacts.surfaces_prepare.
  - apply SurfaceFacts.surfaces_sign.
  - apply SurfaceFacts.surfaces_toWire.
  - apply SurfaceFacts.surfaces_send.
  - apply SurfaceFacts.surfaces_prepareAndSend.
  - apply SurfaceFacts.surfaces_estimateComputeUnits.
  - apply SurfaceFacts.surfaces_prepareTransaction.
  - apply SurfaceFacts.surfaces_derive.
  - apply SurfaceFacts.surfaces_prepareTransfer.
  - apply SurfaceFacts.surfaces_sendPreparedTransfer.
  - apply ExceptionFacts.sendTransfer_cases.
  - apply ExceptionFacts.fetchBalance_cases.
  - apply SurfaceFacts.surfaces_sol_prepareTransfer.
  - apply SurfaceFacts.surfaces_sol_sendPreparedTransfer.
  - apply SurfaceFacts.surfaces_sol_sendTransfer.
  - intros config. apply SurfaceFacts.surfaces_sol_prepareTransfer.
  - intros config options. apply SurfaceFacts.surfaces_sol_sendTransfer.
  - intros config. apply SurfaceFacts.surfaces_prepareTransfer.
  - intros config options. apply ExceptionFacts.sendTransfer_cases.
  - reflexivity.
  - intros options now c e He. unfold Pool.prepare_call, Pool.prepareAndSend_call.
    rewrite He. split; reflexivity.
  - intros override c e He. unfold Pool.send_call. rewrite He. reflexivity.
  - intros e c. repeat split.
  - intros e c. repeat split.
  - intros override c. split.
    + apply SurfaceFacts.surfaces_pool_sign. apply SurfaceFacts.surfaces_sign.
    + apply SurfaceFacts.surfaces_pool_toWire. apply SurfaceFacts.surfaces_toWire.
  - intros input c e He. unfold SolController.send_call. rewrite He. reflexivity.
  - intros e c. repeat split.
  - apply WalletFacts.modifyAndSignTransactions_relays.
  - apply WalletFacts.signTransactions_relays.
  - intros commitment sendTransaction base58_encode signatureBytes transactions calls.
    apply WalletFacts.send_each_relays.
  - intros math lhs rhs e H.
    unfold AmountsArith.add, AmountsArith.subtract, AmountsArith.compare.
    destruct H as [-> | [Hl ->]]; [repeat split|].
    destruct (Amounts.fromBaseUnits (Amounts.big lhs) None); [repeat split | discriminate Hl].
  - intros math amount ratio rounding e H.
    unfold AmountsArith.multiplyByRatio, AmountsArith.isZero. rewrite H. split; reflexivity.
Qed.

(** A prepare whose blockhash query is rejected rejects with that very
    error. *)
Lemma rejections_surface_except_by_design_witness :
  RuntimeSpec.surfaced Runtime.fresh_world
    (fst (Transactions.prepare SplExamples.no_blockhash_rpc TransactionsExamples.fallback
            TransactionsExamples.any_address SplExamples.blockhash_request Runtime.fresh_world))
    (snd (Transactions.prepare SplExamples.no_blockhash_rpc TransactionsExamples.fallback
            TransactionsExamples.any_address SplExamples.blockhash_request Runtime.fresh_world))
  /\
  Transactions.prepare SplExamples.no_blockhash_rpc TransactionsExamples.fallback
    TransactionsExamples.any_address SplExamples.blockhash_request Runtime.fresh_world
  = (Throw (Foreign 429),
     Runtime.record_call (Runtime.GetLatestBlockhash (Some Kit.confirmed))
       (@Throw Kit.BlockhashLifetime (Foreign 429)) Runtime.fresh_world).
Proof.
  split; [|reflexivity].
  exact (proj1 (rejections_surface_except_by_design SplExamples.no_blockhash_rpc
                  TransactionsExamples.fallback TransactionsExamples.any_address
                  "mint"%string Spl.TOKEN_PROGRAM_ADDRESS SolExamples.transfer_instruction None)
           SplExamples.blockhash_request Runtime.fresh_world).
Defined.

(** C9 as stated fails: the balance query of [fetchBalance] is rejected, the
    rejection is on record, and [fetchBalance] fulfils with the missing
    balance all the same. *)
Lemma fetchBalance_swallows_rejection :
  Runtime.getTokenAccountBalance SplExamples.no_balance_rpc
    [Runtime.FindAssociatedTokenPda "mint"%string "owner"%string Spl.TOKEN_PROGRAM_ADDRESS;
     Runtime.FetchMint "mint"%string None]
    "ata-of-owner"%string None = Throw (Foreign 503) /\
  fst SplExamples.fetchBalance_run = Ok (SplSpec.missing_balance "ata-of-owner"%string 6) /\
  Runtime.rejections (snd SplExamples.fetchBalance_run) = [Foreign 503] /\
  ~ RuntimeSpec.surfaced Runtime.fresh_world
      (fst SplExamples.fetchBalance_run) (snd SplExamples.fetchBalance_run).
Proof.
  repeat split. intros H. discriminate H.
Qed.

(** ** Ratios and checked arithmetic *)

Module RationalFacts.
Import Amounts Rational AmountsArithSpec.

Lemma divideWithRounding_rounded p q mode :
  0 <= p -> 0 < q ->
  exists r, divideWithRounding p q mode = Ok r /\ rounded mode p q r /\ 0 <= r.
Proof.
  intros Hp Hq. unfold divideWithRounding.
  replace (q <=? 0) with false by lia.
  rewrite Z.quot_div_nonneg, Z.rem_mod_nonneg by lia.
  pose proof (Z.div_mod p q ltac:(lia)) as Hdm.
  pose proof (Z.mod_pos_bound p q Hq) as Hm.
  pose proof (Z.div_pos p q Hp Hq) as Hd.
  destruct (p mod q =? 0) eqn:E0.
  - exists (p / q). split; [reflexivity|]. split; [|assumption].
    destruct mode; cbn [rounded]; nia.
  - destruct mode; cbn [rounded].
    + exists (p / q). split; [reflexivity|]. split; [nia | assumption].
    + exists (p / q + 1). split; [reflexivity|]. split; [nia | lia].
    + destruct (q <=? p mod q * 2) eqn:E2.
      * exists (p / q + 1). split; [reflexivity|]. split; [nia | lia].
      * exists (p / q). split; [reflexivity|]. split; [nia | assumption].
Qed.

Lemma createRatio_inv ni di ratio :
  createRatio ni di = Ok ratio -> 0 <= numerator ratio /\ 0 < denominator ratio.
Proof.
  unfold createRatio, assertNonNegative.
  destruct (toBigint ni "numerator") as [n|]; cbn [Js.bind]; [|discriminate].
  destruct (toBigint di "denominator") as [d|]; cbn [Js.bind]; [|discriminate].
  destruct (d <=? 0) eqn:Ed; [discriminate|].
  destruct (n <? 0) eqn:En; cbn [Js.bind]; [discriminate|].
  intros [= <-]. cbn. lia.
Qed.

End RationalFacts.

(** X1: for a ratio that [createRatio] returned and a non-negative amount,
    [applyRatio] never rejects and returns the quotient
    [amount * numerator / denominator] rounded as asked: down under [floor]
    (the default), up under [ceil], to the nearest integer with ties going up
    under [round]; the result is non-negative. *)
Theorem applyRatio_rounds :
  forall (numeratorInput denominatorInput : Amounts.BigintLike) (ratio : Rational.Ratio)
         (amount : Z) (rounding : option Amounts.RoundingMode),
    Rational.createRatio numeratorInput denominatorInput = Ok ratio ->
    0 <= amount ->
    exists r,
      Rational.applyRatio amount ratio rounding = Ok r /\
      AmountsArithSpec.rounded (default Amounts.floor rounding)
        (amount * Rational.numerator ratio) (Rational.denominator ratio) r /\
      0 <= r.
Proof.
  intros ni di ratio amount rounding Hratio Hamount.
  destruct (RationalFacts.createRatio_inv ni di ratio Hratio) as [Hn Hd].
  unfold Rational.applyRatio, Amounts.assertNonNegative.
  replace (amount <? 0) with false by lia. cbn [Js.bind].
  apply RationalFacts.divideWithRounding_rounded; [nia | assumption].
Qed.

(** Ten scaled by one third is 3 rounded down and 4 rounded up. *)
Lemma applyRatio_rounds_witness :
  exists r,
    Rational.applyRatio 10 {| Rational.denominator := 3; Rational.numerator := 1 |}
      (Some Amounts.ceil) = Ok r /\
    AmountsArithSpec.rounded Amounts.ceil (10 * 1) 3 r /\ 0 <= r.
Proof.
  exact (applyRatio_rounds (Amounts.text (Amounts.str "1")) (Amounts.text (Amounts.str "3"))
           {| Rational.denominator := 3; Rational.numerator := 1 |} 10 (Some Amounts.ceil)
           eq_refl ltac:(vm_compute; discriminate)).
Defined.

(** X2: [createRatio] fulfils exactly when both inputs are integers, the
    denominator is positive and the numerator is not negative, and then
    returns that pair; a non-positive denominator is reported before a
    negative numerator. *)
Theorem createRatio_accepts :
  forall (numeratorInput denominatorInput : Amounts.BigintLike),
    (forall ratio,
        Rational.createRatio numeratorInput denominatorInput = Ok ratio <->
        exists n d,
          Amounts.toBigint numeratorInput "numerator" = Ok n /\
          Amounts.toBigint denominatorInput "denominator" = Ok d /\
          0 <= n /\ 0 < d /\
          ratio = {| Rational.denominator := d; Rational.numerator := n |}) /\
    (forall n d,
        Amounts.toBigint numeratorInput "numerator" = Ok n ->
        Amounts.toBigint denominatorInput "denominator" = Ok d ->
        d <= 0 ->
        Rational.createRatio numeratorInput denominatorInput
        = Throw (RangeError "denominator must be positive")).
Proof.
  intros ni di. unfold Rational.createRatio, Amounts.assertNonNegative. split.
  - intros ratio.
    destruct (Amounts.toBigint ni "numerator") as [n|e]; cbn [Js.bind].
    + destruct (Amounts.toBigint di "denominator") as [d|e]; cbn [Js.bind].
      * destruct (d <=? 0) eqn:Ed.
        -- split; [discriminate|]. intros (n' & d' & [= <-] & [= <-] & _ & Hd & _). lia.
        -- destruct (n <? 0) eqn:En; cbn [Js.bind].
           ++ split; [discriminate|]. intros (n' & d' & [= <-] & [= <-] & Hn & _). lia.
           ++ split.
              ** intros [= <-]. exists n, d. repeat split; lia.
              ** intros (n' & d' & [= <-] & [= <-] & _ & _ & ->). reflexivity.
      * split; [discriminate|]. intros (n' & d' & _ & H & _). discriminate.
    + split; [discriminate|]. intros (n' & d' & H & _). discriminate.
  - intros n d -> -> Hd. cbn [Js.bind]. replace (d <=? 0) with true by lia. reflexivity.
Qed.

(** A zero denominator is reported even when the numerator is negative. *)
Lemma createRatio_accepts_witness :
  Rational.createRatio (Amounts.text (Amounts.str "-2")) (Amounts.big 0)
  = Throw (RangeError "denominator must be positive").
Proof.
  exact (proj2 (createRatio_accepts (Amounts.text (Amounts.str "-2")) (Amounts.big 0))
           (-2) 0 eq_refl eq_refl ltac:(vm_compute; discriminate)).
Defined.

Module ArithFacts.
Import Amounts AmountsArith.

Lemma fromBaseUnits_big a label :
  fromBaseUnits (big a) label =
  if a <? 0 then Throw (RangeError (template (default "amount"%string label) " must be non-negative"))
  else Ok a.
Proof.
  unfold fromBaseUnits, toBigint, assertNonNegative. cbn [Js.bind].
  destruct (a <? 0); reflexivity.
Qed.

End ArithFacts.

(** X3: amounts never go negative.  [subtract] fulfils exactly when both
    operands are non-negative and the right one is not larger, with the
    difference; otherwise it rejects with a [RangeError].  [add] of two
    non-negative amounts is their sum, and subtracting what was added gives
    the first amount back. *)
Theorem subtract_never_negative :
  forall (math : Amounts.TokenAmountMath) (lhs rhs : Z),
    match AmountsArith.subtract math lhs rhs with
    | Ok difference => 0 <= rhs <= lhs /\ difference = lhs - rhs
    | Throw e => (lhs < 0 \/ rhs < 0 \/ lhs < rhs) /\ exists message, e = RangeError message
    end /\
    (0 <= lhs -> 0 <= rhs ->
     AmountsArith.add math lhs rhs = Ok (lhs + rhs) /\
     Js.bind (AmountsArith.add math lhs rhs) (fun sum => AmountsArith.subtract math sum rhs)
     = Ok lhs).
Proof.
  intros math lhs rhs.
  unfold AmountsArith.subtract, AmountsArith.add, Checked.checkedSubtract, Checked.checkedAdd.
  rewrite !ArithFacts.fromBaseUnits_big. unfold Amounts.assertNonNegative. split.
  - destruct (lhs <? 0) eqn:El; cbn [Js.bind]; [split; [lia | eauto]|].
    destruct (rhs <? 0) eqn:Er; cbn [Js.bind]; [split; [lia | eauto]|].
    destruct (lhs - rhs <? 0) eqn:Ed; cbn [Js.bind]; [split; [lia | eauto]|].
    lia.
  - intros Hl Hr.
    replace (lhs <? 0) with false by lia. replace (rhs <? 0) with false by lia.
    cbn [Js.bind]. replace (lhs + rhs <? 0) with false by lia. cbn [Js.bind].
    split; [reflexivity|]. rewrite ArithFacts.fromBaseUnits_big.
    replace (lhs + rhs <? 0) with false by lia. cbn [Js.bind].
    replace (rhs <? 0) with false by lia. cbn [Js.bind].
    replace (lhs + rhs - rhs <? 0) with false by lia. cbn [Js.bind]. f_equal. lia.
Qed.

(** Two added to five and taken away again. *)
Lemma subtract_never_negative_witness :
  AmountsArith.add AmountsExamples.six 5 2 = Ok (5 + 2) /\
  Js.bind (AmountsArith.add AmountsExamples.six 5 2)
    (fun sum => AmountsArith.subtract AmountsExamples.six sum 2) = Ok 5.
Proof.
  exact (proj2 (subtract_never_negative AmountsExamples.six 5 2)
           ltac:(vm_compute; discriminate) ltac:(vm_compute; discriminate)).
Defined.

(** ** Printing integers *)

Module PrintFacts.
Import Amounts AmountsSpec AmountsFacts AmountsRounding AmountsFormat.

Lemma digit_char_digit d :
  0 <= d <= 9 -> is_digit (digit_char d) = true /\ digit_of (digit_char d) = d.
Proof.
  intros Hd. unfold is_digit, digit_of, digit_char, code.
  rewrite nat_ascii_embedding by lia. rewrite Z2Nat.id by lia.
  split; [apply andb_true_iff; split; lia | lia].
Qed.

Lemma BigInt_cons c s : BigInt (c :: s) = digit_of c * 10 ^ Z.of_nat (length s) + BigInt s.
Proof.
  change (c :: s) with ([c] ++ s). rewrite BigInt_app.
  change (BigInt [c]) with (10 * 0 + digit_of c). lia.
Qed.

Lemma to_digits_suffix fuel : forall n acc, exists pre, to_digits fuel n acc = pre ++ acc.
Proof.
  induction fuel as [|fuel IH]; intros n acc; [exists []; reflexivity|].
  cbn [to_digits]. destruct (n / 10 =? 0).
  - exists [digit_char (n mod 10)]. reflexivity.
  - destruct (IH (n / 10) (digit_char (n mod 10) :: acc)) as [pre ->].
    exists (pre ++ [digit_char (n mod 10)]). rewrite <- app_assoc. reflexivity.
Qed.

Lemma to_digits_nonempty fuel n acc : to_digits (S fuel) n acc <> [].
Proof.
  cbn [to_digits]. destruct (n / 10 =? 0); [discriminate|].
  destruct (to_digits_suffix fuel (n / 10) (digit_char (n mod 10) :: acc)) as [pre ->].
  destruct pre; discriminate.
Qed.

(** With enough fuel [to_digits] writes digits that read back as [n]. *)
Lemma to_digits_reads fuel : forall n acc,
  0 <= n < 2 ^ Z.of_nat fuel -> digits acc ->
  digits (to_digits fuel n acc) /\
  BigInt (to_digits fuel n acc) = n * 10 ^ Z.of_nat (length acc) + BigInt acc.
Proof.
  induction fuel as [|fuel IH]; intros n acc Hn Hacc.
  - change (2 ^ Z.of_nat 0) with 1 in Hn. cbn [to_digits]. split; [assumption | lia].
  - rewrite Nat2Z.inj_succ, Z.pow_succ_r in Hn by lia.
    pose proof (Z.mod_pos_bound n 10 ltac:(lia)) as Hm.
    pose proof (Z.div_mod n 10 ltac:(lia)) as Hdm.
    destruct (digit_char_digit (n mod 10) ltac:(lia)) as [Hdig Hval].
    assert (Hacc' : digits (digit_char (n mod 10) :: acc))
      by (apply digits_cons; split; assumption).
    assert (Hread : BigInt (digit_char (n mod 10) :: acc)
                    = n mod 10 * 10 ^ Z.of_nat (length acc) + BigInt acc)
      by (rewrite BigInt_cons, Hval; reflexivity).
    cbn [to_digits]. destruct (n / 10 =? 0) eqn:E.
    + split; [assumption|]. rewrite Hread. replace (n mod 10) with n by lia. reflexivity.
    + assert (Hq : 0 <= n / 10 < 2 ^ Z.of_nat fuel) by lia.
      destruct (IH (n / 10) _ Hq Hacc') as [H1 H2]. split; [assumption|].
      rewrite H2, Hread. cbn [length]. rewrite Nat2Z.inj_succ, Z.pow_succ_r by lia. nia.
Qed.

Lemma to_digits_length fuel : forall n acc (k : nat),
  0 <= n < 10 ^ Z.of_nat k -> (1 <= k)%nat ->
  (length (to_digits fuel n acc) <= k + length acc)%nat.
Proof.
  induction fuel as [|fuel IH]; intros n acc k Hn Hk; cbn [to_digits]; [lia|].
  destruct (n / 10 =? 0) eqn:E; [cbn [length]; lia|].
  destruct k as [|[|k]]; [lia | |].
  - change (10 ^ Z.of_nat 1) with 10 in Hn.
    assert (n / 10 = 0) by (apply Z.div_small; lia). lia.
  - rewrite Nat2Z.inj_succ, Z.pow_succ_r in Hn by lia.
    assert (Hq : 0 <= n / 10 < 10 ^ Z.of_nat (S k)).
    { split; [apply Z.div_pos; lia|]. apply Z.div_lt_upper_bound; lia. }
    specialize (IH (n / 10) (digit_char (n mod 10) :: acc) (S k) Hq ltac:(lia)).
    cbn [length] in IH. lia.
Qed.

Lemma fuel_enough n : 0 <= n -> n < 2 ^ Z.of_nat (S (Z.to_nat (Z.log2 n))).
Proof.
  intros Hn. rewrite Nat2Z.inj_succ, Z2Nat.id by apply Z.log2_nonneg.
  destruct (Z.eq_dec n 0) as [->|Hne]; [reflexivity|].
  apply Z.log2_spec. lia.
Qed.

Lemma toString_reads n :
  0 <= n -> digits (toString n) /\ BigInt (toString n) = n /\ toString n <> [].
Proof.
  intros Hn. unfold toString. replace (n <? 0) with false by lia.
  destruct (to_digits_reads _ n [] (conj Hn (fuel_enough n Hn)) eq_refl) as [H1 H2].
  split; [assumption|]. split; [|apply to_digits_nonempty].
  rewrite H2. change (BigInt []) with 0. change (Z.of_nat (length (@nil ascii))) with 0. lia.
Qed.

Lemma toString_length n (k : nat) :
  0 <= n < 10 ^ Z.of_nat k -> (1 <= k)%nat -> (length (toString n) <= k)%nat.
Proof.
  intros Hn Hk. unfold toString. replace (n <? 0) with false by lia.
  pose proof (to_digits_length (S (Z.to_nat (Z.log2 n))) n [] k Hn Hk) as H.
  cbn [length] in H. lia.
Qed.

Lemma toString_negative n :
  n < 0 -> toString n = "-"%char :: toString (- n).
Proof.
  intros Hn. unfold toString. replace (n <? 0) with true by lia.
  replace (- n <? 0) with false by lia. reflexivity.
Qed.

Lemma BigInt_replicate_0 k : BigInt (replicate k "0"%char) = 0.
Proof.
  induction k as [|k IH]; [reflexivity|]. cbn [replicate].
  rewrite BigInt_cons_zero by reflexivity. assumption.
Qed.

Lemma BigInt_padStart s k : BigInt (padStart s k "0"%char) = BigInt s.
Proof.
  unfold padStart. rewrite BigInt_app, BigInt_replicate_0. lia.
Qed.

Lemma drop_while_zeros s :
  exists k, s = replicate k "0"%char ++ drop_while (fun c => code c =? 48) s.
Proof.
  induction s as [|c s [k IH]]; [exists 0%nat; reflexivity|].
  cbn [drop_while]. destruct (code c =? 48) eqn:E.
  - apply code_zero in E. subst c. exists (S k). cbn [replicate app]. f_equal. assumption.
  - exists 0%nat. reflexivity.
Qed.

(** [/0+$/] removes zeros and nothing else. *)
Lemma trim_trailing_zeros_split s :
  exists k, s = trim_trailing_zeros s ++ replicate k "0"%char.
Proof.
  unfold trim_trailing_zeros. destruct (drop_while_zeros (rev s)) as [k Hk].
  exists k. rewrite <- (rev_involutive s) at 1. rewrite Hk at 1.
  rewrite rev_app_distr, rev_replicate. reflexivity.
Qed.

Lemma trim_ends s :
  match s with c :: _ => is_space c = false | [] => True end ->
  match last s with Some c => is_space c = false | None => True end ->
  trim s = s.
Proof.
  intros Hhead Hlast. unfold trim.
  assert (Hstart : trimStart s = s).
  { unfold trimStart. destruct s as [|c s]; [reflexivity|]. cbn [drop_while]. rewrite Hhead. reflexivity. }
  rewrite Hstart. destruct s as [|c s _] using rev_ind; [reflexivity|].
  rewrite last_snoc in Hlast. apply trimEnd_snoc, Hlast.
Qed.

Lemma digits_last s : digits s ->
  match last s with Some c => is_space c = false | None => True end.
Proof.
  intros H. destruct s as [|c s _] using rev_ind; [exact I|].
  rewrite last_snoc. apply digits_app in H as [_ H]. apply digits_cons in H as [H _].
  apply is_digit_not_space, H.
Qed.

Lemma trim_digits s : digits s -> trim s = s.
Proof.
  intros H. apply trim_ends; [|apply digits_last, H].
  destruct s as [|c s]; [exact I|]. apply digits_cons in H as [H _].
  apply is_digit_not_space, H.
Qed.

Lemma all_digits1_digits s : digits s -> s <> [] -> all_digits1 s = true.
Proof.
  intros H Hne. unfold all_digits1. rewrite H.
  destruct s; [congruence | reflexivity].
Qed.

(** The integer parser reads what the printer wrote. *)
Lemma toBigint_toString z label : toBigint (text (toString z)) label = Ok z.
Proof.
  destruct (Z_lt_le_dec z 0) as [Hneg|Hpos].
  - rewrite (toString_negative z Hneg).
    destruct (toString_reads (- z) ltac:(lia)) as (Hd & Hv & Hne).
    unfold toBigint.
    assert (Htrim : trim ("-"%char :: toString (- z)) = "-"%char :: toString (- z)).
    { apply trim_ends; [reflexivity|].
      destruct (toString (- z)) as [|c s] eqn:E; [congruence|].
      change ("-"%char :: c :: s) with (["-"%char] ++ c :: s).
      rewrite last_app. pose proof (digits_last (c :: s) Hd) as Hl.
      destruct (last (c :: s)) eqn:El; [assumption|].
      apply last_None in El. discriminate. }
    rewrite Htrim. cbn [code nat_of_ascii orb]. 
    change (code "-"%char =? 45) with true. cbn [orb].
    rewrite (all_digits1_digits _ Hd Hne), Hv. f_equal. lia.
  - destruct (toString_reads z Hpos) as (Hd & Hv & Hne).
    unfold toBigint. rewrite (trim_digits _ Hd).
    destruct (toString z) as [|c s] eqn:E; [congruence|].
    pose proof Hd as Hc. apply digits_cons in Hc as [Hc _].
    unfold is_digit in Hc. apply andb_true_iff in Hc.
    replace (code c =? 45) with false by lia. replace (code c =? 43) with false by lia.
    cbn [orb]. rewrite (all_digits1_digits _ Hd Hne), Hv. reflexivity.
Qed.

End PrintFacts.

(** X4: what [bigintToJson] writes, [bigintFromJson] reads back as the same
    integer, negative ones included; [lamportsFromJson] reads back what
    [lamportsToJson] wrote for every amount that is not negative and rejects
    the text of a negative one with a [RangeError]. *)
Theorem json_round_trip :
  forall z : Z,
    Json.bigintFromJson (Amounts.text (Json.bigintToJson z)) = Ok z /\
    Json.lamportsFromJson (Amounts.text (Json.lamportsToJson z))
    = if z <? 0 then Throw (RangeError "lamports must be non-negative") else Ok z.
Proof.
  intros z. unfold Json.bigintFromJson, Json.bigintToJson, Json.lamportsFromJson,
    Json.lamportsToJson, Json.lamports, Amounts.fromBaseUnits.
  rewrite !PrintFacts.toBigint_toString. split; [reflexivity|].
  cbn [default Js.bind]. unfold Amounts.assertNonNegative.
  destruct (z <? 0); reflexivity.
Qed.

(** ** Parsing what the formatter printed *)

Module FormatFacts.
Import Amounts AmountsSpec AmountsFacts AmountsRounding AmountsFormat PrintFacts.

Lemma replicate_app_0 (a b : nat) :
  replicate a "0"%char ++ replicate b "0"%char = replicate (a + b) "0"%char.
Proof. induction a; [reflexivity|]. cbn [replicate app Nat.add]. f_equal. assumption. Qed.

(** The formatter prints a literal: the quotient, then fractional digits
    that spell the remainder once zeros fill them up to [d] places. *)
Lemma formatBaseUnits_literal a d options :
  0 <= d -> 0 <= a -> 0 <= default 0 (minimumFractionDigits options) <= d ->
  exists f,
    formatBaseUnits a d (10 ^ d) options = Ok (literal (toString (a / 10 ^ d)) f) /\
    digits f /\ (length f <= Z.to_nat d)%nat /\
    BigInt (padEnd f (Z.to_nat d) "0"%char) = a mod 10 ^ d.
Proof.
  intros Hd Ha Hmin. unfold formatBaseUnits, assertNonNegative.
  replace (a <? 0) with false by lia. cbn [Js.bind]. cbv zeta.
  set (m := default 0 (minimumFractionDigits options)) in *.
  replace ((m <? 0) || (d <? m)) with false by (symmetry; apply orb_false_iff; lia).
  destruct (d =? 0) eqn:Ed.
  - apply Z.eqb_eq in Ed. subst d. exists []. change (10 ^ 0) with 1.
    rewrite Z.div_1_r, Z.mod_1_r. repeat split; reflexivity || (cbn; lia).
  - apply Z.eqb_neq in Ed.
    assert (Hs : 0 < 10 ^ d) by (apply Z.pow_pos_nonneg; lia).
    rewrite Z.quot_div_nonneg, Z.rem_mod_nonneg by lia.
    pose proof (Z.mod_pos_bound a (10 ^ d) Hs) as Hm.
    destruct (toString_reads (a mod 10 ^ d) ltac:(lia)) as (Hdig & Hval & _).
    assert (Hlen : (length (toString (a mod 10 ^ d)) <= Z.to_nat d)%nat).
    { apply toString_length; [rewrite Z2Nat.id by lia; assumption | lia]. }
    set (frac0 := padStart (toString (a mod 10 ^ d)) (Z.to_nat d) "0"%char).
    assert (H0len : length frac0 = Z.to_nat d).
    { unfold frac0, padStart. rewrite length_app, length_replicate. lia. }
    assert (H0dig : digits frac0).
    { unfold frac0, padStart. apply digits_app. split; [apply digits_replicate_0 | assumption]. }
    assert (H0val : BigInt frac0 = a mod 10 ^ d).
    { unfold frac0. rewrite BigInt_padStart. assumption. }
    set (f1 := if default true (trimTrailingZeros options)
               then trim_trailing_zeros frac0 else frac0).
    assert (H1 : exists k, frac0 = f1 ++ replicate k "0"%char).
    { unfold f1. destruct (default true (trimTrailingZeros options)).
      - apply trim_trailing_zeros_split.
      - exists 0%nat. symmetry. apply app_nil_r. }
    destruct H1 as [k Hk].
    assert (Hk_len : (length f1 + k = Z.to_nat d)%nat).
    { rewrite <- H0len, Hk, length_app, length_replicate. reflexivity. }
    set (f2 := if Z.of_nat (length f1) <? m
               then padEnd f1 (Z.to_nat m) "0"%char else f1).
    assert (H2 : exists k', frac0 = f2 ++ replicate k' "0"%char).
    { unfold f2. destruct (Z.of_nat (length f1) <? m) eqn:E.
      - exists (k - (Z.to_nat m - length f1))%nat. unfold padEnd.
        rewrite <- app_assoc, replicate_app_0, Hk. do 2 f_equal. lia.
      - exists k. assumption. }
    destruct H2 as [k' Hk'].
    assert (Hk'_len : (length f2 + k' = Z.to_nat d)%nat).
    { rewrite <- H0len, Hk', length_app, length_replicate. reflexivity. }
    exists f2. split; [|split; [|split]].
    + destruct f2 as [|c f2]; reflexivity.
    + rewrite Hk' in H0dig. apply digits_app in H0dig. tauto.
    + lia.
    + unfold padEnd. replace (Z.to_nat d - length f2)%nat with k' by lia.
      rewrite <- Hk'. assumption.
Qed.

End FormatFacts.

(** X5: parsing undoes formatting.  For every amount that is not negative
    and every format option the formatter accepts (a minimum number of
    fraction digits between 0 and the token's decimals, trailing zeros kept
    or trimmed), [toDecimalString] returns a string that [fromDecimal]
    reads back as the same amount, whatever the rounding mode. *)
Theorem fromDecimal_toDecimalString :
  forall (d : Z) (math : Amounts.TokenAmountMath) (amount : Z)
         (format : Amounts.FormatAmountOptions) (parse : Amounts.ParseAmountOptions),
    Amounts.createTokenAmount d = Ok math ->
    0 <= amount ->
    AmountsArithSpec.valid_format d format ->
    exists printed,
      Amounts.toDecimalString math amount format = Ok printed /\
      Amounts.fromDecimal math printed parse = Ok amount.
Proof.
  intros d math amount format parse Hmath Hamount Hformat.
  destruct (AmountsRounding.createTokenAmount_inv d math Hmath) as (Hd & Hdec & Hscale).
  unfold Amounts.toDecimalString, Amounts.fromDecimal.
  rewrite ArithFacts.fromBaseUnits_big. replace (amount <? 0) with false by lia.
  cbn [Js.bind]. rewrite Hdec, Hscale.
  destruct (FormatFacts.formatBaseUnits_literal amount d format ltac:(lia) Hamount Hformat)
    as (f & Hprint & Hdig & Hlen & Hval).
  assert (Hs : 0 < 10 ^ d) by (apply Z.pow_pos_nonneg; lia).
  destruct (PrintFacts.toString_reads (amount / 10 ^ d) ltac:(apply Z.div_pos; lia))
    as (Hip & Hipval & Hne).
  eexists. split; [exact Hprint|].
  rewrite (AmountsRounding.decimalToBaseUnits_literal _ d parse _ f ltac:(lia) Hip Hne Hdig
             (AmountsFormat.sanitized_literal _ f Hip Hne Hdig)).
  rewrite AmountsRounding.truncated_value_split by lia.
  unfold AmountsSpec.dropped_digits. rewrite drop_ge, take_ge by lia.
  rewrite Hipval, Hval. f_equal.
  pose proof (Z.div_mod amount (10 ^ d) ltac:(lia)).
  destruct (default Amounts.floor (Amounts.rounding parse)); cbn; lia.
Qed.

(** 1.5 tokens of six decimals, printed with two fraction digits at least. *)
Lemma fromDecimal_toDecimalString_witness :
  exists printed,
    Amounts.toDecimalString AmountsExamples.six 1500000
      {| Amounts.minimumFractionDigits := Some 2; Amounts.trimTrailingZeros := None |}
    = Ok printed /\
    Amounts.fromDecimal AmountsExamples.six printed
      {| Amounts.label := None; Amounts.rounding := Some Amounts.ceil |} = Ok 1500000.
Proof.
  apply (fromDecimal_toDecimalString 6);
    [reflexivity | vm_compute; discriminate | vm_compute; split; discriminate].
Defined.

(** X6: [fromDecimal] accepts exactly the strings that match the decimal
    pattern once underscores and surrounding white space are removed, and
    rejects every other string with a [SyntaxError] in every mode.  On an
    accepted string the three modes agree up to one base unit:
    [0 <= floor <= round <= ceil <= floor + 1]. *)
Theorem fromDecimal_modes_ordered :
  forall (d : Z) (math : Amounts.TokenAmountMath) (value : Amounts.jsstring)
         (label : option string),
    Amounts.createTokenAmount d = Ok math ->
    let parse mode :=
      Amounts.fromDecimal math value
        {| Amounts.label := label; Amounts.rounding := Some mode |} in
    if Amounts.DECIMAL_PATTERN_test (AmountsSpec.sanitized value)
    then exists f r c,
        parse Amounts.floor = Ok f /\ parse Amounts.round = Ok r /\
        parse Amounts.ceil = Ok c /\ 0 <= f <= r /\ r <= c <= f + 1
    else forall mode, exists message, parse mode = Throw (SyntaxError message).
Proof.
  intros d math value label Hmath parse.
  destruct (AmountsRounding.createTokenAmount_inv d math Hmath) as (Hd & Hdec & Hscale).
  destruct (Amounts.DECIMAL_PATTERN_test (AmountsSpec.sanitized value)) eqn:Hpat.
  - destruct (AmountsFacts.pattern_inv _ Hpat) as (ip & fp & Hs & Hip & Hne & Hfp).
    assert (Hparse : forall mode, parse mode =
              Ok (AmountsSpec.truncated_value d ip fp
                  + AmountsSpec.round_up mode (AmountsSpec.dropped_digits d fp))).
    { intros mode. unfold parse, Amounts.fromDecimal. rewrite Hdec, Hscale.
      apply (AmountsRounding.decimalToBaseUnits_literal value d
               {| Amounts.label := label; Amounts.rounding := Some mode |} ip fp);
        try assumption; lia. }
    exists (AmountsSpec.truncated_value d ip fp
            + AmountsSpec.round_up Amounts.floor (AmountsSpec.dropped_digits d fp)),
           (AmountsSpec.truncated_value d ip fp
            + AmountsSpec.round_up Amounts.round (AmountsSpec.dropped_digits d fp)),
           (AmountsSpec.truncated_value d ip fp
            + AmountsSpec.round_up Amounts.ceil (AmountsSpec.dropped_digits d fp)).
    do 3 (split; [apply Hparse|]).
    assert (Hnn : 0 <= AmountsSpec.truncated_value d ip fp).
    { unfold AmountsSpec.truncated_value. apply AmountsFacts.BigInt_bounds.
      apply AmountsFacts.digits_app. split; [assumption|]. unfold Amounts.padEnd.
      apply AmountsFacts.digits_app. split;
        [apply AmountsFacts.digits_take; assumption | apply AmountsFacts.digits_replicate_0]. }
    assert (Himp : AmountsSpec.first_digit_at_least_5 (AmountsSpec.dropped_digits d fp) = true ->
                   AmountsSpec.has_nonzero_digit (AmountsSpec.dropped_digits d fp) = true).
    { destruct (AmountsSpec.dropped_digits d fp) as [|x rest]; [discriminate|].
      cbn. intros H. apply orb_true_iff. left. apply negb_true_iff. lia. }
    cbn [AmountsSpec.round_up].
    destruct (AmountsSpec.first_digit_at_least_5 _);
      destruct (AmountsSpec.has_nonzero_digit _); lia.
  - intros mode. unfold parse, Amounts.fromDecimal, Amounts.decimalToBaseUnits. cbv zeta.
    unfold AmountsSpec.sanitized in Hpat. rewrite Hpat.
    destruct (length (Amounts.trim (Amounts.remove_underscores value)) =? 0)%nat;
      eexists; reflexivity.
Qed.

(** ['0.0000005'] with six decimals: 0 under [floor], 1 under [round] and
    [ceil]. *)
Lemma fromDecimal_modes_ordered_witness :
  exists f r c,
    Amounts.fromDecimal AmountsExamples.six (Amounts.str "0.0000005")
      {| Amounts.label := None; Amounts.rounding := Some Amounts.floor |} = Ok f /\
    Amounts.fromDecimal AmountsExamples.six (Amounts.str "0.0000005")
      {| Amounts.label := None; Amounts.rounding := Some Amounts.round |} = Ok r /\
    Amounts.fromDecimal AmountsExamples.six (Amounts.str "0.0000005")
      {| Amounts.label := None; Amounts.rounding := Some Amounts.ceil |} = Ok c /\
    0 <= f <= r /\ r <= c <= f + 1.
Proof.
  exact (fromDecimal_modes_ordered 6 AmountsExamples.six (Amounts.str "0.0000005") None eq_refl).
Defined.

(** ** Wallet signers *)

(** X7: [createWalletTransactionSigner] refuses exactly the sessions that
    can neither sign nor send.  Otherwise the mode it reports is [partial]
    whenever the wallet can sign (also when it can send as well) and [send]
    only for a send-only wallet; the signer carries the session's address,
    and [resolveSignerMode] applied to that signer gives the reported mode
    back. *)
Theorem createWalletTransactionSigner_mode :
  forall (session : Signers.WalletSession) (commitment : option Kit.Commitment),
    match Signers.createWalletTransactionSigner session commitment with
    | Ok wallet =>
        Signers.mode wallet
        = (if Signers.signTransaction session then Signers.partial else Signers.send) /\
        (Signers.signTransaction session || Signers.sendTransaction session = true) /\
        Kit.address (Signers.signer wallet) = Signers.account_address session /\
        Signers.resolveSignerMode (Signers.signer wallet) = Signers.mode wallet
    | Throw e =>
        Signers.signTransaction session = false /\ Signers.sendTransaction session = false /\
        e = Error "Wallet session does not support signing or sending transactions."
    end.
Proof.
  intros session commitment. unfold Signers.createWalletTransactionSigner.
  destruct (Signers.signTransaction session); [repeat split|].
  destruct (Signers.sendTransaction session); repeat split.
Qed.

(** ** The tuner's result *)

Module TunerMore.
Import Kit Runtime Tuner TunerSpec.

Definition other (instruction : Instruction) : bool :=
  negb (isComputeUnitLimitInstruction instruction).

Lemma findIndex_Some {A} (p : A -> bool) l i :
  findIndex p l = Some i -> exists x, l !! i = Some x /\ p x = true.
Proof.
  revert i. induction l as [|a l IH]; intros i H; [discriminate|].
  cbn [findIndex] in H. destruct (p a) eqn:E.
  - injection H as <-. exists a. auto.
  - destruct (findIndex p l) as [j|]; [|discriminate]. injection H as <-.
    destruct (IH j eq_refl) as (x & Hx & Hp). exists x. auto.
Qed.

Lemma findIndex_insert {A} (p : A -> bool) l i y :
  findIndex p l = Some i -> p y = true -> findIndex p (<[i := y]> l) = Some i.
Proof.
  revert i. induction l as [|a l IH]; intros i H Hy; [discriminate|].
  cbn [findIndex] in H. destruct (p a) eqn:E.
  - injection H as <-. change (<[0%nat := y]> (a :: l)) with (y :: l).
    cbn [findIndex]. rewrite Hy. reflexivity.
  - destruct (findIndex p l) as [j|] eqn:Ej; [|discriminate]. injection H as <-.
    change (<[S j := y]> (a :: l)) with (a :: <[j := y]> l).
    cbn [findIndex]. rewrite E, (IH j eq_refl Hy). reflexivity.
Qed.

Lemma findIndex_app_new {A} (p : A -> bool) l y :
  findIndex p l = None -> p y = true -> findIndex p (l ++ [y]) = Some (length l).
Proof.
  induction l as [|a l IH]; intros H Hy; cbn.
  - rewrite Hy. reflexivity.
  - cbn [findIndex] in H. destruct (p a); [discriminate|].
    destruct (findIndex p l); [discriminate|]. rewrite (IH eq_refl Hy). reflexivity.
Qed.

Lemma filter_insert {A} (q : A -> bool) l i x y :
  l !! i = Some x -> q x = false -> q y = false ->
  List.filter q (<[i := y]> l) = List.filter q l.
Proof.
  revert i. induction l as [|a l IH]; intros i H Hx Hy; [discriminate|].
  destruct i as [|i].
  - change (<[0%nat := y]> (a :: l)) with (y :: l). cbn in H. injection H as ->.
    cbn [List.filter]. rewrite Hx, Hy. reflexivity.
  - change (<[S i := y]> (a :: l)) with (a :: <[i := y]> l). cbn in H.
    cbn [List.filter]. rewrite (IH i H Hx Hy). reflexivity.
Qed.

Lemma limit_is_limit units limit :
  getSetComputeUnitLimitInstruction units = Ok limit ->
  isComputeUnitLimitInstruction limit = true.
Proof.
  unfold getSetComputeUnitLimitInstruction.
  destruct (_ || _); [discriminate|]. intros [= <-]. reflexivity.
Qed.

(** What installing a limit instruction does to a list. *)
Lemma installed_shape limit l :
  isComputeUnitLimitInstruction limit = true ->
  findIndex isComputeUnitLimitInstruction (installed limit l)
  = Some (default (length l) (findIndex isComputeUnitLimitInstruction l)) /\
  List.filter other (installed limit l) = List.filter other l.
Proof.
  intros Hl. unfold installed.
  destruct (findIndex isComputeUnitLimitInstruction l) as [i|] eqn:E; cbn [default].
  - split; [apply findIndex_insert; assumption|].
    destruct (findIndex_Some _ _ _ E) as (x & Hx & Hp).
    apply (filter_insert other l i x limit Hx); unfold other; [rewrite Hp | rewrite Hl]; reflexivity.
  - split; [apply findIndex_app_new; assumption|].
    rewrite List.filter_app. cbn. unfold other at 2. rewrite Hl. apply app_nil_r.
Qed.

(** The first stage: the message with a limit instruction in it. *)
Definition limited (limit : Instruction) (transaction : TransactionMessage)
    : TransactionMessage :=
  with_instructions (installed limit (instructions transaction)) transaction.

End TunerMore.

(** ** Reading an [async] function backwards *)

Module Inversion.
Import Kit Runtime.

Lemma bind_inv_ok {A B} (m : M A) (k : A -> M B) w b w' :
  Runtime.bind m k w = (Ok b, w') ->
  exists a w1, m w = (Ok a, w1) /\ k a w1 = (Ok b, w').
Proof.
  unfold Runtime.bind. destruct (m w) as [[a|e] w1]; [eauto | discriminate].
Qed.

Lemma ret_inv {A} (a b : A) w w' : ret a w = (Ok b, w') -> b = a /\ w' = w.
Proof. unfold ret. intros [= <- <-]. auto. Qed.

Lemma lift_inv {A} (r : result A) b w w' : lift r w = (Ok b, w') -> r = Ok b /\ w' = w.
Proof. unfold lift. intros [= <- <-]. auto. Qed.

Lemma call_inv {A} ev (answer : Trace -> result A) a w w' :
  call ev answer w = (Ok a, w') ->
  answer (trace w) = Ok a /\ w' = record_call ev (answer (trace w)) w.
Proof. unfold call. intros [= H <-]. auto. Qed.

Lemma throwIfAborted_inv signal u w w' :
  throwIfAborted signal w = (Ok u, w') -> w' = w.
Proof.
  unfold throwIfAborted. destruct signal as [s|]; [destruct (aborted s (trace w))|];
    intros H; try discriminate H; injection H as _ <-; reflexivity.
Qed.

End Inversion.

Module TunerInv.
Import Kit Runtime Tuner TunerSpec TunerMore Inversion.

(** The message the tuner returns: the request's message, with a limit
    instruction installed when the tuner had to estimate, and with the
    lifetime it ends up with. *)
Lemma prepareTransaction_inv rpc config w msg w' :
  prepareTransaction rpc config w = (Ok msg, w') ->
  exists t1,
    (if must_estimate config
     then exists units limit,
            getSetComputeUnitLimitInstruction units = Ok limit /\
            t1 = limited limit (transaction config)
     else t1 = transaction config) /\
    (msg = t1 /\ hasLifetime t1 = true /\ blockhashReset config = Some false
     \/ exists latest, msg = setTransactionMessageLifetimeUsingBlockhash latest t1).
Proof.
  unfold prepareTransaction. cbv zeta. intros H.
  apply bind_inv_ok in H as (t1 & w1 & H1 & H).
  apply bind_inv_ok in H as (t2 & w2 & H2 & H).
  apply bind_inv_ok in H as (u & w3 & _ & H).
  apply ret_inv in H as [-> _].
  exists t1. split.
  - unfold must_estimate, limited, installed.
    destruct (findIndex isComputeUnitLimitInstruction (instructions (transaction config)))
      as [index|]; cbn [orb] in H1.
    + destruct (default false (computeUnitLimitReset config)).
      * apply bind_inv_ok in H1 as (units & w0 & _ & H1).
        apply bind_inv_ok in H1 as (limit & w00 & Hbuilt & H1).
        apply lift_inv in Hbuilt as [Hbuilt _].
        apply ret_inv in H1 as [-> _]. eexists _, limit. split; [exact Hbuilt | reflexivity].
      * apply ret_inv in H1 as [-> _]. reflexivity.
    + apply bind_inv_ok in H1 as (units & w0 & _ & H1).
      apply bind_inv_ok in H1 as (limit & w00 & Hbuilt & H1).
      apply lift_inv in Hbuilt as [Hbuilt _].
      apply ret_inv in H1 as [-> _]. eexists _, limit. split; [exact Hbuilt | reflexivity].
  - destruct (hasLifetime t1) eqn:Hlife; cbn [negb orb] in H2.
    + destruct (blockhashReset config) as [[|]|]; cbn [orb] in H2.
      * apply bind_inv_ok in H2 as (latest & w0 & _ & H2).
        apply ret_inv in H2 as [-> _]. eauto.
      * apply ret_inv in H2 as [-> _]. auto.
      * apply bind_inv_ok in H2 as (latest & w0 & _ & H2).
        apply ret_inv in H2 as [-> _]. eauto.
    + rewrite orb_true_r in H2.
      apply bind_inv_ok in H2 as (latest & w0 & _ & H2).
      apply ret_inv in H2 as [-> _]. eauto.
Qed.

(** With a limit instruction and a lifetime in place and no reset asked
    for, the tuner has nothing to ask anybody. *)
Lemma nothing_to_do rpc config w :
  must_estimate config = false ->
  hasLifetime (transaction config) = true ->
  blockhashReset config = Some false ->
  prepareTransaction rpc config w
  = (Ok (transaction config),
     if logRequest config
     then record_call (LogRequest (transaction config)) (Ok tt) w
     else w).
Proof.
  intros Hmust Hlife Hreset.
  unfold must_estimate in Hmust. unfold prepareTransaction. cbv zeta.
  destruct (findIndex isComputeUnitLimitInstruction (instructions (transaction config)));
    [|discriminate].
  rewrite Hmust, Hreset. cbn [orb].
  unfold Runtime.bind at 1. unfold Runtime.ret at 1. rewrite Hlife. cbn [negb orb].
  unfold Runtime.bind, Runtime.ret, Runtime.call.
  destruct (logRequest config); reflexivity.
Qed.

End TunerInv.

(** X8: when the message already has a compute-unit-limit instruction and a
    lifetime, no reset of the limit is asked for and the blockhash reset is
    switched off, the tuner returns the message as it is and calls neither
    the simulation nor the blockhash query; the only call is the request
    logger, when there is one. *)
Theorem prepareTransaction_nothing_to_do :
  forall (rpc : Runtime.SolanaClientRuntime) (config : Tuner.PrepareTransactionConfig)
         (w : Runtime.World),
    TunerSpec.must_estimate config = false ->
    Tuner.hasLifetime (Tuner.transaction config) = true ->
    Tuner.blockhashReset config = Some false ->
    Tuner.prepareTransaction rpc config w
    = (Ok (Tuner.transaction config),
       if Tuner.logRequest config
       then Runtime.record_call (Runtime.LogRequest (Tuner.transaction config)) (Ok tt) w
       else w).
Proof.
  intros rpc config w Hmust Hlife Hreset.
  unfold TunerSpec.must_estimate in Hmust. unfold Tuner.prepareTransaction. cbv zeta.
  destruct (Tuner.findIndex Tuner.isComputeUnitLimitInstruction
              (Kit.instructions (Tuner.transaction config))); [|discriminate].
  rewrite Hmust, Hreset. cbn [orb].
  unfold Runtime.bind at 1. unfold Runtime.ret at 1. rewrite Hlife. cbn [negb orb].
  unfold Runtime.bind, Runtime.ret, Runtime.call.
  destruct (Tuner.logRequest config); reflexivity.
Qed.

(** A tuned message goes through a second pass untouched. *)
Lemma prepareTransaction_nothing_to_do_witness :
  Tuner.prepareTransaction (TunerExamples.mock_rpc 500000)
    (TunerMoreExamples.again TunerMoreExamples.tuned None) Runtime.fresh_world
  = (Ok TunerMoreExamples.tuned, Runtime.fresh_world).
Proof.
  exact (prepareTransaction_nothing_to_do (TunerExamples.mock_rpc 500000)
           (TunerMoreExamples.again TunerMoreExamples.tuned None) Runtime.fresh_world
           eq_refl eq_refl eq_refl).
Defined.

(** X9: every message that the tuner returns has a lifetime and a
    compute-unit-limit instruction; the first limit instruction sits where
    the request's first one was, or at the end when the request had none;
    the other instructions, the version and the fee payer are the
    request's.  A second pass over the returned message, with no reset asked
    for, gives it back unchanged without any call.  The instruction list is
    the request's own when the tuner did not have to estimate, and else the
    request's with one limit instruction, built by the compute budget
    client, installed in it. *)
Theorem prepareTransaction_postcondition :
  forall (rpc : Runtime.SolanaClientRuntime) (config : Tuner.PrepareTransactionConfig)
         (w w' : Runtime.World) (tuned : Kit.TransactionMessage),
    Tuner.prepareTransaction rpc config w = (Ok tuned, w') ->
    Tuner.hasLifetime tuned = true /\
    Tuner.findIndex Tuner.isComputeUnitLimitInstruction (Kit.instructions tuned)
    = Some (default (length (Kit.instructions (Tuner.transaction config)))
              (Tuner.findIndex Tuner.isComputeUnitLimitInstruction
                 (Kit.instructions (Tuner.transaction config)))) /\
    List.filter (fun i => negb (Tuner.isComputeUnitLimitInstruction i)) (Kit.instructions tuned)
    = List.filter (fun i => negb (Tuner.isComputeUnitLimitInstruction i))
        (Kit.instructions (Tuner.transaction config)) /\
    Kit.version tuned = Kit.version (Tuner.transaction config) /\
    Kit.feePayer tuned = Kit.feePayer (Tuner.transaction config) /\
    (forall multiplier w2,
        Tuner.prepareTransaction rpc (TunerMoreExamples.again tuned multiplier) w2
        = (Ok tuned, w2)) /\
    (if TunerSpec.must_estimate config
     then exists units limit,
            Kit.getSetComputeUnitLimitInstruction units = Ok limit /\
            Kit.instructions tuned
            = TunerSpec.installed limit (Kit.instructions (Tuner.transaction config))
     else Kit.instructions tuned = Kit.instructions (Tuner.transaction config)).
Proof.
  intros rpc config w w' tuned H.
  destruct (TunerInv.prepareTransaction_inv rpc config w tuned w' H) as (t1 & H1 & H2).
  assert (Hshape :
    Tuner.findIndex Tuner.isComputeUnitLimitInstruction (Kit.instructions t1)
    = Some (default (length (Kit.instructions (Tuner.transaction config)))
              (Tuner.findIndex Tuner.isComputeUnitLimitInstruction
                 (Kit.instructions (Tuner.transaction config)))) /\
    List.filter TunerMore.other (Kit.instructions t1)
    = List.filter TunerMore.other (Kit.instructions (Tuner.transaction config)) /\
    Kit.version t1 = Kit.version (Tuner.transaction config) /\
    Kit.feePayer t1 = Kit.feePayer (Tuner.transaction config)).
  { unfold TunerSpec.must_estimate in H1.
    destruct (Tuner.findIndex Tuner.isComputeUnitLimitInstruction
                (Kit.instructions (Tuner.transaction config))) as [index|] eqn:Hindex.
    - destruct (default false (Tuner.computeUnitLimitReset config)).
      + destruct H1 as (units & limit & Hbuilt & ->). unfold TunerMore.limited.
        cbn [Kit.instructions Kit.with_instructions Kit.version Kit.feePayer].
        destruct (TunerMore.installed_shape limit
                    (Kit.instructions (Tuner.transaction config))
                    (TunerMore.limit_is_limit units limit Hbuilt)) as [Ha Hb].
        rewrite Hindex in Ha. auto.
      + subst t1. rewrite Hindex. auto.
    - destruct H1 as (units & limit & Hbuilt & ->). unfold TunerMore.limited.
      cbn [Kit.instructions Kit.with_instructions Kit.version Kit.feePayer].
      destruct (TunerMore.installed_shape limit
                  (Kit.instructions (Tuner.transaction config))
                  (TunerMore.limit_is_limit units limit Hbuilt)) as [Ha Hb].
      rewrite Hindex in Ha. auto. }
  destruct Hshape as (Hfind & Hfilter & Hversion & Hpayer).
  assert (Hsame : Kit.instructions tuned = Kit.instructions t1 /\
                  Kit.version tuned = Kit.version t1 /\
                  Kit.feePayer tuned = Kit.feePayer t1 /\
                  Tuner.hasLifetime tuned = true).
  { destruct H2 as [(-> & Hl & _) | [latest ->]]; auto. }
  destruct Hsame as (Hi & Hv & Hp & Hl).
  rewrite Hi, Hv, Hp. repeat (split; [assumption|]).
  split.
  - intros multiplier w2.
    apply (TunerInv.nothing_to_do rpc (TunerMoreExamples.again tuned multiplier) w2);
      [|assumption | reflexivity].
    unfold TunerSpec.must_estimate. cbn [TunerMoreExamples.again Tuner.transaction
      Tuner.computeUnitLimitReset]. rewrite Hi, Hfind. reflexivity.
  - destruct (TunerSpec.must_estimate config).
    + destruct H1 as (units & limit & Hbuilt & ->). exists units, limit.
      split; [exact Hbuilt | reflexivity].
    + subst t1. reflexivity.
Qed.

(** The message tuned from the test's message: the limit instruction has
    been appended after the base instruction. *)
Lemma prepareTransaction_postcondition_witness :
  Tuner.hasLifetime TunerMoreExamples.tuned = true /\
  Tuner.findIndex Tuner.isComputeUnitLimitInstruction (Kit.instructions TunerMoreExamples.tuned)
  = Some 1%nat.
Proof.
  pose proof (prepareTransaction_postcondition (TunerExamples.mock_rpc 500000)
                TunerExamples.config Runtime.fresh_world (snd TunerMoreExamples.tuned_run)
                TunerMoreExamples.tuned eq_refl) as (H1 & H2 & _).
  split; [exact H1 | exact H2].
Defined.

(** ** What [prepare] returns *)

Module PrepareInv.
Import Kit Runtime Signers Transactions TransactionsSpec Inversion.

(** The signer that pays is the one whose address was resolved. *)
Lemma resolveFeePayerAddress_signer isAddress feePayer authoritySigner payer s :
  resolveFeePayerAddress isAddress feePayer authoritySigner = Ok payer ->
  feePayerSigner payer = Some s -> address s = feePayerAddress payer.
Proof.
  unfold resolveFeePayerAddress, toAddress. intros H Hs.
  destruct (feePayer_falsy feePayer && missing authoritySigner); [discriminate|].
  destruct feePayer as [[value|signer]|].
  - destruct (feePayer_falsy (Some (FeePayerString value))).
    + destruct authoritySigner as [signer|]; [|discriminate].
      injection H as <-. cbn in Hs. injection Hs as <-. reflexivity.
    + destruct (isAddress value); cbn [Js.bind] in H; [|discriminate].
      destruct authoritySigner as [signer|].
      * destruct (String.eqb (address signer) value) eqn:E; injection H as <-;
          cbn in Hs; [|discriminate]. injection Hs as <-. apply String.eqb_eq, E.
      * injection H as <-. discriminate.
  - injection H as <-. cbn in Hs. injection Hs as <-. reflexivity.
  - destruct authoritySigner as [signer|]; [|discriminate].
    injection H as <-. cbn in Hs. injection Hs as <-. reflexivity.
Qed.

Section Helper.
Variable runtime : SolanaClientRuntime.
Variable getFallbackCommitment : unit -> Commitment.
Variable isAddress : string -> bool.

Lemma prepare_inv_full request w prepared w' :
  prepare runtime getFallbackCommitment isAddress request w = (Ok prepared, w') ->
  let commitment := normaliseCommitment request getFallbackCommitment in
  exists authoritySigner mode payer prefix,
    instructions request <> [] /\
    resolveAuthority (authority request) commitment = Ok (authoritySigner, mode) /\
    resolveFeePayerAddress isAddress (feePayer request) authoritySigner = Ok payer /\
    match lifetime request with
    | Some l => prepared_lifetime prepared = l /\ w' = w
    | None =>
        getLatestBlockhash runtime (trace w) (Some commitment) = Ok (prepared_lifetime prepared) /\
        w' = record_call (GetLatestBlockhash (Some commitment))
               (getLatestBlockhash runtime (trace w) (Some commitment)) w
    end /\
    resolveComputeUnitLimit request (instructions request)
      = Ok (prepared_computeUnitLimit prepared) /\
    resolveComputeUnitPrice request (instructions request)
      = Ok (prepared_computeUnitPrice prepared) /\
    prefix_of (prepared_computeUnitLimit prepared) (prepared_computeUnitPrice prepared)
      = Ok prefix /\
    prepared =
    {| prepared_commitment := commitment;
       prepared_computeUnitLimit := prepared_computeUnitLimit prepared;
       prepared_computeUnitPrice := prepared_computeUnitPrice prepared;
       prepared_feePayer := feePayerAddress payer;
       prepared_instructions := instructions request;
       prepared_lifetime := prepared_lifetime prepared;
       prepared_message :=
         setTransactionMessageLifetimeUsingBlockhash (prepared_lifetime prepared)
           (appendTransactionMessageInstructions (prefix ++ instructions request)
              (match feePayerSigner payer with
               | Some s => setTransactionMessageFeePayerSigner s
               | None => setTransactionMessageFeePayer (feePayerAddress payer)
               end (createTransactionMessage
                      (resolveVersion (version request) (instructions request)))));
       prepared_mode := settle_mode mode (feePayerSigner payer);
       prepared_version := resolveVersion (version request) (instructions request) |}.
Proof.
  unfold prepare. cbv zeta. intros H.
  destruct (length (instructions request) =? 0)%nat eqn:Hlen; [discriminate|].
  apply bind_inv_ok in H as (u1 & w1 & Ha1 & H). apply throwIfAborted_inv in Ha1 as ->.
  apply bind_inv_ok in H as ([authoritySigner mode] & w2 & Hauth & H).
  apply lift_inv in Hauth as [Hauth ->].
  apply bind_inv_ok in H as (payer & w3 & Hpayer & H).
  apply lift_inv in Hpayer as [Hpayer ->]. cbn [fst snd] in *.
  apply bind_inv_ok in H as (life & w4 & Hlife & H).
  apply bind_inv_ok in H as (u2 & w5 & Ha2 & H). apply throwIfAborted_inv in Ha2 as ->.
  apply bind_inv_ok in H as (limit & w6 & Hlimit & H).
  apply lift_inv in Hlimit as [Hlimit ->].
  apply bind_inv_ok in H as (price & w7 & Hprice & H).
  apply lift_inv in Hprice as [Hprice ->].
  apply bind_inv_ok in H as (limitPrefix & w8 & Hlp & H).
  apply bind_inv_ok in H as (pricePrefix & w9 & Hpp & H).
  apply bind_inv_ok in H as (u3 & w10 & Ha3 & H). apply throwIfAborted_inv in Ha3 as ->.
  apply ret_inv in H as [-> ->].
  assert (Hprefix : prefix_of limit price = Ok (limitPrefix ++ pricePrefix) /\ w9 = w4).
  { unfold prefix_of. destruct limit as [units|].
    - apply bind_inv_ok in Hlp as (i & w0 & Hb & Hr).
      apply lift_inv in Hb as [Hb ->]. apply ret_inv in Hr as [-> ->].
      rewrite Hb. cbn [Js.bind]. destruct price as [p|].
      + apply bind_inv_ok in Hpp as (j & w0 & Hc & Hr).
        apply lift_inv in Hc as [Hc ->]. apply ret_inv in Hr as [-> ->].
        rewrite Hc. auto.
      + apply ret_inv in Hpp as [-> ->]. auto.
    - apply ret_inv in Hlp as [-> ->]. cbn [Js.bind]. destruct price as [p|].
      + apply bind_inv_ok in Hpp as (j & w0 & Hc & Hr).
        apply lift_inv in Hc as [Hc ->]. apply ret_inv in Hr as [-> ->].
        rewrite Hc. auto.
      + apply ret_inv in Hpp as [-> ->]. auto. }
  destruct Hprefix as [Hprefix ->].
  exists authoritySigner, mode, payer, (limitPrefix ++ pricePrefix).
  cbn [prepared_lifetime prepared_computeUnitLimit prepared_computeUnitPrice].
  split; [intros E; rewrite E in Hlen; discriminate|].
  repeat (split; [assumption|]).
  split; [|auto].
  destruct (lifetime request) as [l|].
  - apply ret_inv in Hlife as [-> ->]. auto.
  - apply call_inv in Hlife as [Hl ->]. auto.
Qed.

End Helper.

End PrepareInv.

(** ** Which calls an [async] function makes *)

Module Effects.
Import Kit Runtime.

(** [m] extends the trace by calls that, together with the outcome,
    satisfy [Q]. *)
Definition spec {A} (m : M A) (Q : result A -> Trace -> Prop) : Prop :=
  forall w, exists rest, trace (snd (m w)) = trace w ++ rest /\ Q (fst (m w)) rest.

(** [m] calls nobody. *)
Definition silent {A} (m : M A) : Prop := forall w, trace (snd (m w)) = trace w.

Lemma silent_ret {A} (a : A) : silent (ret a).
Proof. intros w. reflexivity. Qed.

Lemma silent_throw {A} e : silent (@throw A e).
Proof. intros w. reflexivity. Qed.

Lemma silent_lift {A} (r : result A) : silent (lift r).
Proof. intros w. reflexivity. Qed.

Lemma silent_throwIfAborted signal : silent (throwIfAborted signal).
Proof.
  intros w. unfold throwIfAborted. destruct signal as [s|]; [|reflexivity].
  destruct (aborted s (trace w)); reflexivity.
Qed.

Lemma silent_bind {A B} (m : M A) (k : A -> M B) :
  silent m -> (forall a, silent (k a)) -> silent (Runtime.bind m k).
Proof.
  intros Hm Hk w. unfold Runtime.bind. specialize (Hm w).
  destruct (m w) as [[a|e] w1]; cbn [snd] in *; [|assumption].
  rewrite (Hk a w1). assumption.
Qed.

Ltac silent_steps :=
  cbv zeta;
  repeat first
    [ apply silent_ret | apply silent_lift | apply silent_throw
    | apply silent_throwIfAborted
    | apply silent_bind; [|intros ?]
    | match goal with
      | |- silent (if ?b then _ else _) => destruct b
      | |- silent (match ?x with _ => _ end) => destruct x
      end ].

Lemma spec_silent {A} (m : M A) (Q : result A -> Trace -> Prop) :
  silent m -> (forall r, Q r []) -> spec m Q.
Proof.
  intros Hm HQ w. exists []. split; [rewrite app_nil_r; apply Hm | apply HQ].
Qed.

Lemma spec_throw {A} e (Q : result A -> Trace -> Prop) : Q (Throw e) [] -> spec (throw e) Q.
Proof. intros HQ w. exists []. split; [symmetry; apply app_nil_r | exact HQ]. Qed.

Lemma spec_call {A} ev (answer : Trace -> result A) (Q : result A -> Trace -> Prop) :
  (forall r, Q r [ev]) -> spec (call ev answer) Q.
Proof. intros HQ w. exists [ev]. split; [reflexivity | apply HQ]. Qed.

Lemma spec_bind {A B} (m : M A) (k : A -> M B) (Q1 : result A -> Trace -> Prop)
    (Q : result B -> Trace -> Prop) :
  spec m Q1 ->
  (forall a r1, Q1 (Ok a) r1 -> spec (k a) (fun res r2 => Q res (r1 ++ r2))) ->
  (forall e r1, Q1 (Throw e) r1 -> Q (Throw e) r1) ->
  spec (Runtime.bind m k) Q.
Proof.
  intros Hm Hk Hthrow w. unfold Runtime.bind.
  destruct (Hm w) as (r1 & Ht1 & HQ1).
  destruct (m w) as [[a|e] w1]; cbn [fst snd] in *.
  - destruct (Hk a r1 HQ1 w1) as (r2 & Ht2 & HQ2).
    exists (r1 ++ r2). split; [rewrite Ht2, Ht1, app_assoc; reflexivity | exact HQ2].
  - exists r1. split; [assumption | apply Hthrow, HQ1].
Qed.

(** A step that calls nobody, in front of the rest. *)
Lemma spec_bind_silent {A B} (m : M A) (k : A -> M B) (Q : result B -> Trace -> Prop) :
  silent m -> (forall e, Q (Throw e) []) -> (forall a, spec (k a) Q) ->
  spec (Runtime.bind m k) Q.
Proof.
  intros Hm Hthrow Hk.
  apply (spec_bind m k (fun _ r => r = [])).
  - intros w. exists []. split; [rewrite app_nil_r; apply Hm | reflexivity].
  - intros a r1 ->. apply Hk.
  - intros e r1 ->. apply Hthrow.
Qed.

End Effects.

Module PrepareCalls.
Import Kit Runtime Signers Transactions Inversion Effects.

Section Helper.
Variable runtime : SolanaClientRuntime.
Variable getFallbackCommitment : unit -> Commitment.
Variable isAddress : string -> bool.

(** The calls of [prepare]: none when the request brings a lifetime or is
    turned down before the query, else the one blockhash query. *)
Definition prepare_calls (request : TransactionPrepareRequest)
    (r : result TransactionPrepared) (rest : Trace) : Prop :=
  match lifetime request with
  | Some _ => rest = []
  | None =>
      (rest = [] /\ Js.is_ok r = false) \/
      rest = [GetLatestBlockhash (Some (normaliseCommitment request getFallbackCommitment))]
  end.

Lemma spec_prepare request :
  spec (prepare runtime getFallbackCommitment isAddress request) (prepare_calls request).
Proof.
  assert (Hthrow : forall e, prepare_calls request (Throw e) []).
  { intros e. unfold prepare_calls. destruct (lifetime request); auto. }
  unfold prepare. cbv zeta.
  destruct (length (instructions request) =? 0)%nat; [apply spec_throw, Hthrow|].
  apply spec_bind_silent; [apply silent_throwIfAborted | exact Hthrow | intros _].
  apply spec_bind_silent; [apply silent_lift | exact Hthrow | intros resolved].
  apply spec_bind_silent; [apply silent_lift | exact Hthrow | intros payer].
  unfold prepare_calls. destruct (lifetime request) as [l|].
  - apply spec_silent; [silent_steps | reflexivity].
  - eapply spec_bind.
    + apply spec_call with (Q := fun _ rest =>
        rest = [GetLatestBlockhash (Some (normaliseCommitment request getFallbackCommitment))]).
      reflexivity.
    + intros latest r1 ->. apply spec_silent; [silent_steps|]. intros r. right. reflexivity.
    + intros e r1 ->. right. reflexivity.
Qed.

End Helper.

End PrepareCalls.

(** X10: [prepare] asks for the latest blockhash at most once, at the
    request's commitment, and makes no other call.  With a lifetime in the
    request it calls nobody and the prepared transaction carries that
    lifetime; without one, either the request is turned down before any
    call, or the one query is made and a prepared transaction carries what
    the query answered. *)
Theorem prepare_queries_blockhash_once :
  forall (runtime : Runtime.SolanaClientRuntime) (getFallbackCommitment : unit -> Kit.Commitment)
         (isAddress : string -> bool) (request : Transactions.TransactionPrepareRequest)
         (w : Runtime.World),
    let run := Transactions.prepare runtime getFallbackCommitment isAddress request w in
    let commitment := Transactions.normaliseCommitment request getFallbackCommitment in
    match Transactions.lifetime request with
    | Some l =>
        Runtime.trace (snd run) = Runtime.trace w /\
        forall prepared, fst run = Ok prepared -> Transactions.prepared_lifetime prepared = l
    | None =>
        (Runtime.trace (snd run) = Runtime.trace w /\ Js.is_ok (fst run) = false) \/
        (Runtime.trace (snd run)
         = Runtime.trace w ++ [Runtime.GetLatestBlockhash (Some commitment)] /\
         forall prepared,
           fst run = Ok prepared ->
           Runtime.getLatestBlockhash runtime (Runtime.trace w) (Some commitment)
           = Ok (Transactions.prepared_lifetime prepared))
    end.
Proof.
  intros runtime getFallbackCommitment isAddress request w run commitment.
  destruct (PrepareCalls.spec_prepare runtime getFallbackCommitment isAddress request w)
    as (rest & Htrace & Hcalls).
  fold run in Htrace, Hcalls. unfold PrepareCalls.prepare_calls in Hcalls.
  assert (Hinv : forall prepared, fst run = Ok prepared ->
            match Transactions.lifetime request with
            | Some l => Transactions.prepared_lifetime prepared = l
            | None => Runtime.getLatestBlockhash runtime (Runtime.trace w) (Some commitment)
                      = Ok (Transactions.prepared_lifetime prepared)
            end).
  { intros prepared Hrun.
    destruct (PrepareInv.prepare_inv_full runtime getFallbackCommitment isAddress request w
                prepared (snd run)) as (a & m & p & pre & _ & _ & _ & Hl & _).
    - unfold run in *. destruct (Transactions.prepare _ _ _ _ _) as [r w1].
      cbn [fst snd] in *. subst r. reflexivity.
    - destruct (Transactions.lifetime request); tauto. }
  destruct (Transactions.lifetime request) as [l|].
  - subst rest. rewrite app_nil_r in Htrace. auto.
  - destruct Hcalls as [[-> Hfail] | ->].
    + left. rewrite app_nil_r in Htrace. auto.
    + right. auto.
Qed.

(** X11: the message of a prepared transaction is the request's instruction
    list behind at most two compute-budget instructions, the limit first and
    the price second; each of the two is there exactly when the request asks
    for it and its instructions do not already set it.  The message carries
    the prepared lifetime, version and fee payer. *)
Theorem prepare_message_shape :
  forall (runtime : Runtime.SolanaClientRuntime) (getFallbackCommitment : unit -> Kit.Commitment)
         (isAddress : string -> bool) (request : Transactions.TransactionPrepareRequest)
         (w w' : Runtime.World) (prepared : Transactions.TransactionPrepared),
    Transactions.prepare runtime getFallbackCommitment isAddress request w = (Ok prepared, w') ->
    let message := Transactions.prepared_message prepared in
    (exists prefix,
        TransactionsSpec.prefix_of (Transactions.prepared_computeUnitLimit prepared)
          (Transactions.prepared_computeUnitPrice prepared) = Ok prefix /\
        Kit.instructions message = prefix ++ Transactions.instructions request) /\
    (Transactions.prepared_computeUnitLimit prepared <> None <->
     Transactions.computeUnitLimit request <> None /\
     Transactions.hasSetComputeUnitLimitInstruction (Transactions.instructions request) = false) /\
    (Transactions.prepared_computeUnitPrice prepared <> None <->
     Transactions.computeUnitPrice request <> None /\
     Transactions.hasSetComputeUnitPriceInstruction (Transactions.instructions request) = false) /\
    Kit.lifetimeConstraint message = Some (Transactions.prepared_lifetime prepared) /\
    Kit.version message = Transactions.prepared_version prepared /\
    option_map Kit.feePayerAddress (Kit.feePayer message)
    = Some (Transactions.prepared_feePayer prepared) /\
    Transactions.prepared_instructions prepared = Transactions.instructions request /\
    (forall payer signer,
        Kit.feePayer message = Some payer ->
        Kit.feePayerSigner payer = Some signer ->
        Kit.address signer = Transactions.prepared_feePayer prepared).
Proof.
  intros runtime getFallbackCommitment isAddress request w w' prepared H message.
  destruct (PrepareInv.prepare_inv_full runtime getFallbackCommitment isAddress request w
              prepared w' H)
    as (a & m & p & prefix & _ & _ & Hpayer & _ & Hlimit & Hprice & Hprefix & Hp).
  unfold message. rewrite Hp.
  cbn [Transactions.prepared_message Transactions.prepared_computeUnitLimit
       Transactions.prepared_computeUnitPrice Transactions.prepared_lifetime
       Transactions.prepared_version Transactions.prepared_feePayer
       Transactions.prepared_instructions].
  split; [exists prefix; split; [exact Hprefix | destruct (Kit.feePayerSigner p); reflexivity]|].
  split.
  { unfold Transactions.resolveComputeUnitLimit in Hlimit.
    destruct (Transactions.computeUnitLimit request) as [v|].
    - destruct (Transactions.hasSetComputeUnitLimitInstruction _).
      + injection Hlimit as <-. split; [congruence | intros [_ ?]; discriminate].
      + destruct (Transactions.to_bigint v); [|discriminate]. injection Hlimit as <-.
        split; [intros _; split; [discriminate | reflexivity] | discriminate].
    - injection Hlimit as <-. split; [congruence | intros [? _]; congruence]. }
  split.
  { unfold Transactions.resolveComputeUnitPrice in Hprice.
    destruct (Transactions.computeUnitPrice request) as [v|].
    - destruct (Transactions.hasSetComputeUnitPriceInstruction _).
      + injection Hprice as <-. split; [congruence | intros [_ ?]; discriminate].
      + destruct (Transactions.to_bigint v); [|discriminate]. injection Hprice as <-.
        split; [intros _; split; [discriminate | reflexivity] | discriminate].
    - injection Hprice as <-. split; [congruence | intros [? _]; congruence]. }
  destruct (Kit.feePayerSigner p) as [s|] eqn:Hs; repeat split.
  - cbn. f_equal. apply (PrepareInv.resolveFeePayerAddress_signer _ _ _ _ _ Hpayer Hs).
  - cbn. intros payer signer [= <-] [= <-].
    apply (PrepareInv.resolveFeePayerAddress_signer _ _ _ _ _ Hpayer Hs).
  - cbn. intros payer signer [= <-] Hsigner. discriminate Hsigner.
Qed.

(** The prepared budget request: limit, price, then the instruction. *)
Lemma prepare_message_shape_witness :
  exists limit price,
    Kit.getSetComputeUnitLimitInstruction 400000%float = Ok limit /\
    Kit.getSetComputeUnitPriceInstruction 5%float = Ok price /\
    Kit.instructions (Transactions.prepared_message TransactionsMoreExamples.budget_prepared)
    = [limit; price; TransactionsExamples.plain_instruction].
Proof.
  destruct (proj1 (prepare_message_shape (TunerExamples.mock_rpc 0)
                     TransactionsExamples.fallback TransactionsExamples.any_address
                     TransactionsMoreExamples.budget_request Runtime.fresh_world
                     (snd TransactionsMoreExamples.budget_run)
                     TransactionsMoreExamples.budget_prepared eq_refl))
    as (prefix & Hprefix & Hinstructions).
  vm_compute in Hprefix. injection Hprefix as <-.
  eexists _, _. split; [vm_compute; reflexivity|]. split; [vm_compute; reflexivity|].
  exact Hinstructions.
Defined.

Module TuningFacts.
Import Kit Runtime Signers Transactions TransactionsSpec.

Lemma existsb_findIndex {A} (p : A -> bool) l :
  existsb p l = true -> exists i, Tuner.findIndex p l = Some i.
Proof.
  induction l as [|a l IH]; [discriminate|]. cbn. destruct (p a); [eauto|].
  intros H. destruct (IH H) as [i ->]. eauto.
Qed.

Lemma findIndex_app_r {A} (p : A -> bool) l l' i :
  Tuner.findIndex p l' = Some i -> exists j, Tuner.findIndex p (l ++ l') = Some j.
Proof.
  intros H. induction l as [|a l [j IH]]; [eauto|].
  cbn. destruct (p a); [eauto|]. rewrite IH. eauto.
Qed.

Lemma prepared_eta (p : TransactionPrepared) :
  {| prepared_commitment := prepared_commitment p;
     prepared_computeUnitLimit := prepared_computeUnitLimit p;
     prepared_computeUnitPrice := prepared_computeUnitPrice p;
     prepared_feePayer := prepared_feePayer p;
     prepared_instructions := prepared_instructions p;
     prepared_lifetime := prepared_lifetime p;
     prepared_message := prepared_message p;
     prepared_mode := prepared_mode p;
     prepared_version := prepared_version p |} = p.
Proof. destruct p; reflexivity. Qed.

Section Helper.
Variable runtime : SolanaClientRuntime.
Variable getFallbackCommitment : unit -> Commitment.
Variable isAddress : string -> bool.

(** A prepared transaction whose request fixed the limit has a limit
    instruction in its message. *)
Lemma prepared_has_limit request w prepared w' :
  prepare runtime getFallbackCommitment isAddress request w = (Ok prepared, w') ->
  brings_limit request = true ->
  exists i, Tuner.findIndex Tuner.isComputeUnitLimitInstruction
              (Kit.instructions (prepared_message prepared)) = Some i.
Proof.
  intros H Hb.
  destruct (PrepareInv.prepare_inv_full runtime getFallbackCommitment isAddress request w
              prepared w' H) as (a & m & p & prefix & _ & _ & _ & _ & Hlimit & _ & Hprefix & Hp).
  rewrite Hp. cbn [prepared_message].
  assert (Hi : Kit.instructions
                 (setTransactionMessageLifetimeUsingBlockhash (prepared_lifetime prepared)
                    (appendTransactionMessageInstructions (prefix ++ instructions request)
                       (match feePayerSigner p with
                        | Some s => setTransactionMessageFeePayerSigner s
                        | None => setTransactionMessageFeePayer (feePayerAddress p)
                        end (createTransactionMessage
                               (resolveVersion (version request) (instructions request))))))
               = prefix ++ instructions request)
    by (destruct (feePayerSigner p); reflexivity).
  rewrite Hi. clear Hi Hp.
  unfold brings_limit in Hb. unfold resolveComputeUnitLimit in Hlimit.
  assert (Hbase : hasSetComputeUnitLimitInstruction (instructions request) = true ->
                  exists i, Tuner.findIndex Tuner.isComputeUnitLimitInstruction
                              (prefix ++ instructions request) = Some i).
  { intros Hhas. destruct (existsb_findIndex _ _ Hhas) as [i Hi].
    apply (findIndex_app_r _ _ _ i). exact Hi. }
  destruct (computeUnitLimit request) as [v|]; [|auto].
  destruct (hasSetComputeUnitLimitInstruction (instructions request)); [auto|].
  destruct (to_bigint v) as [units|]; [|discriminate]. injection Hlimit as Hlimit.
  rewrite <- Hlimit in Hprefix. unfold prefix_of in Hprefix.
  destruct (getSetComputeUnitLimitInstruction (JsNumber.of_bigint units)) as [limit|] eqn:Hbuilt;
    [|discriminate]. cbn [Js.bind] in Hprefix.
  destruct (match prepared_computeUnitPrice prepared with
            | Some q => _
            | None => _
            end) as [pricePrefix|]; [|discriminate].
  cbn [Js.bind] in Hprefix. injection Hprefix as <-.
  exists 0%nat. cbn [app Tuner.findIndex].
  rewrite (TunerMore.limit_is_limit _ _ Hbuilt). reflexivity.
Qed.

End Helper.

End TuningFacts.

(** X12: a request that fixes its compute unit limit, by the
    [computeUnitLimit] field or by an instruction, is sent as it was
    prepared.  Unless the caller asks for a reset of the limit or of the
    blockhash, or for logging, [prepareAndSend] is [prepare] followed by
    [send]: the tuner changes nothing and no simulation or second blockhash
    query happens in between. *)
Theorem prepareAndSend_skips_tuning :
  forall (runtime : Runtime.SolanaClientRuntime) (getFallbackCommitment : unit -> Kit.Commitment)
         (isAddress : string -> bool) (request : Transactions.TransactionPrepareRequest)
         (setting : option Transactions.PrepareTransactionSetting)
         (options : Transactions.TransactionSendOptions) (w : Runtime.World),
    TransactionsSpec.brings_limit request = true ->
    TransactionsSpec.gentle setting = true ->
    Transactions.prepareAndSend runtime getFallbackCommitment isAddress request setting options w
    = Runtime.bind (Transactions.prepare runtime getFallbackCommitment isAddress request)
        (fun prepared => Transactions.send runtime prepared options) w.
Proof.
  intros runtime getFallbackCommitment isAddress request setting options w Hlimit Hgentle.
  unfold Transactions.prepareAndSend.
  destruct (Transactions.prepare runtime getFallbackCommitment isAddress request w)
    as [[prepared|e] w1] eqn:Hprep;
    [|rewrite !(MonadFacts.bind_throw _ _ _ _ _ Hprep); reflexivity].
  rewrite !(MonadFacts.bind_ok _ _ _ _ _ Hprep).
  destruct (TuningFacts.prepared_has_limit _ _ _ _ _ _ _ Hprep Hlimit) as [i Hi].
  destruct (PrepareInv.prepare_inv_full runtime getFallbackCommitment isAddress request w
              prepared w1 Hprep) as (a & m & p & prefix & _ & _ & _ & _ & _ & _ & _ & Hp).
  assert (Hlife : Tuner.hasLifetime (Transactions.prepared_message prepared) = true)
    by (rewrite Hp; reflexivity).
  assert (Hsame : forall config,
            Tuner.transaction config = Transactions.prepared_message prepared ->
            default false (Tuner.computeUnitLimitReset config) = false ->
            Tuner.blockhashReset config = Some false ->
            Tuner.logRequest config = false ->
            Tuner.prepareTransaction runtime config w1
            = (Ok (Transactions.prepared_message prepared), w1)).
  { intros config Ht Hr Hb Hl.
    rewrite (TunerInv.nothing_to_do runtime config w1).
    - rewrite Ht, Hl. reflexivity.
    - unfold TunerSpec.must_estimate. rewrite Ht, Hi. exact Hr.
    - rewrite Ht. exact Hlife.
    - exact Hb. }
  destruct setting as [[|multiplier reset blockhashReset logRequest]|].
  - reflexivity.
  - cbn [TransactionsSpec.gentle] in Hgentle.
    apply andb_true_iff in Hgentle as [Hgentle Hlog].
    apply andb_true_iff in Hgentle as [Hreset Hblock].
    apply negb_true_iff in Hreset, Hlog. subst logRequest.
    assert (Hspread : Transactions.spread_blockhashReset blockhashReset = Some false)
      by (destruct blockhashReset as [|[[|]|]]; (reflexivity || discriminate Hblock)).
    rewrite Hspread.
    match goal with |- context [Tuner.prepareTransaction runtime ?config] =>
      pose proof (Hsame config eq_refl Hreset eq_refl eq_refl) as Hrun
    end.
    rewrite (MonadFacts.bind_ok _ _ _ _ _ Hrun), TuningFacts.prepared_eta. reflexivity.
  - match goal with |- context [Tuner.prepareTransaction runtime ?config] =>
      pose proof (Hsame config eq_refl eq_refl eq_refl eq_refl) as Hrun
    end.
    rewrite (MonadFacts.bind_ok _ _ _ _ _ Hrun), TuningFacts.prepared_eta. reflexivity.
Qed.

(** The budget request, sent with default tuning. *)
Lemma prepareAndSend_skips_tuning_witness :
  Transactions.prepareAndSend (TunerExamples.mock_rpc 0) TransactionsExamples.fallback
    TransactionsExamples.any_address TransactionsMoreExamples.budget_request None
    TransactionsMoreExamples.no_send_options Runtime.fresh_world
  = Runtime.bind
      (Transactions.prepare (TunerExamples.mock_rpc 0) TransactionsExamples.fallback
         TransactionsExamples.any_address TransactionsMoreExamples.budget_request)
      (fun prepared =>
         Transactions.send (TunerExamples.mock_rpc 0) prepared
           TransactionsMoreExamples.no_send_options)
      Runtime.fresh_world.
Proof.
  exact (prepareAndSend_skips_tuning (TunerExamples.mock_rpc 0) TransactionsExamples.fallback
           TransactionsExamples.any_address TransactionsMoreExamples.budget_request None
           TransactionsMoreExamples.no_send_options Runtime.fresh_world eq_refl eq_refl).
Defined.

(** ** The transaction pool over whole histories *)

Module PoolMore.
Import Kit AsyncState Pool PoolSpec PoolMoreSpec.

Lemma strict_ne_integer_at index z ii :
  JsNumber.locate index = JsNumber.integer z ->
  JsNumber.strict_ne_integer ii index = negb (ii =? z).
Proof. unfold JsNumber.strict_ne_integer. intros ->. reflexivity. Qed.

Lemma strict_ne_integer_off index ii :
  (forall z, JsNumber.locate index <> JsNumber.integer z) ->
  JsNumber.strict_ne_integer ii index = true.
Proof.
  unfold JsNumber.strict_ne_integer. intros H.
  destruct (JsNumber.locate index) as [z| | |]; [|reflexivity..].
  destruct (H z eq_refl).
Qed.

Lemma filter_other_index_past {A} (l : list A) : forall ii index z,
  JsNumber.locate index = JsNumber.integer z ->
  z < ii -> filter_other_index ii index l = l.
Proof.
  induction l as [|x l IH]; intros ii index z Hz H; [reflexivity|].
  cbn [filter_other_index]. rewrite (strict_ne_integer_at index z ii Hz).
  replace (ii =? z) with false by lia. cbn [negb].
  f_equal. apply (IH _ _ z Hz). lia.
Qed.

Lemma filter_other_index_delete {A} (l : list A) : forall ii index z,
  JsNumber.locate index = JsNumber.integer z ->
  ii <= z ->
  filter_other_index ii index l = delete (Z.to_nat (z - ii)) l.
Proof.
  induction l as [|x l IH]; intros ii index z Hz H; [reflexivity|].
  cbn [filter_other_index]. rewrite (strict_ne_integer_at index z ii Hz).
  destruct (ii =? z) eqn:E; cbn [negb].
  - apply Z.eqb_eq in E. subst z. rewrite Z.sub_diag.
    change (delete (Z.to_nat 0) (x :: l)) with l.
    apply (filter_other_index_past l _ _ ii Hz). lia.
  - apply Z.eqb_neq in E. rewrite (IH (ii + 1) index z Hz) by lia.
    replace (Z.to_nat (z - ii)) with (S (Z.to_nat (z - (ii + 1)))) by lia.
    reflexivity.
Qed.

(** An index that is no integer is the index of no instruction. *)
Lemma filter_other_index_off {A} (l : list A) : forall ii index,
  (forall z, JsNumber.locate index <> JsNumber.integer z) ->
  filter_other_index ii index l = l.
Proof.
  induction l as [|x l IH]; intros ii index H; [reflexivity|].
  cbn [filter_other_index]. rewrite (strict_ne_integer_off index ii H).
  f_equal. apply IH, H.
Qed.

Lemma add_listener_NoDup l ls : NoDup ls -> NoDup (add_listener l ls).
Proof.
  intros H. unfold add_listener. destruct (existsb (Nat.eqb l) ls) eqn:E; [assumption|].
  apply NoDup_app. split; [assumption|]. split; [|apply NoDup_singleton].
  intros x Hx Hin. apply list_elem_of_singleton in Hin. subst x.
  assert (Hex : existsb (Nat.eqb l) ls = true).
  { apply existsb_exists. exists l. split; [apply list_elem_of_In, Hx | apply Nat.eqb_refl]. }
  congruence.
Qed.

(** What holds of a controller after any history. *)
Definition invariant (c : Controller) : Prop :=
  well_formed (getPrepareState c) /\
  well_formed (getSendState c) /\
  (status (getPrepareState c) = success -> data (getPrepareState c) = getPrepared c) /\
  forall slice, NoDup (listeners_of slice c).

Lemma invariant_create config : invariant (createTransactionPoolController config).
Proof.
  repeat split; try discriminate. intros []; apply NoDup_nil_2.
Qed.

Lemma invariant_commit next c : invariant c -> invariant (commitInstructions next c).
Proof.
  intros (_ & _ & _ & Hl). repeat split; try discriminate.
  intros slice. specialize (Hl slice). destruct slice; exact Hl.
Qed.

Lemma invariant_step c a : invariant c -> invariant (step c a).
Proof.
  intros Hinv. pose proof Hinv as (Hp & Hs & Hd & Hl).
  destruct a as [i|l|index|l| | |options now|outcome|override|outcome|request now|cache|slice listener];
    cbn [step].
  - apply invariant_commit, Hinv.
  - unfold addInstructions. destruct (length l =? 0)%nat; [assumption | apply invariant_commit, Hinv].
  - unfold removeInstruction. cbv zeta.
    destruct (JsNumber.lt_integer index 0 || _); [assumption | apply invariant_commit, Hinv].
  - apply invariant_commit, Hinv.
  - apply invariant_commit, Hinv.
  - apply invariant_commit, Hinv.
  - unfold prepare_call, ensureInstructions. cbv zeta.
    destruct (length _ =? 0)%nat; cbn [Js.bind]; [assumption|].
    repeat split; try discriminate; assumption.
  - destruct outcome as [prepared|e]; cbn [prepare_settle fst];
      repeat split; try discriminate; assumption.
  - unfold send_call, resolvePrepared.
    clear Hd.
    destruct override as [target|]; [|destruct (getPrepared c)]; cbn [Js.bind];
      try assumption; repeat split; try discriminate; try assumption;
      destruct Hinv as (_ & _ & Hd & _); exact Hd.
  - destruct outcome as [signature|e]; cbn [send_settle fst];
      repeat split; try discriminate; assumption.
  - unfold prepareAndSend_call, ensureInstructions. cbv zeta.
    destruct (length _ =? 0)%nat; cbn [Js.bind]; [assumption|].
    repeat split; try discriminate; assumption.
  - repeat split; assumption.
  - destruct slice;
      (split; [exact Hp|]; split; [exact Hs|]; split; [exact Hd|];
       intros s; specialize (Hl s);
       destruct s; cbn; try exact Hl; apply add_listener_NoDup, Hl).
Qed.

Lemma invariant_run history : forall c, invariant c -> invariant (run c history).
Proof.
  unfold run. induction history as [|a history IH]; intros c H; [assumption|].
  cbn [fold_left]. apply IH, invariant_step, H.
Qed.

Lemma committed_notifies c a :
  is_mutation a = true -> returns_early c a = false ->
  notified (step c a) = notified c ++ commit_calls c.
Proof.
  intros Hm He. unfold commit_calls.
  destruct a; try discriminate Hm; cbn [step returns_early] in *.
  - cbn. rewrite <- !app_assoc. reflexivity.
  - unfold addInstructions. rewrite He. cbn. rewrite <- !app_assoc. reflexivity.
  - unfold removeInstruction. cbv zeta. rewrite He. cbn. rewrite <- !app_assoc. reflexivity.
  - cbn. rewrite <- !app_assoc. reflexivity.
  - cbn. rewrite <- !app_assoc. reflexivity.
  - cbn. rewrite <- !app_assoc. reflexivity.
Qed.

End PoolMore.

(** X13: [removeInstruction] with an index for which neither [index < 0]
    nor [index >= length] holds commits a list.  When the index is an
    integer, it lies inside the list, and the committed list is the old one
    with exactly that position deleted, the others kept in order, one
    shorter.  When it is not an integer (a fraction, or [NaN]), no position
    equals it and the committed list is the old one. *)
Theorem removeInstruction_deletes :
  forall (c : Pool.Controller) (index : float),
    JsNumber.lt_integer index 0 = false ->
    JsNumber.ge_integer index (Z.of_nat (length (Pool.getInstructions c))) = false ->
    Pool.removeInstruction index c
    = Pool.commitInstructions (Pool.getInstructions (Pool.removeInstruction index c)) c /\
    match JsNumber.locate index with
    | JsNumber.integer z =>
        0 <= z < Z.of_nat (length (Pool.getInstructions c)) /\
        Pool.getInstructions (Pool.removeInstruction index c)
        = delete (Z.to_nat z) (Pool.getInstructions c) /\
        S (length (Pool.getInstructions (Pool.removeInstruction index c)))
        = length (Pool.getInstructions c)
    | _ =>
        Pool.getInstructions (Pool.removeInstruction index c) = Pool.getInstructions c
    end.
Proof.
  intros c index Hlt Hge. unfold Pool.removeInstruction. cbv zeta.
  rewrite Hlt, Hge. cbn [orb].
  change (Pool.getInstructions (Pool.commitInstructions ?next c)) with next.
  split; [reflexivity|].
  unfold JsNumber.lt_integer, JsNumber.ge_integer in Hlt, Hge.
  destruct (JsNumber.locate index) as [z|below|negative|] eqn:Hz.
  - assert (Hin : 0 <= z < Z.of_nat (length (Pool.getInstructions c))) by lia.
    split; [exact Hin|].
    rewrite (PoolMore.filter_other_index_delete _ 0 index z Hz) by lia. rewrite Z.sub_0_r.
    split; [reflexivity|].
    rewrite length_delete.
    + lia.
    + apply lookup_lt_is_Some. lia.
  - apply PoolMore.filter_other_index_off. intros z. rewrite Hz. discriminate.
  - apply PoolMore.filter_other_index_off. intros z. rewrite Hz. discriminate.
  - apply PoolMore.filter_other_index_off. intros z. rewrite Hz. discriminate.
Qed.

(** Removing at index 0 the only instruction of the example pool leaves
    none; removing at 0.5 leaves it in place and commits all the same. *)
Lemma removeInstruction_deletes_witness :
  Pool.getInstructions (Pool.removeInstruction 0 PoolExamples.cached_controller) = [] /\
  Pool.getInstructions (Pool.removeInstruction 0.5 PoolExamples.cached_controller)
  = Pool.getInstructions PoolExamples.cached_controller /\
  Pool.removeInstruction 0.5 PoolExamples.cached_controller
  = Pool.commitInstructions (Pool.getInstructions PoolExamples.cached_controller)
      PoolExamples.cached_controller.
Proof.
  pose proof (removeInstruction_deletes PoolExamples.cached_controller 0%float
                eq_refl eq_refl) as [_ Hwhole].
  pose proof (removeInstruction_deletes PoolExamples.cached_controller 0.5%float
                eq_refl eq_refl) as [Hcommit Hhalf].
  split; [exact (proj1 (proj2 Hwhole))|]. split; [exact Hhalf|].
  rewrite Hhalf in Hcommit. exact Hcommit.
Defined.

(** X14: after every history of calls and settlements on a new
    controller, the prepare state and the send state are well formed: data
    exactly under [success], an error only under [error], neither while
    idle or loading; and whenever the prepare state reports success, its
    data is the prepared snapshot. *)
Theorem pool_states_well_formed :
  forall (config : Pool.TransactionPoolConfig) (history : list Pool.Action),
    let c := Pool.run (Pool.createTransactionPoolController config) history in
    PoolMoreSpec.well_formed (Pool.getPrepareState c) /\
    PoolMoreSpec.well_formed (Pool.getSendState c) /\
    (AsyncState.status (Pool.getPrepareState c) = AsyncState.success ->
     AsyncState.data (Pool.getPrepareState c) = Pool.getPrepared c).
Proof.
  intros config history c.
  destruct (PoolMore.invariant_run history _ (PoolMore.invariant_create config))
    as (H1 & H2 & H3 & _).
  auto.
Qed.

Module PoolNotify.
Import Kit AsyncState Pool PoolSpec PoolMoreSpec.

Lemma elem_of_calls slice s l ls : (s, l) ∈ calls slice ls <-> s = slice /\ l ∈ ls.
Proof.
  unfold calls. rewrite list_elem_of_In, in_map_iff. split.
  - intros (x & [= <- <-] & Hx). split; [reflexivity | apply list_elem_of_In, Hx].
  - intros [-> Hl]. exists l. split; [reflexivity | apply list_elem_of_In, Hl].
Qed.

Lemma NoDup_calls slice ls : NoDup ls -> NoDup (calls slice ls).
Proof.
  induction 1 as [|x ls Hx Hls IH]; [apply NoDup_nil_2|].
  cbn. apply NoDup_cons. split; [|exact IH].
  intros Hin. apply elem_of_calls in Hin as [_ Hin]. contradiction.
Qed.

Lemma elem_of_commit_calls c slice l :
  (slice, l) ∈ commit_calls c <-> l ∈ listeners_of slice c.
Proof.
  unfold commit_calls. rewrite !elem_of_app, !elem_of_calls.
  destruct slice; cbn [listeners_of]; split; intros H;
    repeat match goal with
      | H : _ \/ _ |- _ => destruct H
      | H : _ /\ _ |- _ => destruct H
      end; try discriminate; auto 10.
Qed.

Lemma NoDup_commit_calls c :
  (forall slice, NoDup (listeners_of slice c)) -> NoDup (commit_calls c).
Proof.
  intros H. unfold commit_calls.
  pose proof (H InstructionsSlice). pose proof (H PreparedSlice).
  pose proof (H PrepareStateSlice). pose proof (H SendStateSlice).
  repeat (apply NoDup_app; split; [apply NoDup_calls; assumption|]; split;
          [intros [s l] Hin; apply elem_of_calls in Hin as [-> _];
           rewrite ?elem_of_app, !elem_of_calls; intros Hbad;
           repeat match goal with
             | H : _ \/ _ |- _ => destruct H
             | H : _ /\ _ |- _ => destruct H
             end; discriminate|]).
  apply NoDup_calls. assumption.
Qed.

End PoolNotify.

(** X15: on a controller reached by any history, a mutation that commits
    calls the listeners of the instruction store, then those of the
    prepared store, of the prepare state and of the send state, and calls
    each subscribed listener of each store exactly once, however often it
    was subscribed. *)
Theorem committed_mutation_notifies_once :
  forall (config : Pool.TransactionPoolConfig) (history : list Pool.Action) (a : Pool.Action),
    let c := Pool.run (Pool.createTransactionPoolController config) history in
    PoolSpec.is_mutation a = true ->
    PoolSpec.returns_early c a = false ->
    Pool.notified (Pool.step c a) = Pool.notified c ++ PoolMoreSpec.commit_calls c /\
    NoDup (PoolMoreSpec.commit_calls c) /\
    forall slice l,
      (slice, l) ∈ PoolMoreSpec.commit_calls c <-> l ∈ PoolMoreSpec.listeners_of slice c.
Proof.
  intros config history a c Hm He.
  destruct (PoolMore.invariant_run history _ (PoolMore.invariant_create config))
    as (_ & _ & _ & Hl).
  split; [apply PoolMore.committed_notifies; assumption|].
  split; [apply PoolNotify.NoDup_commit_calls, Hl|].
  intros slice l. apply PoolNotify.elem_of_commit_calls.
Qed.

(** Listener 1, subscribed twice to the instruction list, is called once
    when an instruction is added. *)
Lemma committed_mutation_notifies_once_witness :
  Pool.notified
    (Pool.step (Pool.run (Pool.createTransactionPoolController PoolExamples.empty_config)
                  PoolMoreExamples.watched_history)
       Pool.ClearInstructions)
  = Pool.notified (Pool.run (Pool.createTransactionPoolController PoolExamples.empty_config)
                     PoolMoreExamples.watched_history)
    ++ [(Pool.InstructionsSlice, 1%nat); (Pool.InstructionsSlice, 2%nat);
        (Pool.SendStateSlice, 3%nat)].
Proof.
  exact (proj1 (committed_mutation_notifies_once PoolExamples.empty_config
                  PoolMoreExamples.watched_history Pool.ClearInstructions eq_refl eq_refl)).
Defined.

(** X16: once a mutation has committed, [send] without an explicit
    prepared transaction is refused with "Prepare a transaction before
    sending." and leaves the controller as it is (no state change, no
    listener called), whatever had been prepared before the mutation; a
    prepared transaction passed explicitly is still accepted and puts the
    send state to [loading]. *)
Theorem send_after_mutation_needs_prepared :
  forall (c : Pool.Controller) (a : Pool.Action),
    PoolSpec.is_mutation a = true ->
    PoolSpec.returns_early c a = false ->
    let c' := Pool.step c a in
    Pool.send_call None c' = Throw (Error "Prepare a transaction before sending.") /\
    Pool.step c' (Pool.SendCall None) = c' /\
    forall target,
      exists c'',
        Pool.send_call (Some target) c' = Ok (c'', target) /\
        AsyncState.status (Pool.getSendState c'') = AsyncState.loading /\
        Pool.getPrepared c'' = None.
Proof.
  intros c a Hm He c'.
  assert (Hnone : Pool.getPrepared c' = None).
  { unfold c'. destruct a; try discriminate Hm; cbn [Pool.step PoolSpec.returns_early] in *;
      unfold Pool.addInstructions, Pool.removeInstruction; cbv zeta; rewrite ?He; reflexivity. }
  assert (Hsend : Pool.send_call None c' = Throw (Error "Prepare a transaction before sending.")).
  { unfold Pool.send_call, Pool.resolvePrepared. rewrite Hnone. reflexivity. }
  split; [exact Hsend|]. split.
  - cbn [Pool.step]. rewrite Hsend. reflexivity.
  - intros target. eexists. split; [reflexivity|]. split; [reflexivity | exact Hnone].
Qed.

(** After a successful prepare, adding an instruction makes [send]
    refuse. *)
Lemma send_after_mutation_needs_prepared_witness :
  Pool.send_call None
    (Pool.step PoolExamples.prepared_controller
       (Pool.AddInstruction TransactionsExamples.plain_instruction))
  = Throw (Error "Prepare a transaction before sending.").
Proof.
  exact (proj1 (send_after_mutation_needs_prepared PoolExamples.prepared_controller
                  (Pool.AddInstruction TransactionsExamples.plain_instruction)
                  eq_refl eq_refl)).
Defined.

(** ** The SPL helper's cache *)

Module SplCache.
Import Kit Runtime Spl SplMoreSpec Inversion.

Section Helper.
Variable runtime : SolanaClientRuntime.
Variable mintAddress : Address.

Lemma resolveDecimals_inv c w d w1 :
  resolveDecimals runtime mintAddress c w = (Ok d, w1) ->
  cachedDecimals w1 = Some d /\
  (cachedDecimals w = Some d /\ w1 = w \/
   cachedDecimals w = None /\ cachedMath w1 = cachedMath w /\
   trace w1 = trace w ++ [FetchMint mintAddress c]).
Proof.
  unfold resolveDecimals. destruct (cachedDecimals w) as [d0|] eqn:E.
  - intros [= <- <-]. auto.
  - intros H. apply bind_inv_ok in H as (d' & w0 & Hcall & H).
    apply bind_inv_ok in H as (u & w2 & Hset & H).
    apply ret_inv in H as [-> ->]. apply call_inv in Hcall as [_ ->].
    unfold set_cachedDecimals in Hset. injection Hset as _ <-.
    split; [reflexivity|]. right. auto.
Qed.

Lemma resolveDecimals_cached c w d :
  cachedDecimals w = Some d -> resolveDecimals runtime mintAddress c w = (Ok d, w).
Proof. intros H. unfold resolveDecimals. rewrite H. reflexivity. Qed.

Lemma getTokenMath_cached c w math :
  cachedMath w = Some math -> getTokenMath runtime mintAddress c w = (Ok math, w).
Proof. intros H. unfold getTokenMath. rewrite H. reflexivity. Qed.

Lemma getTokenMath_inv c w math w1 :
  consistent w ->
  getTokenMath runtime mintAddress c w = (Ok math, w1) ->
  cachedMath w1 = Some math /\
  cachedDecimals w1 = Some (Amounts.decimals math) /\
  Amounts.createTokenAmount (Amounts.decimals math) = Ok math /\
  (trace w1 = trace w \/ trace w1 = trace w ++ [FetchMint mintAddress c]).
Proof.
  intros Hc. unfold getTokenMath. destruct (cachedMath w) as [m|] eqn:E.
  - intros [= <- <-]. unfold consistent in Hc. rewrite E in Hc. destruct Hc. auto.
  - intros H. apply bind_inv_ok in H as (d & w0 & Hd & H).
    apply bind_inv_ok in H as (m & w2 & Hm & H).
    apply lift_inv in Hm as [Hm ->].
    apply bind_inv_ok in H as (u & w3 & Hset & H).
    apply ret_inv in H as [-> ->].
    unfold set_cachedMath in Hset. injection Hset as _ <-.
    destruct (AmountsRounding.createTokenAmount_inv d m Hm) as (_ & Hdec & _).
    apply resolveDecimals_inv in Hd as [Hd1 Hd2].
    cbn [cachedMath cachedDecimals trace]. rewrite Hdec.
    repeat split; try assumption.
    destruct Hd2 as [[_ ->] | (_ & _ & Ht)]; auto.
Qed.

End Helper.

End SplCache.

(** X17: the SPL helper fetches the mint at most once.  When [getTokenMath]
    fulfils, it has made no call or the one [fetchMint] call; the math it
    returns is [createTokenAmount] of the cached decimals; and from then on
    [getTokenMath] and [resolveDecimals] answer from the cache without any
    call, whatever commitment they are asked with. *)
Theorem token_math_cached :
  forall (runtime : Runtime.SolanaClientRuntime) (mintAddress : Kit.Address)
         (commitment : option Kit.Commitment) (w w1 : Runtime.World)
         (math : Amounts.TokenAmountMath),
    SplMoreSpec.consistent w ->
    Spl.getTokenMath runtime mintAddress commitment w = (Ok math, w1) ->
    (Runtime.trace w1 = Runtime.trace w \/
     Runtime.trace w1 = Runtime.trace w ++ [Runtime.FetchMint mintAddress commitment]) /\
    Amounts.createTokenAmount (Amounts.decimals math) = Ok math /\
    SplMoreSpec.consistent w1 /\
    forall later,
      Spl.getTokenMath runtime mintAddress later w1 = (Ok math, w1) /\
      Spl.resolveDecimals runtime mintAddress later w1 = (Ok (Amounts.decimals math), w1).
Proof.
  intros runtime mintAddress commitment w w1 math Hc H.
  destruct (SplCache.getTokenMath_inv runtime mintAddress commitment w math w1 Hc H)
    as (Hm & Hd & Hmath & Ht).
  split; [exact Ht|]. split; [exact Hmath|]. split.
  - unfold SplMoreSpec.consistent. rewrite Hm. auto.
  - intros later. split.
    + apply SplCache.getTokenMath_cached, Hm.
    + apply SplCache.resolveDecimals_cached, Hd.
Qed.

(** On a new helper the mint is fetched once, and a second query, at
    another commitment, is answered from the cache. *)
Lemma token_math_cached_witness :
  Spl.getTokenMath (TunerExamples.mock_rpc 0) "mint"%string (Some Kit.finalized)
    (snd (Spl.getTokenMath (TunerExamples.mock_rpc 0) "mint"%string None Runtime.fresh_world))
  = (Ok AmountsExamples.six,
     snd (Spl.getTokenMath (TunerExamples.mock_rpc 0) "mint"%string None Runtime.fresh_world)).
Proof.
  exact (proj1 (proj2 (proj2 (proj2
           (token_math_cached (TunerExamples.mock_rpc 0) "mint"%string None Runtime.fresh_world
              (snd (Spl.getTokenMath (TunerExamples.mock_rpc 0) "mint"%string None
                      Runtime.fresh_world))
              AmountsExamples.six I eq_refl))) (Some Kit.finalized))).
Defined.

(** ** What the SPL helper prepares *)

Module SplShape.
Import Kit Runtime Signers Spl SplMoreSpec Inversion SplCache.

Lemma decimalToBaseUnits_nonneg value d options r :
  0 <= d -> Amounts.decimalToBaseUnits value d (10 ^ d) options = Ok r -> 0 <= r.
Proof.
  intros Hd H.
  destruct (Amounts.DECIMAL_PATTERN_test (AmountsSpec.sanitized value)) eqn:Hpat.
  - destruct (AmountsFacts.pattern_inv _ Hpat) as (ip & fp & Hs & Hip & Hne & Hfp).
    rewrite (AmountsRounding.decimalToBaseUnits_literal value d options ip fp Hd Hip Hne Hfp Hs)
      in H.
    injection H as <-.
    assert (Hnn : 0 <= AmountsSpec.truncated_value d ip fp).
    { unfold AmountsSpec.truncated_value. apply AmountsFacts.BigInt_bounds.
      apply AmountsFacts.digits_app. split; [assumption|]. unfold Amounts.padEnd.
      apply AmountsFacts.digits_app. split;
        [apply AmountsFacts.digits_take; assumption | apply AmountsFacts.digits_replicate_0]. }
    unfold AmountsSpec.round_up.
    destruct (default Amounts.floor (Amounts.rounding options));
      repeat match goal with |- context [if ?b then _ else _] => destruct b end; lia.
  - unfold Amounts.decimalToBaseUnits in H. cbv zeta in H.
    unfold AmountsSpec.sanitized in Hpat. rewrite Hpat in H.
    destruct (length (Amounts.trim (Amounts.remove_underscores value)) =? 0)%nat; discriminate.
Qed.

Lemma fromBaseUnits_nonneg value label r : Amounts.fromBaseUnits value label = Ok r -> 0 <= r.
Proof.
  unfold Amounts.fromBaseUnits, Amounts.assertNonNegative.
  destruct (Amounts.toBigint value _) as [z|]; cbn [Js.bind]; [|discriminate].
  destruct (z <? 0) eqn:E; cbn [Js.bind]; [discriminate|]. intros [= <-]. lia.
Qed.

Definition same_cache (w w1 : World) : Prop :=
  cachedMath w1 = cachedMath w /\ cachedDecimals w1 = cachedDecimals w.

Lemma same_cache_consistent w w1 : same_cache w w1 -> consistent w -> consistent w1.
Proof. intros [Hm Hd]. unfold consistent. rewrite Hm, Hd. auto. Qed.

Section Helper.
Variable runtime : SolanaClientRuntime.
Variable isAddress : string -> bool.
Variable mintAddress tokenProgram : Address.

Lemma resolveLifetime_inv c fallback w l w1 :
  resolveLifetime runtime c fallback w = (Ok l, w1) ->
  same_cache w w1 /\ (forall given, fallback = Some given -> l = given).
Proof.
  unfold resolveLifetime. destruct fallback as [given|].
  - intros H. apply ret_inv in H as [-> ->]. split; [split; reflexivity|].
    intros g [= <-]. reflexivity.
  - intros H. apply call_inv in H as [_ ->]. split; [split; reflexivity | discriminate].
Qed.

Lemma derive_inv owner w a w1 :
  deriveAssociatedTokenAddress runtime isAddress mintAddress tokenProgram owner w = (Ok a, w1) ->
  same_cache w w1.
Proof.
  unfold deriveAssociatedTokenAddress. intros H.
  apply bind_inv_ok in H as (o & w0 & Ho & H). apply lift_inv in Ho as [_ ->].
  apply call_inv in H as [_ ->]. split; reflexivity.
Qed.

Lemma spl_prepareTransfer_inv config w prepared w' :
  consistent w ->
  prepareTransfer runtime isAddress mintAddress tokenProgram config w = (Ok prepared, w') ->
  0 <= prepared_amount prepared /\
  (exists math, Amounts.createTokenAmount (prepared_decimals prepared) = Ok math) /\
  (exists createAta,
      transfer_instructions mintAddress tokenProgram config prepared createAta) /\
  feePayer (prepared_message prepared)
  = Some {| feePayerAddress := address (prepared_signer prepared); feePayerSigner := None |} /\
  lifetimeConstraint (prepared_message prepared) = Some (prepared_lifetime prepared) /\
  version (prepared_message prepared) = default v0 (transactionVersion config) /\
  prepared_commitment prepared = commitment config /\
  (forall given, lifetime config = Some given -> prepared_lifetime prepared = given).
Proof.
  intros Hc. unfold prepareTransfer. cbv zeta. intros H.
  apply bind_inv_ok in H as (life & w1 & Hlife & H).
  apply resolveLifetime_inv in Hlife as [Hs1 Hgiven].
  apply bind_inv_ok in H as (wallet & w2 & Hwallet & H). apply lift_inv in Hwallet as [_ ->].
  apply bind_inv_ok in H as (sourceOwner' & w3 & Hso & H). apply lift_inv in Hso as [_ ->].
  apply bind_inv_ok in H as (destinationOwner' & w4 & Hdo & H). apply lift_inv in Hdo as [_ ->].
  apply bind_inv_ok in H as (derivedSource & w5 & Hds & H). apply derive_inv in Hds as Hs5.
  apply bind_inv_ok in H as (sourceAta & w6 & Hsa & H). apply lift_inv in Hsa as [_ ->].
  apply bind_inv_ok in H as (derivedDestination & w7 & Hdd & H). apply derive_inv in Hdd as Hs7.
  apply bind_inv_ok in H as (destinationAta & w8 & Hda & H). apply lift_inv in Hda as [_ ->].
  apply bind_inv_ok in H as (math & w9 & Hmath & H).
  assert (Hc7 : consistent w7).
  { apply (same_cache_consistent w5 w7 Hs7), (same_cache_consistent w1 w5 Hs5),
      (same_cache_consistent w w1 Hs1), Hc. }
  apply (getTokenMath_inv runtime mintAddress _ w7 math w9 Hc7) in Hmath
    as (_ & Hdec & Hcreate & _).
  apply bind_inv_ok in H as (decimals' & w10 & Hd & H).
  rewrite (resolveDecimals_cached runtime mintAddress _ w9 _ Hdec) in Hd.
  injection Hd as <- <-.
  apply bind_inv_ok in H as (amount' & w11 & Hamount & H). apply lift_inv in Hamount as [Hamount ->].
  apply bind_inv_ok in H as (createAta & w12 & Hata & H).
  apply bind_inv_ok in H as (transfer & w13 & Htransfer & H).
  apply lift_inv in Htransfer as [Htransfer ->].
  apply ret_inv in H as [-> ->].
  cbn [prepared_amount prepared_decimals prepared_message prepared_signer prepared_lifetime
       prepared_destinationAta prepared_sourceAta prepared_commitment].
  split.
  { destruct (AmountsRounding.createTokenAmount_inv _ math Hcreate) as (Hrange & _ & Hscale).
    destruct (default false (amountInBaseUnits config)).
    - apply (fromBaseUnits_nonneg _ _ _ Hamount).
    - unfold fromDecimal_amount in Hamount. destruct (amount config) as [z|s]; [discriminate|].
      unfold Amounts.fromDecimal in Hamount. rewrite Hscale in Hamount.
      apply (decimalToBaseUnits_nonneg _ _ _ _ (proj1 Hrange) Hamount). }
  split; [eauto|].
  split.
  { exists createAta. split; [exists transfer; split; [exact Htransfer | reflexivity]|].
    destruct (default true (ensureDestinationAta config)).
    - apply bind_inv_ok in Hata as (found & w0 & _ & Hata).
      destruct found; apply ret_inv in Hata as [-> _]; [left; reflexivity|].
      right. split; [reflexivity|]. eauto.
    - apply ret_inv in Hata as [-> _]. left. reflexivity. }
  repeat split. exact Hgiven.
Qed.

End Helper.

End SplShape.

(** X18: a transfer that the SPL helper prepares, on a helper whose cache
    is consistent (as it is on a new helper), moves a non-negative amount;
    its message ends with the [TransferChecked] instruction for exactly the
    prepared amount, decimals, source and destination token accounts, behind
    at most one instruction that creates the destination account (only when
    [ensureDestinationAta] is not switched off); the decimals are valid
    token decimals; the fee payer is the signer's address, the lifetime the
    prepared one (the caller's own when the configuration brings one), and
    the version is 0 unless the configuration names one. *)
Theorem spl_prepareTransfer_shape :
  forall (runtime : Runtime.SolanaClientRuntime) (isAddress : string -> bool)
         (mintAddress tokenProgram : Kit.Address) (config : Spl.SplTransferPrepareConfig)
         (w w' : Runtime.World) (prepared : Spl.PreparedSplTransfer),
    SplMoreSpec.consistent w ->
    Spl.prepareTransfer runtime isAddress mintAddress tokenProgram config w = (Ok prepared, w') ->
    0 <= Spl.prepared_amount prepared /\
    (exists math, Amounts.createTokenAmount (Spl.prepared_decimals prepared) = Ok math) /\
    (exists createAta,
        SplMoreSpec.transfer_instructions mintAddress tokenProgram config prepared createAta) /\
    Kit.feePayer (Spl.prepared_message prepared)
    = Some {| Kit.feePayerAddress := Kit.address (Spl.prepared_signer prepared);
              Kit.feePayerSigner := None |} /\
    Kit.lifetimeConstraint (Spl.prepared_message prepared) = Some (Spl.prepared_lifetime prepared) /\
    Kit.version (Spl.prepared_message prepared)
    = default Kit.v0 (Spl.transactionVersion config) /\
    Spl.prepared_commitment prepared = Spl.commitment config /\
    (forall given, Spl.lifetime config = Some given -> Spl.prepared_lifetime prepared = given).
Proof.
  intros runtime isAddress mintAddress tokenProgram config w w' prepared.
  apply SplShape.spl_prepareTransfer_inv.
Qed.

(** The transfer of 1.5 tokens of the examples. *)
Lemma spl_prepareTransfer_shape_witness :
  exists prepared w',
    Spl.prepareTransfer SplExamples.flaky_rpc TransactionsExamples.any_address "mint"%string
      Spl.TOKEN_PROGRAM_ADDRESS SplExamples.transfer_config Runtime.fresh_world
    = (Ok prepared, w') /\
    0 <= Spl.prepared_amount prepared.
Proof.
  eexists _, _. split; [lazy; reflexivity|].
  exact (proj1 (spl_prepareTransfer_shape SplExamples.flaky_rpc TransactionsExamples.any_address
                  "mint"%string Spl.TOKEN_PROGRAM_ADDRESS SplExamples.transfer_config
                  Runtime.fresh_world _ _ I eq_refl)).
Defined.

(** ** SOL transfers *)

Module SolFacts.
Import Kit Runtime Signers Sol SplSpec RuntimeFacts Inversion.

Section Helper.
Variable runtime : SolanaClientRuntime.
Variable isAddress : string -> bool.
Variable getTransferSolInstruction : Z -> Address -> TransactionSigner -> result Instruction.

Lemma quiet_sol_resolveLifetime c l : quiet (resolveLifetime runtime c l).
Proof.
  unfold resolveLifetime. destruct l; [apply quiet_ret | apply quiet_call; reflexivity].
Qed.

Lemma quiet_sol_prepareTransfer config :
  quiet (prepareTransfer runtime isAddress getTransferSolInstruction config).
Proof.
  unfold prepareTransfer. cbv zeta.
  repeat first
    [ apply quiet_ret | apply quiet_lift | apply quiet_sol_resolveLifetime
    | apply quiet_bind; [|intros ?] ].
Qed.

Lemma sol_attempts_sendPreparedTransfer prepared options w :
  attempts (snd (sendPreparedTransfer runtime prepared options w)) = S (attempts w).
Proof.
  unfold sendPreparedTransfer, attempts.
  destruct (mode_eqb (prepared_mode prepared) send
            && isTransactionSendingSigner (prepared_signer prepared)).
  - rewrite MonadFacts.snd_bind_lift. cbn. rewrite List.filter_app, length_app. cbn. lia.
  - unfold Runtime.bind at 1. unfold call at 1.
    destruct (signTransactionMessageWithSigners runtime (trace w) (prepared_message prepared));
      cbn [snd trace record_call].
    + unfold Runtime.bind at 1.
      destruct (Spl.send_maxRetries options) as [[z|x]|]; [| destruct (JsNumber.to_bigint x) |];
        unfold ret, throw; try rewrite MonadFacts.snd_bind_lift;
        cbn [snd call trace record_call];
        rewrite ?List.filter_app, ?length_app; cbn; lia.
    + rewrite List.filter_app, length_app. cbn. lia.
Qed.

Lemma sol_prepareTransfer_inv config w prepared w' :
  prepareTransfer runtime isAddress getTransferSolInstruction config w = (Ok prepared, w') ->
  exists amount destination instruction,
    Amounts.fromBaseUnits (Sol.amount config) None = Ok amount /\
    Transactions.toAddress isAddress (Sol.destination config) = Ok destination /\
    getTransferSolInstruction amount destination (prepared_signer prepared) = Ok instruction /\
    resolveSigner (authority config) (commitment config)
    = Ok {| mode := prepared_mode prepared; signer := prepared_signer prepared |} /\
    prepared_message prepared
    = appendTransactionMessageInstruction instruction
        (setTransactionMessageLifetimeUsingBlockhash (prepared_lifetime prepared)
           (setTransactionMessageFeePayer (address (prepared_signer prepared))
              (createTransactionMessage (default v0 (transactionVersion config))))) /\
    prepared_commitment prepared = commitment config /\
    match lifetime config with
    | Some given => prepared_lifetime prepared = given /\ w' = w
    | None =>
        getLatestBlockhash runtime (trace w) (commitment config) = Ok (prepared_lifetime prepared) /\
        w' = record_call (GetLatestBlockhash (commitment config))
               (getLatestBlockhash runtime (trace w) (commitment config)) w
    end.
Proof.
  unfold prepareTransfer. cbv zeta. intros H.
  apply bind_inv_ok in H as (life & w1 & Hlife & H).
  apply bind_inv_ok in H as (wallet & w2 & Hwallet & H). apply lift_inv in Hwallet as [Hwallet ->].
  apply bind_inv_ok in H as (dest & w3 & Hdest & H). apply lift_inv in Hdest as [Hdest ->].
  apply bind_inv_ok in H as (amount' & w4 & Hamount & H). apply lift_inv in Hamount as [Hamount ->].
  apply bind_inv_ok in H as (instruction & w5 & Hi & H). apply lift_inv in Hi as [Hi ->].
  apply ret_inv in H as [-> ->].
  exists amount', dest, instruction.
  cbn [prepared_signer prepared_mode prepared_message prepared_lifetime prepared_commitment].
  repeat (split; [assumption || reflexivity || (destruct wallet; exact Hwallet)|]).
  unfold resolveLifetime in Hlife. destruct (lifetime config) as [given|].
  - apply ret_inv in Hlife as [-> ->]. auto.
  - apply call_inv in Hlife as [Hl ->]. auto.
Qed.

End Helper.

End SolFacts.

(** X19: the SOL helper never retries.  [sendTransfer] makes one send
    attempt when the transfer could be prepared and none otherwise, and
    whatever that attempt is rejected with reaches the caller, an "already
    processed" error included. *)
Theorem sol_sendTransfer_single_attempt :
  forall (runtime : Runtime.SolanaClientRuntime) (isAddress : string -> bool)
         (getTransferSolInstruction :
            Z -> Kit.Address -> Kit.TransactionSigner -> result Kit.Instruction)
         (config : Sol.SolTransferPrepareConfig) (options : Spl.SolTransferSendOptions)
         (w : Runtime.World),
    let run := Sol.sendTransfer runtime isAddress getTransferSolInstruction config options w in
    match Sol.prepareTransfer runtime isAddress getTransferSolInstruction config w with
    | (Ok prepared, w1) =>
        run = Sol.sendPreparedTransfer runtime prepared options w1 /\
        SplSpec.attempts (snd run) = S (SplSpec.attempts w)
    | (Throw e, w1) =>
        run = (Throw e, w1) /\ SplSpec.attempts (snd run) = SplSpec.attempts w
    end.
Proof.
  intros runtime isAddress getTransferSolInstruction config options w run.
  pose proof (SolFacts.quiet_sol_prepareTransfer runtime isAddress getTransferSolInstruction config w)
    as Hq.
  apply RuntimeFacts.quiet_step_attempts in Hq.
  unfold run, Sol.sendTransfer.
  destruct (Sol.prepareTransfer runtime isAddress getTransferSolInstruction config w)
    as [[prepared|e] w1] eqn:Hprep; cbn [snd] in Hq.
  - rewrite (MonadFacts.bind_ok _ _ _ _ _ Hprep). split; [reflexivity|].
    rewrite SolFacts.sol_attempts_sendPreparedTransfer. congruence.
  - rewrite (MonadFacts.bind_throw _ _ _ _ _ Hprep). split; [reflexivity | exact Hq].
Qed.

(** Against the transport that answers every submission with "already
    processed", the SOL transfer is rejected with that error after one
    attempt. *)
Example sol_sendTransfer_not_retried :
  fst (SolExamples.sendTransfer_run SplExamples.stuck_rpc)
  = Throw (SolanaError TRANSACTION_ERROR__ALREADY_PROCESSED) /\
  SplSpec.attempts (snd (SolExamples.sendTransfer_run SplExamples.stuck_rpc)) = 1%nat.
Proof. split; reflexivity. Qed.

(** X20: a SOL transfer that the helper prepares carries exactly one
    instruction, the one the System Program client built for the validated
    lamport amount (not negative), the validated destination and the
    signer; the fee payer is the signer's address and the version 0 unless
    the configuration names one.  The blockhash is queried once, at the
    configuration's commitment, exactly when the configuration brings no
    lifetime, and no other call is made. *)
Theorem sol_prepareTransfer_shape :
  forall (runtime : Runtime.SolanaClientRuntime) (isAddress : string -> bool)
         (getTransferSolInstruction :
            Z -> Kit.Address -> Kit.TransactionSigner -> result Kit.Instruction)
         (config : Sol.SolTransferPrepareConfig) (w w' : Runtime.World)
         (prepared : Sol.PreparedSolTransfer),
    Sol.prepareTransfer runtime isAddress getTransferSolInstruction config w = (Ok prepared, w') ->
    exists amount destination instruction,
      Sol.toLamportAmount (Sol.amount config) = Ok amount /\ 0 <= amount /\
      Sol.ensureAddress isAddress (Sol.destination config) = Ok destination /\
      getTransferSolInstruction amount destination (Sol.prepared_signer prepared)
      = Ok instruction /\
      Kit.instructions (Sol.prepared_message prepared) = [instruction] /\
      Kit.feePayer (Sol.prepared_message prepared)
      = Some {| Kit.feePayerAddress := Kit.address (Sol.prepared_signer prepared);
                Kit.feePayerSigner := None |} /\
      Kit.lifetimeConstraint (Sol.prepared_message prepared)
      = Some (Sol.prepared_lifetime prepared) /\
      Kit.version (Sol.prepared_message prepared)
      = default Kit.v0 (Sol.transactionVersion config) /\
      Runtime.trace w'
      = Runtime.trace w ++
        match Sol.lifetime config with
        | Some _ => []
        | None => [Runtime.GetLatestBlockhash (Sol.commitment config)]
        end.
Proof.
  intros runtime isAddress getTransferSolInstruction config w w' prepared H.
  destruct (SolFacts.sol_prepareTransfer_inv runtime isAddress getTransferSolInstruction config w
              prepared w' H)
    as (amount & destination & instruction & Hamount & Hdest & Hi & _ & Hm & _ & Hl).
  exists amount, destination, instruction.
  split; [exact Hamount|].
  split; [apply (SplShape.fromBaseUnits_nonneg _ _ _ Hamount)|].
  split; [exact Hdest|]. split; [exact Hi|].
  rewrite Hm. repeat (split; [reflexivity|]).
  destruct (Sol.lifetime config) as [given|].
  - destruct Hl as [_ ->]. symmetry. apply app_nil_r.
  - destruct Hl as [_ ->]. reflexivity.
Qed.

(** The transfer of one SOL of the examples. *)
Lemma sol_prepareTransfer_shape_witness :
  exists prepared w',
    Sol.prepareTransfer SplExamples.stuck_rpc TransactionsExamples.any_address
      SolExamples.transfer_instruction SolExamples.transfer_config Runtime.fresh_world
    = (Ok prepared, w') /\
    Runtime.trace w' = [Runtime.GetLatestBlockhash None].
Proof.
  eexists _, _. split; [lazy; reflexivity|].
  destruct (sol_prepareTransfer_shape SplExamples.stuck_rpc TransactionsExamples.any_address
              SolExamples.transfer_instruction SolExamples.transfer_config
              Runtime.fresh_world _ _ eq_refl)
    as (amount & destination & instruction & _ & _ & _ & _ & _ & _ & _ & _ & Ht).
  exact Ht.
Defined.

(** ** The commitment of every call *)

Module CallsOnly.
Import Kit Runtime ClientHelpersSpec Inversion.

Section Predicate.
Variable P : Event -> Prop.

Lemma calls_only_ret {A} (a : A) : calls_only P (ret a).
Proof. intros w. exists []. split; [symmetry; apply app_nil_r | constructor]. Qed.

Lemma calls_only_throw {A} e : calls_only P (@throw A e).
Proof. intros w. exists []. split; [symmetry; apply app_nil_r | constructor]. Qed.

Lemma calls_only_lift {A} (r : result A) : calls_only P (lift r).
Proof. intros w. exists []. split; [symmetry; apply app_nil_r | constructor]. Qed.

Lemma calls_only_call {A} ev (answer : Trace -> result A) : P ev -> calls_only P (call ev answer).
Proof. intros H w. exists [ev]. split; [reflexivity | repeat constructor; exact H]. Qed.

(** The rest may rely on what the first step returned. *)
Lemma calls_only_bind {A B} (m : M A) (k : A -> M B) (R : A -> Prop) :
  calls_only P m ->
  (forall w a w1, m w = (Ok a, w1) -> R a) ->
  (forall a, R a -> calls_only P (k a)) ->
  calls_only P (Runtime.bind m k).
Proof.
  intros Hm HR Hk w. unfold Runtime.bind. destruct (Hm w) as (r1 & Ht1 & Hp1).
  destruct (m w) as [[a|e] w1] eqn:E; cbn [snd] in *.
  - destruct (Hk a (HR w a w1 E) w1) as (r2 & Ht2 & Hp2).
    exists (r1 ++ r2). split; [rewrite Ht2, Ht1, app_assoc; reflexivity|].
    apply Forall_app. auto.
  - exists r1. auto.
Qed.

Lemma calls_only_bind' {A B} (m : M A) (k : A -> M B) :
  calls_only P m -> (forall a, calls_only P (k a)) -> calls_only P (Runtime.bind m k).
Proof.
  intros Hm Hk. apply (calls_only_bind m k (fun _ => True)); auto.
Qed.

Lemma calls_only_try_catch {A} (body : M A) (handler : exn -> M A) :
  calls_only P body -> (forall e, calls_only P (handler e)) ->
  calls_only P (try_catch body handler).
Proof.
  intros Hb Hh w. unfold try_catch. destruct (Hb w) as (r1 & Ht1 & Hp1).
  destruct (body w) as [[a|e] w1]; cbn [snd] in *.
  - exists r1. auto.
  - destruct (Hh e w1) as (r2 & Ht2 & Hp2).
    exists (r1 ++ r2). split; [rewrite Ht2, Ht1, app_assoc; reflexivity|].
    apply Forall_app. auto.
Qed.

End Predicate.

Ltac calls_steps :=
  cbv zeta;
  repeat first
    [ apply calls_only_ret | apply calls_only_lift | apply calls_only_throw
    | apply calls_only_call; cbn; solve [auto]
    | apply calls_only_bind'; [|intros ?]
    | match goal with
      | |- calls_only _ (if ?b then _ else _) => destruct b
      | |- calls_only _ (match ?x with _ => _ end) => destruct x
      end ].

Section Spl.
Variable runtime : SolanaClientRuntime.
Variable isAddress : string -> bool.
Variable mintAddress tokenProgram : Address.
Variable c : Commitment.
Variable own : option Commitment.

Lemma calls_resolveDecimals :
  calls_only (asks_at c own) (Spl.resolveDecimals runtime mintAddress (Some c)).
Proof.
  intros w. unfold Spl.resolveDecimals. destruct (cachedDecimals w).
  - exists []. split; [symmetry; apply app_nil_r | constructor].
  - exists [FetchMint mintAddress (Some c)]. split; [|repeat constructor].
    unfold Runtime.bind, call, Spl.set_cachedDecimals, ret.
    destruct (fetchMint runtime (trace w) mintAddress (Some c)); reflexivity.
Qed.

Lemma calls_getTokenMath :
  calls_only (asks_at c own) (Spl.getTokenMath runtime mintAddress (Some c)).
Proof.
  intros w. unfold Spl.getTokenMath. destruct (cachedMath w).
  - exists []. split; [symmetry; apply app_nil_r | constructor].
  - revert w. change (calls_only (asks_at c own)
      (Runtime.bind (Spl.resolveDecimals runtime mintAddress (Some c))
         (fun decimals => Runtime.bind (lift (Amounts.createTokenAmount decimals))
            (fun math => Runtime.bind (Spl.set_cachedMath math) (fun _ => ret math))))).
    apply calls_only_bind'; [apply calls_resolveDecimals|]. intros d.
    apply calls_only_bind'; [apply calls_only_lift|]. intros math.
    apply calls_only_bind'; [|intros; apply calls_only_ret].
    intros w. exists []. split; [symmetry; apply app_nil_r | constructor].
Qed.

Lemma calls_derive owner :
  calls_only (asks_at c own)
    (Spl.deriveAssociatedTokenAddress runtime isAddress mintAddress tokenProgram owner).
Proof. unfold Spl.deriveAssociatedTokenAddress. calls_steps. Qed.

Lemma calls_fetchBalance owner :
  calls_only (asks_at c own)
    (Spl.fetchBalance runtime isAddress mintAddress tokenProgram owner (Some c)).
Proof.
  unfold Spl.fetchBalance.
  apply calls_only_bind'; [apply calls_derive|]. intros ata.
  apply calls_only_bind'; [apply calls_resolveDecimals|]. intros d.
  apply calls_only_try_catch; [|intros; apply calls_only_ret].
  apply calls_only_bind'; [apply calls_only_call; reflexivity|]. intros value.
  apply calls_only_bind'; [apply calls_getTokenMath|]. intros math.
  calls_steps.
Qed.

Lemma calls_prepareTransfer config :
  Spl.commitment config = Some c ->
  calls_only (asks_at c own)
    (Spl.prepareTransfer runtime isAddress mintAddress tokenProgram config).
Proof.
  intros Hc. unfold Spl.prepareTransfer, Spl.resolveLifetime. rewrite Hc. cbv zeta.
  repeat first
    [ apply calls_only_ret | apply calls_only_lift | apply calls_only_throw
    | apply calls_derive | apply calls_getTokenMath | apply calls_resolveDecimals
    | apply calls_only_call; reflexivity
    | apply calls_only_bind'; [|intros ?]
    | match goal with
      | |- calls_only _ (if ?b then _ else _) => destruct b
      | |- calls_only _ (match ?x with _ => _ end) => destruct x
      end ].
Qed.

Lemma prepareTransfer_commitment config w prepared w' :
  Spl.prepareTransfer runtime isAddress mintAddress tokenProgram config w = (Ok prepared, w') ->
  Spl.prepared_commitment prepared = Spl.commitment config.
Proof.
  unfold Spl.prepareTransfer. cbv zeta. intros H.
  repeat (apply bind_inv_ok in H as (? & ? & _ & H)).
  apply ret_inv in H as [-> _]. reflexivity.
Qed.

Lemma calls_sendPreparedTransfer prepared options :
  Spl.prepared_commitment prepared = Some c ->
  Spl.send_commitment options = own ->
  calls_only (asks_at c own) (Spl.sendPreparedTransfer runtime prepared options).
Proof.
  intros Hc Ho. unfold Spl.sendPreparedTransfer. rewrite Hc, Ho.
  destruct (_ && _).
  { apply calls_only_bind'; [apply calls_only_call; exact I|].
    intros signatureBytes. apply calls_only_lift. }
  apply calls_only_bind'; [apply calls_only_call; exact I|]. intros signed.
  apply calls_only_bind'.
  - destruct (Spl.send_maxRetries options) as [[z|x]|];
      [| destruct (JsNumber.to_bigint x) |];
      first [apply calls_only_ret | apply calls_only_throw].
  - intros retries. apply calls_only_bind'; [|intros response; apply calls_only_lift].
    apply calls_only_call. cbn. destruct own; reflexivity.
Qed.

Lemma calls_sendTransfer config options :
  Spl.commitment config = Some c ->
  Spl.send_commitment options = own ->
  calls_only (asks_at c own)
    (Spl.sendTransfer runtime isAddress mintAddress tokenProgram config options).
Proof.
  intros Hc Ho. unfold Spl.sendTransfer.
  apply (calls_only_bind _ _ _ (fun p => Spl.prepared_commitment p = Some c)).
  - apply calls_prepareTransfer, Hc.
  - intros w p w1 H. rewrite (prepareTransfer_commitment _ _ _ _ H). exact Hc.
  - intros p Hp. apply calls_only_try_catch; [apply calls_sendPreparedTransfer; assumption|].
    intros e. destruct (isSolanaError e _); [|apply calls_only_throw].
    apply (calls_only_bind _ _ _ (fun p => Spl.prepared_commitment p = Some c)).
    + apply calls_prepareTransfer. exact Hc.
    + intros w q w1 H. rewrite (prepareTransfer_commitment _ _ _ _ H). exact Hc.
    + intros q Hq. apply calls_sendPreparedTransfer; assumption.
Qed.

End Spl.

Section Sol.
Variable runtime : SolanaClientRuntime.
Variable isAddress : string -> bool.
Variable getTransferSolInstruction : Z -> Address -> TransactionSigner -> result Instruction.
Variable c : Commitment.
Variable own : option Commitment.

Lemma calls_sol_prepareTransfer config :
  Sol.commitment config = Some c ->
  calls_only (asks_at c own)
    (Sol.prepareTransfer runtime isAddress getTransferSolInstruction config).
Proof.
  intros Hc. unfold Sol.prepareTransfer, Sol.resolveLifetime. rewrite Hc. calls_steps.
Qed.

Lemma calls_sol_sendPreparedTransfer prepared options :
  Sol.prepared_commitment prepared = Some c ->
  Spl.send_commitment options = own ->
  calls_only (asks_at c own) (Sol.sendPreparedTransfer runtime prepared options).
Proof.
  intros Hc Ho. unfold Sol.sendPreparedTransfer. rewrite Hc, Ho.
  destruct (_ && _).
  { apply calls_only_bind'; [apply calls_only_call; exact I|].
    intros signatureBytes. apply calls_only_lift. }
  apply calls_only_bind'; [apply calls_only_call; exact I|]. intros signed.
  apply calls_only_bind'.
  - destruct (Spl.send_maxRetries options) as [[z|x]|];
      [| destruct (JsNumber.to_bigint x) |];
      first [apply calls_only_ret | apply calls_only_throw].
  - intros retries. apply calls_only_bind'; [|intros response; apply calls_only_lift].
    apply calls_only_call. cbn. destruct own; reflexivity.
Qed.

Lemma calls_sol_sendTransfer config options :
  Sol.commitment config = Some c ->
  Spl.send_commitment options = own ->
  calls_only (asks_at c own)
    (Sol.sendTransfer runtime isAddress getTransferSolInstruction config options).
Proof.
  intros Hc Ho. unfold Sol.sendTransfer.
  apply (calls_only_bind _ _ _ (fun p => Sol.prepared_commitment p = Some c)).
  - apply calls_sol_prepareTransfer, Hc.
  - intros w p w1 H.
    destruct (SolFacts.sol_prepareTransfer_inv _ _ _ _ _ _ _ H)
      as (? & ? & ? & _ & _ & _ & _ & _ & Hp & _).
    rewrite Hp. exact Hc.
  - intros p Hp. apply calls_sol_sendPreparedTransfer; assumption.
Qed.

End Sol.

Lemma withDefaultCommitment_sol_commitment config getFallback base :
  Sol.commitment (ClientHelpers.withDefaultCommitment_sol config getFallback base)
  = Some (resolved (Sol.commitment config) base getFallback).
Proof.
  unfold ClientHelpers.withDefaultCommitment_sol, resolved.
  destruct (Sol.commitment config) eqn:E; [exact E | reflexivity].
Qed.

Lemma withDefaultCommitment_spl_commitment config getFallback base :
  Spl.commitment (ClientHelpers.withDefaultCommitment_spl config getFallback base)
  = Some (resolved (Spl.commitment config) base getFallback).
Proof.
  unfold ClientHelpers.withDefaultCommitment_spl, resolved.
  destruct (Spl.commitment config) eqn:E; [exact E | reflexivity].
Qed.

End CallsOnly.

(** X21: through the helpers that the client hands out, no query goes out
    without a commitment.  Every blockhash, mint, account and balance query
    of the wrapped SOL and SPL helpers names the commitment of the call,
    else the helper's base commitment, else the store's fallback, in that
    order of precedence; the retry of the SPL transfer included.  A
    submission names the caller's own preflight commitment, and that
    resolved commitment when the caller gives none. *)
Theorem wrapped_helpers_ask_with_commitment :
  forall (runtime : Runtime.SolanaClientRuntime) (isAddress : string -> bool)
         (getFallback : unit -> Kit.Commitment)
         (getTransferSolInstruction :
            Z -> Kit.Address -> Kit.TransactionSigner -> result Kit.Instruction)
         (mintAddress tokenProgram : Kit.Address) (baseCommitment : option Kit.Commitment),
    (forall config options,
        ClientHelpersSpec.calls_only
          (ClientHelpersSpec.asks_at
             (ClientHelpersSpec.resolved (Sol.commitment config) None getFallback)
             (Spl.send_commitment options))
          (ClientHelpers.sol_sendTransfer runtime isAddress getFallback
             getTransferSolInstruction config options)) /\
    (forall config options,
        ClientHelpersSpec.calls_only
          (ClientHelpersSpec.asks_at
             (ClientHelpersSpec.resolved (Spl.commitment config) baseCommitment getFallback)
             (Spl.send_commitment options))
          (ClientHelpers.spl_sendTransfer runtime isAddress getFallback mintAddress tokenProgram
             baseCommitment config options)) /\
    (forall owner commitment,
        ClientHelpersSpec.calls_only
          (ClientHelpersSpec.asks_at
             (ClientHelpersSpec.resolved commitment baseCommitment getFallback) None)
          (ClientHelpers.spl_fetchBalance runtime isAddress getFallback mintAddress tokenProgram
             baseCommitment owner commitment)) /\
    (forall config,
        ClientHelpersSpec.calls_only
          (ClientHelpersSpec.asks_at
             (ClientHelpersSpec.resolved (Sol.commitment config) None getFallback) None)
          (ClientHelpers.sol_prepareTransfer runtime isAddress getFallback
             getTransferSolInstruction config)) /\
    (forall config,
        ClientHelpersSpec.calls_only
          (ClientHelpersSpec.asks_at
             (ClientHelpersSpec.resolved (Spl.commitment config) baseCommitment getFallback)
             None)
          (ClientHelpers.spl_prepareTransfer runtime isAddress getFallback mintAddress
             tokenProgram baseCommitment config)).
Proof.
  intros runtime isAddress getFallback getTransferSolInstruction mintAddress tokenProgram
    baseCommitment.
  split; [|split; [|split; [|split]]].
  - intros config options. unfold ClientHelpers.sol_sendTransfer.
    apply CallsOnly.calls_sol_sendTransfer;
      [apply CallsOnly.withDefaultCommitment_sol_commitment | reflexivity].
  - intros config options. unfold ClientHelpers.spl_sendTransfer.
    apply CallsOnly.calls_sendTransfer;
      [apply CallsOnly.withDefaultCommitment_spl_commitment | reflexivity].
  - intros owner commitment. unfold ClientHelpers.spl_fetchBalance.
    apply CallsOnly.calls_fetchBalance.
  - intros config. unfold ClientHelpers.sol_prepareTransfer.
    apply CallsOnly.calls_sol_prepareTransfer, CallsOnly.withDefaultCommitment_sol_commitment.
  - intros config. unfold ClientHelpers.spl_prepareTransfer.
    apply CallsOnly.calls_prepareTransfer, CallsOnly.withDefaultCommitment_spl_commitment.
Qed.

(** ** The SOL transfer controller *)

Module SolControllerFacts.
Import Kit AsyncState SolController PoolMoreSpec.

Definition invariant (c : Controller) : Prop :=
  well_formed (getState c) /\ NoDup (listeners c).

Lemma controller_invariant_create provider : invariant (createSolTransferController provider).
Proof. split; [split; reflexivity | apply NoDup_nil_2]. Qed.

Lemma NoDup_filter_listeners (p : Listener -> bool) ls : NoDup ls -> NoDup (List.filter p ls).
Proof.
  induction 1 as [|x ls Hx Hls IH]; [apply NoDup_nil_2|].
  cbn. destruct (p x); [|exact IH].
  apply NoDup_cons. split; [|exact IH].
  intros Hin. apply Hx. apply list_elem_of_In in Hin. apply filter_In in Hin as [Hin _].
  apply list_elem_of_In, Hin.
Qed.

Lemma controller_invariant_step c a : invariant c -> invariant (step c a).
Proof.
  intros [Hs Hl]. destruct a as [input|outcome|l|l|]; cbn [step].
  - unfold send_call. destruct (ensureAuthority input (authorityProvider c)); cbn [Js.bind].
    + split; [split; reflexivity | exact Hl].
    + split; assumption.
  - destruct outcome; cbn [send_settle fst].
    + split; [split; [discriminate | reflexivity] | exact Hl].
    + split; [reflexivity | exact Hl].
  - split; [exact Hs | apply PoolMore.add_listener_NoDup, Hl].
  - split; [exact Hs | apply NoDup_filter_listeners, Hl].
  - split; [split; reflexivity | exact Hl].
Qed.

Lemma controller_invariant_run history : forall c, invariant c -> invariant (run c history).
Proof.
  unfold run. induction history as [|a history IH]; intros c H; [assumption|].
  cbn [fold_left]. apply IH, controller_invariant_step, H.
Qed.

(** A step tells the listeners of the moment, or nobody. *)
Lemma notified_step c a :
  notified (step c a) = notified c \/ notified (step c a) = notified c ++ listeners c.
Proof.
  destruct a as [input|outcome|l|l|]; cbn [step]; auto.
  - unfold send_call. destruct (ensureAuthority input (authorityProvider c)); cbn [Js.bind]; auto.
  - destruct outcome; cbn; auto.
Qed.

Lemma absent_step c a listener :
  ~ In listener (listeners c) ->
  match a with Subscribe l => l <> listener | _ => True end ->
  ~ In listener (listeners (step c a)).
Proof.
  intros Hout Ha. destruct a as [input|outcome|l|l|]; cbn [step]; auto.
  - unfold send_call. destruct (ensureAuthority input (authorityProvider c)); cbn [Js.bind]; auto.
  - destruct outcome; cbn; auto.
  - cbn. unfold Pool.add_listener. destruct (existsb (Nat.eqb l) (listeners c)); [exact Hout|].
    rewrite in_app_iff. intros [H|[H|[]]]; [auto | congruence].
  - cbn. intros H. apply filter_In in H as [H _]. auto.
Qed.

Lemma absent_run listener history : forall c,
  ~ In listener (listeners c) ->
  never_subscribes listener history ->
  exists rest, notified (run c history) = notified c ++ rest /\ ~ In listener rest.
Proof.
  unfold run. induction history as [|a history IH]; intros c Hout Hnever.
  - exists []. split; [symmetry; apply app_nil_r | intros []].
  - apply Forall_cons in Hnever as [Ha Hnever]. cbn [fold_left].
    destruct (IH (step c a) (absent_step c a listener Hout Ha) Hnever) as (rest & Hrest & Hnot).
    destruct (notified_step c a) as [E|E]; rewrite E in Hrest.
    + exists rest. auto.
    + exists (listeners c ++ rest). split; [rewrite Hrest, app_assoc; reflexivity|].
      rewrite in_app_iff. tauto.
Qed.

(** The provider is the one the controller was created with. *)
Lemma provider_step c a : authorityProvider (step c a) = authorityProvider c.
Proof.
  destruct a as [input|outcome|l|l|]; cbn [step]; try reflexivity.
  - unfold send_call. destruct (ensureAuthority input (authorityProvider c)); reflexivity.
  - destruct outcome; reflexivity.
Qed.

Lemma provider_run history : forall c, authorityProvider (run c history) = authorityProvider c.
Proof.
  unfold run. induction history as [|a history IH]; intros c; [reflexivity|].
  cbn [fold_left]. rewrite IH. apply provider_step.
Qed.

End SolControllerFacts.

(** X22: after every history of calls, settlements, subscriptions and
    resets on a new controller, the state is well formed (a signature
    exactly under [success], an error only under [error], neither while idle
    or loading), and a send does one of two things.  When the input names no
    authority and the provider the controller was created with is missing
    or answers with none, the send throws its error before anything
    happens: the state stays as it was and no listener is called.
    Otherwise the send goes on with the input's authority, or else the
    provider's: the state becomes [loading], every listener of the moment is
    called once, and the request handed to the helper is the input with
    that authority. *)
Theorem sol_controller_state :
  forall (provider : option (unit -> option Sol.SolTransferAuthority))
         (history : list SolController.Action) (input : SolController.SolTransferInput),
    let c := SolController.run (SolController.createSolTransferController provider) history in
    let authority :=
      match SolController.authority input with
      | Some given => Some given
      | None => match provider with
                | Some resolveDefault => resolveDefault tt
                | None => None
                end
      end in
    PoolMoreSpec.well_formed (SolController.getState c) /\
    match authority with
    | None =>
        SolController.send_call input c
        = Throw (Error "Connect a wallet or supply an `authority` before sending SOL transfers.")
        /\
        SolController.step c (SolController.SendCall input) = c
    | Some chosen =>
        SolController.send_call input c
        = Ok (SolController.step c (SolController.SendCall input),
              {| Sol.amount := SolController.amount input;
                 Sol.authority := chosen;
                 Sol.commitment := SolController.commitment input;
                 Sol.destination := SolController.destination input;
                 Sol.lifetime := SolController.lifetime input;
                 Sol.transactionVersion := SolController.transactionVersion input |}) /\
        SolController.getState (SolController.step c (SolController.SendCall input))
        = AsyncState.createAsyncState AsyncState.loading None None /\
        SolController.notified (SolController.step c (SolController.SendCall input))
        = SolController.notified c ++ SolController.listeners c /\
        SolController.listeners (SolController.step c (SolController.SendCall input))
        = SolController.listeners c
    end.
Proof.
  intros provider history input c authority.
  destruct (SolControllerFacts.controller_invariant_run history _
              (SolControllerFacts.controller_invariant_create provider)) as [Hs _].
  split; [exact Hs|].
  assert (Hprovider : SolController.authorityProvider c = provider)
    by apply SolControllerFacts.provider_run.
  cbn [SolController.step]. unfold SolController.send_call, SolController.ensureAuthority.
  rewrite Hprovider. fold authority.
  destruct authority as [chosen|]; cbn [Js.bind]; repeat split.
Qed.

(** A controller without a provider refuses an input without an
    authority, and sends one that brings its own. *)
Example sol_controller_send_examples :
  let c := SolController.createSolTransferController None in
  let input authority :=
    {| SolController.amount := Amounts.big 1;
       SolController.authority := authority;
       SolController.commitment := None;
       SolController.destination := "destination"%string;
       SolController.lifetime := None;
       SolController.transactionVersion := None |} in
  SolController.send_call (input None) c
  = Throw (Error "Connect a wallet or supply an `authority` before sending SOL transfers.") /\
  Js.is_ok (SolController.send_call
              (input (Some (Sol.authority SolExamples.transfer_config))) c) = true.
Proof. split; reflexivity. Qed.

(** X23: a listener that has unsubscribed is not called again: over every
    history that does not subscribe it anew, whatever the controller
    reports from then on reaches the other listeners only. *)
Theorem sol_controller_unsubscribed_is_silent :
  forall (c : SolController.Controller) (listener : SolController.Listener)
         (history : list SolController.Action),
    SolController.never_subscribes listener history ->
    exists rest,
      SolController.notified
        (SolController.run (SolController.unsubscribe listener c) history)
      = SolController.notified c ++ rest /\
      ~ In listener rest.
Proof.
  intros c listener history Hnever.
  apply (SolControllerFacts.absent_run listener history
           (SolController.unsubscribe listener c)); [|exact Hnever].
  cbn. intros H. apply filter_In in H as [_ H].
  rewrite Nat.eqb_refl in H. discriminate.
Qed.

(** Listener 1 leaves; the settlement and the reset reach listener 2
    only. *)
Lemma sol_controller_unsubscribed_is_silent_witness :
  exists rest,
    SolController.notified
      (SolController.run (SolController.unsubscribe 1%nat SolControllerExamples.watched)
         SolControllerExamples.history)
    = SolController.notified SolControllerExamples.watched ++ rest /\
    ~ In 1%nat rest.
Proof.
  apply (sol_controller_unsubscribed_is_silent SolControllerExamples.watched 1%nat
           SolControllerExamples.history).
  repeat constructor.
Defined.

(** ** Reference keys *)

Module ReferenceKeysFacts.
Import Kit ReferenceKeys.

Lemma findIndex_first {A} (p : A -> bool) l i :
  Tuner.findIndex p l = Some i ->
  forall j x, (j < i)%nat -> l !! j = Some x -> p x = false.
Proof.
  revert i. induction l as [|a l IH]; intros i H j x Hj Hx; [discriminate|].
  cbn [Tuner.findIndex] in H. destruct (p a) eqn:E.
  - injection H as <-. lia.
  - destruct (Tuner.findIndex p l) as [k|] eqn:Ek; [|discriminate]. injection H as <-.
    destruct j as [|j]; cbn in Hx.
    + injection Hx as <-. exact E.
    + apply (IH k eq_refl j x); [lia | exact Hx].
Qed.

Lemma findIndex_None {A} (p : A -> bool) l :
  Tuner.findIndex p l = None <-> Forall (fun x => p x = false) l.
Proof.
  induction l as [|a l IH]; cbn [Tuner.findIndex].
  - split; [constructor | reflexivity].
  - destruct (p a) eqn:E.
    + split; [discriminate|]. intros H. apply Forall_cons in H as [H _]. congruence.
    + destruct (Tuner.findIndex p l).
      * split; [discriminate|]. intros H. apply Forall_cons in H as [_ H].
        apply IH in H. discriminate.
      * split; [|reflexivity]. intros _. apply Forall_cons. split; [exact E|].
        apply IH. reflexivity.
Qed.

Lemma ensure_findIndex l :
  ensureNonMemoInstructionIndex l =
  match Tuner.findIndex is_not_memo l with
  | Some i => Ok i
  | None => Throw (SolanaError INSTRUCTION_ERROR__GENERIC_ERROR)
  end.
Proof.
  unfold ensureNonMemoInstructionIndex. cbv zeta.
  destruct (Tuner.findIndex is_not_memo l) eqn:E; [|reflexivity].
  destruct l; [discriminate | reflexivity].
Qed.

(** The instruction with the references appended. *)
Definition with_references (references : list Address) (target : IInstruction) : IInstruction :=
  {| programAddress := programAddress target;
     accounts := Some (default [] (accounts target) ++ map readonly references);
     data := data target |}.

Lemma insertReferenceKeys_found {Rest} references (transaction : BaseTransactionMessage Rest)
    index target :
  Tuner.findIndex is_not_memo (instructions transaction) = Some index ->
  instructions transaction !! index = Some target ->
  insertReferenceKeys references transaction
  = Ok {| instructions := <[index := with_references references target]>
                            (instructions transaction);
          rest := rest transaction |}.
Proof.
  intros Hi Ht. unfold insertReferenceKeys. rewrite ensure_findIndex, Hi. cbn [Js.bind].
  rewrite Ht. reflexivity.
Qed.

Lemma with_references_app r1 r2 target :
  with_references r2 (with_references r1 target) = with_references (r1 ++ r2) target.
Proof.
  unfold with_references. cbn. rewrite map_app, app_assoc. reflexivity.
Qed.

End ReferenceKeysFacts.

(** X24: [insertReferenceKeys] fails exactly when every instruction is a
    memo (or there is none).  Otherwise it changes one instruction only,
    the first that is not a memo: that instruction keeps its program and
    data and gets the references appended to its accounts, read-only and in
    the given order; the other instructions, their number and the rest of
    the message stay as they were. *)
Theorem insertReferenceKeys_first_non_memo :
  forall (Rest : Type) (references : list Kit.Address)
         (transaction : ReferenceKeys.BaseTransactionMessage Rest),
    match ReferenceKeys.insertReferenceKeys references transaction with
    | Ok updated =>
        exists index target,
          ReferenceKeys.instructions transaction !! index = Some target /\
          ReferenceKeys.is_not_memo target = true /\
          (forall j other, (j < index)%nat ->
             ReferenceKeys.instructions transaction !! j = Some other ->
             ReferenceKeys.is_not_memo other = false) /\
          ReferenceKeys.instructions updated
          = <[index := {| ReferenceKeys.programAddress := ReferenceKeys.programAddress target;
                          ReferenceKeys.accounts :=
                            Some (default [] (ReferenceKeys.accounts target)
                                  ++ map ReferenceKeys.readonly references);
                          ReferenceKeys.data := ReferenceKeys.data target |}]>
              (ReferenceKeys.instructions transaction) /\
          length (ReferenceKeys.instructions updated)
          = length (ReferenceKeys.instructions transaction) /\
          ReferenceKeys.rest updated = ReferenceKeys.rest transaction
    | Throw e =>
        Forall (fun i => ReferenceKeys.is_not_memo i = false)
          (ReferenceKeys.instructions transaction) /\
        e = SolanaError ReferenceKeys.INSTRUCTION_ERROR__GENERIC_ERROR
    end.
Proof.
  intros Rest references transaction.
  destruct (Tuner.findIndex ReferenceKeys.is_not_memo (ReferenceKeys.instructions transaction))
    as [index|] eqn:Hi.
  - destruct (TunerMore.findIndex_Some _ _ _ Hi) as (target & Ht & Hp).
    rewrite (ReferenceKeysFacts.insertReferenceKeys_found references transaction index target
               Hi Ht).
    exists index, target. split; [exact Ht|]. split; [exact Hp|].
    split; [apply (ReferenceKeysFacts.findIndex_first _ _ _ Hi)|].
    split; [reflexivity|]. split; [apply length_insert | reflexivity].
  - unfold ReferenceKeys.insertReferenceKeys.
    rewrite ReferenceKeysFacts.ensure_findIndex, Hi. cbn [Js.bind].
    split; [apply ReferenceKeysFacts.findIndex_None, Hi | reflexivity].
Qed.

(** X25: reference keys compose.  Inserting a second batch of references
    into the result of a first insertion is the same as inserting both
    batches at once, and [insertReferenceKey] is the batch of one. *)
Theorem insertReferenceKeys_compose :
  forall (Rest : Type) (first second : list Kit.Address)
         (transaction updated : ReferenceKeys.BaseTransactionMessage Rest),
    ReferenceKeys.insertReferenceKeys first transaction = Ok updated ->
    ReferenceKeys.insertReferenceKeys second updated
    = ReferenceKeys.insertReferenceKeys (first ++ second) transaction /\
    forall reference,
      ReferenceKeys.insertReferenceKey reference updated
      = ReferenceKeys.insertReferenceKeys (first ++ [reference]) transaction.
Proof.
  intros Rest first second transaction updated H.
  assert (Hgen : forall batch,
            ReferenceKeys.insertReferenceKeys batch updated
            = ReferenceKeys.insertReferenceKeys (first ++ batch) transaction).
  { intros batch.
    destruct (Tuner.findIndex ReferenceKeys.is_not_memo (ReferenceKeys.instructions transaction))
      as [index|] eqn:Hi.
    - destruct (TunerMore.findIndex_Some _ _ _ Hi) as (target & Ht & Hp).
      rewrite (ReferenceKeysFacts.insertReferenceKeys_found first transaction index target Hi Ht)
        in H.
      injection H as <-.
      rewrite (ReferenceKeysFacts.insertReferenceKeys_found (first ++ batch) transaction index
                 target Hi Ht).
      rewrite (ReferenceKeysFacts.insertReferenceKeys_found batch _ index
                 (ReferenceKeysFacts.with_references first target)).
      + cbn [ReferenceKeys.instructions ReferenceKeys.rest].
        rewrite list_insert_insert_eq, ReferenceKeysFacts.with_references_app. reflexivity.
      + cbn [ReferenceKeys.instructions]. apply TunerMore.findIndex_insert; [exact Hi | exact Hp].
      + cbn [ReferenceKeys.instructions]. apply list_lookup_insert_eq.
        apply lookup_lt_Some in Ht. exact Ht.
    - unfold ReferenceKeys.insertReferenceKeys in H.
      rewrite ReferenceKeysFacts.ensure_findIndex, Hi in H. discriminate. }
  split; [apply Hgen|]. intros reference. apply Hgen.
Qed.

(** Two references, one after the other, on the message with a memo in
    front. *)
Lemma insertReferenceKeys_compose_witness :
  Js.bind (ReferenceKeys.insertReferenceKeys ["Ref1"%string] ReferenceKeysExamples.transaction)
    (ReferenceKeys.insertReferenceKeys ["Ref2"%string])
  = ReferenceKeys.insertReferenceKeys ["Ref1"%string; "Ref2"%string]
      ReferenceKeysExamples.transaction.
Proof.
  exact (proj1 (insertReferenceKeys_compose unit ["Ref1"%string] ["Ref2"%string]
                  ReferenceKeysExamples.transaction _ eq_refl)).
Defined.

(** ** The wallet's partial signer *)

Module WalletSignerFacts.
Import Kit WalletSigner.

Section Signer.
Variable address : Address.
Variable signTransaction : Calls -> Transaction -> result Transaction.

Lemma modify_each_spec transactions : forall signedTransactions calls out calls',
  modify_each address signTransaction transactions signedTransactions calls = (Ok out, calls') ->
  calls' = calls ++ transactions /\
  exists new,
    out = signedTransactions ++ new /\
    length new = length transactions /\
    forall i transaction,
      transactions !! i = Some transaction ->
      exists signed signature,
        signTransaction (calls ++ take i transactions) transaction = Ok signed /\
        signature_of (signatures signed) address = Some signature /\
        new !! i = Some (mergedTransaction transaction signed).
Proof.
  induction transactions as [|t rest IH]; intros acc calls out calls' H.
  - cbn in H. injection H as <- <-. split; [symmetry; apply app_nil_r|].
    exists []. split; [symmetry; apply app_nil_r|]. split; [reflexivity|].
    intros i transaction Hi. discriminate.
  - cbn [modify_each] in H.
    destruct (signTransaction calls t) as [signed|e] eqn:Hsign; [|discriminate].
    destruct (signature_of (signatures signed) address) as [signature|] eqn:Hsig;
      [|discriminate].
    destruct (IH _ _ _ _ H) as (Hcalls & new & Hout & Hlen & Heach).
    split; [rewrite Hcalls, <- app_assoc; reflexivity|].
    exists (mergedTransaction t signed :: new).
    split; [rewrite Hout, <- app_assoc; reflexivity|].
    split; [cbn; rewrite Hlen; reflexivity|].
    intros i transaction Hi. destruct i as [|i].
    + cbn in Hi. injection Hi as <-. exists signed, signature.
      cbn [take]. rewrite app_nil_r. auto.
    + cbn in Hi. destruct (Heach i transaction Hi) as (s & sg & Hs & Hsg & Hn).
      exists s, sg. cbn [take]. rewrite <- app_assoc in Hs. auto.
Qed.

Lemma signature_of_merged transaction signed signature :
  signature_of (signatures signed) address = Some signature ->
  signature_of (signatures (mergedTransaction transaction signed)) address = Some signature.
Proof.
  unfold signature_of. cbn [signatures mergedTransaction].
  destruct (signatures signed !! address) as [[bytes|]|] eqn:E; try discriminate.
  intros [= <-]. rewrite (lookup_union_Some_l _ _ _ _ E). reflexivity.
Qed.

(** On transactions that carry a signature for the address, the callback
    of [signTransactions] does not throw. *)
Lemma map_throwing_dictionaries (l : list Transaction) :
  Forall (fun t => signature_of (signatures t) address <> None) l ->
  exists dictionaries,
    map_throwing (dictionary_of address) l = Ok dictionaries /\
    length dictionaries = length l /\
    forall i t, l !! i = Some t ->
      exists signature,
        signature_of (signatures t) address = Some signature /\
        dictionaries !! i = Some {[ address := signature ]}.
Proof.
  induction 1 as [|t l Ht Hl (ds & Hds & Hlen & Heach)].
  - exists []. split; [reflexivity|]. split; [reflexivity|]. intros i t Hi. discriminate.
  - cbn [map_throwing]. unfold dictionary_of at 1.
    destruct (signature_of (signatures t) address) as [signature|] eqn:E; [|congruence].
    rewrite Hds. exists ({[ address := signature ]} :: ds).
    split; [reflexivity|]. split; [cbn; rewrite Hlen; reflexivity|].
    intros i t' Hi. destruct i as [|i]; cbn in Hi.
    + injection Hi as <-. exists signature. auto.
    + apply (Heach i t' Hi).
Qed.

End Signer.

End WalletSignerFacts.

(** X26: when [modifyAndSignTransactions] fulfils, the wallet has been
    asked once for each transaction, in order, and there are as many results
    as transactions.  Each result has the message bytes the wallet returned
    and the transaction's other fields; its signatures are the wallet's
    laid over the transaction's own: the address of the signer maps to the
    signature the wallet gave, every other entry of the wallet's is taken
    over, and an address for which the wallet returned nothing keeps the
    entry it had. *)
Theorem modifyAndSignTransactions_merges :
  forall (address : Kit.Address)
         (signTransaction :
            WalletSigner.Calls -> WalletSigner.Transaction -> result WalletSigner.Transaction)
         (transactions out : list WalletSigner.Transaction) (calls calls' : WalletSigner.Calls),
    WalletSigner.modifyAndSignTransactions address signTransaction transactions calls
    = (Ok out, calls') ->
    calls' = calls ++ transactions /\
    length out = length transactions /\
    forall i transaction,
      transactions !! i = Some transaction ->
      exists signed signature result,
        signTransaction (calls ++ take i transactions) transaction = Ok signed /\
        out !! i = Some result /\
        WalletSigner.messageBytes result = WalletSigner.messageBytes signed /\
        WalletSigner.lifetimeConstraint result = WalletSigner.lifetimeConstraint transaction /\
        WalletSigner.signatures result !! address = Some (Some signature) /\
        WalletSigner.signatures signed !! address = Some (Some signature) /\
        (forall other,
            WalletSigner.signatures signed !! other = None ->
            WalletSigner.signatures result !! other
            = WalletSigner.signatures transaction !! other) /\
        (forall other entry,
            WalletSigner.signatures signed !! other = Some entry ->
            WalletSigner.signatures result !! other = Some entry).
Proof.
  intros address signTransaction transactions out calls calls' H.
  destruct (WalletSignerFacts.modify_each_spec address signTransaction transactions [] calls
              out calls' H) as (Hcalls & new & Hout & Hlen & Heach).
  cbn [app] in Hout. subst new.
  split; [exact Hcalls|]. split; [exact Hlen|].
  intros i transaction Hi.
  destruct (Heach i transaction Hi) as (signed & signature & Hsign & Hsig & Hnew).
  exists signed, signature, (WalletSigner.mergedTransaction transaction signed).
  split; [exact Hsign|]. split; [exact Hnew|].
  split; [reflexivity|]. split; [reflexivity|].
  assert (Hlookup : WalletSigner.signatures signed !! address = Some (Some signature)).
  { unfold WalletSigner.signature_of in Hsig.
    destruct (WalletSigner.signatures signed !! address) as [[bytes|]|]; congruence. }
  split; [apply lookup_union_Some_l, Hlookup|]. split; [exact Hlookup|].
  split.
  - intros other Hother. apply lookup_union_r, Hother.
  - intros other entry Hother. apply lookup_union_Some_l, Hother.
Qed.

(** The wallet signs a transaction that a co-signer signed before: the
    co-signer's signature stays. *)
Lemma modifyAndSignTransactions_merges_witness :
  exists out calls',
    WalletSigner.modifyAndSignTransactions "payer"%string WalletSignerExamples.signing_wallet
      [WalletSignerExamples.cosigned] []
    = (Ok out, calls') /\
    calls' = [] ++ [WalletSignerExamples.cosigned] /\
    length out = 1%nat.
Proof.
  eexists _, _. split; [reflexivity|].
  destruct (modifyAndSignTransactions_merges "payer"%string WalletSignerExamples.signing_wallet
              [WalletSignerExamples.cosigned] _ [] _ eq_refl) as (H1 & H2 & _).
  split; [exact H1 | exact H2].
Defined.

(** X27: [signTransactions] fails exactly when [modifyAndSignTransactions]
    does, and with the same rejection; its own check, "Expected signer to
    produce a signature for the provided address.", never fires.  When it
    fulfils, the dictionary for each transaction has one entry: the signer's
    address with the signature found in the merged transaction. *)
Theorem signTransactions_dictionaries :
  forall (address : Kit.Address)
         (signTransaction :
            WalletSigner.Calls -> WalletSigner.Transaction -> result WalletSigner.Transaction)
         (transactions : list WalletSigner.Transaction) (calls : WalletSigner.Calls),
    match WalletSigner.modifyAndSignTransactions address signTransaction transactions calls with
    | (Ok signedTransactions, calls') =>
        exists dictionaries,
          WalletSigner.signTransactions address signTransaction transactions calls
          = (Ok dictionaries, calls') /\
          length dictionaries = length transactions /\
          forall i signedTransaction,
            signedTransactions !! i = Some signedTransaction ->
            exists signature,
              WalletSigner.signatures signedTransaction !! address = Some (Some signature) /\
              dictionaries !! i = Some {[ address := signature ]}
    | (Throw e, calls') =>
        WalletSigner.signTransactions address signTransaction transactions calls
        = (Throw e, calls')
    end.
Proof.
  intros address signTransaction transactions calls.
  unfold WalletSigner.signTransactions.
  destruct (WalletSigner.modifyAndSignTransactions address signTransaction transactions calls)
    as [[out|e] calls'] eqn:H; [|reflexivity].
  destruct (WalletSignerFacts.modify_each_spec address signTransaction transactions [] calls
              out calls' H) as (_ & new & Hout & Hlen & Heach).
  cbn [app] in Hout. subst new.
  assert (Hall : Forall (fun t => WalletSigner.signature_of (WalletSigner.signatures t) address
                                  <> None) out).
  { apply Forall_lookup. intros i t Hi.
    assert (Hlt : (i < length transactions)%nat)
      by (rewrite <- Hlen; apply lookup_lt_Some in Hi; exact Hi).
    destruct (lookup_lt_is_Some_2 transactions i Hlt) as [transaction Ht].
    destruct (Heach i transaction Ht) as (signed & signature & _ & Hsig & Hnew).
    rewrite Hi in Hnew. injection Hnew as ->.
    rewrite (WalletSignerFacts.signature_of_merged address transaction signed signature Hsig).
    discriminate. }
  destruct (WalletSignerFacts.map_throwing_dictionaries address out Hall)
    as (dictionaries & Hmap & Hdlen & Hdeach).
  exists dictionaries. rewrite Hmap. split; [reflexivity|].
  split; [rewrite Hdlen; exact Hlen|].
  intros i signedTransaction Hi.
  destruct (Hdeach i signedTransaction Hi) as (signature & Hsig & Hd).
  exists signature. split; [|exact Hd].
  unfold WalletSigner.signature_of in Hsig.
  destruct (WalletSigner.signatures signedTransaction !! address) as [[bytes|]|]; congruence.
Qed.

Module CheckedFacts.

(** Truncated division through the division of the magnitudes. *)
Lemma quot_magnitudes a b :
  b <> 0 ->
  exists k m,
    0 <= k /\ 0 <= m < Z.abs b /\ Z.abs a = Z.abs b * k + m /\
    Z.quot a b = (if a * b <? 0 then - k else k).
Proof.
  intros Hb.
  exists (Z.abs a / Z.abs b), (Z.abs a mod Z.abs b).
  assert (HB : 0 < Z.abs b) by lia.
  pose proof (Z.div_mod (Z.abs a) (Z.abs b) ltac:(lia)) as Hdm.
  pose proof (Z.mod_pos_bound (Z.abs a) (Z.abs b) HB) as Hm.
  pose proof (Z.div_pos (Z.abs a) (Z.abs b) ltac:(lia) HB) as Hk.
  split; [exact Hk|]. split; [exact Hm|]. split; [exact Hdm|].
  rewrite <- (Z.quot_div_nonneg (Z.abs a) (Z.abs b)) by lia.
  destruct (Z_lt_le_dec a 0) as [Ha|Ha]; destruct (Z_lt_le_dec b 0) as [Hb'|Hb'].
  - replace (a * b <? 0) with false by nia.
    rewrite (Z.abs_neq a), (Z.abs_neq b) by lia.
    rewrite Z.quot_opp_opp by lia. reflexivity.
  - replace (a * b <? 0) with true by nia.
    rewrite (Z.abs_neq a), (Z.abs_eq b) by lia.
    rewrite Z.quot_opp_l by lia. lia.
  - destruct (Z.eq_dec a 0) as [->|Hne].
    + cbn. rewrite Z.quot_0_l by lia. reflexivity.
    + replace (a * b <? 0) with true by nia.
      rewrite (Z.abs_eq a), (Z.abs_neq b) by lia.
      rewrite Z.quot_opp_r by lia. lia.
  - replace (a * b <? 0) with false by nia.
    rewrite (Z.abs_eq a), (Z.abs_eq b) by lia. reflexivity.
Qed.

End CheckedFacts.

(** X28: [checkedDivide] refuses a zero divisor, and otherwise returns the
    quotient truncated toward zero unless that quotient is negative.  So it
    accepts exactly the divisions whose operands do not differ in sign, and
    those of a dividend that is smaller in magnitude than the divisor, which
    give 0 whatever the signs. *)
Theorem checkedDivide_truncates :
  forall (dividend divisor : Z) (label : option string),
    match Checked.checkedDivide dividend divisor label with
    | Ok quotient =>
        divisor <> 0 /\ 0 <= quotient /\
        Z.abs (dividend - quotient * divisor) < Z.abs divisor /\
        Z.abs (quotient * divisor) <= Z.abs dividend /\
        (0 <= dividend * divisor \/ Z.abs dividend < Z.abs divisor)
    | Throw e =>
        (divisor = 0 /\ e = RangeError "divisor must be non-zero") \/
        (dividend * divisor < 0 /\ Z.abs divisor <= Z.abs dividend)
    end.
Proof.
  intros dividend divisor label. unfold Checked.checkedDivide, Amounts.assertNonNegative.
  destruct (divisor =? 0) eqn:E0; [left; split; [lia | reflexivity]|].
  apply Z.eqb_neq in E0. cbv zeta.
  pose proof (Z.quot_rem' dividend divisor) as Hqr.
  pose proof (Z.rem_bound_abs dividend divisor E0) as Hr.
  destruct (CheckedFacts.quot_magnitudes dividend divisor E0) as (k & m & Hk & Hm & Habs & Hq).
  set (q := Z.quot dividend divisor) in *.
  assert (Hrest : dividend - q * divisor = Z.rem dividend divisor) by lia.
  destruct (dividend * divisor <? 0) eqn:Es.
  - destruct (q <? 0) eqn:Eq; cbn [Js.bind].
    + right. split; [lia | nia].
    + assert (Hk0 : k = 0) by lia. assert (Hq0 : q = 0) by lia.
      split; [exact E0|]. split; [lia|]. split; [rewrite Hrest; exact Hr|].
      split; [rewrite Hq0; cbn; lia|]. right. lia.
  - replace (q <? 0) with false by lia. cbn [Js.bind].
    split; [exact E0|]. split; [lia|]. split; [rewrite Hrest; exact Hr|].
    split; [rewrite Z.abs_mul, Hq, (Z.abs_eq k) by lia; nia | left; lia].
Qed.

(** X29: [compare] orders amounts as integers, and [isZero] tells the
    amount 0 from the others.  [compare] throws a [RangeError] exactly when
    one of its operands is negative, and otherwise returns 1, 0 or -1, the
    sign of the difference, so that swapping the operands negates the
    answer; [isZero] throws the same [RangeError] exactly for a negative
    amount, and otherwise fulfils with [true] for 0 and with [false] for
    every other amount. *)
Theorem compare_is_sign :
  forall (math : Amounts.TokenAmountMath) (lhs rhs : Z),
    AmountsArith.compare math lhs rhs
    = (if (lhs <? 0) || (rhs <? 0)
       then Throw (RangeError "amount must be non-negative")
       else Ok (Z.sgn (lhs - rhs))) /\
    AmountsArith.isZero math lhs
    = (if lhs <? 0
       then Throw (RangeError "amount must be non-negative")
       else Ok (lhs =? 0)) /\
    (forall order,
        AmountsArith.compare math lhs rhs = Ok order ->
        AmountsArith.compare math rhs lhs = Ok (- order) /\
        (order = 1 \/ order = 0 \/ order = -1) /\
        (order = 0 <-> lhs = rhs)).
Proof.
  intros math lhs rhs.
  assert (Hcompare : forall a b,
            AmountsArith.compare math a b
            = (if (a <? 0) || (b <? 0)
               then Throw (RangeError "amount must be non-negative")
               else Ok (Z.sgn (a - b)))).
  { intros a b. unfold AmountsArith.compare. rewrite !ArithFacts.fromBaseUnits_big.
    destruct (a <? 0) eqn:Ea; cbn [Js.bind orb]; [reflexivity|].
    destruct (b <? 0) eqn:Eb; cbn [Js.bind]; [reflexivity|].
    destruct (b <? a) eqn:E1; [f_equal; lia|].
    destruct (a <? b) eqn:E2; f_equal; lia. }
  split; [apply Hcompare|]. split.
  - unfold AmountsArith.isZero. rewrite ArithFacts.fromBaseUnits_big.
    destruct (lhs <? 0); reflexivity.
  - intros order. rewrite !Hcompare.
    destruct (lhs <? 0) eqn:El; cbn [orb]; [discriminate|].
    destruct (rhs <? 0) eqn:Er; cbn [orb]; [discriminate|].
    intros [= <-]. split; [f_equal; lia|]. split; lia.
Qed.

(** [isZero] on 0, on 5 and on -1. *)
Example isZero_examples :
  AmountsArith.isZero AmountsExamples.six 0 = Ok true /\
  AmountsArith.isZero AmountsExamples.six 5 = Ok false /\
  AmountsArith.isZero AmountsExamples.six (-1)
  = Throw (RangeError "amount must be non-negative") /\
  AmountsArith.compare AmountsExamples.six 7 5 = Ok 1 /\
  AmountsArith.compare AmountsExamples.six 5 (-1)
  = Throw (RangeError "amount must be non-negative").
Proof. repeat split. Qed.
